(** * grabr: element-context extraction, prompt rendering and selection capture

    A shallow embedding of [src/grabr.ts].  A definition that carries the
    name of a TypeScript function is a transcription of that function; the
    theorems relate those functions to the statements of the design
    document.

    Conventions.
    - A JavaScript string is the list of its UTF-16 code units ([jstring]);
      [js "..."] writes an ASCII literal.
    - JavaScript numbers that the code only stores, rounds or prints are kept
      abstract (a type [Num]); lengths, indices, counters and limits are
      integers ([nat] or [Z]).
    - A value of type [unknown] is a [JsValue]; an object is the list of its
      own enumerable entries in [Object.entries] order (keys pairwise
      distinct).
    - A call that may throw, and a promise that may reject, return [M A]. *)

From Stdlib Require Import String Ascii DecimalString HexadecimalString.
From Stdlib Require Import ZArith NArith Bool Lia List Permutation.
Import ListNotations.

Set Implicit Arguments.
Set Warnings "-register-all".

(* ------------------------------------------------------------------------- *)
(** ** JavaScript strings *)
(* ------------------------------------------------------------------------- *)

Module JsString.

Definition code_unit := N.
Definition jstring := list code_unit.

(** An ASCII literal as a sequence of code units. *)
Definition js (s : string) : jstring :=
  List.map N_of_ascii (list_ascii_of_string s).
Arguments js s%_string : simpl never.

Fixpoint jstring_eqb (a b : jstring) : bool :=
  match a, b with
  | [], [] => true
  | x :: a', y :: b' => N.eqb x y && jstring_eqb a' b'
  | _, _ => false
  end.

(** [s.startsWith(p)] *)
Fixpoint startsWith (s p : jstring) {struct p} : bool :=
  match p, s with
  | [], _ => true
  | y :: p', x :: s' => N.eqb x y && startsWith s' p'
  | _ :: _, [] => false
  end.

(** [s.includes(p)] *)
Fixpoint includes (s p : jstring) : bool :=
  startsWith s p ||
  match s with
  | [] => false
  | _ :: s' => includes s' p
  end.

(** [s.endsWith(p)] *)
Definition endsWith (s p : jstring) : bool :=
  startsWith (rev s) (rev p).

(** [parts.join(sep)] *)
Fixpoint join (sep : jstring) (parts : list jstring) : jstring :=
  match parts with
  | [] => []
  | [p] => p
  | p :: rest => p ++ sep ++ join sep rest
  end.

(** [s.split(c)] for a one-unit separator. *)
Fixpoint split (c : code_unit) (s : jstring) : list jstring :=
  match s with
  | [] => [[]]
  | x :: s' =>
      if N.eqb x c then [] :: split c s'
      else match split c s' with
           | [] => [[x]]
           | seg :: segs => (x :: seg) :: segs
           end
  end.

(** [s.slice(start, end)] with integer arguments, for strings and arrays. *)
Definition slice {A : Type} (s : list A) (start stop : Z) : list A :=
  let len := Z.of_nat (length s) in
  let from := if (start <? 0)%Z then Z.max (len + start) 0 else Z.min start len in
  let to := if (stop <? 0)%Z then Z.max (len + stop) 0 else Z.min stop len in
  firstn (Z.to_nat (to - from)) (skipn (Z.to_nat from) s).

(** [/^\d+$/.test(s)] *)
Definition isDigit (c : code_unit) : bool := ((48 <=? c) && (c <=? 57))%N.

Definition isAllDigits (s : jstring) : bool :=
  negb (length s =? 0)%nat && List.forallb isDigit s.

(** WhiteSpace and LineTerminator code units: the set that both
    [String.prototype.trim] and the regular-expression class [\s] use. *)
Definition isWhiteSpace (c : code_unit) : bool :=
  ((9 <=? c) && (c <=? 13) || (c =? 32) || (c =? 160) || (c =? 5760)
   || (8192 <=? c) && (c <=? 8202) || (c =? 8232) || (c =? 8233)
   || (c =? 8239) || (c =? 8287) || (c =? 12288) || (c =? 65279))%N.

Fixpoint trimStart (s : jstring) : jstring :=
  match s with
  | [] => []
  | c :: s' => if isWhiteSpace c then trimStart s' else s
  end.

Definition trimEnd (s : jstring) : jstring := rev (trimStart (rev s)).

(** [s.trim()] *)
Definition trim (s : jstring) : jstring := trimEnd (trimStart s).

(** [s.replace(/\s+/g, " ")]: every maximal run of white space becomes one
    space.  [inRun] records that the previous unit was white space, whose
    run has already produced its space. *)
Fixpoint replaceWhiteSpaceRuns (inRun : bool) (s : jstring) : jstring :=
  match s with
  | [] => []
  | c :: s' =>
      if isWhiteSpace c
      then (if inRun then replaceWhiteSpaceRuns true s'
            else 32%N :: replaceWhiteSpaceRuns true s')
      else c :: replaceWhiteSpaceRuns false s'
  end.

Definition collapseWhiteSpace (s : jstring) : jstring :=
  replaceWhiteSpaceRuns false s.

(** [n.toString()] for an integer. *)
Definition Z_toString (z : Z) : jstring :=
  js (DecimalString.NilZero.string_of_int (Z.to_int z)).

Definition nat_toString (n : nat) : jstring := Z_toString (Z.of_nat n).

(** [n.toString(16)] for a non-negative integer. *)
Definition N_toString16 (n : N) : jstring :=
  js (HexadecimalString.NilZero.string_of_uint (N.to_hex_uint n)).

(** ASCII range of [String.prototype.toLowerCase]. *)
Definition ascii_toLowerCase (s : jstring) : jstring :=
  List.map (fun c => if ((65 <=? c) && (c <=? 90))%N then (c + 32)%N else c) s.

End JsString.
Import JsString.

(* ------------------------------------------------------------------------- *)
(** ** Runtime values and the serializable-value converter *)
(* ------------------------------------------------------------------------- *)

Module Serializable.

(** A value of static type [unknown].  [VObject] carries the result of
    [Object.entries], whose keys are pairwise distinct (reading the
    properties is taken to return: a getter that throws is not
    represented); [VArray] carries the elements ([undefined] for a hole);
    [VFunction] carries the function's [name]. *)
Inductive JsValue (Num : Type) : Type :=
| VUndefined
| VNull
| VBool (b : bool)
| VNumber (n : Num)
| VString (s : jstring)
| VBigInt (z : Z)
| VSymbol
| VFunction (name : jstring)
| VArray (items : list (JsValue Num))
| VObject (entries : list (jstring * JsValue Num)).

Arguments VUndefined {Num}.
Arguments VNull {Num}.
Arguments VBool {Num} b.
Arguments VNumber {Num} n.
Arguments VString {Num} s.
Arguments VBigInt {Num} z.
Arguments VSymbol {Num}.
Arguments VFunction {Num} name.
Arguments VArray {Num} items.
Arguments VObject {Num} entries.

(** [SerializableValue]: [SerializablePrimitive] (string, number, boolean,
    null), arrays and objects of them. *)
Inductive SerializableValue (Num : Type) : Type :=
| SNull
| SBool (b : bool)
| SNumber (n : Num)
| SString (s : jstring)
| SArray (items : list (SerializableValue Num))
| SObject (entries : list (jstring * SerializableValue Num)).

Arguments SNull {Num}.
Arguments SBool {Num} b.
Arguments SNumber {Num} n.
Arguments SString {Num} s.
Arguments SArray {Num} items.
Arguments SObject {Num} entries.

Section Converter.
Context {Num : Type}.

(** The one key whose assignment on a plain object creates no property:
    [out["__proto__"] = converted] runs the setter that [Object.prototype]
    inherits to [out], which changes the prototype of [out] when [converted]
    is an array or an object and does nothing otherwise. *)
Definition isProtoKey (key : jstring) : bool := jstring_eqb key (js "__proto__").

(** [converted !== null] negated. *)
Definition isNull (v : SerializableValue Num) : bool :=
  match v with
  | SNull => true
  | _ => false
  end.

(** [toSerializableValue(value, depth)].  The two inner loops are the
    [for] loops of the source: the array loop runs while [i < 5], the
    object loop stops once [count >= 8] and increments [count] only for
    an entry whose converted value is not null.  [out[key] = converted] adds
    a property at the end of [out], the keys of [Object.entries] being
    distinct, except for the key [__proto__], where it adds none: the result
    is the list of the own enumerable properties of [out]. *)
Fixpoint toSerializableValue (value : JsValue Num) (depth : Z) {struct value}
  : SerializableValue Num :=
  if (depth >? 2)%Z then SNull
  else
    match value with
    | VNull => SNull
    | VString s => SString s
    | VNumber n => SNumber n
    | VBool b => SBool b
    | VArray items =>
        SArray
          ((fix loop (rest : list (JsValue Num)) (i : nat) {struct rest}
              : list (SerializableValue Num) :=
              match rest with
              | [] => []
              | x :: rest' =>
                  if (i <? 5)%nat then
                    let converted := toSerializableValue x (depth + 1) in
                    if isNull converted then loop rest' (S i)
                    else converted :: loop rest' (S i)
                  else []
              end) items 0%nat)
    | VObject entries =>
        SObject
          ((fix loop (rest : list (jstring * JsValue Num)) (count : nat)
                {struct rest} : list (jstring * SerializableValue Num) :=
              match rest with
              | [] => []
              | (key, v) :: rest' =>
                  if (8 <=? count)%nat then []
                  else
                    let converted := toSerializableValue v (depth + 1) in
                    if isNull converted then loop rest' count
                    else if isProtoKey key then loop rest' (S count)
                    else (key, converted) :: loop rest' (S count)
              end) entries 0%nat)
    | VUndefined | VBigInt _ | VSymbol | VFunction _ => SNull
    end.

(** The same two loops, named, for the statements below. *)
Fixpoint arrayLoop (depth : Z) (rest : list (JsValue Num)) (i : nat)
  : list (SerializableValue Num) :=
  match rest with
  | [] => []
  | x :: rest' =>
      if (i <? 5)%nat then
        let converted := toSerializableValue x (depth + 1) in
        if isNull converted then arrayLoop depth rest' (S i)
        else converted :: arrayLoop depth rest' (S i)
      else []
  end.

Fixpoint objectLoop (depth : Z) (rest : list (jstring * JsValue Num))
  (count : nat) : list (jstring * SerializableValue Num) :=
  match rest with
  | [] => []
  | (key, v) :: rest' =>
      if (8 <=? count)%nat then []
      else
        let converted := toSerializableValue v (depth + 1) in
        if isNull converted then objectLoop depth rest' count
        else if isProtoKey key then objectLoop depth rest' (S count)
        else (key, converted) :: objectLoop depth rest' (S count)
  end.

(** A serializable value read back as a runtime value. *)
Fixpoint asValue (v : SerializableValue Num) : JsValue Num :=
  match v with
  | SNull => VNull
  | SBool b => VBool b
  | SNumber n => VNumber n
  | SString s => VString s
  | SArray items => VArray (List.map asValue items)
  | SObject entries =>
      VObject (List.map (fun kv => (fst kv, asValue (snd kv))) entries)
  end.

(** [typeof value] is "string", "number" or "boolean", or [value] is
    [null]: the [SerializablePrimitive] values. *)
Definition isSerializablePrimitive (v : JsValue Num) : bool :=
  match v with
  | VNull | VBool _ | VNumber _ | VString _ => true
  | _ => false
  end.

(** Levels of array or object nesting below the value itself. *)
Fixpoint nesting (v : JsValue Num) : nat :=
  match v with
  | VArray items =>
      S (List.fold_right (fun x m => Nat.max (nesting x) m) 0%nat items)
  | VObject entries =>
      S (List.fold_right (fun kv m => Nat.max (nesting (snd kv)) m) 0%nat entries)
  | _ => 0%nat
  end.

(** Built from strings, numbers, booleans, arrays and objects only: no
    [null], [undefined], function, symbol or bigint at any position. *)
Fixpoint plainData (v : JsValue Num) : bool :=
  match v with
  | VBool _ | VNumber _ | VString _ => true
  | VArray items => List.forallb plainData items
  | VObject entries => List.forallb (fun kv => plainData (snd kv)) entries
  | _ => false
  end.

(** No object inside the value, at any level, has an own property named
    [__proto__]. *)
Fixpoint ordinaryKeys (v : JsValue Num) : bool :=
  match v with
  | VArray items => List.forallb ordinaryKeys items
  | VObject entries =>
      List.forallb (fun kv => negb (isProtoKey (fst kv)) && ordinaryKeys (snd kv))
        entries
  | _ => true
  end.

(** Follows the design document: the input restricted to at most 8 object
    keys per level and at most 5 array items per array. *)
Fixpoint restricted (v : JsValue Num) : JsValue Num :=
  match v with
  | VArray items => VArray (firstn 5 (List.map restricted items))
  | VObject entries =>
      VObject (firstn 8 (List.map (fun kv => (fst kv, restricted (snd kv)))
                           entries))
  | _ => v
  end.

(** Follows the design document: the object budget read as "the first 8
    attempted entries, skip-on-null, no backfill". *)
Definition first8Attempted (entries : list (jstring * JsValue Num))
  (depth : Z) : list (jstring * SerializableValue Num) :=
  List.filter (fun kv => negb (isNull (snd kv)))
    (List.map (fun kv => (fst kv, toSerializableValue (snd kv) (depth + 1)))
       (firstn 8 entries)).

(** The entries whose converted value is not null, in iteration order. *)
Definition convertedEntries (entries : list (jstring * JsValue Num))
  (depth : Z) : list (jstring * SerializableValue Num) :=
  List.filter (fun kv => negb (isNull (snd kv)))
    (List.map (fun kv => (fst kv, toSerializableValue (snd kv) (depth + 1)))
       entries).

(** The entries that [out[key] = converted] turns into properties: all but
    those with the key [__proto__]. *)
Definition ownEntries {A : Type} (entries : list (jstring * A)) : list (jstring * A) :=
  List.filter (fun kv => negb (isProtoKey (fst kv))) entries.

(** The converted items that are not null, in order. *)
Definition convertedItems (items : list (JsValue Num)) (depth : Z)
  : list (SerializableValue Num) :=
  List.filter (fun v => negb (isNull v))
    (List.map (fun x => toSerializableValue x (depth + 1)) items).

End Converter.

End Serializable.
Import Serializable.

(* ------------------------------------------------------------------------- *)
(** ** Platform built-ins *)
(* ------------------------------------------------------------------------- *)

(** The operations of the JavaScript runtime and of the browser that the
    code calls on numbers and strings and that are left abstract. *)
Class Builtins (Num : Type) : Type := {
  (** [String.prototype.toLowerCase] *)
  toLowerCase : jstring -> jstring;
  (** [CSS.escape] *)
  CSS_escape : jstring -> jstring;
  (** [Math.round] *)
  Math_round : Num -> Num;
  (** [Number.prototype.toString] *)
  Number_toString : Num -> jstring;
  (** [JSON.stringify] of a number: its decimal form, ["null"] when the
      number is not finite. *)
  JSON_number : Num -> jstring;
  (** [n > 0] *)
  Number_isPositive : Num -> bool;
  (** [typeof n === "number" && Number.isFinite(n)] on a number *)
  Number_isFinite : Num -> bool;
  (** a length, index or counter as a number *)
  Number_ofNat : nat -> Num;
  Number_ofZ : Z -> Num;
  (** [String(Object.prototype[name])] when [name] names a member of
      [Object.prototype] other than the accessor [__proto__], and no result
      for every other name.  The members are functions, whose text engines
      word differently. *)
  Object_prototype_member : jstring -> option jstring;
  (** the message of the [TypeError] that the call [el.className.trim()]
      throws where [el.className] is no string and has no method [trim] *)
  trim_is_not_a_function : jstring
}.

(** [CSS.escape] as the CSSOM "serialize an identifier" algorithm. *)
Module Cssom.

Definition isIdentChar (c : code_unit) : bool :=
  ((128 <=? c) || (c =? 45) || (c =? 95) || isDigit c
   || (65 <=? c) && (c <=? 90) || (97 <=? c) && (c <=? 122))%N.

Definition escapeAsCodePoint (c : code_unit) : jstring :=
  92%N :: N_toString16 c ++ [32%N].

Fixpoint escapeFrom (first : option code_unit) (len index : nat)
  (s : jstring) : jstring :=
  match s with
  | [] => []
  | c :: rest =>
      (if (c =? 0)%N then [65533%N]
       else if ((1 <=? c) && (c <=? 31) || (c =? 127))%N then escapeAsCodePoint c
       else if (index =? 0)%nat && isDigit c then escapeAsCodePoint c
       else if (index =? 1)%nat && isDigit c
               && match first with Some f => (f =? 45)%N | None => false end
            then escapeAsCodePoint c
       else if (index =? 0)%nat && (len =? 1)%nat && (c =? 45)%N then [92%N; c]
       else if isIdentChar c then [c]
       else [92%N; c])
      ++ escapeFrom first len (S index) rest
  end.

Definition escape (s : jstring) : jstring :=
  escapeFrom (List.hd_error s) (length s) 0 s.

End Cssom.

(** Integer-valued numbers, ASCII case folding and the CSSOM escape: the
    instance used to evaluate the functions on sample inputs. *)
#[export] Instance Z_Builtins : Builtins Z := {
  toLowerCase := ascii_toLowerCase;
  CSS_escape := Cssom.escape;
  Math_round := fun z => z;
  Number_toString := Z_toString;
  JSON_number := Z_toString;
  Number_isPositive := fun z => (0 <? z)%Z;
  Number_isFinite := fun _ => true;
  Number_ofNat := Z.of_nat;
  Number_ofZ := fun z => z;
  Object_prototype_member := fun name =>
    if jstring_eqb name (js "constructor")
    then Some (js "function Object() { [native code] }")
    else if List.existsb (jstring_eqb name)
              [js "toString"; js "toLocaleString"; js "valueOf";
               js "hasOwnProperty"; js "isPrototypeOf"; js "propertyIsEnumerable";
               js "__defineGetter__"; js "__defineSetter__";
               js "__lookupGetter__"; js "__lookupSetter__"]
    then Some (js "function " ++ name ++ js "() { [native code] }")
    else None;
  trim_is_not_a_function := js "el.className.trim is not a function"
}.

(* ------------------------------------------------------------------------- *)
(** ** Context schema ([ElementContextV2] and friends) *)
(* ------------------------------------------------------------------------- *)

Module Schema.

Inductive SourceConfidence := ConfNone | ConfLow | ConfMedium | ConfHigh.
Inductive SourceOrigin := OriginBippy | OriginSourcemap | OriginInline | OriginUnknown.
Inductive HighlightReason :=
  ReasonText | ReasonDesign | ReasonChildren | ReasonTestId | ReasonAriaLabel
| ReasonOther.
Inductive RuleOrigin := RuleAuthor | RuleUserAgent | RuleInline | RuleUnknown.
Inductive EventKind :=
  EvClick | EvChange | EvSubmit | EvInput | EvFocus | EvBlur | EvKey | EvPointer
| EvOther.
Inductive BehaviorInferenceLevel := InferNone | InferPropNameOnly.
Inductive BehaviorInferenceSource := FromPropName | FromRuntimeHook.
Inductive DataSourceKind :=
  DsReactQuery | DsSwr | DsRedux | DsTrpc | DsCustom | DsUnknown.
Inductive InferredFramework :=
  NextApp | NextPages | Remix | ReactRouter | FrameworkUnknown.
Inductive TestHintType := HintTest | HintStory | HintCommand.
Inductive ReactBuildType := BuildDevelopment | BuildProduction | BuildUnknown.
Inductive ReactInspectorStatus :=
  StatusOk | StatusNoHook | StatusInactive | StatusNoFiber | StatusError.

Section WithNum.
Variable Num : Type.

Record BoundingBox := {
  bb_x : Num; bb_y : Num; bb_width : Num; bb_height : Num }.

Record SelectionIdentity := {
  si_tag : jstring;
  si_id : option jstring;
  si_dataTestId : option jstring;
  si_role : option jstring;
  si_classes : list jstring }.

Record SourceLocation := {
  fileName : jstring;
  lineNumber : option Num;
  columnNumber : option Num;
  confidence : SourceConfidence;
  origin : SourceOrigin }.

Record SelectionInfo := {
  sel_tag : jstring;
  boundingBox : BoundingBox;
  identity : SelectionIdentity;
  componentDisplayName : option jstring;
  nearestSource : option SourceLocation;
  isLikelyServerComponent : option bool }.

Record DomNodeSummary := {
  dn_tag : jstring;
  dn_id : option jstring;
  dn_dataTestId : option jstring;
  dn_classes : list jstring;
  dn_textSnippet : option jstring }.

Record SiblingSummary := {
  sib_index : Z;
  sib_total : nat;
  sib_previous : option DomNodeSummary;
  sib_next : option DomNodeSummary }.

(** A value of [tagCounts]: a number, or the string that [prevCount + 1]
    gives when [prevCount] is no number. *)
Inductive TagCount :=
| CountNumber (n : nat)
| CountText (text : jstring).

Record ChildSummary := {
  totalChildren : nat;
  tagCounts : list (jstring * TagCount);
  samples : list DomNodeSummary }.

Record Selectors := {
  preferred : jstring;
  all : list jstring }.

Record DomNeighborhood := {
  snippet : jstring;
  parents : list DomNodeSummary;
  siblings : SiblingSummary;
  children : ChildSummary;
  selectors : Selectors }.

Record ComponentFlags := {
  fl_isHost : bool;
  fl_isComposite : bool;
  isSuspenseBoundary : option bool;
  isErrorBoundary : option bool;
  isServerComponent : option bool;
  isLayoutLike : option bool }.

Record PropHighlight := {
  ph_name : jstring;
  ph_value : SerializableValue Num;
  ph_reason : HighlightReason }.

Record PropsSnapshot := {
  totalProps : nat;
  highlighted : list PropHighlight }.

Record StateSnapshotEntry := {
  hookIndex : nat;
  st_value : SerializableValue Num }.

Record StateSnapshot := {
  totalHooks : nat;
  st_entries : list StateSnapshotEntry }.

Record ContextEntry := {
  ce_index : nat;
  ce_value : SerializableValue Num }.

Record ContextSnapshot := {
  totalContexts : nat;
  cs_entries : list ContextEntry }.

Record ReactComponentFrame := {
  displayName : option jstring;
  isHost : bool;
  source : option SourceLocation;
  flags : ComponentFlags }.

Record ReactTreeSlice := {
  stack : list ReactComponentFrame;
  ownerIndex : option nat;
  ownerProps : option PropsSnapshot;
  ownerState : option StateSnapshot;
  ownerContexts : option ContextSnapshot }.

Record MatchedRuleSummary := {
  mr_selector : jstring;
  mr_origin : RuleOrigin;
  specificity : jstring;
  importantCount : nat }.

Record StyleLayout := {
  display : option jstring;
  position : option jstring;
  flexDirection : option jstring;
  justifyContent : option jstring;
  alignItems : option jstring;
  gap : option jstring;
  gridTemplateColumns : option jstring;
  gridTemplateRows : option jstring }.

Record StyleSpacing := { margin : option jstring; padding : option jstring }.
Record StyleSize := { width : option jstring; height : option jstring }.
Record StyleTypography := {
  fontFamily : option jstring;
  fontSize : option jstring;
  fontWeight : option jstring;
  lineHeight : option jstring }.
Record StyleColors := {
  color : option jstring;
  backgroundColor : option jstring;
  borderColor : option jstring }.

Record StyleFrame := {
  layout : StyleLayout;
  spacing : StyleSpacing;
  size : StyleSize;
  typography : StyleTypography;
  colors : StyleColors;
  clickable : bool;
  ruleSummaries : option (list MatchedRuleSummary) }.

Record EventHandlerInfo := {
  propName : jstring;
  inferredKind : EventKind;
  functionName : option jstring;
  declaredOnComponent : option jstring;
  eh_source : option SourceLocation;
  comment : option jstring;
  inferenceSource : BehaviorInferenceSource }.

Record BehaviorContext := {
  inferenceLevel : BehaviorInferenceLevel;
  handlers : list EventHandlerInfo }.

Record DataSourceHint := {
  ds_kind : DataSourceKind;
  identifier : option jstring;
  ds_description : option jstring }.

Record FrameworkDetectionResult := {
  fr_framework : InferredFramework;
  fr_routePatternGuess : option jstring;
  fr_routeParamsGuess : option (list (jstring * jstring));
  fr_pageComponent : option SourceLocation;
  fr_layoutComponents : list SourceLocation }.

Record AppContext := {
  url : jstring;
  pathname : jstring;
  search : jstring;
  hash : jstring;
  framework : InferredFramework;
  routePatternGuess : option jstring;
  routeParamsGuess : option (list (jstring * jstring));
  pageComponent : option SourceLocation;
  layoutComponents : list SourceLocation;
  dataSources : list DataSourceHint }.

Record TestHint := {
  th_type : TestHintType;
  th_location : SourceLocation;
  th_description : option jstring }.

Record TestsBlock := { hints : list TestHint }.

Record ReactDebugInfo := {
  buildType : ReactBuildType;
  inspectorStatus : ReactInspectorStatus;
  message : option jstring }.

(** [version] is the literal 2. *)
Record ElementContextV2 := {
  selection : SelectionInfo;
  dom : DomNeighborhood;
  react : option ReactTreeSlice;
  reactDebug : ReactDebugInfo;
  styling : StyleFrame;
  behavior : BehaviorContext;
  app : AppContext;
  tests : option TestsBlock }.

Record GrabrSession := {
  session_id : jstring;
  createdAt : jstring;
  session_url : jstring;
  userInstruction : option jstring;
  summary : option jstring;
  elements : list ElementContextV2 }.

End WithNum.

End Schema.
Import Schema.

(* ------------------------------------------------------------------------- *)
(** ** Heuristic strategies and runtime configuration *)
(* ------------------------------------------------------------------------- *)

Module Heuristics.

Definition inferFrameworkFromPath (path : jstring) : InferredFramework :=
  if includes path (js "/app/") then NextApp
  else if includes path (js "/pages/") then NextPages
  else if includes path (js "react-router") then ReactRouter
  else if includes path (js "remix") then Remix
  else FrameworkUnknown.

Definition isLayoutLikeFromPath (path : jstring) : bool :=
  endsWith path (js "/layout.tsx") || endsWith path (js "/layout.jsx")
  || endsWith path (js "/_layout.tsx") || endsWith path (js "/_layout.jsx").

Definition isPageLikeFromPath (path : jstring) : bool :=
  endsWith path (js "/page.tsx") || endsWith path (js "/page.jsx")
  || endsWith path (js "/index.tsx") || endsWith path (js "/index.jsx").

Definition isUnknownFramework (f : InferredFramework) : bool :=
  match f with FrameworkUnknown => true | _ => false end.

Definition isNextLike (f : InferredFramework) : bool :=
  match f with NextApp | NextPages => true | _ => false end.

Section StrategyTypes.
Variable Num : Type.

Record FrameworkDetectionInput := {
  in_reactSlice : option (ReactTreeSlice Num);
  in_url : jstring;
  in_pathname : jstring }.

(** A strategy is caller-supplied code; it is taken to return normally. *)
Record FrameworkDetectionStrategy := {
  fw_id : jstring;
  fw_detect : FrameworkDetectionInput -> option (FrameworkDetectionResult Num) }.

Record DataSourceDetectionInput := {
  in_ownerProps : option (PropsSnapshot Num) }.

Record DataSourceDetectionStrategy := {
  dsrc_id : jstring;
  dsrc_detect : DataSourceDetectionInput -> list DataSourceHint }.

(** The locals of the [for (const frame of input.reactSlice.stack)] loop. *)
Record FrameScan := {
  scan_framework : InferredFramework;
  scan_layoutComponents : list (SourceLocation Num);
  scan_pageComponent : option (SourceLocation Num) }.

Record GrabrHeuristics := {
  frameworkStrategies : list FrameworkDetectionStrategy;
  dataSourceStrategies : list DataSourceDetectionStrategy }.

(** [reactInspectorMode] is whatever string the caller passed: the type
    [ReactInspectorMode] is not enforced at run time.  [maxReactStackFrames]
    is an integer. *)
Record GrabrRuntimeConfig := {
  reactInspectorMode : jstring;
  maxReactStackFrames : Z;
  heuristics : GrabrHeuristics }.

Record PartialRuntimeConfig := {
  partial_reactInspectorMode : option jstring;
  partial_maxReactStackFrames : option Z;
  partial_heuristics : option GrabrHeuristics }.

End StrategyTypes.

Section Strategies.
Context {Num : Type} `{Builtins Num}.

Definition scanFrame (st : FrameScan Num) (frame : ReactComponentFrame Num) : FrameScan Num :=
  match source frame with
  | None => st
  | Some src =>
      let path := fileName src in
      let framework :=
        if isUnknownFramework (scan_framework st) then inferFrameworkFromPath path
        else scan_framework st in
      let layoutComponents :=
        if isLayoutLikeFromPath path then scan_layoutComponents st ++ [src]
        else scan_layoutComponents st in
      let pageComponent :=
        match scan_pageComponent st with
        | None => if isPageLikeFromPath path then Some src else None
        | Some p => Some p
        end in
      {| scan_framework := framework;
         scan_layoutComponents := layoutComponents;
         scan_pageComponent := pageComponent |}
  end.

(** The locals of the [segments.forEach((seg, idx) => ...)] callback:
    [patternSegments] and the object [routeParamsGuess], whose keys
    [id<idx>] and [param<idx>] are new at every assignment. *)
Record RouteGuess := {
  rg_idx : nat;
  patternSegments : list jstring;
  rg_routeParamsGuess : list (jstring * jstring) }.

Definition guessSegment (st : RouteGuess) (seg : jstring) : RouteGuess :=
  let idx := rg_idx st in
  if isAllDigits seg then
    {| rg_idx := S idx;
       patternSegments := patternSegments st ++ [js "[id" ++ nat_toString idx ++ js "]"];
       rg_routeParamsGuess :=
         rg_routeParamsGuess st ++ [(js "id" ++ nat_toString idx, seg)] |}
  else if (2 <? length seg)%nat && jstring_eqb seg (toLowerCase seg) then
    {| rg_idx := S idx;
       patternSegments := patternSegments st ++ [seg];
       rg_routeParamsGuess := rg_routeParamsGuess st |}
  else
    {| rg_idx := S idx;
       patternSegments := patternSegments st ++ [js "[param" ++ nat_toString idx ++ js "]"];
       rg_routeParamsGuess :=
         rg_routeParamsGuess st ++ [(js "param" ++ nat_toString idx, seg)] |}.

(** [input.pathname.split("/").filter((s) => s.length > 0)] *)
Definition pathSegments (pathname : jstring) : list jstring :=
  List.filter (fun seg => (0 <? length seg)%nat) (split 47%N pathname).

Definition guessRoute (pathname : jstring) : RouteGuess :=
  List.fold_left guessSegment (pathSegments pathname)
    {| rg_idx := 0; patternSegments := []; rg_routeParamsGuess := [] |}.

(** What the [forEach] callback has established after the segments [done]. *)
Definition routeInvariant (done : list jstring) (st : RouteGuess) : Prop :=
  rg_idx st = length done
  /\ length (patternSegments st) = length done
  /\ (forall idx seg,
        nth_error done idx = Some seg ->
        (isAllDigits seg = true ->
         nth_error (patternSegments st) idx
         = Some (js "[id" ++ nat_toString idx ++ js "]")
         /\ In (js "id" ++ nat_toString idx, seg) (rg_routeParamsGuess st))
        /\ (isAllDigits seg = false -> (2 < length seg)%nat -> seg = toLowerCase seg ->
            nth_error (patternSegments st) idx = Some seg)
        /\ (isAllDigits seg = false ->
            ((length seg <= 2)%nat \/ seg <> toLowerCase seg) ->
            nth_error (patternSegments st) idx
            = Some (js "[param" ++ nat_toString idx ++ js "]")
            /\ In (js "param" ++ nat_toString idx, seg) (rg_routeParamsGuess st)))
  /\ (forall key value,
        In (key, value) (rg_routeParamsGuess st) ->
        exists idx,
          nth_error done idx = Some value
          /\ ((isAllDigits value = true /\ key = js "id" ++ nat_toString idx)
              \/ (isAllDigits value = false
                  /\ ((length value <= 2)%nat \/ value <> toLowerCase value)
                  /\ key = js "param" ++ nat_toString idx))).

Definition nextLikeDetect (input : FrameworkDetectionInput Num)
  : option (FrameworkDetectionResult Num) :=
  match in_reactSlice input with
  | None => None
  | Some reactSlice =>
      let scan :=
        List.fold_left scanFrame (stack reactSlice)
          {| scan_framework := FrameworkUnknown;
             scan_layoutComponents := [];
             scan_pageComponent := None |} in
      let framework := scan_framework scan in
      if isUnknownFramework framework
         && match scan_pageComponent scan with None => true | Some _ => false end
         && (length (scan_layoutComponents scan) =? 0)%nat
      then None
      else
        let guess :=
          if isNextLike framework then guessRoute (in_pathname input)
          else {| rg_idx := 0; patternSegments := []; rg_routeParamsGuess := [] |} in
        let routePatternGuess :=
          if isNextLike framework
          then Some (js "/" ++ join (js "/") (patternSegments guess))
          else None in
        Some {| fr_framework := framework;
                fr_routePatternGuess := routePatternGuess;
                fr_routeParamsGuess :=
                  if (0 <? length (rg_routeParamsGuess guess))%nat
                  then Some (rg_routeParamsGuess guess) else None;
                fr_pageComponent := scan_pageComponent scan;
                fr_layoutComponents := scan_layoutComponents scan |}
  end.

Definition nextLikeFrameworkStrategy : FrameworkDetectionStrategy Num :=
  {| fw_id := js "next-like"; fw_detect := nextLikeDetect |}.

Definition genericFrameworkStrategy : FrameworkDetectionStrategy Num :=
  {| fw_id := js "generic";
     fw_detect := fun _ =>
       Some {| fr_framework := FrameworkUnknown;
               fr_routePatternGuess := None;
               fr_routeParamsGuess := None;
               fr_pageComponent := None;
               fr_layoutComponents := [] |} |}.

(** [names.includes(x)] on an array of strings *)
Definition arrayIncludes (names : list jstring) (x : jstring) : bool :=
  List.existsb (fun n => jstring_eqb n x) names.

Definition unknownDataSource : DataSourceHint :=
  {| ds_kind := DsUnknown; identifier := None; ds_description := None |}.

Definition basicDataSourceDetect (input : DataSourceDetectionInput Num)
  : list DataSourceHint :=
  let propNames :=
    match in_ownerProps input with
    | Some ownerProps => List.map (@ph_name Num) (highlighted ownerProps)
    | None => []
    end in
  let lowerNames := List.map toLowerCase propNames in
  let hasData := arrayIncludes lowerNames (js "data") in
  let hasIsLoading :=
    arrayIncludes lowerNames (js "isloading") || arrayIncludes lowerNames (js "loading") in
  let hasError := arrayIncludes lowerNames (js "error") in
  let hints1 :=
    if hasData && hasIsLoading && hasError then
      [{| ds_kind := DsReactQuery; identifier := None;
          ds_description :=
            Some (js "Props suggest React Query-like async data (data/loading/error).") |}]
    else [] in
  let hints2 :=
    if List.existsb (fun p => includes p (js "swr")) lowerNames then
      hints1 ++ [{| ds_kind := DsSwr; identifier := None;
                    ds_description := Some (js "Props mention SWR, likely SWR-based data.") |}]
    else hints1 in
  let hints :=
    if List.existsb (fun p => includes p (js "selector")) lowerNames then
      hints2 ++ [{| ds_kind := DsRedux; identifier := None;
                    ds_description :=
                      Some (js "Selector-like props hint at Redux selectors.") |}]
    else hints2 in
  if (length hints =? 0)%nat then [unknownDataSource] else hints.

Definition basicDataSourceStrategy : DataSourceDetectionStrategy Num :=
  {| dsrc_id := js "basic-data-props"; dsrc_detect := basicDataSourceDetect |}.

Definition defaultHeuristics : GrabrHeuristics Num :=
  {| frameworkStrategies := [nextLikeFrameworkStrategy; genericFrameworkStrategy];
     dataSourceStrategies := [basicDataSourceStrategy] |}.

Definition defaultRuntimeConfig : GrabrRuntimeConfig Num :=
  {| reactInspectorMode := js "best-effort";
     maxReactStackFrames := 8;
     heuristics := defaultHeuristics |}.

Definition mergeRuntimeConfig (partial : option (PartialRuntimeConfig Num))
  : GrabrRuntimeConfig Num :=
  match partial with
  | None => defaultRuntimeConfig
  | Some partial =>
      let heuristics :=
        {| frameworkStrategies :=
             match partial_heuristics partial with
             | Some h => frameworkStrategies h
             | None => frameworkStrategies defaultHeuristics
             end;
           dataSourceStrategies :=
             match partial_heuristics partial with
             | Some h => dataSourceStrategies h
             | None => dataSourceStrategies defaultHeuristics
             end |} in
      {| reactInspectorMode :=
           match partial_reactInspectorMode partial with
           | Some m => m
           | None => reactInspectorMode defaultRuntimeConfig
           end;
         maxReactStackFrames :=
           match partial_maxReactStackFrames partial with
           | Some n => n
           | None => maxReactStackFrames defaultRuntimeConfig
           end;
         heuristics := heuristics |}
  end.

(** [isFiniteIntegerInRange(value, min, max)].  The configuration holds
    its frame limit as an integer: [typeof value === "number"],
    [Number.isFinite(value)] and [Number.isInteger(value)] hold of it, which
    leaves the two comparisons.  A limit that is no integer (a fraction,
    [NaN], an infinity), which the source rejects as well, is outside this
    model. *)
Definition isFiniteIntegerInRange (value min max : Z) : bool :=
  ((min <=? value) && (value <=? max))%Z.

End Strategies.

End Heuristics.
Import Heuristics.

(* ------------------------------------------------------------------------- *)
(** ** Exceptions and rejected promises *)
(* ------------------------------------------------------------------------- *)

Module Effects.

(** What a [throw] carries: an [Error] with its message, or another value. *)
Inductive Exception :=
| ErrorObject (message : jstring)
| ThrownValue.

(** The outcome of a call that may throw, or of an awaited promise. *)
Inductive M (A : Type) : Type :=
| Returned (a : A)
| Threw (e : Exception).

Arguments Returned {A} a.
Arguments Threw {A} e.

Definition ret {A : Type} (a : A) : M A := Returned a.

Definition bind {A B : Type} (c : M A) (k : A -> M B) : M B :=
  match c with
  | Returned a => k a
  | Threw e => Threw e
  end.

(** [try { c } catch (e) { handler e }] *)
Definition tryCatch {A : Type} (c : M A) (handler : Exception -> M A) : M A :=
  match c with
  | Returned a => Returned a
  | Threw e => handler e
  end.

Definition returned {A : Type} (c : M A) : bool :=
  match c with
  | Returned _ => true
  | Threw _ => false
  end.

End Effects.
Import Effects.

Notation "'let*' x ':=' c 'in' k" := (bind c (fun x => k))
  (at level 10, x pattern, c at level 100, k at level 200).

(** [items.map((item, index) => f item index)] for a callback that may
    throw: the first exception ends the loop. *)
Fixpoint mapWithIndexM {A B : Type} (f : A -> nat -> M B) (items : list A)
  (index : nat) : M (list B) :=
  match items with
  | [] => ret []
  | x :: rest =>
      let* y := f x index in
      let* ys := mapWithIndexM f rest (S index) in
      ret (y :: ys)
  end.

(* ------------------------------------------------------------------------- *)
(** ** The document: elements, tree navigation, geometry, computed style *)
(* ------------------------------------------------------------------------- *)

Module Dom.

(** An element is known by its identity; [===] on elements compares
    identities. *)
Definition Element := nat.

Record DOMRect (Num : Type) := {
  left : Num; top : Num; rect_width : Num; rect_height : Num }.

(** [el.className]: a string on an HTML element, an [SVGAnimatedString] on
    an SVG element. *)
Inductive ClassName :=
| ClassNameString (value : jstring)
| ClassNameAnimated.

Record ElementData (Num : Type) := {
  tagName : jstring;
  id : jstring;
  className : ClassName;
  classList : list jstring;
  attributes : list (jstring * jstring);
  textContent : option jstring;
  boundingClientRect : DOMRect Num;
  isHTMLButtonElement : bool;
  isHTMLAnchorElement : bool;
  isConnected : bool }.

Record Location := {
  href : jstring;
  loc_pathname : jstring;
  loc_search : jstring;
  loc_hash : jstring }.

(** [window] and [document] as the code reads them.  [elementChildren p]
    is [p.children]: [firstElementChild] is its head and
    [nextElementSibling] steps through it.  [computedStyle] is absent when
    [window.getComputedStyle] is not a function; [location] is absent when
    [window] or [window.location] is undefined. *)
Record Document (Num : Type) := {
  data : Element -> ElementData Num;
  parentElement : Element -> option Element;
  elementChildren : Element -> list Element;
  documentElementContains : Element -> bool;
  computedStyle : option (Element -> jstring -> option jstring);
  location : option Location }.

Fixpoint getAttributeFrom (attrs : list (jstring * jstring)) (name : jstring)
  : option jstring :=
  match attrs with
  | [] => None
  | (k, v) :: rest => if jstring_eqb k name then Some v else getAttributeFrom rest name
  end.

Section Summarizer.
Context {Num : Type} `{Builtins Num}.
Variable doc : Document Num.

Definition MAX_TEXT_SNIPPET : Z := 80.
Definition MAX_PARENT_DEPTH : nat := 4.
Definition MAX_CHILD_SAMPLES : nat := 5.

(** [el.getAttribute(name)] *)
Definition getAttribute (el : Element) (name : jstring) : option jstring :=
  getAttributeFrom (attributes (data doc el)) name.

(** [text.trim().replace(/\s+/g, " ")] *)
Definition normalizeText (text : jstring) : jstring :=
  collapseWhiteSpace (trim text).

Definition truncateText (text : jstring) (limit : Z) : jstring :=
  let trimmed := normalizeText text in
  if (Z.of_nat (length trimmed) <=? limit)%Z then trimmed
  else slice trimmed 0 limit ++ [8230%N].

Definition summarizeTextContent (node : Element) : option jstring :=
  match textContent (data doc node) with
  | None => None
  | Some text =>
      let summarized := truncateText text MAX_TEXT_SNIPPET in
      if (length summarized =? 0)%nat then None else Some summarized
  end.

Definition getDataTestId (el : Element) : option jstring :=
  let value :=
    match getAttribute el (js "data-testid") with
    | Some v => Some v
    | None => getAttribute el (js "data-test-id")
    end in
  match value with
  | None => None
  | Some value =>
      let trimmed := trim value in
      if (length trimmed =? 0)%nat then None else Some trimmed
  end.

(** The [while (sibling)] loop of [buildPreferredSelector], over the
    children of the parent from [firstElementChild] on. *)
Fixpoint nthOfTypeLoop (el : Element) (siblings : list Element) (index : nat)
  : nat :=
  match siblings with
  | [] => index
  | sibling :: rest =>
      if (sibling =? el)%nat then index
      else nthOfTypeLoop el rest
             (if jstring_eqb (tagName (data doc sibling)) (tagName (data doc el))
              then index + 1 else index)%nat
  end.

Definition buildPreferredSelector (el : Element) : jstring :=
  let id := id (data doc el) in
  if negb (length id =? 0)%nat && negb (includes id (js " ")) then
    js "#" ++ CSS_escape id
  else
    match getDataTestId el with
    | Some dataTestId =>
        js "[data-testid=" ++ [34%N] ++ CSS_escape dataTestId ++ [34%N] ++ js "]"
    | None =>
        let classes :=
          List.filter (fun cls => (0 <? length cls)%nat) (classList (data doc el)) in
        let baseTag := toLowerCase (tagName (data doc el)) in
        if (0 <? length classes)%nat then
          baseTag ++ js "." ++ join (js ".") (List.map CSS_escape classes)
        else
          match parentElement doc el with
          | None => baseTag
          | Some parent =>
              let index := nthOfTypeLoop el (elementChildren doc parent) 1 in
              baseTag ++ js ":nth-of-type(" ++ nat_toString index ++ js ")"
          end
    end.

(** The [while (current && depth < maxDepth)] loop, by the number of
    levels still allowed; [segments.unshift] puts ancestors first. *)
Fixpoint ancestorSegments (current : option Element) (remaining : nat)
  (segments : list jstring) : list jstring :=
  match current, remaining with
  | Some cur, S remaining' =>
      ancestorSegments (parentElement doc cur) remaining'
        (buildPreferredSelector cur :: segments)
  | _, _ => segments
  end.

Definition buildAncestorSelectorPath (el : Element) (maxDepth : nat) : jstring :=
  join (js " > ") (ancestorSegments (Some el) maxDepth []).

Definition summarizeDomNode (el : Element) : DomNodeSummary :=
  {| dn_tag := toLowerCase (tagName (data doc el));
     dn_id := if (0 <? length (id (data doc el)))%nat
              then Some (id (data doc el)) else None;
     dn_dataTestId := getDataTestId el;
     dn_classes := classList (data doc el);
     dn_textSnippet := summarizeTextContent el |}.

(** [siblings.indexOf(el)] *)
Fixpoint indexOfFrom (el : Element) (l : list Element) (i : Z) : Z :=
  match l with
  | [] => (-1)%Z
  | x :: rest => if (x =? el)%nat then i else indexOfFrom el rest (i + 1)%Z
  end.

Definition summarizeSiblings (el : Element) : SiblingSummary :=
  match parentElement doc el with
  | None =>
      {| sib_index := 0; sib_total := 1; sib_previous := None; sib_next := None |}
  | Some parent =>
      let siblings := elementChildren doc parent in
      let total := length siblings in
      let index := indexOfFrom el siblings 0 in
      let previous :=
        if (index >? 0)%Z
        then option_map summarizeDomNode (nth_error siblings (Z.to_nat (index - 1)))
        else None in
      let next :=
        if ((index >=? 0) && (index <? Z.of_nat total - 1))%Z
        then option_map summarizeDomNode (nth_error siblings (Z.to_nat (index + 1)))
        else None in
      {| sib_index := index; sib_total := total;
         sib_previous := previous; sib_next := next |}
  end.

(** [tagCounts[tag]] among the own properties of [tagCounts]. *)
Fixpoint ownTagCount (tagCounts : list (jstring * TagCount)) (tag : jstring)
  : option TagCount :=
  match tagCounts with
  | [] => None
  | (k, value) :: rest =>
      if jstring_eqb k tag then Some value else ownTagCount rest tag
  end.

(** [tagCounts[tag] = value] for a tag other than [__proto__]: the value of
    the own property is replaced, or the property is added at the end. *)
Fixpoint assignTagCount (tagCounts : list (jstring * TagCount)) (tag : jstring)
  (value : TagCount) : list (jstring * TagCount) :=
  match tagCounts with
  | [] => [(tag, value)]
  | (k, old) :: rest =>
      if jstring_eqb k tag then (k, value) :: rest
      else (k, old) :: assignTagCount rest tag value
  end.

(** [prevCount + 1]: an addition on a number, a concatenation otherwise. *)
Definition plusOne (prevCount : TagCount) : TagCount :=
  match prevCount with
  | CountNumber n => CountNumber (n + 1)
  | CountText text => CountText (text ++ js "1")
  end.

(** [const prevCount = tagCounts[tag] ?? 0; tagCounts[tag] = prevCount + 1]
    on the plain object [tagCounts].  Where [tagCounts] has no own property
    [tag], the read finds the member of [Object.prototype] with that name, if
    there is one, which is not nullish.  For the tag [__proto__] the read
    finds the prototype, the sum is a string, and the assignment runs the
    setter, which ignores a string: nothing changes. *)
Definition bumpTagCount (tagCounts : list (jstring * TagCount)) (tag : jstring)
  : list (jstring * TagCount) :=
  if isProtoKey tag then tagCounts
  else
    let prevCount :=
      match ownTagCount tagCounts tag with
      | Some own => own
      | None =>
          match Object_prototype_member tag with
          | Some text => CountText text
          | None => CountNumber 0
          end
      end in
    assignTagCount tagCounts tag (plusOne prevCount).

(** The tag names no member of [Object.prototype]. *)
Definition isOrdinaryTag (tag : jstring) : bool :=
  negb (isProtoKey tag)
  && match Object_prototype_member tag with
     | Some _ => false
     | None => true
     end.

Definition summarizeChildren (el : Element) : ChildSummary :=
  let children := elementChildren doc el in
  let tagCounts :=
    List.fold_left
      (fun counts child =>
         bumpTagCount counts (toLowerCase (tagName (data doc child))))
      children [] in
  {| totalChildren := length children;
     tagCounts := tagCounts;
     samples := List.map summarizeDomNode (firstn MAX_CHILD_SAMPLES children) |}.

(** [el.className.trim()]: an [SVGAnimatedString] has no method [trim], and
    the call throws a [TypeError]. *)
Definition trimmedClassName (el : Element) : M jstring :=
  match className (data doc el) with
  | ClassNameString value => ret (trim value)
  | ClassNameAnimated => Threw (ErrorObject trim_is_not_a_function)
  end.

(** [el.className] is a string. *)
Definition hasStringClassName (el : Element) : bool :=
  match className (data doc el) with
  | ClassNameString _ => true
  | ClassNameAnimated => false
  end.

Definition serializeElementSnippet (el : Element) : M jstring :=
  let tag := toLowerCase (tagName (data doc el)) in
  let attrs1 :=
    if (0 <? length (id (data doc el)))%nat
    then [js "id=" ++ [34%N] ++ id (data doc el) ++ [34%N]] else [] in
  let* className := trimmedClassName el in
  let attrs2 :=
    if (0 <? length className)%nat
    then attrs1 ++ [js "class=" ++ [34%N] ++ truncateText className 40 ++ [34%N]]
    else attrs1 in
  let attrs :=
    match getDataTestId el with
    | Some dataTestId =>
        attrs2 ++ [js "data-testid=" ++ [34%N] ++ dataTestId ++ [34%N]]
    | None => attrs2
    end in
  let attrString :=
    if (0 <? length attrs)%nat then js " " ++ join (js " ") attrs else [] in
  let text := match summarizeTextContent el with Some t => t | None => [] end in
  ret (js "<" ++ tag ++ attrString ++ js ">" ++ text ++ js "</" ++ tag ++ js ">").

(** The [while (currentParent && depth < MAX_PARENT_DEPTH)] loop. *)
Fixpoint parentSummaries (currentParent : option Element) (remaining : nat)
  : list (DomNodeSummary) :=
  match currentParent, remaining with
  | Some p, S remaining' =>
      summarizeDomNode p :: parentSummaries (parentElement doc p) remaining'
  | _, _ => []
  end.

Definition buildDomNeighborhood (el : Element) : M DomNeighborhood :=
  let* snippet := serializeElementSnippet el in
  let parents := parentSummaries (parentElement doc el) MAX_PARENT_DEPTH in
  let siblings := summarizeSiblings el in
  let children := summarizeChildren el in
  let preferred := buildPreferredSelector el in
  let path := buildAncestorSelectorPath el (MAX_PARENT_DEPTH + 1) in
  ret {| snippet := snippet;
         parents := parents;
         siblings := siblings;
         children := children;
         selectors := {| preferred := preferred; all := [preferred; path] |} |}.

End Summarizer.

End Dom.
Import Dom.

(* ------------------------------------------------------------------------- *)
(** ** Extraction engine *)
(* ------------------------------------------------------------------------- *)

Module Inspector.

Section EngineTypes.
Variable Num Fiber Renderer : Type.

(** The object that [getSource] resolves to. *)
Record SourceLike := {
  sl_fileName : option jstring;
  sl_lineNumber : option Num;
  sl_columnNumber : option Num }.

(** The introspection library (bippy) as the code calls it.  Every call may
    throw; [getSource] returns a promise that may reject.  A [traverse*]
    call is represented by the arguments it passes to the visitor, in
    order; [fiberTagIsNumber] is [typeof fiber.tag === "number"];
    [renderers] is the set [_renderers] in iteration order. *)
Record Bippy := {
  hasRDTHook : M bool;
  isInstrumentationActive : M bool;
  getFiberFromHostInstance : Element -> M (option Fiber);
  getLatestFiber : Fiber -> M Fiber;
  getFiberStack : Fiber -> M (list Fiber);
  getDisplayName : Fiber -> M (option jstring);
  isHostFiber : Fiber -> M bool;
  isCompositeFiber : Fiber -> M bool;
  traverseProps : Fiber -> M (list (jstring * JsValue Num));
  traverseState : Fiber -> M (list (JsValue Num));
  traverseContexts : Fiber -> M (list (JsValue Num));
  detectReactBuildType : Renderer -> M jstring;
  renderers : list Renderer;
  getSource : Fiber -> M (option SourceLike);
  fiberTagIsNumber : Fiber -> bool }.

(** The locals [handlers] and [seenNames] of [buildBehaviorContext]. *)
Record HandlerScan := {
  scan_handlers : list (EventHandlerInfo Num);
  seenNames : list jstring }.

(** The interface [InspectorEngine]. *)
Record InspectorEngine := {
  engine_config : GrabrRuntimeConfig Num;
  engine_getElementContext : Element -> M (ElementContextV2 Num) }.

(** What [createGrabrClient] returns, up to the overlay: the client's
    configuration and the inspector its controller captures with. *)
Record GrabrClient := {
  client_version : jstring;
  client_config : GrabrRuntimeConfig Num;
  client_inspector : InspectorEngine }.

End EngineTypes.

Section Engine.
Context {Num : Type} `{Builtins Num}.
Context {Fiber Renderer : Type}.
Variable bippy : Bippy Num Fiber Renderer.
Variable doc : Document Num.

Definition toSourceLocation (source : option (SourceLike Num)) (buildType : ReactBuildType)
  : option (SourceLocation Num) :=
  match source with
  | None => None
  | Some source =>
      match sl_fileName source with
      | None => None
      | Some name =>
          if (length name =? 0)%nat then None
          else
            let line :=
              match sl_lineNumber source with
              | Some n => if Number_isFinite n then Some n else None
              | None => None
              end in
            let column :=
              match sl_columnNumber source with
              | Some n => if Number_isFinite n then Some n else None
              | None => None
              end in
            let confidence :=
              match buildType with
              | BuildDevelopment => ConfHigh
              | BuildProduction => ConfLow
              | BuildUnknown => ConfMedium
              end in
            Some {| fileName := name; lineNumber := line; columnNumber := column;
                    confidence := confidence; origin := OriginBippy |}
      end
  end.

Definition classifyPropHighlight (name : jstring) (value : SerializableValue Num)
  : option HighlightReason :=
  let lower := toLowerCase name in
  if jstring_eqb lower (js "label") || jstring_eqb lower (js "title")
     || jstring_eqb lower (js "placeholder") || jstring_eqb lower (js "text")
     || jstring_eqb lower (js "children")
  then Some ReasonText
  else if jstring_eqb lower (js "variant") || jstring_eqb lower (js "size")
          || jstring_eqb lower (js "intent") || jstring_eqb lower (js "tone")
          || jstring_eqb lower (js "color") || jstring_eqb lower (js "kind")
  then Some ReasonDesign
  else if jstring_eqb lower (js "data-testid") || jstring_eqb lower (js "testid")
  then Some ReasonTestId
  else if jstring_eqb lower (js "aria-label") then Some ReasonAriaLabel
  else if isNull value then None
  else Some ReasonOther.

Definition inferEventKindFromPropName (name : jstring) : EventKind :=
  let lower := toLowerCase name in
  if jstring_eqb lower (js "onclick") then EvClick
  else if jstring_eqb lower (js "onchange") then EvChange
  else if jstring_eqb lower (js "onsubmit") then EvSubmit
  else if jstring_eqb lower (js "oninput") then EvInput
  else if jstring_eqb lower (js "onfocus") then EvFocus
  else if jstring_eqb lower (js "onblur") then EvBlur
  else if startsWith lower (js "onkey") then EvKey
  else if startsWith lower (js "onpointer") || startsWith lower (js "onmouse")
  then EvPointer
  else EvOther.

(** [for (const renderer of _renderers) return renderer; return null] *)
Definition getAnyRenderer : option Renderer := List.hd_error (renderers bippy).

Definition detectReactBuildTypeSafe : ReactBuildType :=
  match getAnyRenderer with
  | None => BuildUnknown
  | Some renderer =>
      match detectReactBuildType bippy renderer with
      | Returned result =>
          if jstring_eqb result (js "development") then BuildDevelopment
          else if jstring_eqb result (js "production") then BuildProduction
          else BuildUnknown
      | Threw _ => BuildUnknown
      end
  end.

Definition getReactDebugInfoForElement (element : Element) : M ReactDebugInfo :=
  let buildType := detectReactBuildTypeSafe in
  let* hook := hasRDTHook bippy in
  if negb hook then
    ret {| buildType := buildType; inspectorStatus := StatusNoHook;
           message := Some (js "React DevTools hook is not installed. Import 'bippy' before React to enable React metadata.") |}
  else
    let* active := isInstrumentationActive bippy in
    if negb active then
      ret {| buildType := buildType; inspectorStatus := StatusInactive;
             message := Some (js "React instrumentation is not active yet. Ensure 'bippy' is imported before React renders.") |}
    else
      match getFiberFromHostInstance bippy element with
      | Threw _ =>
          ret {| buildType := buildType; inspectorStatus := StatusError;
                 message := Some (js "Failed to access React fiber for this element. Instrumentation may be incompatible.") |}
      | Returned None =>
          ret {| buildType := buildType; inspectorStatus := StatusNoFiber;
                 message := Some (js "No React fiber associated with this element (non-React DOM).") |}
      | Returned (Some _) =>
          ret {| buildType := buildType; inspectorStatus := StatusOk;
                 message := None |}
      end.

Definition isStatusOk (status : ReactInspectorStatus) : bool :=
  match status with StatusOk => true | _ => false end.

(** The visitor of [snapshotProps], applied to the visited props in order. *)
Definition snapshotPropsVisit (acc : nat * list (PropHighlight Num))
  (prop : jstring * JsValue Num) : nat * list (PropHighlight Num) :=
  let '(totalProps, highlighted) := acc in
  let '(name, next) := prop in
  let serial := toSerializableValue next 0 in
  match classifyPropHighlight name serial with
  | Some reason =>
      (S totalProps,
       highlighted ++ [{| ph_name := name; ph_value := serial; ph_reason := reason |}])
  | None => (S totalProps, highlighted)
  end.

Definition snapshotProps (fiber : Fiber) : M (PropsSnapshot Num) :=
  let* props := traverseProps bippy fiber in
  let '(totalProps, highlighted) := List.fold_left snapshotPropsVisit props (0%nat, []) in
  let limitedHighlighted :=
    if (12 <? length highlighted)%nat then slice highlighted 0 12 else highlighted in
  ret {| totalProps := totalProps; highlighted := limitedHighlighted |}.

Definition snapshotState (fiber : Fiber) : M (StateSnapshot Num) :=
  let* slots := traverseState bippy fiber in
  let '(index, entries) :=
    List.fold_left
      (fun (acc : nat * list (StateSnapshotEntry Num)) next =>
         let '(index, entries) := acc in
         (S index,
          entries ++ [{| hookIndex := index; st_value := toSerializableValue next 0 |}]))
      slots (0%nat, []) in
  ret {| totalHooks := index;
         st_entries := if (12 <? length entries)%nat then slice entries 0 12
                       else entries |}.

Definition snapshotContexts (fiber : Fiber) : M (ContextSnapshot Num) :=
  let* values := traverseContexts bippy fiber in
  let '(index, entries) :=
    List.fold_left
      (fun (acc : nat * list (ContextEntry Num)) next =>
         let '(index, entries) := acc in
         (S index,
          entries ++ [{| ce_index := index; ce_value := toSerializableValue next 0 |}]))
      values (0%nat, []) in
  ret {| totalContexts := index;
         cs_entries := if (12 <? length entries)%nat then slice entries 0 12
                       else entries |}.

(** One element of [Promise.all(takenFibers.map(async (fiber) => ...))]:
    the callback catches every failure of [getSource]. *)
Definition resolveSource (buildType : ReactBuildType) (fiber : Fiber)
  : option (SourceLocation Num) :=
  match getSource bippy fiber with
  | Returned location => toSourceLocation location buildType
  | Threw _ => None
  end.

(** The callback of [takenFibers.map((fiber, index) => ...)]. *)
Definition buildFrame (sources : list (option (SourceLocation Num)))
  (fiber : Fiber) (index : nat) : M (ReactComponentFrame Num) :=
  let* displayName := getDisplayName bippy fiber in
  let source :=
    match nth_error sources index with
    | Some (Some src) => Some src
    | _ => None
    end in
  let hasTag := fiberTagIsNumber bippy fiber in
  let* isHost := isHostFiber bippy fiber in
  let* isComposite := isCompositeFiber bippy fiber in
  let fileName := match source with Some src => fileName src | None => [] end in
  ret {| displayName := displayName;
         isHost := isHost;
         source := source;
         flags :=
           {| fl_isHost := isHost;
              fl_isComposite := isComposite;
              isSuspenseBoundary :=
                if hasTag && (0 <? length fileName)%nat
                   && includes fileName (js "Suspense")
                then Some true else None;
              isErrorBoundary :=
                match displayName with
                | Some name => Some (includes name (js "ErrorBoundary"))
                | None => None
                end;
              isServerComponent :=
                if includes fileName (js ".server.") || includes fileName (js "/app/")
                then Some true else None;
              isLayoutLike := Some (isLayoutLikeFromPath fileName) |} |}.

(** The [for] loop that looks for the nearest composite fiber. *)
Fixpoint findOwnerIndex (fibers : list Fiber) (i : nat) : M (option nat) :=
  match fibers with
  | [] => ret None
  | fiber :: rest =>
      let* composite := isCompositeFiber bippy fiber in
      if composite then ret (Some i) else findOwnerIndex rest (S i)
  end.

Definition buildReactTreeSlice (element : Element) (config : GrabrRuntimeConfig Num)
  (debugInfo : ReactDebugInfo) : M (option (ReactTreeSlice Num)) :=
  if jstring_eqb (reactInspectorMode config) (js "off") then ret None
  else if negb (isStatusOk (inspectorStatus debugInfo)) then ret None
  else
    match getFiberFromHostInstance bippy element with
    | Threw _ => ret None
    | Returned None => ret None
    | Returned (Some hostFiber) =>
        let* latest := getLatestFiber bippy hostFiber in
        let* stackFibers := getFiberStack bippy latest in
        if (length stackFibers =? 0)%nat then ret None
        else
          let maxFrames := maxReactStackFrames config in
          let takenFibers := slice stackFibers 0 maxFrames in
          let sources := List.map (resolveSource (buildType debugInfo)) takenFibers in
          let* stack := mapWithIndexM (buildFrame sources) takenFibers 0 in
          let* ownerIndex := findOwnerIndex takenFibers 0 in
          match ownerIndex with
          | None =>
              ret (Some {| stack := stack; ownerIndex := None; ownerProps := None;
                           ownerState := None; ownerContexts := None |})
          | Some i =>
              match nth_error takenFibers i with
              | None =>
                  ret (Some {| stack := stack; ownerIndex := None; ownerProps := None;
                               ownerState := None; ownerContexts := None |})
              | Some ownerFiber =>
                  let* ownerProps := snapshotProps ownerFiber in
                  let* ownerState := snapshotState ownerFiber in
                  let* ownerContexts := snapshotContexts ownerFiber in
                  ret (Some {| stack := stack;
                               ownerIndex := Some i;
                               ownerProps := Some ownerProps;
                               ownerState := Some ownerState;
                               ownerContexts := Some ownerContexts |})
              end
          end
    end.

(** The name of an event kind, as interpolated in a handler comment. *)
Definition eventKindName (kind : EventKind) : jstring :=
  match kind with
  | EvClick => js "click" | EvChange => js "change" | EvSubmit => js "submit"
  | EvInput => js "input" | EvFocus => js "focus" | EvBlur => js "blur"
  | EvKey => js "key" | EvPointer => js "pointer" | EvOther => js "other"
  end.

(** The visitor of [recordHandlersFromFiber]. *)
Definition recordHandler (declaredOnComponent : option jstring)
  (source : option (SourceLocation Num)) (st : HandlerScan Num)
  (prop : jstring * JsValue Num) : HandlerScan Num :=
  let '(name, next) := prop in
  if negb (startsWith name (js "on")) then st
  else if arrayIncludes (seenNames st) name then st
  else
    match next with
    | VFunction fnName =>
        let kind := inferEventKindFromPropName name in
        {| scan_handlers :=
             scan_handlers st ++
             [{| propName := name;
                 inferredKind := kind;
                 functionName := if (0 <? length fnName)%nat then Some fnName else None;
                 declaredOnComponent := declaredOnComponent;
                 eh_source := source;
                 comment :=
                   Some (js "Handler " ++ name ++ js " likely handles "
                           ++ eventKindName kind ++ js " events on this element.");
                 inferenceSource := FromPropName |}];
           seenNames := seenNames st ++ [name] |}
    | _ => st
    end.

Definition recordHandlersFromFiber (st : HandlerScan Num) (fiber : option Fiber)
  (declaredOnComponent : option jstring) (source : option (SourceLocation Num))
  : M (HandlerScan Num) :=
  match fiber with
  | None => ret st
  | Some fiber =>
      let* props := traverseProps bippy fiber in
      ret (List.fold_left (recordHandler declaredOnComponent source) props st)
  end.

Definition buildBehaviorContext (element : Element)
  (reactSlice : option (ReactTreeSlice Num)) : M (BehaviorContext Num) :=
  let hostFiber :=
    match getFiberFromHostInstance bippy element with
    | Returned f => f
    | Threw _ => None
    end in
  let start := {| scan_handlers := []; seenNames := [] |} in
  let* scan :=
    match hostFiber with
    | None => ret start
    | Some host =>
        let* latest := getLatestFiber bippy host in
        let* stackFibers := getFiberStack bippy latest in
        let first :=
          match reactSlice with
          | Some slice => List.hd_error (stack slice)
          | None => None
          end in
        let hostSource :=
          match first with Some frame => source frame | None => None end in
        let componentName :=
          match first with Some frame => displayName frame | None => None end in
        let* scan1 :=
          recordHandlersFromFiber start (Some host) componentName hostSource in
        match reactSlice with
        | Some slice =>
            match ownerIndex slice with
            | Some i =>
                let ownerFrame := nth_error (stack slice) i in
                let ownerSource :=
                  match ownerFrame with Some frame => source frame | None => None end in
                let ownerName :=
                  match ownerFrame with Some frame => displayName frame | None => None end in
                let ownerCompositeFiber := nth_error stackFibers i in
                recordHandlersFromFiber scan1 ownerCompositeFiber ownerName ownerSource
            | None => ret scan1
            end
        | None => ret scan1
        end
    end in
  ret {| inferenceLevel :=
           if (length (scan_handlers scan) =? 0)%nat then InferNone
           else InferPropNameOnly;
         handlers := scan_handlers scan |}.

Definition unknownFrameworkResult : FrameworkDetectionResult Num :=
  {| fr_framework := FrameworkUnknown;
     fr_routePatternGuess := None;
     fr_routeParamsGuess := None;
     fr_pageComponent := None;
     fr_layoutComponents := [] |}.

(** [results.find((result) => result !== null)] *)
Fixpoint findNonNull {A : Type} (results : list (option A)) : option A :=
  match results with
  | [] => None
  | Some r :: _ => Some r
  | None :: rest => findNonNull rest
  end.

Definition buildAppContext (reactSlice : option (ReactTreeSlice Num))
  (config : GrabrRuntimeConfig Num) : AppContext Num :=
  let url := match location doc with Some l => href l | None => [] end in
  let pathname := match location doc with Some l => loc_pathname l | None => [] end in
  let search := match location doc with Some l => loc_search l | None => [] end in
  let hash := match location doc with Some l => loc_hash l | None => [] end in
  let frameworkResult :=
    match findNonNull
            (List.map
               (fun strategy =>
                  fw_detect strategy
                    {| in_reactSlice := reactSlice; in_url := url;
                       in_pathname := pathname |})
               (frameworkStrategies (heuristics config))) with
    | Some result => result
    | None => unknownFrameworkResult
    end in
  let dataSources :=
    let input :=
      {| in_ownerProps :=
           match reactSlice with
           | Some slice => ownerProps slice
           | None => None
           end |} in
    let collected :=
      List.fold_left
        (fun collected strategy => collected ++ dsrc_detect strategy input)
        (dataSourceStrategies (heuristics config)) [] in
    if (0 <? length collected)%nat then collected else [unknownDataSource] in
  {| url := url;
     pathname := pathname;
     search := search;
     hash := hash;
     framework := fr_framework frameworkResult;
     routePatternGuess := fr_routePatternGuess frameworkResult;
     routeParamsGuess := fr_routeParamsGuess frameworkResult;
     pageComponent := fr_pageComponent frameworkResult;
     layoutComponents := fr_layoutComponents frameworkResult;
     dataSources := dataSources |}.

(** The closure [get] of [buildStyleFrame]. *)
Definition getStyle (el : Element) (prop : jstring) : option jstring :=
  match computedStyle doc with
  | None => None
  | Some computed =>
      match computed el prop with
      | None => None
      | Some value =>
          let trimmed := trim value in
          if (length trimmed =? 0)%nat then None else Some trimmed
      end
  end.

(** The four-sided shorthand built for [margin] and [padding]. *)
Definition boxShorthand (top right bottom left : option jstring) : option jstring :=
  match top, right, bottom, left with
  | None, None, None, None => None
  | _, _, _, _ =>
      let orZero (v : option jstring) := match v with Some x => x | None => js "0" end in
      Some (orZero top ++ js " " ++ orZero right ++ js " " ++ orZero bottom
              ++ js " " ++ orZero left)
  end.

Definition roleIs (el : Element) (role : jstring) : bool :=
  match getAttribute doc el (js "role") with
  | Some r => jstring_eqb r role
  | None => false
  end.

Definition buildStyleFrame (el : Element) : StyleFrame :=
  let rect := boundingClientRect (data doc el) in
  let clickable :=
    match computedStyle doc with
    | None => false
    | Some computed =>
        match computed el (js "cursor") with
        | Some cursor => jstring_eqb cursor (js "pointer")
        | None => false
        end
    end
    || isHTMLButtonElement (data doc el)
    || isHTMLAnchorElement (data doc el)
    || roleIs el (js "button")
    || roleIs el (js "link") in
  {| layout :=
       {| display := getStyle el (js "display");
          position := getStyle el (js "position");
          flexDirection := getStyle el (js "flexDirection");
          justifyContent := getStyle el (js "justifyContent");
          alignItems := getStyle el (js "alignItems");
          gap := getStyle el (js "gap");
          gridTemplateColumns := getStyle el (js "gridTemplateColumns");
          gridTemplateRows := getStyle el (js "gridTemplateRows") |};
     spacing :=
       {| margin :=
            boxShorthand (getStyle el (js "marginTop")) (getStyle el (js "marginRight"))
              (getStyle el (js "marginBottom")) (getStyle el (js "marginLeft"));
          padding :=
            boxShorthand (getStyle el (js "paddingTop")) (getStyle el (js "paddingRight"))
              (getStyle el (js "paddingBottom")) (getStyle el (js "paddingLeft")) |};
     size :=
       {| width :=
            if Number_isPositive (rect_width rect)
            then Some (Number_toString (Math_round (rect_width rect)) ++ js "px")
            else None;
          height :=
            if Number_isPositive (rect_height rect)
            then Some (Number_toString (Math_round (rect_height rect)) ++ js "px")
            else None |};
     typography :=
       {| fontFamily := getStyle el (js "fontFamily");
          fontSize := getStyle el (js "fontSize");
          fontWeight := getStyle el (js "fontWeight");
          lineHeight := getStyle el (js "lineHeight") |};
     colors :=
       {| color := getStyle el (js "color");
          backgroundColor := getStyle el (js "backgroundColor");
          borderColor := getStyle el (js "borderColor") |};
     clickable := clickable;
     ruleSummaries := Some [] |}.

Definition buildSelectionInfo (el : Element)
  (reactSlice : option (ReactTreeSlice Num)) : SelectionInfo Num :=
  let rect := boundingClientRect (data doc el) in
  let identity :=
    {| si_tag := toLowerCase (tagName (data doc el));
       si_id := if (0 <? length (id (data doc el)))%nat
                then Some (id (data doc el)) else None;
       si_dataTestId := getDataTestId doc el;
       si_role := getAttribute doc el (js "role");
       si_classes := classList (data doc el) |} in
  let first :=
    match reactSlice with
    | Some slice => List.hd_error (stack slice)
    | None => None
    end in
  {| sel_tag := toLowerCase (tagName (data doc el));
     boundingBox :=
       {| bb_x := left rect; bb_y := top rect;
          bb_width := rect_width rect; bb_height := rect_height rect |};
     identity := identity;
     componentDisplayName :=
       match first with Some frame => displayName frame | None => None end;
     nearestSource :=
       match first with Some frame => source frame | None => None end;
     isLikelyServerComponent :=
       match first with
       | Some frame => isServerComponent (flags frame)
       | None => None
       end |}.

(** [DefaultInspectorEngine.getElementContext] for the engine's [config]. *)
Definition getElementContext (config : GrabrRuntimeConfig Num)
  (selectedElement : Element) : M (ElementContextV2 Num) :=
  let* reactDebug := getReactDebugInfoForElement selectedElement in
  let* reactSlice :=
    if jstring_eqb (reactInspectorMode config) (js "off") then ret None
    else buildReactTreeSlice selectedElement config reactDebug in
  let selection := buildSelectionInfo selectedElement reactSlice in
  let* dom := buildDomNeighborhood doc selectedElement in
  let styling := buildStyleFrame selectedElement in
  let* behavior := buildBehaviorContext selectedElement reactSlice in
  let app := buildAppContext reactSlice config in
  ret {| selection := selection;
         dom := dom;
         react := reactSlice;
         reactDebug := reactDebug;
         styling := styling;
         behavior := behavior;
         app := app;
         tests := None |}.


(** [new DefaultInspectorEngine(config)] *)
Definition DefaultInspectorEngine (config : GrabrRuntimeConfig Num) : InspectorEngine Num :=
  {| engine_config := config;
     engine_getElementContext := getElementContext config |}.

Definition createInspectorEngine (partialConfig : option (PartialRuntimeConfig Num))
  : M (InspectorEngine Num) :=
  let config := mergeRuntimeConfig partialConfig in
  ret (DefaultInspectorEngine config).

Definition validateRuntimeConfigOrThrow (config : GrabrRuntimeConfig Num) : M unit :=
  let mode := reactInspectorMode config in
  if negb (jstring_eqb mode (js "best-effort"))
     && negb (jstring_eqb mode (js "required"))
     && negb (jstring_eqb mode (js "off"))
  then
    Threw (ErrorObject
             (js "Invalid config.reactInspectorMode: expected " ++ [34%N]
                ++ js "best-effort" ++ [34%N] ++ js " | " ++ [34%N] ++ js "required"
                ++ [34%N] ++ js " | " ++ [34%N] ++ js "off" ++ [34%N] ++ js ", got "
                ++ mode))
  else if negb (isFiniteIntegerInRange (maxReactStackFrames config) 1 64) then
    Threw (ErrorObject
             (js "Invalid config.maxReactStackFrames: expected integer in range [1, 64], got "
                ++ Z_toString (maxReactStackFrames config)))
  else ret tt.

(** A complete configuration passed where a partial one is expected. *)
Definition asPartial (config : GrabrRuntimeConfig Num) : PartialRuntimeConfig Num :=
  {| partial_reactInspectorMode := Some (reactInspectorMode config);
     partial_maxReactStackFrames := Some (maxReactStackFrames config);
     partial_heuristics := Some (heuristics config) |}.


(** [inBrowser] is [typeof window !== "undefined" && typeof document !==
    "undefined"]. *)
Definition createGrabrClient (inBrowser : bool)
  (partialConfig : option (PartialRuntimeConfig Num)) : M (GrabrClient Num) :=
  if negb inBrowser then
    Threw (ErrorObject (js "createGrabrClient must be called in a browser environment."))
  else
    let config := mergeRuntimeConfig partialConfig in
    let* _ := validateRuntimeConfigOrThrow config in
    let* inspector := createInspectorEngine (Some (asPartial config)) in
    ret {| client_version := js "2.2.0";
           client_config := config;
           client_inspector := inspector |}.

(** Every introspection call other than the fiber lookup
    ([getFiberFromHostInstance]), the build-type detection and the source
    resolution ([getSource]) returns normally. *)
Definition otherCallsReturn : Prop :=
  returned (hasRDTHook bippy) = true
  /\ returned (isInstrumentationActive bippy) = true
  /\ (forall f, returned (getLatestFiber bippy f) = true)
  /\ (forall f, returned (getFiberStack bippy f) = true)
  /\ (forall f, returned (getDisplayName bippy f) = true)
  /\ (forall f, returned (isHostFiber bippy f) = true)
  /\ (forall f, returned (isCompositeFiber bippy f) = true)
  /\ (forall f, returned (traverseProps bippy f) = true)
  /\ (forall f, returned (traverseState bippy f) = true)
  /\ (forall f, returned (traverseContexts bippy f) = true).

(** The three literals of [ReactInspectorMode]. *)
Definition isInspectorMode (mode : jstring) : bool :=
  jstring_eqb mode (js "best-effort") || jstring_eqb mode (js "required")
  || jstring_eqb mode (js "off").

End Engine.

End Inspector.
Import Inspector.

(* ------------------------------------------------------------------------- *)
(** ** Prompt serializer *)
(* ------------------------------------------------------------------------- *)

Module Prompt.

(** [ToInt32]: the signed 32-bit integer congruent to [z]. *)
Definition toInt32 (z : Z) : Z := ((z + 2147483648) mod 4294967296 - 2147483648)%Z.

(** One turn of the loop of [promptChecksum]:
    [hash = (hash << 5) - hash + input.charCodeAt(i); hash |= 0]. *)
Definition checksumStep (hash : Z) (c : code_unit) : Z :=
  toInt32 (toInt32 (Z.shiftl hash 5) - hash + Z.of_N c).

(** [Math.abs(hash >>> 0).toString(16)] after the loop. *)
Definition promptChecksum (input : jstring) : jstring :=
  let hash := List.fold_left checksumStep input 0%Z in
  N_toString16 (Z.to_N (hash mod 4294967296)).

(** Four lower-case hexadecimal digits. *)
Definition hex4 (c : code_unit) : jstring :=
  let digits := N_toString16 c in
  List.repeat 48%N (4 - length digits) ++ digits.

Definition isLeadingSurrogate (c : code_unit) : bool :=
  ((55296 <=? c) && (c <=? 56319))%N.

Definition isTrailingSurrogate (c : code_unit) : bool :=
  ((56320 <=? c) && (c <=? 57343))%N.

(** The body of [QuoteJSONString]. *)
Fixpoint quoteJSONChars (s : jstring) : jstring :=
  match s with
  | [] => []
  | c :: rest =>
      if (c =? 8)%N then js "\b" ++ quoteJSONChars rest
      else if (c =? 9)%N then js "\t" ++ quoteJSONChars rest
      else if (c =? 10)%N then js "\n" ++ quoteJSONChars rest
      else if (c =? 12)%N then js "\f" ++ quoteJSONChars rest
      else if (c =? 13)%N then js "\r" ++ quoteJSONChars rest
      else if (c =? 34)%N then [92%N; 34%N] ++ quoteJSONChars rest
      else if (c =? 92)%N then [92%N; 92%N] ++ quoteJSONChars rest
      else if (c <? 32)%N then js "\u" ++ hex4 c ++ quoteJSONChars rest
      else if isLeadingSurrogate c then
        match rest with
        | d :: rest' =>
            if isTrailingSurrogate d then c :: d :: quoteJSONChars rest'
            else js "\u" ++ hex4 c ++ quoteJSONChars rest
        | [] => js "\u" ++ hex4 c
        end
      else if isTrailingSurrogate c then js "\u" ++ hex4 c ++ quoteJSONChars rest
      else c :: quoteJSONChars rest
  end.

Definition quoteJSONString (s : jstring) : jstring :=
  [34%N] ++ quoteJSONChars s ++ [34%N].

Section Render.
Context {Num : Type} `{Builtins Num}.

(** [stringifyForPrompt(value, dropNull)]: [JSON.stringify] with the
    replacer that turns [null] into [undefined] when [dropNull] is set.
    [None] is the result [undefined]; an [undefined] array element is
    written [null], an [undefined] property is left out. *)
Fixpoint stringifyForPrompt (value : SerializableValue Num) (dropNull : bool)
  {struct value} : option jstring :=
  if dropNull && isNull value then None
  else
    match value with
    | SNull => Some (js "null")
    | SBool true => Some (js "true")
    | SBool false => Some (js "false")
    | SNumber n => Some (JSON_number n)
    | SString s => Some (quoteJSONString s)
    | SArray items =>
        Some (js "["
                ++ join (js ",")
                     (List.map
                        (fun item =>
                           match stringifyForPrompt item dropNull with
                           | Some text => text
                           | None => js "null"
                           end)
                        items)
                ++ js "]")
    | SObject entries =>
        Some (js "{"
                ++ join (js ",")
                     (List.flat_map
                        (fun entry =>
                           match stringifyForPrompt (snd entry) dropNull with
                           | Some text => [quoteJSONString (fst entry) ++ js ":" ++ text]
                           | None => []
                           end)
                        entries)
                ++ js "}")
    end.

(** [maybeAddLine(lines, key, value, { dropNull, allowEmpty })], returning
    the lines after the call.  The defaults are [dropNull = true] and
    [allowEmpty = false]. *)
Definition maybeAddLine (lines : list jstring) (key : jstring)
  (value : SerializableValue Num) (dropNull allowEmpty : bool) : list jstring :=
  if isNull value && dropNull then lines
  else
    let serialized :=
      match stringifyForPrompt value dropNull with
      | Some text => text
      | None => js "undefined"
      end in
    if negb allowEmpty
       && (jstring_eqb serialized (js "{}") || jstring_eqb serialized (js "[]"))
    then lines
    else lines ++ [key ++ js "=" ++ serialized].

(** *** The context as the object that [JSON.stringify] walks

    Properties appear in the order in which the engine's object literals
    list them; an optional property that is absent is left out. *)

Definition jString (s : jstring) : SerializableValue Num := SString s.
Definition jNat (n : nat) : SerializableValue Num := SNumber (Number_ofNat n).
Definition jOption {A : Type} (f : A -> SerializableValue Num) (o : option A)
  : SerializableValue Num :=
  match o with Some a => f a | None => SNull end.
Definition jList {A : Type} (f : A -> SerializableValue Num) (l : list A)
  : SerializableValue Num :=
  SArray (List.map f l).

Definition confidenceName (c : SourceConfidence) : jstring :=
  match c with
  | ConfNone => js "none" | ConfLow => js "low" | ConfMedium => js "medium"
  | ConfHigh => js "high"
  end.

Definition originName (o : SourceOrigin) : jstring :=
  match o with
  | OriginBippy => js "bippy" | OriginSourcemap => js "sourcemap"
  | OriginInline => js "inline" | OriginUnknown => js "unknown"
  end.

Definition reasonName (r : HighlightReason) : jstring :=
  match r with
  | ReasonText => js "text" | ReasonDesign => js "design"
  | ReasonChildren => js "children" | ReasonTestId => js "test-id"
  | ReasonAriaLabel => js "aria-label" | ReasonOther => js "other"
  end.

Definition ruleOriginName (o : RuleOrigin) : jstring :=
  match o with
  | RuleAuthor => js "author" | RuleUserAgent => js "user-agent"
  | RuleInline => js "inline" | RuleUnknown => js "unknown"
  end.

Definition inferenceLevelName (l : BehaviorInferenceLevel) : jstring :=
  match l with InferNone => js "none" | InferPropNameOnly => js "prop-name-only" end.

Definition inferenceSourceName (i : BehaviorInferenceSource) : jstring :=
  match i with FromPropName => js "prop-name" | FromRuntimeHook => js "runtime-hook" end.

Definition dataSourceKindName (k : DataSourceKind) : jstring :=
  match k with
  | DsReactQuery => js "react-query" | DsSwr => js "swr" | DsRedux => js "redux"
  | DsTrpc => js "trpc" | DsCustom => js "custom" | DsUnknown => js "unknown"
  end.

Definition frameworkName (f : InferredFramework) : jstring :=
  match f with
  | NextApp => js "next-app" | NextPages => js "next-pages" | Remix => js "remix"
  | ReactRouter => js "react-router" | FrameworkUnknown => js "unknown"
  end.

Definition testHintTypeName (t : TestHintType) : jstring :=
  match t with
  | HintTest => js "test" | HintStory => js "story" | HintCommand => js "command"
  end.

Definition buildTypeName (b : ReactBuildType) : jstring :=
  match b with
  | BuildDevelopment => js "development" | BuildProduction => js "production"
  | BuildUnknown => js "unknown"
  end.

Definition statusName (st : ReactInspectorStatus) : jstring :=
  match st with
  | StatusOk => js "ok" | StatusNoHook => js "no-hook" | StatusInactive => js "inactive"
  | StatusNoFiber => js "no-fiber" | StatusError => js "error"
  end.

Definition sourceLocationJson (l : SourceLocation Num) : SerializableValue Num :=
  SObject [ (js "fileName", jString (fileName l));
            (js "lineNumber", jOption SNumber (lineNumber l));
            (js "columnNumber", jOption SNumber (columnNumber l));
            (js "confidence", jString (confidenceName (confidence l)));
            (js "origin", jString (originName (origin l))) ].

Definition selectionJson (sel : SelectionInfo Num) : SerializableValue Num :=
  SObject [ (js "tag", jString (sel_tag sel));
            (js "boundingBox",
             SObject [ (js "x", SNumber (bb_x (boundingBox sel)));
                       (js "y", SNumber (bb_y (boundingBox sel)));
                       (js "width", SNumber (bb_width (boundingBox sel)));
                       (js "height", SNumber (bb_height (boundingBox sel))) ]);
            (js "identity",
             SObject [ (js "tag", jString (si_tag (identity sel)));
                       (js "id", jOption jString (si_id (identity sel)));
                       (js "dataTestId", jOption jString (si_dataTestId (identity sel)));
                       (js "role", jOption jString (si_role (identity sel)));
                       (js "classes", jList jString (si_classes (identity sel))) ]);
            (js "componentDisplayName", jOption jString (componentDisplayName sel));
            (js "nearestSource", jOption sourceLocationJson (nearestSource sel));
            (js "isLikelyServerComponent", jOption SBool (isLikelyServerComponent sel)) ].

Definition domNodeJson (n : DomNodeSummary) : SerializableValue Num :=
  SObject [ (js "tag", jString (dn_tag n));
            (js "id", jOption jString (dn_id n));
            (js "dataTestId", jOption jString (dn_dataTestId n));
            (js "classes", jList jString (dn_classes n));
            (js "textSnippet", jOption jString (dn_textSnippet n)) ].

Definition siblingsJson (sib : SiblingSummary) : SerializableValue Num :=
  SObject [ (js "index", SNumber (Number_ofZ (sib_index sib)));
            (js "total", jNat (sib_total sib));
            (js "previous", jOption domNodeJson (sib_previous sib));
            (js "next", jOption domNodeJson (sib_next sib)) ].

Definition childrenJson (c : ChildSummary) : SerializableValue Num :=
  SObject [ (js "totalChildren", jNat (totalChildren c));
            (js "tagCounts",
             SObject (List.map
                        (fun kv =>
                           (fst kv,
                            match snd kv with
                            | CountNumber n => jNat n
                            | CountText text => jString text
                            end))
                        (tagCounts c)));
            (js "samples", jList domNodeJson (samples c)) ].

Definition selectorsJson (sl : Selectors) : SerializableValue Num :=
  SObject [ (js "preferred", jString (preferred sl));
            (js "all", jList jString (all sl)) ].

Definition domJson (d : DomNeighborhood) : SerializableValue Num :=
  SObject [ (js "snippet", jString (snippet d));
            (js "parents", jList domNodeJson (parents d));
            (js "siblings", siblingsJson (siblings d));
            (js "children", childrenJson (children d));
            (js "selectors", selectorsJson (selectors d)) ].

Definition flagsJson (f : ComponentFlags) : SerializableValue Num :=
  SObject [ (js "isHost", SBool (fl_isHost f));
            (js "isComposite", SBool (fl_isComposite f));
            (js "isSuspenseBoundary", jOption SBool (isSuspenseBoundary f));
            (js "isErrorBoundary", jOption SBool (isErrorBoundary f));
            (js "isServerComponent", jOption SBool (isServerComponent f));
            (js "isLayoutLike", jOption SBool (isLayoutLike f)) ].

Definition frameJson (f : ReactComponentFrame Num) : SerializableValue Num :=
  SObject [ (js "displayName", jOption jString (displayName f));
            (js "isHost", SBool (isHost f));
            (js "source", jOption sourceLocationJson (source f));
            (js "flags", flagsJson (flags f)) ].

Definition propHighlightJson (h : PropHighlight Num) : SerializableValue Num :=
  SObject [ (js "name", jString (ph_name h));
            (js "value", ph_value h);
            (js "reason", jString (reasonName (ph_reason h))) ].

Definition propsSnapshotJson (p : PropsSnapshot Num) : SerializableValue Num :=
  SObject [ (js "totalProps", jNat (totalProps p));
            (js "highlighted", jList propHighlightJson (highlighted p)) ].

Definition stateEntryJson (e : StateSnapshotEntry Num) : SerializableValue Num :=
  SObject [ (js "hookIndex", jNat (hookIndex e)); (js "value", st_value e) ].

Definition stateSnapshotJson (st : StateSnapshot Num) : SerializableValue Num :=
  SObject [ (js "totalHooks", jNat (totalHooks st));
            (js "entries", jList stateEntryJson (st_entries st)) ].

Definition contextEntryJson (e : ContextEntry Num) : SerializableValue Num :=
  SObject [ (js "index", jNat (ce_index e)); (js "value", ce_value e) ].

Definition contextSnapshotJson (c : ContextSnapshot Num) : SerializableValue Num :=
  SObject [ (js "totalContexts", jNat (totalContexts c));
            (js "entries", jList contextEntryJson (cs_entries c)) ].

Definition reactSliceJson (r : ReactTreeSlice Num) : SerializableValue Num :=
  SObject [ (js "stack", jList frameJson (stack r));
            (js "ownerIndex", jOption jNat (ownerIndex r));
            (js "ownerProps", jOption propsSnapshotJson (ownerProps r));
            (js "ownerState", jOption stateSnapshotJson (ownerState r));
            (js "ownerContexts", jOption contextSnapshotJson (ownerContexts r)) ].

Definition reactDebugJson (d : ReactDebugInfo) : SerializableValue Num :=
  SObject [ (js "buildType", jString (buildTypeName (buildType d)));
            (js "inspectorStatus", jString (statusName (inspectorStatus d)));
            (js "message", jOption jString (message d)) ].

Definition layoutJson (l : StyleLayout) : SerializableValue Num :=
  SObject [ (js "display", jOption jString (display l));
            (js "position", jOption jString (position l));
            (js "flexDirection", jOption jString (flexDirection l));
            (js "justifyContent", jOption jString (justifyContent l));
            (js "alignItems", jOption jString (alignItems l));
            (js "gap", jOption jString (gap l));
            (js "gridTemplateColumns", jOption jString (gridTemplateColumns l));
            (js "gridTemplateRows", jOption jString (gridTemplateRows l)) ].

Definition spacingJson (sp : StyleSpacing) : SerializableValue Num :=
  SObject [ (js "margin", jOption jString (margin sp));
            (js "padding", jOption jString (padding sp)) ].

Definition sizeJson (sz : StyleSize) : SerializableValue Num :=
  SObject [ (js "width", jOption jString (width sz));
            (js "height", jOption jString (height sz)) ].

Definition typographyJson (t : StyleTypography) : SerializableValue Num :=
  SObject [ (js "fontFamily", jOption jString (fontFamily t));
            (js "fontSize", jOption jString (fontSize t));
            (js "fontWeight", jOption jString (fontWeight t));
            (js "lineHeight", jOption jString (lineHeight t)) ].

Definition colorsJson (c : StyleColors) : SerializableValue Num :=
  SObject [ (js "color", jOption jString (color c));
            (js "backgroundColor", jOption jString (backgroundColor c));
            (js "borderColor", jOption jString (borderColor c)) ].

Definition ruleSummaryJson (r : MatchedRuleSummary) : SerializableValue Num :=
  SObject [ (js "selector", jString (mr_selector r));
            (js "origin", jString (ruleOriginName (mr_origin r)));
            (js "specificity", jString (specificity r));
            (js "importantCount", jNat (importantCount r)) ].

Definition stylingJson (st : StyleFrame) : SerializableValue Num :=
  SObject ([ (js "layout", layoutJson (layout st));
             (js "spacing", spacingJson (spacing st));
             (js "size", sizeJson (size st));
             (js "typography", typographyJson (typography st));
             (js "colors", colorsJson (colors st));
             (js "clickable", SBool (clickable st)) ]
           ++ match ruleSummaries st with
              | Some rules => [(js "ruleSummaries", jList ruleSummaryJson rules)]
              | None => []
              end).

Definition handlerJson (h : EventHandlerInfo Num) : SerializableValue Num :=
  SObject [ (js "propName", jString (propName h));
            (js "inferredKind", jString (eventKindName (inferredKind h)));
            (js "functionName", jOption jString (functionName h));
            (js "declaredOnComponent", jOption jString (declaredOnComponent h));
            (js "source", jOption sourceLocationJson (eh_source h));
            (js "comment", jOption jString (comment h));
            (js "inferenceSource", jString (inferenceSourceName (inferenceSource h))) ].

Definition behaviorJson (b : BehaviorContext Num) : SerializableValue Num :=
  SObject [ (js "inferenceLevel", jString (inferenceLevelName (inferenceLevel b)));
            (js "handlers", jList handlerJson (handlers b)) ].

Definition dataSourceJson (d : DataSourceHint) : SerializableValue Num :=
  SObject [ (js "kind", jString (dataSourceKindName (ds_kind d)));
            (js "identifier", jOption jString (identifier d));
            (js "description", jOption jString (ds_description d)) ].

Definition routeParamsJson (params : list (jstring * jstring)) : SerializableValue Num :=
  SObject (List.map (fun kv => (fst kv, jString (snd kv))) params).

Definition appJson (a : AppContext Num) : SerializableValue Num :=
  SObject [ (js "url", jString (url a));
            (js "pathname", jString (pathname a));
            (js "search", jString (search a));
            (js "hash", jString (hash a));
            (js "framework", jString (frameworkName (framework a)));
            (js "routePatternGuess", jOption jString (routePatternGuess a));
            (js "routeParamsGuess", jOption routeParamsJson (routeParamsGuess a));
            (js "pageComponent", jOption sourceLocationJson (pageComponent a));
            (js "layoutComponents", jList sourceLocationJson (layoutComponents a));
            (js "dataSources", jList dataSourceJson (dataSources a)) ].

Definition testHintJson (h : TestHint Num) : SerializableValue Num :=
  SObject [ (js "type", jString (testHintTypeName (th_type h)));
            (js "location", sourceLocationJson (th_location h));
            (js "description", jOption jString (th_description h)) ].

Definition testsJson (t : TestsBlock Num) : SerializableValue Num :=
  SObject [ (js "hints", jList testHintJson (hints t)) ].

Definition contextJson (context : ElementContextV2 Num) : SerializableValue Num :=
  SObject ([ (js "version", jNat 2);
             (js "selection", selectionJson (selection context));
             (js "dom", domJson (dom context));
             (js "react", jOption reactSliceJson (react context));
             (js "reactDebug", reactDebugJson (reactDebug context));
             (js "styling", stylingJson (styling context));
             (js "behavior", behaviorJson (behavior context));
             (js "app", appJson (app context)) ]
           ++ match tests context with
              | Some t => [(js "tests", testsJson t)]
              | None => []
              end).

(** *** Rendering *)

Definition formatSourceForPrompt (source : option (SourceLocation Num))
  : SerializableValue Num :=
  match source with
  | None => SNull
  | Some source =>
      SObject ([ (js "file", jString (fileName source));
                 (js "confidence", jString (confidenceName (confidence source)));
                 (js "origin", jString (originName (origin source))) ]
               ++ match lineNumber source with
                  | Some n => [(js "line", SNumber n)]
                  | None => []
                  end
               ++ match columnNumber source with
                  | Some n => [(js "col", SNumber n)]
                  | None => []
                  end)
  end.

Definition orEmpty (o : option jstring) : jstring :=
  match o with Some x => x | None => [] end.

Definition deriveSelectionId (context : ElementContextV2 Num) : jstring :=
  let s := selection context in
  let parts :=
    [ orEmpty (si_id (identity s));
      orEmpty (si_dataTestId (identity s));
      sel_tag s;
      orEmpty (componentDisplayName s);
      match nearestSource s with Some src => fileName src | None => [] end;
      Number_toString (Math_round (bb_x (boundingBox s)));
      Number_toString (Math_round (bb_y (boundingBox s))) ] in
  js "sel_" ++ promptChecksum (join (js "|") parts).

(** [items.map((item, idx) => f item idx)] *)
Fixpoint mapWithIndex {A B : Type} (f : A -> nat -> B) (items : list A) (idx : nat)
  : list B :=
  match items with
  | [] => []
  | x :: rest => f x idx :: mapWithIndex f rest (S idx)
  end.

Definition formatReactStack (react : ReactTreeSlice Num) : SerializableValue Num :=
  SArray
    (mapWithIndex
       (fun frame idx =>
          SObject ([ (js "idx", jNat idx);
                     (js "displayName",
                      jString (match displayName frame with
                               | Some name => name
                               | None => js "<host>"
                               end));
                     (js "isHost", SBool (isHost frame));
                     (js "source", formatSourceForPrompt (source frame));
                     (js "flags", flagsJson (flags frame)) ]
                   ++ match ownerIndex react with
                      | Some owner =>
                          if (owner =? idx)%nat then [(js "owner", SBool true)] else []
                      | None => []
                      end))
       (stack react) 0).

Definition formatPropsSnapshot (snapshot : option (PropsSnapshot Num))
  : SerializableValue Num :=
  match snapshot with
  | None => SNull
  | Some snapshot =>
      SObject [ (js "total", jNat (totalProps snapshot));
                (js "highlighted",
                 jList (fun h => SObject [ (js "name", jString (ph_name h));
                                           (js "reason", jString (reasonName (ph_reason h)));
                                           (js "value", ph_value h) ])
                   (highlighted snapshot)) ]
  end.

Definition formatStateSnapshot (snapshot : option (StateSnapshot Num))
  : SerializableValue Num :=
  match snapshot with
  | None => SNull
  | Some snapshot =>
      SObject [ (js "total", jNat (totalHooks snapshot));
                (js "entries", jList stateEntryJson (st_entries snapshot)) ]
  end.

Definition formatContextSnapshot (snapshot : option (ContextSnapshot Num))
  : SerializableValue Num :=
  match snapshot with
  | None => SNull
  | Some snapshot =>
      SObject [ (js "total", jNat (totalContexts snapshot));
                (js "entries", jList contextEntryJson (cs_entries snapshot)) ]
  end.

Definition formatBehaviorHandlers (handlers : list (EventHandlerInfo Num))
  : SerializableValue Num :=
  jList
    (fun h =>
       SObject [ (js "prop", jString (propName h));
                 (js "kind", jString (eventKindName (inferredKind h)));
                 (js "fn", jString (match functionName h with
                                    | Some name => name
                                    | None => js "anonymous"
                                    end));
                 (js "component", jString (match declaredOnComponent h with
                                           | Some name => name
                                           | None => js "unknown"
                                           end));
                 (js "source", formatSourceForPrompt (eh_source h));
                 (js "inference", jString (inferenceSourceName (inferenceSource h))) ])
    handlers.

(** A statement that pushes onto [lines]. *)
Definition LineWriter : Type := list jstring -> list jstring.

(** [lines.push(line)] *)
Definition push (line : jstring) : LineWriter := fun lines => lines ++ [line].

(** One statement after another. *)
Definition andThen (first second : LineWriter) : LineWriter :=
  fun lines => second (first lines).

(** [maybeAddLine(lines, key, value, options)] as a statement. *)
Definition addLine (key : jstring) (value : SerializableValue Num)
  (dropNull allowEmpty : bool) : LineWriter :=
  fun lines => maybeAddLine lines key value dropNull allowEmpty.

(** No statement. *)
Definition skip : LineWriter := fun lines => lines.

(** A statement only pushes: it leaves the lines it was given in place. *)
Definition onlyPushes (w : LineWriter) : Prop :=
  forall lines, exists extra, w lines = lines ++ extra.

(** A statement only pushes, and the last line it pushes is [line]. *)
Definition pushesLast (line : jstring) (w : LineWriter) : Prop :=
  forall lines, exists extra, w lines = lines ++ extra ++ [line].

(** The closure [section] of [renderElementContextPrompt]. *)
Definition section (name : jstring) (fn : LineWriter) : LineWriter :=
  andThen (push (js "[section:" ++ name ++ js "]"))
    (andThen fn (push (js "[end:" ++ name ++ js "]"))).

End Render.

Notation "first ;;; second" := (andThen first second)
  (at level 61, right associativity).

Section RenderContext.
Context {Num : Type} `{Builtins Num}.

Definition openingTag (selectionId checksum : jstring) : jstring :=
  js "<ai_grab_selection v=" ++ [34%N] ++ js "2" ++ [34%N]
    ++ js " sel_id=" ++ [34%N] ++ selectionId ++ [34%N]
    ++ js " checksum=" ++ [34%N] ++ checksum ++ [34%N] ++ js ">".

Definition closingTag (selectionId checksum : jstring) : jstring :=
  js "<ai_grab_selection_end sel_id=" ++ [34%N] ++ selectionId ++ [34%N]
    ++ js " checksum=" ++ [34%N] ++ checksum ++ [34%N] ++ js "/>".

(** The checksum of a context: [promptChecksum(stringifyForPrompt(context,
    false))]. *)
Definition contextChecksum (context : ElementContextV2 Num) : jstring :=
  promptChecksum
    (match stringifyForPrompt (contextJson context) false with
     | Some text => text
     | None => js "undefined"
     end).

(** The statements of [renderElementContextPrompt], from the first [push]
    to the last.  Each [addLine] carries the options of its call site, the
    defaults being [dropNull = true] and [allowEmpty = false]. *)
Definition renderStatements (context : ElementContextV2 Num) : LineWriter :=
  let selectionId := deriveSelectionId context in
  let checksum := contextChecksum context in
  let s := selection context in
  let dom := dom context in
  let react := react context in
  let style := styling context in
  let app := app context in
  let reactDebug := reactDebug context in
  let reactAvailable := match react with Some _ => true | None => false end in
  push (openingTag selectionId checksum) ;;;
  section (js "meta")
    (addLine (js "version") (jNat 2) false false ;;;
     addLine (js "sel_id") (jString selectionId) false false ;;;
     addLine (js "checksum") (jString checksum) false false ;;;
     addLine (js "react_available") (SBool reactAvailable) true false ;;;
     addLine (js "react_inspector_status")
       (jString (statusName (inspectorStatus reactDebug))) true false ;;;
     addLine (js "react_build") (jString (buildTypeName (buildType reactDebug)))
       true false ;;;
     addLine (js "react_message") (jOption jString (message reactDebug)) true false ;;;
     addLine (js "source_hint_present")
       (SBool (match nearestSource s with Some _ => true | None => false end))
       true false ;;;
     addLine (js "tests_present")
       (SBool (match tests context with
               | Some t => (0 <? length (hints t))%nat
               | None => false
               end))
       true false) ;;;
  section (js "selection")
    (addLine (js "tag") (jString (sel_tag s)) false false ;;;
     addLine (js "bounding_box")
       (SObject [ (js "x", SNumber (Math_round (bb_x (boundingBox s))));
                  (js "y", SNumber (Math_round (bb_y (boundingBox s))));
                  (js "w", SNumber (Math_round (bb_width (boundingBox s))));
                  (js "h", SNumber (Math_round (bb_height (boundingBox s)))) ])
       false false ;;;
     addLine (js "identity")
       (SObject [ (js "id", jOption jString (si_id (identity s)));
                  (js "dataTestId", jOption jString (si_dataTestId (identity s)));
                  (js "role", jOption jString (si_role (identity s)));
                  (js "classes", jList jString (si_classes (identity s))) ])
       false false ;;;
     addLine (js "component") (jOption jString (componentDisplayName s)) true false ;;;
     addLine (js "nearest_source") (formatSourceForPrompt (nearestSource s))
       true false ;;;
     addLine (js "is_server_component") (jOption SBool (isLikelyServerComponent s))
       true false) ;;;
  section (js "dom")
    (addLine (js "snippet") (jString (snippet dom)) false false ;;;
     addLine (js "parents") (jList domNodeJson (parents dom)) true false ;;;
     addLine (js "siblings") (siblingsJson (siblings dom)) true false ;;;
     addLine (js "children") (childrenJson (children dom)) true false ;;;
     addLine (js "selectors") (selectorsJson (selectors dom)) true false) ;;;
  section (js "react")
    (addLine (js "status")
       (SObject [ (js "available", SBool reactAvailable);
                  (js "inspectorStatus",
                   jString (statusName (inspectorStatus reactDebug)));
                  (js "build", jString (buildTypeName (buildType reactDebug)));
                  (js "message", jOption jString (message reactDebug)) ])
       true false ;;;
     match react with
     | Some react =>
         addLine (js "owner_index") (jOption jNat (ownerIndex react)) false false ;;;
         addLine (js "stack") (formatReactStack react) true true ;;;
         addLine (js "owner_props") (formatPropsSnapshot (ownerProps react))
           true true ;;;
         addLine (js "owner_state") (formatStateSnapshot (ownerState react))
           true true ;;;
         addLine (js "owner_contexts") (formatContextSnapshot (ownerContexts react))
           true true
     | None => skip
     end) ;;;
  section (js "styling")
    (addLine (js "layout") (layoutJson (layout style)) true false ;;;
     addLine (js "spacing") (spacingJson (spacing style)) true false ;;;
     addLine (js "size") (sizeJson (size style)) true false ;;;
     addLine (js "typography") (typographyJson (typography style)) true false ;;;
     addLine (js "colors") (colorsJson (colors style)) true false ;;;
     addLine (js "clickable") (SBool (clickable style)) false false) ;;;
  section (js "behavior")
    (addLine (js "inference_level")
       (jString (inferenceLevelName (inferenceLevel (behavior context))))
       false false ;;;
     addLine (js "handlers") (formatBehaviorHandlers (handlers (behavior context)))
       true true) ;;;
  section (js "app")
    (addLine (js "url")
       (SObject [ (js "full", jString (url app));
                  (js "pathname", jString (pathname app));
                  (js "search", jString (search app));
                  (js "hash", jString (hash app)) ])
       true false ;;;
     addLine (js "routing")
       (SObject [ (js "framework", jString (frameworkName (framework app)));
                  (js "routePatternGuess", jOption jString (routePatternGuess app));
                  (js "routeParamsGuess",
                   jOption routeParamsJson (routeParamsGuess app));
                  (js "pageComponent", formatSourceForPrompt (pageComponent app));
                  (js "layoutComponents",
                   jList (fun loc => formatSourceForPrompt (Some loc))
                     (layoutComponents app)) ])
       true true ;;;
     addLine (js "data_sources") (jList dataSourceJson (dataSources app)) true true) ;;;
  match tests context with
  | Some t =>
      section (js "tests")
        (addLine (js "hints") (jList testHintJson (hints t)) true true)
  | None => skip
  end ;;;
  push (closingTag selectionId checksum).

Definition renderElementContextPrompt (context : ElementContextV2 Num) : jstring :=
  join [10%N] (renderStatements context []).

End RenderContext.

(** *** Reading a rendered prompt back *)

(** The text before the first line feed. *)
Fixpoint firstLine (text : jstring) : jstring :=
  match text with
  | [] => []
  | c :: rest => if (c =? 10)%N then [] else c :: firstLine rest
  end.

(** The text after the last line feed. *)
Definition lastLine (text : jstring) : jstring := rev (firstLine (rev text)).

(** The text that follows the first occurrence of [pattern]. *)
Fixpoint afterFirst (pattern text : jstring) : option jstring :=
  if startsWith text pattern then Some (skipn (length pattern) text)
  else
    match text with
    | [] => None
    | _ :: rest => afterFirst pattern rest
    end.

(** The text before the first double quote. *)
Fixpoint untilQuote (text : jstring) : jstring :=
  match text with
  | [] => []
  | c :: rest => if (c =? 34)%N then [] else c :: untilQuote rest
  end.

(** Units that can stand inside an attribute value without ending it or its
    line: neither line feed, nor space, nor double quote. *)
Definition isTokenUnit (c : code_unit) : bool :=
  negb (c =? 10)%N && negb (c =? 32)%N && negb (c =? 34)%N.

(** The value of the attribute [name] of a tag: what stands between the
    quotes after the first [ name=]. *)
Definition readAttribute (name line : jstring) : option jstring :=
  match afterFirst ([32%N] ++ name ++ [61%N; 34%N]) line with
  | Some rest => Some (untilQuote rest)
  | None => None
  end.

End Prompt.
Import Prompt.

(* ------------------------------------------------------------------------- *)
(** ** Selection controller: bounded-concurrency capture and session *)
(* ------------------------------------------------------------------------- *)

Module Controller.

(** *** [mapWithConcurrencyLimit]

    The scheduler is single-threaded: a worker runs until it awaits the
    promise of [mapper(items[currentIndex], currentIndex)], and the workers
    resume one at a time, in the order in which their promises settle.
    That order is not fixed by the code; a [schedule] gives, for every
    step, which of the awaiting workers resumes next.  The mapper is
    represented by the value its promise resolves to and by the effect its
    continuation has on the state it shares with its caller; it does not
    reject. *)

Section Pool.
Context {TIn TOut State : Type}.
Variable mapper : TIn -> nat -> TOut * (State -> State).
Variable items : list TIn.

(** [results] is the array [new Array(items.length)], a hole being [None];
    [awaiting] lists, for every worker suspended at its [await], the index
    it claimed and the item it passed to the mapper. *)
Record Pool := {
  results : list (option TOut);
  nextIndex : nat;
  awaiting : list (nat * TIn);
  shared : State }.

(** [results[index] = value] *)
Fixpoint assign (results : list (option TOut)) (index : nat) (value : TOut)
  : list (option TOut) :=
  match results, index with
  | [], _ => []
  | _ :: rest, O => Some value :: rest
  | r :: rest, S index' => r :: assign rest index' value
  end.

(** The head of the loop of [runWorker]: while an index is left the worker
    claims it, calls the mapper and awaits; otherwise it ends. *)
Definition claim (p : Pool) : Pool :=
  if (nextIndex p <? length items)%nat then
    match nth_error items (nextIndex p) with
    | Some item =>
        {| results := results p;
           nextIndex := S (nextIndex p);
           awaiting := awaiting p ++ [(nextIndex p, item)];
           shared := shared p |}
    | None => p
    end
  else p.

(** [l] without its element at position [k]. *)
Fixpoint removeAt {A : Type} (l : list A) (k : nat) : list A :=
  match l, k with
  | [], _ => []
  | _ :: rest, O => rest
  | x :: rest, S k' => x :: removeAt rest k'
  end.

(** The promise of one awaiting worker settles: the continuation of the
    mapper runs, the worker stores the value and goes back to the head of
    its loop. *)
Definition settle (choice : nat) (p : Pool) : Pool :=
  let k := (choice mod length (awaiting p))%nat in
  match nth_error (awaiting p) k with
  | None => p
  | Some (currentIndex, item) =>
      let '(value, effect) := mapper item currentIndex in
      claim {| results := assign (results p) currentIndex value;
               nextIndex := nextIndex p;
               awaiting := removeAt (awaiting p) k;
               shared := effect (shared p) |}
  end.

(** [Array.from({ length: workerCount }, () => runWorker())] *)
Definition startPool (limit : nat) (s0 : State) : Pool :=
  Nat.iter (Nat.min limit (length items)) claim
    {| results := List.repeat None (length items);
       nextIndex := 0;
       awaiting := [];
       shared := s0 |}.

(** [await Promise.all(workers)]: promises settle until no worker awaits. *)
Fixpoint runPool (steps : nat) (schedule : nat -> nat) (step : nat) (p : Pool)
  : Pool :=
  match steps with
  | O => p
  | S steps' =>
      match awaiting p with
      | [] => p
      | _ :: _ => runPool steps' schedule (S step) (settle (schedule step) p)
      end
  end.

(** At most [items.length] promises settle. *)
Definition mapWithConcurrencyLimit (limit : nat) (schedule : nat -> nat) (s0 : State)
  : Pool :=
  runPool (length items) schedule 0 (startPool limit s0).

(** The items with their indices. *)
Definition indexed : list (nat * TIn) := List.combine (List.seq 0 (length items)) items.

(** What the pool has established once the promises of [settled] have
    settled, in that order, starting from the shared state [s0]. *)
Definition poolInvariant (s0 : State) (settled : list (nat * TIn)) (p : Pool) : Prop :=
  length (results p) = length items
  /\ (nextIndex p <= length items)%nat
  /\ (forall entry,
        In entry (firstn (nextIndex p) indexed) <->
        In entry settled \/ In entry (awaiting p))
  /\ length settled + length (awaiting p) = nextIndex p
  /\ (forall i item,
        In (i, item) settled ->
        nth_error (results p) i = Some (Some (fst (mapper item i))))
  /\ shared p = List.fold_left (fun s entry => snd (mapper (snd entry) (fst entry)) s)
                  settled s0
  /\ (awaiting p = [] -> nextIndex p = length items).

End Pool.

(** *** [GrabrController.finalizeSelection] *)

Inductive Phase := BuildingContext | Sending | Done | ErrorPhase.

Record SelectionFinalizeProgress := {
  phase : Phase;
  completed : nat;
  total : nat;
  progress_message : option jstring }.

(** What the browser supplies to [finalizeSelection]:
    [new Date().toISOString()], [window.location.href],
    [crypto.randomUUID()] when it is a function, and
    [Math.random().toString(16).slice(2)]. *)
Record Browser := {
  nowISOString : jstring;
  locationHref : jstring;
  randomUUID : option jstring;
  randomHex : jstring }.

Section FinalizeTypes.
Variable Num : Type.

(** An [AgentProvider]: the outcome of the promise of [sendContext], and
    whether the optional hooks are defined. *)
Record AgentProvider := {
  provider_id : jstring;
  label : jstring;
  sendContext : GrabrSession Num -> M unit;
  hasOnSuccess : bool;
  hasOnError : bool }.

(** A call of a provider hook. *)
Inductive HookCall :=
| OnSuccess (session : GrabrSession Num)
| OnError (session : GrabrSession Num) (error : Exception).

(** The state that [finalizeSelection] and its mapper write: the counters
    [completed] and [failed], the calls of [onProgress], the messages of
    [console.warn], the field [currentSession], the calls of the provider
    hooks and the toasts. *)
Record FinalizeState := {
  st_completed : nat;
  st_failed : nat;
  progressEvents : list SelectionFinalizeProgress;
  warnings : list Exception;
  currentSession : option (GrabrSession Num);
  hookCalls : list HookCall;
  toasts : list (jstring * bool) }.

End FinalizeTypes.

Arguments OnSuccess {Num} session.
Arguments OnError {Num} session error.

Section Finalize.
Context {Num : Type} `{Builtins Num}.


Variable doc : Document Num.
Variable inspector : InspectorEngine Num.
Variable activeProvider : AgentProvider Num.
Variable currentInstruction : option jstring.
Variable browser : Browser.

(** The loop of [dedupeElementsPreserveOrder] with its set [seen]. *)
Fixpoint dedupeFrom (elements : list Element) (seen : list Element) : list Element :=
  match elements with
  | [] => []
  | el :: rest =>
      if List.existsb (Nat.eqb el) seen then dedupeFrom rest seen
      else el :: dedupeFrom rest (el :: seen)
  end.

Definition dedupeElementsPreserveOrder (elements : list Element) : list Element :=
  dedupeFrom elements [].

(** In a browser, where [document] is defined. *)
Definition isElementConnectedToDocument (el : Element) : bool :=
  isConnected (data doc el) || documentElementContains doc el.

Definition onProgress (event : SelectionFinalizeProgress) (st : FinalizeState Num)
  : FinalizeState Num :=
  {| st_completed := st_completed st;
     st_failed := st_failed st;
     progressEvents := progressEvents st ++ [event];
     warnings := warnings st;
     currentSession := currentSession st;
     hookCalls := hookCalls st;
     toasts := toasts st |}.

Definition showToast (text : jstring) (isError : bool) (st : FinalizeState Num)
  : FinalizeState Num :=
  {| st_completed := st_completed st;
     st_failed := st_failed st;
     progressEvents := progressEvents st;
     warnings := warnings st;
     currentSession := currentSession st;
     hookCalls := hookCalls st;
     toasts := toasts st ++ [(text, isError)] |}.

Definition callHook (call : HookCall Num) (st : FinalizeState Num) : FinalizeState Num :=
  {| st_completed := st_completed st;
     st_failed := st_failed st;
     progressEvents := progressEvents st;
     warnings := warnings st;
     currentSession := currentSession st;
     hookCalls := hookCalls st ++ [call];
     toasts := toasts st |}.

(** The [finally] block of the mapper: [completed += 1] and a progress
    call. *)
Definition countCompleted (total : nat) (st : FinalizeState Num) : FinalizeState Num :=
  onProgress
    {| phase := BuildingContext; completed := S (st_completed st);
       total := total; progress_message := None |}
    {| st_completed := S (st_completed st);
       st_failed := st_failed st;
       progressEvents := progressEvents st;
       warnings := warnings st;
       currentSession := currentSession st;
       hookCalls := hookCalls st;
       toasts := toasts st |}.

(** The [catch] block of the mapper: [failed += 1] and a warning. *)
Definition countFailed (error : Exception) (st : FinalizeState Num) : FinalizeState Num :=
  {| st_completed := st_completed st;
     st_failed := S (st_failed st);
     progressEvents := progressEvents st;
     warnings := warnings st ++ [error];
     currentSession := currentSession st;
     hookCalls := hookCalls st;
     toasts := toasts st |}.

(** The mapper that [finalizeSelection] passes to the pool. *)
Definition captureMapper (total : nat) (el : Element) (index : nat)
  : option (ElementContextV2 Num) * (FinalizeState Num -> FinalizeState Num) :=
  match engine_getElementContext inspector el with
  | Returned context => (Some context, countCompleted total)
  | Threw error => (None, fun st => countCompleted total (countFailed error st))
  end.

(** [contextsOrNull.filter((c) => c !== null)].  An element of the array is
    a context or [null]; the array has no hole when the pool ran with a
    positive limit. *)
Fixpoint nonNullContexts (contextsOrNull : list (option (option (ElementContextV2 Num))))
  : list (ElementContextV2 Num) :=
  match contextsOrNull with
  | [] => []
  | Some (Some context) :: rest => context :: nonNullContexts rest
  | _ :: rest => nonNullContexts rest
  end.

Definition sessionSummary (captured failed : nat) : jstring :=
  if (0 <? failed)%nat then
    js "Session with " ++ nat_toString captured ++ js " element(s) captured; "
      ++ nat_toString failed ++ js " failed."
  else
    js "Session with " ++ nat_toString captured ++ js " element(s) captured.".

Definition initialState (previous : option (GrabrSession Num)) : FinalizeState Num :=
  {| st_completed := 0; st_failed := 0; progressEvents := []; warnings := [];
     currentSession := previous; hookCalls := []; toasts := [] |}.

(** [finalizeSelection(elements, onProgress)], with an overlay attached.
    [previous] is the value of [currentSession] before the call; the result
    is the state after the promise has settled. *)
Definition finalizeSelection (schedule : nat -> nat)
  (previous : option (GrabrSession Num)) (elements : list Element) : FinalizeState Num :=
  let connected :=
    List.filter isElementConnectedToDocument (dedupeElementsPreserveOrder elements) in
  let st0 := initialState previous in
  if (length connected =? 0)%nat then
    onProgress {| phase := ErrorPhase; completed := 0; total := 0;
                  progress_message := Some (js "No valid elements to capture.") |} st0
  else
    let createdAt := nowISOString browser in
    let url := locationHref browser in
    let sessionId :=
      match randomUUID browser with
      | Some uuid => uuid
      | None => createdAt ++ js "-" ++ randomHex browser
      end in
    let total := length connected in
    let st1 :=
      onProgress {| phase := BuildingContext; completed := 0; total := total;
                    progress_message := None |} st0 in
    let pool := mapWithConcurrencyLimit (captureMapper total) connected 2 schedule st1 in
    let st2 := shared pool in
    let contexts := nonNullContexts (results pool) in
    if (length contexts =? 0)%nat then
      onProgress
        {| phase := ErrorPhase; completed := st_completed st2; total := total;
           progress_message :=
             Some (js "Failed to capture context for all selected elements.") |}
        st2
    else
      let summary := sessionSummary (length contexts) (st_failed st2) in
      let session :=
        {| session_id := sessionId;
           createdAt := createdAt;
           session_url := url;
           userInstruction := currentInstruction;
           summary := Some summary;
           elements := contexts |} in
      let st3 :=
        onProgress {| phase := Sending; completed := total; total := total;
                      progress_message := None |}
          {| st_completed := st_completed st2;
             st_failed := st_failed st2;
             progressEvents := progressEvents st2;
             warnings := warnings st2;
             currentSession := Some session;
             hookCalls := hookCalls st2;
             toasts := toasts st2 |} in
      match sendContext activeProvider session with
      | Returned _ =>
          let st4 :=
            if hasOnSuccess activeProvider then callHook (OnSuccess session) st3
            else st3 in
          let st5 :=
            onProgress {| phase := Done; completed := total; total := total;
                          progress_message := None |} st4 in
          let st6 :=
            showToast
              (if (length contexts =? 1)%nat then js "Copied context for 1 element."
               else js "Copied context for " ++ nat_toString (length contexts)
                      ++ js " elements.")
              false st5 in
          if (0 <? st_failed st2)%nat then
            showToast
              (js "Warning: " ++ nat_toString (st_failed st2)
                 ++ js " element(s) failed to capture.")
              true st6
          else st6
      | Threw error =>
          let err :=
            match error with
            | ErrorObject _ => error
            | ThrownValue => ErrorObject (js "Failed to send context.")
            end in
          let errMessage :=
            match err with ErrorObject m => m | ThrownValue => [] end in
          let st4 :=
            if hasOnError activeProvider then callHook (OnError session err) st3
            else st3 in
          let st5 :=
            onProgress {| phase := ErrorPhase; completed := total; total := total;
                          progress_message := Some errMessage |} st4 in
          showToast errMessage true st5
      end.

(** The contexts of the elements whose capture succeeds, in input order. *)
Definition capturedContexts (elements : list Element) : list (ElementContextV2 Num) :=
  List.flat_map
    (fun el =>
       match engine_getElementContext inspector el with
       | Returned context => [context]
       | Threw _ => []
       end)
    elements.

(** The number of elements whose capture throws. *)
Definition failedCaptures (elements : list Element) : nat :=
  length (List.filter
            (fun el => negb (returned (engine_getElementContext inspector el)))
            elements).

End Finalize.

End Controller.
Import Controller.

(* ------------------------------------------------------------------------- *)
(** ** Sample inputs *)
(* ------------------------------------------------------------------------- *)

Module Samples.

(** [{a: null, b: 1, c: 2, d: 3, e: 4, f: 5, g: 6, h: 7, i: 8}] *)
Definition nineEntries : list (jstring * JsValue Z) :=
  [ (js "a", VNull); (js "b", VNumber 1%Z); (js "c", VNumber 2%Z);
    (js "d", VNumber 3%Z); (js "e", VNumber 4%Z); (js "f", VNumber 5%Z);
    (js "g", VNumber 6%Z); (js "h", VNumber 7%Z); (js "i", VNumber 8%Z) ].

(** The entries of an object with an own property named [__proto__], as
    [JSON.parse] builds one, followed by eight more. *)
Definition protoEntries : list (jstring * JsValue Z) :=
  [ (js "__proto__", VNumber 0%Z); (js "b", VNumber 1%Z); (js "c", VNumber 2%Z);
    (js "d", VNumber 3%Z); (js "e", VNumber 4%Z); (js "f", VNumber 5%Z);
    (js "g", VNumber 6%Z); (js "h", VNumber 7%Z); (js "i", VNumber 8%Z) ].

(** [[1, null, 2]] *)
Definition oneNullTwo : JsValue Z :=
  VArray [VNumber 1%Z; VNull; VNumber 2%Z].

(** [{list: [1, 2, 3, 4, 5, 6], label: "x", inner: {ok: true}}] *)
Definition nestedPlain : JsValue Z :=
  VObject
    [ (js "list", VArray [VNumber 1%Z; VNumber 2%Z; VNumber 3%Z;
                          VNumber 4%Z; VNumber 5%Z; VNumber 6%Z]);
      (js "label", VString (js "x"));
      (js "inner", VObject [(js "ok", VBool true)]) ].

Definition zeroRect : DOMRect Z :=
  {| left := 0%Z; top := 0%Z; rect_width := 0%Z; rect_height := 0%Z |}.

Definition plainElement (tag : jstring) : ElementData Z :=
  {| tagName := tag; id := []; className := ClassNameString []; classList := [];
     attributes := []; textContent := Some []; boundingClientRect := zeroRect;
     isHTMLButtonElement := false; isHTMLAnchorElement := false;
     isConnected := true |}.

(** A detached tree:
<<
    <div>                                   element 0, no parent
      <span></span>                         element 1
      <p></p>                               element 2
      <span></span>                         element 3
      <button id="save-btn">Save</button>   element 4
      <a class="link primary"></a>           element 5
      <input data-test-id=" q ">            element 6
      <em data-testid="  "></em>            element 7
    </div>
>>  *)
Definition pageData (el : Element) : ElementData Z :=
  match el with
  | 0 => plainElement (js "DIV")
  | 1 => plainElement (js "SPAN")
  | 2 => plainElement (js "P")
  | 3 => plainElement (js "SPAN")
  | 4 => {| tagName := js "BUTTON"; id := js "save-btn"; className := ClassNameString [];
            classList := []; attributes := [(js "id", js "save-btn")];
            textContent := Some (js "Save"); boundingClientRect := zeroRect;
            isHTMLButtonElement := true; isHTMLAnchorElement := false;
            isConnected := true |}
  | 5 => {| tagName := js "A"; id := []; className := ClassNameString (js "link primary");
            classList := [js "link"; js "primary"];
            attributes := [(js "class", js "link primary")];
            textContent := Some []; boundingClientRect := zeroRect;
            isHTMLButtonElement := false; isHTMLAnchorElement := true;
            isConnected := true |}
  | 6 => {| tagName := js "INPUT"; id := []; className := ClassNameString []; classList := [];
            attributes := [(js "data-test-id", js " q ")];
            textContent := Some []; boundingClientRect := zeroRect;
            isHTMLButtonElement := false; isHTMLAnchorElement := false;
            isConnected := true |}
  | 7 => {| tagName := js "EM"; id := []; className := ClassNameString []; classList := [];
            attributes := [(js "data-testid", js "  ")];
            textContent := Some []; boundingClientRect := zeroRect;
            isHTMLButtonElement := false; isHTMLAnchorElement := false;
            isConnected := true |}
  | _ => plainElement (js "DIV")
  end.

Definition page : Document Z :=
  {| data := pageData;
     parentElement := fun el =>
       match el with
       | 1 | 2 | 3 | 4 | 5 | 6 | 7 => Some 0
       | _ => None
       end;
     elementChildren := fun el =>
       match el with
       | 0 => [1; 2; 3; 4; 5; 6; 7]
       | _ => []
       end;
     documentElementContains := fun _ => true;
     computedStyle := None;
     location := None |}.

(** A slice with one frame whose source file lies under [/app/]. *)
Definition appPageSource : SourceLocation Z :=
  {| fileName := js "/repo/app/shop/page.tsx";
     lineNumber := Some 10%Z; columnNumber := Some 5%Z;
     confidence := ConfHigh; origin := OriginBippy |}.

Definition appPageSlice : ReactTreeSlice Z :=
  {| stack :=
       [{| displayName := Some (js "ShopPage");
           isHost := false;
           source := Some appPageSource;
           flags := {| fl_isHost := false; fl_isComposite := true;
                       isSuspenseBoundary := None; isErrorBoundary := Some false;
                       isServerComponent := Some true; isLayoutLike := Some false |} |}];
     ownerIndex := Some 0%nat;
     ownerProps := None; ownerState := None; ownerContexts := None |}.

Definition routeInput (pathname : jstring) : FrameworkDetectionInput Z :=
  {| in_reactSlice := Some appPageSlice;
     in_url := js "http://localhost:3000" ++ pathname;
     in_pathname := pathname |}.

(** An introspection library with the hook installed and active.  The fiber
    of element [el] is [el]; its stack is the host fiber followed by the
    composite fiber 100, named [App], whose props are [onClick] and
    [label]. *)
Definition quietBippy : Bippy Z nat unit :=
  {| hasRDTHook := Returned true;
     isInstrumentationActive := Returned true;
     getFiberFromHostInstance := fun el => Returned (Some el);
     getLatestFiber := fun f => Returned f;
     getFiberStack := fun f => Returned [f; 100];
     getDisplayName := fun f => Returned (if (f <? 100)%nat then None else Some (js "App"));
     isHostFiber := fun f => Returned (f <? 100)%nat;
     isCompositeFiber := fun f => Returned (100 <=? f)%nat;
     traverseProps := fun f =>
       Returned (if (f <? 100)%nat then []
                 else [(js "onClick", VFunction (js "handleClick"));
                       (js "label", VString (js "Save"))]);
     traverseState := fun _ => Returned [];
     traverseContexts := fun _ => Returned [];
     detectReactBuildType := fun _ => Returned (js "development");
     renderers := [tt];
     getSource := fun _ =>
       Returned (Some {| sl_fileName := Some (js "/repo/app/shop/page.tsx");
                         sl_lineNumber := Some 10%Z;
                         sl_columnNumber := Some 5%Z |});
     fiberTagIsNumber := fun _ => true |}.

(** The same library, except that [getFiberStack] throws. *)
Definition throwingStackBippy : Bippy Z nat unit :=
  {| hasRDTHook := hasRDTHook quietBippy;
     isInstrumentationActive := isInstrumentationActive quietBippy;
     getFiberFromHostInstance := getFiberFromHostInstance quietBippy;
     getLatestFiber := getLatestFiber quietBippy;
     getFiberStack := fun _ => Threw (ErrorObject (js "fiber stack unavailable"));
     getDisplayName := getDisplayName quietBippy;
     isHostFiber := isHostFiber quietBippy;
     isCompositeFiber := isCompositeFiber quietBippy;
     traverseProps := traverseProps quietBippy;
     traverseState := traverseState quietBippy;
     traverseContexts := traverseContexts quietBippy;
     detectReactBuildType := detectReactBuildType quietBippy;
     renderers := renderers quietBippy;
     getSource := getSource quietBippy;
     fiberTagIsNumber := fiberTagIsNumber quietBippy |}.

(** The same library, except that the fiber lookup, the build-type detection
    and the source resolution throw. *)
Definition throwingLookupBippy : Bippy Z nat unit :=
  {| hasRDTHook := hasRDTHook quietBippy;
     isInstrumentationActive := isInstrumentationActive quietBippy;
     getFiberFromHostInstance := fun _ => Threw (ErrorObject (js "incompatible renderer"));
     getLatestFiber := getLatestFiber quietBippy;
     getFiberStack := getFiberStack quietBippy;
     getDisplayName := getDisplayName quietBippy;
     isHostFiber := isHostFiber quietBippy;
     isCompositeFiber := isCompositeFiber quietBippy;
     traverseProps := traverseProps quietBippy;
     traverseState := traverseState quietBippy;
     traverseContexts := traverseContexts quietBippy;
     detectReactBuildType := fun _ => Threw ThrownValue;
     renderers := renderers quietBippy;
     getSource := fun _ => Threw (ErrorObject (js "no source map"));
     fiberTagIsNumber := fiberTagIsNumber quietBippy |}.



(** [{ maxReactStackFrames: 0 }] and [{ reactInspectorMode: "sometimes" }] *)
Definition zeroFrames : PartialRuntimeConfig Z :=
  {| partial_reactInspectorMode := None;
     partial_maxReactStackFrames := Some 0%Z;
     partial_heuristics := None |}.

Definition bogusMode : PartialRuntimeConfig Z :=
  {| partial_reactInspectorMode := Some (js "sometimes");
     partial_maxReactStackFrames := None;
     partial_heuristics := None |}.

(** The same library as [quietBippy], except that [getFiberStack] throws for
    the fiber of element 5. *)
Definition flakyBippy : Bippy Z nat unit :=
  {| hasRDTHook := hasRDTHook quietBippy;
     isInstrumentationActive := isInstrumentationActive quietBippy;
     getFiberFromHostInstance := getFiberFromHostInstance quietBippy;
     getLatestFiber := getLatestFiber quietBippy;
     getFiberStack := fun f =>
       if (f =? 5)%nat then Threw (ErrorObject (js "fiber stack unavailable"))
       else getFiberStack quietBippy f;
     getDisplayName := getDisplayName quietBippy;
     isHostFiber := isHostFiber quietBippy;
     isCompositeFiber := isCompositeFiber quietBippy;
     traverseProps := traverseProps quietBippy;
     traverseState := traverseState quietBippy;
     traverseContexts := traverseContexts quietBippy;
     detectReactBuildType := detectReactBuildType quietBippy;
     renderers := renderers quietBippy;
     getSource := getSource quietBippy;
     fiberTagIsNumber := fiberTagIsNumber quietBippy |}.

Definition flakyInspector : InspectorEngine Z :=
  DefaultInspectorEngine flakyBippy page defaultRuntimeConfig.

(** A provider whose [sendContext] resolves and that defines both hooks. *)
Definition quietProvider : AgentProvider Z :=
  {| provider_id := js "clipboard";
     label := js "Clipboard (default)";
     sendContext := fun _ => Returned tt;
     hasOnSuccess := true;
     hasOnError := true |}.

Definition sampleBrowser : Browser :=
  {| nowISOString := js "2025-01-01T00:00:00.000Z";
     locationHref := js "http://localhost:3000/";
     randomUUID := Some (js "session-1");
     randomHex := js "8f3a" |}.

End Samples.

(* ------------------------------------------------------------------------- *)
(** ** Measures of converted values *)
(* ------------------------------------------------------------------------- *)

Module Measures.

Section WithNum.
Context {Num : Type}.

(** Every array holds at most 5 items and every object at most 8 entries,
    at every level, and no item and no entry value is null. *)
Fixpoint withinBudget (v : SerializableValue Num) : bool :=
  match v with
  | SArray items =>
      (length items <=? 5)%nat
      && List.forallb (fun x => negb (isNull x) && withinBudget x) items
  | SObject entries =>
      (length entries <=? 8)%nat
      && List.forallb (fun kv => negb (isNull (snd kv)) && withinBudget (snd kv))
           entries
  | _ => true
  end.

(** Levels of arrays and objects, the value itself included. *)
Fixpoint levels (v : SerializableValue Num) : nat :=
  match v with
  | SArray items =>
      S (List.fold_right (fun x m => Nat.max (levels x) m) 0%nat items)
  | SObject entries =>
      S (List.fold_right (fun kv m => Nat.max (levels (snd kv)) m) 0%nat entries)
  | _ => 0%nat
  end.

(** The number of strings, numbers, booleans and nulls in a value. *)
Fixpoint leaves (v : SerializableValue Num) : nat :=
  match v with
  | SArray items => List.fold_right (fun x m => (leaves x + m)%nat) 0%nat items
  | SObject entries =>
      List.fold_right (fun kv m => (leaves (snd kv) + m)%nat) 0%nat entries
  | _ => 1%nat
  end.

End WithNum.

(** The elements that the two ancestor loops of [buildDomNeighborhood] and
    [buildAncestorSelectorPath] visit: [current], its parent, and so on, at
    most [remaining] of them, nearest first. *)
Fixpoint ancestorChain {Num : Type} (doc : Document Num) (current : option Element)
  (remaining : nat) : list Element :=
  match current, remaining with
  | Some cur, S remaining' => cur :: ancestorChain doc (parentElement doc cur) remaining'
  | _, _ => []
  end.

(** The source locations of the frames that have one, in stack order. *)
Definition frameSources {Num : Type} (stack : list (ReactComponentFrame Num))
  : list (SourceLocation Num) :=
  List.flat_map
    (fun frame => match source frame with Some src => [src] | None => [] end)
    stack.

(** Counting in numbers: what [bumpTagCount] does with the count of a tag
    that names no member of [Object.prototype]. *)
Fixpoint countUp (counts : list (jstring * nat)) (tag : jstring)
  : list (jstring * nat) :=
  match counts with
  | [] => [(tag, 1%nat)]
  | (k, n) :: rest =>
      if jstring_eqb k tag then (k, (n + 1)%nat) :: rest
      else (k, n) :: countUp rest tag
  end.

(** Numeric counts as values of [tagCounts]. *)
Definition numbered (counts : list (jstring * nat)) : list (jstring * TagCount) :=
  List.map (fun kv => (fst kv, CountNumber (snd kv))) counts.

(** The number that a count is, 0 for a string. *)
Definition numericCount (value : TagCount) : nat :=
  match value with
  | CountNumber n => n
  | CountText _ => 0%nat
  end.

Section Handlers.
Context {Num : Type} `{Builtins Num}.

(** What the visitor of [recordHandlersFromFiber] keeps true of the
    handlers it has recorded and of the names it has seen. *)
Definition handlersInvariant (st : HandlerScan Num) : Prop :=
  seenNames st = List.map (@propName Num) (scan_handlers st)
  /\ NoDup (seenNames st)
  /\ forall h, In h (scan_handlers st) ->
       startsWith (propName h) (js "on") = true
       /\ inferenceSource h = FromPropName
       /\ inferredKind h = inferEventKindFromPropName (propName h)
       /\ comment h <> None.

End Handlers.

End Measures.
Import Measures.

(* ------------------------------------------------------------------------- *)
(** ** Further sample inputs *)
(* ------------------------------------------------------------------------- *)

Module Scenarios.

(** A mapper that doubles its item and logs the index it was called with. *)
Definition doubling (item index : nat) : nat * (list nat -> list nat) :=
  ((2 * item)%nat, fun log => log ++ [index]).

(** A document none of whose elements is connected. *)
Definition detachedPage : Document Z :=
  {| data := fun el =>
       {| tagName := js "DIV"; id := []; className := ClassNameString []; classList := [];
          attributes := []; textContent := None;
          boundingClientRect := Samples.zeroRect;
          isHTMLButtonElement := false; isHTMLAnchorElement := false;
          isConnected := false |};
     parentElement := fun _ => None;
     elementChildren := fun _ => [];
     documentElementContains := fun _ => false;
     computedStyle := None;
     location := None |}.

(** An engine all of whose captures reject. *)
Definition brokenInspector : InspectorEngine Z :=
  DefaultInspectorEngine Samples.throwingStackBippy Samples.page defaultRuntimeConfig.

(** A provider whose [sendContext] rejects and that defines both hooks. *)
Definition failingProvider : AgentProvider Z :=
  {| provider_id := js "clipboard";
     label := js "Clipboard (default)";
     sendContext := fun _ =>
       Threw (ErrorObject (js "Failed to copy session context to clipboard."));
     hasOnSuccess := true;
     hasOnError := true |}.

(** The slice of a host [button] rendered by the component [App]: the
    host frame, then the composite frame that owns it. *)
Definition ownerSlice : ReactTreeSlice Z :=
  {| stack :=
       [ {| displayName := None; isHost := true; source := None;
            flags := {| fl_isHost := true; fl_isComposite := false;
                        isSuspenseBoundary := None; isErrorBoundary := None;
                        isServerComponent := None; isLayoutLike := Some false |} |};
         {| displayName := Some (js "App"); isHost := false; source := None;
            flags := {| fl_isHost := false; fl_isComposite := true;
                        isSuspenseBoundary := None; isErrorBoundary := Some false;
                        isServerComponent := None; isLayoutLike := Some false |} |} ];
     ownerIndex := Some 1%nat;
     ownerProps := None; ownerState := None; ownerContexts := None |}.

(** The debug information of an element that has a fiber, in a development
    build. *)
Definition okDebug : ReactDebugInfo :=
  {| buildType := BuildDevelopment; inspectorStatus := StatusOk; message := None |}.

(** The default configuration with the mode [required]. *)
Definition requiredMode : GrabrRuntimeConfig Z :=
  {| reactInspectorMode := js "required";
     maxReactStackFrames := maxReactStackFrames (@defaultRuntimeConfig Z _);
     heuristics := heuristics (@defaultRuntimeConfig Z _) |}.

(** A session without elements and without instruction. *)
Definition bareSession : GrabrSession Z :=
  {| session_id := js "session-1";
     createdAt := js "2025-01-01T00:00:00.000Z";
     session_url := js "http://localhost:3000/";
     userInstruction := None;
     summary := None;
     elements := [] |}.

End Scenarios.

(* ------------------------------------------------------------------------- *)
(** ** What a finalized selection is expected to produce *)
(* ------------------------------------------------------------------------- *)

Module Expected.

Section WithNum.
Context {Num : Type}.
Variable doc : Document Num.
Variable inspector : InspectorEngine Num.
Variable currentInstruction : option jstring.
Variable browser : Browser.

(** The elements that [finalizeSelection] captures: the distinct elements
    of the selection that are connected to the document, in selection
    order. *)
Definition connectedElements (elements : list Element) : list Element :=
  List.filter (isElementConnectedToDocument doc) (dedupeElementsPreserveOrder elements).

(** The session that [finalizeSelection] builds for a selection: the
    contexts of the captured elements with the summary that counts them and
    the failures, an id that is [crypto.randomUUID()] when that exists and
    the creation time followed by random hexadecimal digits otherwise, the
    page's URL and the instruction of [startSelectionSession]. *)
Definition sessionOf (elements : list Element) : GrabrSession Num :=
  let connected := connectedElements elements in
  {| session_id :=
       match randomUUID browser with
       | Some uuid => uuid
       | None => nowISOString browser ++ js "-" ++ randomHex browser
       end;
     createdAt := nowISOString browser;
     session_url := locationHref browser;
     userInstruction := currentInstruction;
     summary :=
       Some (sessionSummary (length (capturedContexts inspector connected))
               (failedCaptures inspector connected));
     elements := capturedContexts inspector connected |}.

(** The progress calls of the capture phase: [0/total] at the start, then
    [1/total], [2/total], ... as the captures settle. *)
Definition captureProgress (total : nat) : list SelectionFinalizeProgress :=
  List.map
    (fun k => {| phase := BuildingContext; completed := k; total := total;
                 progress_message := None |})
    (List.seq 0 (S total)).

(** The exceptions of the captures that throw, in selection order. *)
Definition captureErrors (elements : list Element) : list Exception :=
  List.flat_map
    (fun el =>
       match engine_getElementContext inspector el with
       | Returned _ => []
       | Threw error => [error]
       end)
    elements.

End WithNum.

End Expected.
Import Expected.

(* ------------------------------------------------------------------------- *)
(** ** Session prompt ([renderSessionPrompt]) *)
(* ------------------------------------------------------------------------- *)

Module SessionPrompt.

Section RenderSession.
Context {Num : Type} `{Builtins Num}.

Definition sessionOpeningTag (id checksum : jstring) : jstring :=
  js "<ai_grab_session id=" ++ [34%N] ++ id ++ [34%N]
    ++ js " checksum=" ++ [34%N] ++ checksum ++ [34%N] ++ js ">".

Definition sessionClosingTag (id checksum : jstring) : jstring :=
  js "<ai_grab_session_end id=" ++ [34%N] ++ id ++ [34%N]
    ++ js " checksum=" ++ [34%N] ++ checksum ++ [34%N] ++ js "/>".

(** The session as the object that [JSON.stringify] walks, its properties
    in the order of the object literal of [finalizeSelection]. *)
Definition sessionJson (session : GrabrSession Num) : SerializableValue Num :=
  SObject [ (js "id", jString (session_id session));
            (js "createdAt", jString (createdAt session));
            (js "url", jString (session_url session));
            (js "userInstruction", jOption jString (userInstruction session));
            (js "summary", jOption jString (summary session));
            (js "elements", jList contextJson (elements session)) ].

(** [promptChecksum(stringifyForPrompt(session, false))] *)
Definition sessionChecksum (session : GrabrSession Num) : jstring :=
  promptChecksum
    (match stringifyForPrompt (sessionJson session) false with
     | Some text => text
     | None => js "undefined"
     end).

(** The callback of [session.elements.forEach((ctx, idx) => ...)]. *)
Definition renderElement (ctx : ElementContextV2 Num) (idx : nat) : LineWriter :=
  push (js "[element:" ++ nat_toString idx ++ js "]") ;;;
  push (renderElementContextPrompt ctx) ;;;
  push (js "[end:element:" ++ nat_toString idx ++ js "]").

(** [items.forEach((item, idx) => f item idx)], from index [idx] on. *)
Fixpoint forEachWithIndex {A : Type} (f : A -> nat -> LineWriter) (items : list A)
  (idx : nat) : LineWriter :=
  match items with
  | [] => skip
  | item :: rest => f item idx ;;; forEachWithIndex f rest (S idx)
  end.

(** The statements of [renderSessionPrompt], from the first [push] to the
    last.  Every [maybeAddLine] is called with [{ dropNull: false }]. *)
Definition renderSessionStatements (session : GrabrSession Num) : LineWriter :=
  let checksum := sessionChecksum session in
  let count := length (elements session) in
  push (sessionOpeningTag (session_id session) checksum) ;;;
  section (js "meta")
    (addLine (js "created_at") (jString (createdAt session)) false false ;;;
     addLine (js "url") (jString (session_url session)) false false ;;;
     addLine (js "instruction")
       (jString match userInstruction session with
                | Some instruction => instruction
                | None => js "(none)"
                end) false false ;;;
     addLine (js "summary")
       (jString match summary session with
                | Some text => text
                | None => js "Session with " ++ nat_toString count ++ js " elements."
                end) false false ;;;
     addLine (js "element_count") (jNat count) false false) ;;;
  section (js "elements") (forEachWithIndex renderElement (elements session) 0) ;;;
  push (sessionClosingTag (session_id session) checksum).

Definition renderSessionPrompt (session : GrabrSession Num) : jstring :=
  join [10%N] (renderSessionStatements session []).

(** The lines of one element of the session, as [renderElement] pushes
    them. *)
Definition elementBlock (ctx : ElementContextV2 Num) (idx : nat) : list jstring :=
  [ js "[element:" ++ nat_toString idx ++ js "]";
    renderElementContextPrompt ctx;
    js "[end:element:" ++ nat_toString idx ++ js "]" ].

(** The blocks of the elements, numbered from [idx]. *)
Fixpoint elementBlocks (contexts : list (ElementContextV2 Num)) (idx : nat)
  : list jstring :=
  match contexts with
  | [] => []
  | ctx :: rest => elementBlock ctx idx ++ elementBlocks rest (S idx)
  end.

End RenderSession.

End SessionPrompt.

(* ------------------------------------------------------------------------- *)
(** ** Default provider ([ClipboardAgentProvider]) *)
(* ------------------------------------------------------------------------- *)

Module Clipboard.

(** What the provider asks of the page.  [writeText] is
    [navigator.clipboard.writeText] where it exists, with the outcome of the
    awaited promise; [hasDocumentBody] is [typeof document !== "undefined" &&
    document.body]; [execCommandCopy] is the [try] block of the fallback,
    from [document.createElement("textarea")] to [removeChild]: it returns
    what [document.execCommand("copy")] returned, or throws what one of its
    statements threw. *)
Record Page := {
  writeText : option (jstring -> M unit);
  hasDocumentBody : bool;
  execCommandCopy : jstring -> M bool }.

(** The calls that reach the page, in order. *)
Inductive PageCall :=
| WriteText (text : jstring)
| ExecCommandCopy (text : jstring)
| ConsoleLog (text : jstring).

Record CopyOutcome := {
  copied : bool;
  reasons : list jstring;
  calls : list PageCall }.

(** The message pushed by a [catch (error)] clause:
    [error instanceof Error ? `${prefix}: ${error.message}` : prefix]. *)
Definition failureReason (prefix : jstring) (error : Exception) : jstring :=
  match error with
  | ErrorObject message => prefix ++ js ": " ++ message
  | ThrownValue => prefix
  end.

(** The second half of [tryCopyTextToClipboard], reached when the clipboard
    API is missing or has failed. *)
Definition execCommandFallback (page : Page) (text : jstring)
  (reasonsOut : list jstring) (calls : list PageCall) : CopyOutcome :=
  if negb (hasDocumentBody page) then
    {| copied := false;
       reasons := reasonsOut ++ [js "document/body not available for execCommand fallback."];
       calls := calls |}
  else
    match execCommandCopy page text with
    | Returned ok =>
        {| copied := ok;
           reasons :=
             if negb ok
             then reasonsOut ++ [js "document.execCommand('copy') returned false."]
             else reasonsOut;
           calls := calls ++ [ExecCommandCopy text] |}
    | Threw error =>
        {| copied := false;
           reasons := reasonsOut ++ [failureReason (js "execCommand fallback failed") error];
           calls := calls ++ [ExecCommandCopy text] |}
    end.

(** [tryCopyTextToClipboard(text, reasonsOut)]: the result, the array
    [reasonsOut] after the call, and the calls made. *)
Definition tryCopyTextToClipboard (page : Page) (text : jstring)
  (reasonsOut : list jstring) : CopyOutcome :=
  match writeText page with
  | Some write =>
      match write text with
      | Returned _ =>
          {| copied := true; reasons := reasonsOut; calls := [WriteText text] |}
      | Threw error =>
          execCommandFallback page text
            (reasonsOut ++ [failureReason (js "navigator.clipboard.writeText failed") error])
            [WriteText text]
      end
  | None =>
      execCommandFallback page text
        (reasonsOut ++ [js "navigator.clipboard.writeText not available."]) []
  end.

Section Provider.
Context {Num : Type} `{Builtins Num}.

(** [ClipboardAgentProvider.sendContext(session)]: the outcome of the
    promise and the calls made. *)
Definition sendContext (page : Page) (session : GrabrSession Num)
  : M unit * list PageCall :=
  let text := SessionPrompt.renderSessionPrompt session in
  let outcome := tryCopyTextToClipboard page text [] in
  let calls := calls outcome ++ [ConsoleLog text] in
  if negb (copied outcome) then
    let suffix :=
      if (0 <? length (reasons outcome))%nat
      then js " Reasons: " ++ join (js " | ") (reasons outcome)
      else [] in
    (Threw (ErrorObject (js "Failed to copy session context to clipboard." ++ suffix)),
     calls)
  else (Returned tt, calls).

End Provider.

End Clipboard.

(* ------------------------------------------------------------------------- *)
(** ** Selection overlay: the selection state *)
(* ------------------------------------------------------------------------- *)

Module Overlay.

(** The fields of [SelectionOverlay] that hold the selection.  The nodes
    that the overlay draws (highlight, selection boxes, HUD) are written
    from these fields and never read back. *)
Record OverlayState := {
  selecting : bool;
  sending : bool;
  helpVisible : bool;
  hoveredElement : option Element;
  selectedElements : list Element }.

Definition initialState : OverlayState :=
  {| selecting := false; sending := false; helpVisible := false;
     hoveredElement := None; selectedElements := [] |}.

(** What every handler keeps: no element is selected twice, and the overlay
    sends or shows its help only while it is selecting. *)
Definition selectionInvariant (st : OverlayState) : Prop :=
  NoDup (selectedElements st)
  /\ (sending st = true -> selecting st = true)
  /\ (helpVisible st = true -> selecting st = true).

(** A [MouseEvent]: [target] is the event target when it is an [Element]. *)
Record MouseEvent := {
  button : Z;
  target : option Element;
  shiftKey : bool;
  metaKey : bool;
  ctrlKey : bool }.

(** A [KeyboardEvent]. *)
Record KeyboardEvent := {
  key : jstring;
  code : jstring;
  altKey : bool;
  kb_shiftKey : bool }.

Section Selection.
Context {Num : Type} `{Builtins Num}.

(** The document at the time of the call. *)
Variable doc : Document Num.

(** [this.root.contains(node)] *)
Variable rootContains : Element -> bool.

(** [this.selectedElements.indexOf(el)] *)
Fixpoint indexOf (selected : list Element) (el : Element) (i : nat) : option nat :=
  match selected with
  | [] => None
  | x :: rest => if (x =? el)%nat then Some i else indexOf rest el (S i)
  end.

Definition beginSelection (st : OverlayState) : OverlayState :=
  if sending st then st
  else
    {| selecting := true; sending := sending st; helpVisible := false;
       hoveredElement := None; selectedElements := [] |}.

Definition cancelSelection (st : OverlayState) : OverlayState :=
  {| selecting := false; sending := false; helpVisible := false;
     hoveredElement := None; selectedElements := [] |}.

Definition toggleHelp (st : OverlayState) : OverlayState :=
  {| selecting := selecting st; sending := sending st;
     helpVisible := negb (helpVisible st);
     hoveredElement := hoveredElement st;
     selectedElements := selectedElements st |}.

Definition setSelected (st : OverlayState) (selected : list Element) : OverlayState :=
  {| selecting := selecting st; sending := sending st;
     helpVisible := helpVisible st;
     hoveredElement := hoveredElement st;
     selectedElements := selected |}.

Definition clearSelection (st : OverlayState) : OverlayState :=
  setSelected st [].

(** [pop()] drops the last element. *)
Definition undoSelection (st : OverlayState) : OverlayState :=
  if (length (selectedElements st) =? 0)%nat then st
  else setSelected st (List.removelast (selectedElements st)).

Definition selectHoveredParent (st : OverlayState) : OverlayState :=
  match hoveredElement st with
  | None => st
  | Some hovered =>
      match parentElement doc hovered with
      | None => st
      | Some parent =>
          if rootContains parent then st
          else
            {| selecting := selecting st; sending := sending st;
               helpVisible := helpVisible st;
               hoveredElement := Some parent;
               selectedElements := selectedElements st |}
      end
  end.

Definition toggleSelection (st : OverlayState) (el : Element) (multi : bool)
  : OverlayState :=
  let toggled :=
    if negb multi then [el]
    else
      match indexOf (selectedElements st) el 0 with
      | Some index => removeAt (selectedElements st) index
      | None => selectedElements st ++ [el]
      end in
  setSelected st (List.filter (isElementConnectedToDocument doc) toggled).

(** The handler [onClick]. *)
Definition onClick (st : OverlayState) (event : MouseEvent) : OverlayState :=
  if negb (selecting st) || sending st then st
  else if negb (button event =? 0)%Z then st
  else
    match target event with
    | None => st
    | Some el =>
        if rootContains el then st
        else toggleSelection st el (shiftKey event || metaKey event || ctrlKey event)
    end.

(** The handler [onMouseMove], which also schedules a redraw. *)
Definition onMouseMove (st : OverlayState) (event : MouseEvent) : OverlayState :=
  if negb (selecting st) || sending st then st
  else
    match target event with
    | None => st
    | Some el =>
        if rootContains el then st
        else
          {| selecting := selecting st; sending := sending st;
             helpVisible := helpVisible st;
             hoveredElement := Some el;
             selectedElements := selectedElements st |}
    end.

(** The elements that the overlay's [finalizeSelection] hands to the
    controller: the selection, or the hovered element when nothing is
    selected, without duplicates and without disconnected elements. *)
Definition selectionOrHovered (st : OverlayState) : list Element :=
  match selectedElements st, hoveredElement st with
  | [], Some hovered => [hovered]
  | selected, _ => selected
  end.

Definition elementsToFinalize (st : OverlayState) : list Element :=
  List.filter (isElementConnectedToDocument doc)
    (dedupeElementsPreserveOrder (selectionOrHovered st)).

(** The overlay's [finalizeSelection] up to its [await]: nothing that the
    controller does while the promise is pending writes these fields. *)
Definition finalizeSelectionStart (st : OverlayState) : OverlayState :=
  if (length (elementsToFinalize st) =? 0)%nat then cancelSelection st
  else
    {| selecting := selecting st; sending := true;
       helpVisible := helpVisible st;
       hoveredElement := hoveredElement st;
       selectedElements := selectionOrHovered st |}.

(** The [finally] block of the overlay's [finalizeSelection]. *)
Definition finalizeSelectionFinally (st : OverlayState) : OverlayState :=
  {| selecting := false; sending := false; helpVisible := false;
     hoveredElement := hoveredElement st;
     selectedElements := selectedElements st |}.

(** The handler [onKeyDown]. *)
Definition onKeyDown (st : OverlayState) (event : KeyboardEvent) : OverlayState :=
  if negb (selecting st) || sending st then st
  else if jstring_eqb (key event) (js "Escape") then cancelSelection st
  else if jstring_eqb (key event) (js "Enter") then finalizeSelectionStart st
  else if jstring_eqb (key event) (js "Backspace") then undoSelection st
  else if jstring_eqb (key event) (js "?")
          || jstring_eqb (toLowerCase (key event)) (js "h")
  then toggleHelp st
  else if jstring_eqb (key event) (js "ArrowUp")
          || jstring_eqb (toLowerCase (key event)) (js "p")
  then selectHoveredParent st
  else if jstring_eqb (toLowerCase (key event)) (js "x") then clearSelection st
  else st.

(** The listener of [registerGlobalToggleShortcut]. *)
Definition onGlobalKeyDown (st : OverlayState) (event : KeyboardEvent) : OverlayState :=
  if altKey event && kb_shiftKey event
     && (jstring_eqb (toLowerCase (key event)) (js "g")
         || jstring_eqb (code event) (js "KeyG"))
  then if selecting st || sending st then cancelSelection st else beginSelection st
  else st.

End Selection.

(** What reaches an overlay: a call of [beginSelection] (from
    [startSelectionSession]), an event for one of its listeners, or the
    settling of the promise that its [finalizeSelection] awaits. *)
Inductive OverlayEvent :=
| BeginSelection
| GlobalKeyDown (event : KeyboardEvent)
| KeyDown (event : KeyboardEvent)
| Click (event : MouseEvent)
| MouseMove (event : MouseEvent)
| FinalizeSettled.

Section Run.
Context {Num : Type} `{Builtins Num}.

(** An event together with the page as it is when the event arrives. *)
Record Moment := {
  moment_doc : Document Num;
  moment_rootContains : Element -> bool;
  moment_event : OverlayEvent }.

Definition dispatch (st : OverlayState) (moment : Moment) : OverlayState :=
  let doc := moment_doc moment in
  let rootContains := moment_rootContains moment in
  match moment_event moment with
  | BeginSelection => beginSelection st
  | GlobalKeyDown event => onGlobalKeyDown st event
  | KeyDown event => onKeyDown doc rootContains st event
  | Click event => onClick doc rootContains st event
  | MouseMove event => onMouseMove rootContains st event
  | FinalizeSettled => finalizeSelectionFinally st
  end.

(** The state of a new overlay after the given moments. *)
Definition run (moments : list Moment) : OverlayState :=
  List.fold_left dispatch moments initialState.

End Run.

End Overlay.

(* ========================================================================= *)
(** * Properties *)
(* ========================================================================= *)

(** ** Lists *)

Lemma In_firstn {A : Type} (x : A) (n : nat) (l : list A) :
  In x (firstn n l) -> In x l.
Proof.
  revert l. induction n as [|n IH]; intros [|y l]; simpl; try tauto.
  intros [->|H]; auto.
Qed.

(** ** Serializable-value converter *)

Section ConverterFacts.
Context {Num : Type}.
Implicit Types (v x : JsValue Num) (depth : Z).
Implicit Types (items : list (JsValue Num)).
Implicit Types (entries : list (jstring * JsValue Num)).

Lemma toSerializableValue_too_deep v depth :
  (depth > 2)%Z -> toSerializableValue v depth = SNull.
Proof.
  intros Hd. destruct v; simpl;
    destruct (depth >? 2)%Z eqn:E; try reflexivity; lia.
Qed.

Lemma toSerializableValue_array items depth :
  (depth <= 2)%Z ->
  toSerializableValue (VArray items) depth = SArray (arrayLoop depth items 0).
Proof.
  intros Hd. simpl.
  destruct (depth >? 2)%Z eqn:E; [lia|]. f_equal.
  match goal with
  | |- ?loop items 0%nat = _ =>
      enough (H : forall i, loop items i = arrayLoop depth items i) by apply H
  end.
  induction items as [|x rest IH]; intro i; [reflexivity|].
  cbn [arrayLoop]. rewrite <- !IH. reflexivity.
Qed.

Lemma toSerializableValue_object entries depth :
  (depth <= 2)%Z ->
  toSerializableValue (VObject entries) depth = SObject (objectLoop depth entries 0).
Proof.
  intros Hd. simpl.
  destruct (depth >? 2)%Z eqn:E; [lia|]. f_equal.
  match goal with
  | |- ?loop entries 0%nat = _ =>
      enough (H : forall i, loop entries i = objectLoop depth entries i) by apply H
  end.
  induction entries as [|[k x] rest IH]; intro i; [reflexivity|].
  cbn [objectLoop]. rewrite <- !IH. reflexivity.
Qed.

Lemma arrayLoop_closed depth items i :
  arrayLoop depth items i = convertedItems (firstn (5 - i) items) depth.
Proof.
  revert i. induction items as [|x rest IH]; intro i; cbn [arrayLoop].
  - now rewrite firstn_nil.
  - destruct (i <? 5)%nat eqn:E.
    + apply Nat.ltb_lt in E. rewrite !IH.
      replace (5 - i)%nat with (S (5 - S i)) by lia.
      unfold convertedItems. cbn [firstn map filter].
      now destruct (isNull (toSerializableValue x (depth + 1))).
    + apply Nat.ltb_ge in E.
      replace (5 - i)%nat with 0%nat by lia. reflexivity.
Qed.

Lemma objectLoop_closed depth entries count :
  objectLoop depth entries count
  = ownEntries (firstn (8 - count) (convertedEntries entries depth)).
Proof.
  revert count. induction entries as [|[k x] rest IH]; intro count;
    cbn [objectLoop].
  - now rewrite firstn_nil.
  - destruct (8 <=? count)%nat eqn:E.
    + apply Nat.leb_le in E.
      replace (8 - count)%nat with 0%nat by lia. reflexivity.
    + apply Nat.leb_gt in E. rewrite !IH.
      unfold convertedEntries. cbn [map filter fst snd].
      destruct (isNull (toSerializableValue x (depth + 1))) eqn:En;
        cbn [negb]; [reflexivity|].
      replace (8 - count)%nat with (S (8 - S count)) by lia.
      unfold ownEntries. cbn [firstn filter fst].
      now destruct (isProtoKey k).
Qed.

Lemma ownEntries_ordinary {A : Type} (entries : list (jstring * A)) :
  List.forallb (fun kv => negb (isProtoKey (fst kv))) entries = true ->
  ownEntries entries = entries.
Proof.
  intros Hall. unfold ownEntries.
  induction entries as [|kv rest IH]; [reflexivity|].
  simpl in *. apply andb_true_iff in Hall. destruct Hall as [Hkv Hrest].
  rewrite Hkv. f_equal. now apply IH.
Qed.

Lemma convertedItems_no_null items depth :
  ~ In SNull (convertedItems items depth).
Proof.
  unfold convertedItems. intro H.
  apply filter_In in H. destruct H as [_ H]. discriminate.
Qed.

Lemma convertedItems_length items depth :
  (length (convertedItems items depth) <= length items)%nat.
Proof.
  unfold convertedItems.
  etransitivity; [apply filter_length_le|]. now rewrite length_map.
Qed.

Lemma nesting_item x items :
  In x items -> (nesting x < nesting (VArray items))%nat.
Proof.
  simpl. induction items as [|y rest IH]; simpl; [tauto|].
  intros [->|H]; [lia|]. specialize (IH H). lia.
Qed.

Lemma nesting_entry k x entries :
  In (k, x) entries -> (nesting x < nesting (VObject entries))%nat.
Proof.
  simpl. induction entries as [|[k' y] rest IH]; simpl; [tauto|].
  intros [E|H]; [inversion E; subst; lia|]. specialize (IH H). lia.
Qed.

Lemma restricted_plain_not_null v :
  plainData v = true -> restricted v <> VNull.
Proof. destruct v; simpl; congruence. Qed.

Lemma asValue_null (s : SerializableValue Num) :
  isNull s = true -> asValue s = VNull.
Proof. destruct s; simpl; congruence. Qed.

(** On plain data without a [__proto__] key whose every node lies at depth
    at most 2 the converter is the restriction to the first 5 items and the
    first 8 entries. *)
Lemma toSerializableValue_plain (n : nat) :
  forall v depth,
    (nesting v <= n)%nat ->
    plainData v = true ->
    ordinaryKeys v = true ->
    (depth + Z.of_nat (nesting v) <= 2)%Z ->
    asValue (toSerializableValue v depth) = restricted v.
Proof.
  induction n as [|n IH]; intros v depth Hn Hp Ho Hd.
  - destruct v; simpl in *; try discriminate; try lia;
      destruct (depth >? 2)%Z eqn:E; try reflexivity; lia.
  - destruct v; simpl in Hp; try discriminate;
      try (simpl in *; destruct (depth >? 2)%Z eqn:E; [lia|reflexivity]).
    + (* array *)
      rewrite toSerializableValue_array by lia.
      rewrite arrayLoop_closed. cbn [asValue restricted]. f_equal.
      change (5 - 0)%nat with 5%nat. rewrite firstn_map.
      assert (Hall : forall x, In x (firstn 5 items) ->
                 asValue (toSerializableValue x (depth + 1)) = restricted x
                 /\ plainData x = true).
      { intros x Hx. apply In_firstn in Hx.
        pose proof (nesting_item _ _ Hx) as Hlt.
        rewrite forallb_forall in Hp. cbn [ordinaryKeys] in Ho.
        rewrite forallb_forall in Ho.
        split; [apply IH|]; auto; lia. }
      revert Hall. generalize (firstn 5 items). clear.
      induction l as [|x l IHl]; intros Hall; [reflexivity|].
      destruct (Hall x (or_introl eq_refl)) as [Hx Hpx].
      unfold convertedItems in *. simpl.
      destruct (isNull (toSerializableValue x (depth + 1))) eqn:En; simpl.
      * apply asValue_null in En. rewrite En in Hx.
        symmetry in Hx. now apply restricted_plain_not_null in Hx.
      * rewrite Hx. f_equal. apply IHl. intros y Hy. apply Hall. now right.
    + (* object *)
      rewrite toSerializableValue_object by lia.
      rewrite objectLoop_closed. cbn [asValue restricted]. f_equal.
      change (8 - 0)%nat with 8%nat.
      cbn [ordinaryKeys] in Ho.
      assert (Hkeys : List.forallb (fun kv => negb (isProtoKey (fst kv)))
                        (firstn 8 (convertedEntries entries depth)) = true).
      { apply forallb_forall. intros [k s] Hks. apply In_firstn in Hks.
        unfold convertedEntries in Hks. apply filter_In in Hks.
        destruct Hks as [Hks _]. apply in_map_iff in Hks.
        destruct Hks as ([k' x] & Ekx & Hin). inversion Ekx; subst.
        rewrite forallb_forall in Ho. specialize (Ho (k, x) Hin).
        cbn [fst snd] in *. apply andb_true_iff in Ho. apply Ho. }
      rewrite ownEntries_ordinary by exact Hkeys.
      assert (Hall : forall k x, In (k, x) entries ->
                 asValue (toSerializableValue x (depth + 1)) = restricted x
                 /\ plainData x = true).
      { intros k x Hx.
        pose proof (nesting_entry _ _ _ Hx) as Hlt.
        rewrite forallb_forall in Hp. rewrite forallb_forall in Ho.
        pose proof (Ho (k, x) Hx) as Hox. cbn [fst snd] in Hox.
        apply andb_true_iff in Hox. destruct Hox as [_ Hox].
        split; [apply IH|]; try lia.
        - apply (Hp (k, x) Hx).
        - exact Hox.
        - apply (Hp (k, x) Hx). }
      rewrite <- firstn_map. f_equal.
      revert Hall. clear.
      induction entries as [|[k x] l IHl]; intros Hall; [reflexivity|].
      destruct (Hall k x (or_introl eq_refl)) as [Hx Hpx].
      unfold convertedEntries in *. simpl.
      destruct (isNull (toSerializableValue x (depth + 1))) eqn:En; simpl.
      * apply asValue_null in En. rewrite En in Hx.
        symmetry in Hx. now apply restricted_plain_not_null in Hx.
      * rewrite Hx. f_equal. apply IHl. intros k' y Hy. apply (Hall k'). now right.
Qed.

Lemma convertedEntries_ordinary entries depth :
  List.forallb (fun kv => negb (isProtoKey (fst kv))) entries = true ->
  List.forallb (fun kv => negb (isProtoKey (fst kv)))
    (firstn 8 (convertedEntries entries depth)) = true.
Proof.
  intros Hall. apply forallb_forall. intros [k s] Hks. apply In_firstn in Hks.
  unfold convertedEntries in Hks. apply filter_In in Hks.
  destruct Hks as [Hks _]. apply in_map_iff in Hks.
  destruct Hks as ([k' x] & Ekx & Hin). inversion Ekx; subst.
  rewrite forallb_forall in Hall. apply (Hall (k, x) Hin).
Qed.

End ConverterFacts.

(** C3 (as amended).  For an object converted at depth at most 2 the budget
    of 8 goes to the first 8 entries whose converted value is not null, in
    iteration order: an entry converted to null is skipped and does not count
    toward the budget, so a later entry takes its place.  The result holds
    these entries, except one named [__proto__], which spends budget but
    becomes no property; for an object without such a key the result is
    exactly the first 8 entries whose converted value is not null. *)
Theorem C3_object_keeps_first_8_kept_entries
  (Num : Type) (entries : list (jstring * JsValue Num)) (depth : Z) :
  (depth <= 2)%Z ->
  toSerializableValue (VObject entries) depth
  = SObject (ownEntries (firstn 8 (convertedEntries entries depth)))
  /\ (List.forallb (fun kv => negb (isProtoKey (fst kv))) entries = true ->
      toSerializableValue (VObject entries) depth
      = SObject (firstn 8 (convertedEntries entries depth))).
Proof.
  intros Hd.
  rewrite toSerializableValue_object by assumption.
  rewrite objectLoop_closed. change (8 - 0)%nat with 8%nat.
  split; [reflexivity|].
  intros Hall. rewrite ownEntries_ordinary; [reflexivity|].
  now apply convertedEntries_ordinary.
Qed.

Lemma C3_object_keeps_first_8_kept_entries_witness :
  (0 <= 2)%Z
  /\ toSerializableValue (VObject Samples.nineEntries) 0
     = SObject (firstn 8 (convertedEntries Samples.nineEntries 0))
  /\ toSerializableValue (VObject Samples.protoEntries) 0
     = SObject (ownEntries (firstn 8 (convertedEntries Samples.protoEntries 0)))
  /\ ownEntries (firstn 8 (convertedEntries Samples.protoEntries 0))
     = [ (js "b", SNumber 1%Z); (js "c", SNumber 2%Z); (js "d", SNumber 3%Z);
         (js "e", SNumber 4%Z); (js "f", SNumber 5%Z); (js "g", SNumber 6%Z);
         (js "h", SNumber 7%Z) ].
Proof.
  split; [lia|]. split; [|split].
  - apply (@C3_object_keeps_first_8_kept_entries Z Samples.nineEntries 0%Z);
      [lia|reflexivity].
  - apply (@C3_object_keeps_first_8_kept_entries Z Samples.protoEntries 0%Z). lia.
  - reflexivity.
Defined.

(** C3 as stated fails.  With nine entries of which the first converts to
    null, the ninth entry ["i"] is kept, although the first 8 attempted
    entries end at ["h"]: the later entry backfills the skipped one. *)
Lemma C3_first_8_attempted_counterexample :
  toSerializableValue (VObject Samples.nineEntries) 0
  = SObject [ (js "b", SNumber 1%Z); (js "c", SNumber 2%Z); (js "d", SNumber 3%Z);
              (js "e", SNumber 4%Z); (js "f", SNumber 5%Z); (js "g", SNumber 6%Z);
              (js "h", SNumber 7%Z); (js "i", SNumber 8%Z) ]
  /\ first8Attempted Samples.nineEntries 0
     = [ (js "b", SNumber 1%Z); (js "c", SNumber 2%Z); (js "d", SNumber 3%Z);
         (js "e", SNumber 4%Z); (js "f", SNumber 5%Z); (js "g", SNumber 6%Z);
         (js "h", SNumber 7%Z) ]
  /\ toSerializableValue (VObject Samples.nineEntries) 0
     <> SObject (first8Attempted Samples.nineEntries 0).
Proof.
  split; [reflexivity|]. split; [reflexivity|].
  vm_compute. intro H. discriminate H.
Qed.

(** C4 (as amended).  At depth greater than 2 every value converts to null;
    at depth at most 2 a string, number, boolean or null is returned
    unchanged; and a value built only from strings, numbers, booleans,
    arrays and objects, none of which has an own property named
    [__proto__], all of whose nodes lie at depth at most 2, converts to
    itself restricted to the first 8 entries of every object and the first 5
    items of every array. *)
Theorem C4_depth_cap_primitives_plain_data
  (Num : Type) (v : JsValue Num) (depth : Z) :
  ((depth > 2)%Z -> toSerializableValue v depth = SNull)
  /\ ((depth <= 2)%Z -> isSerializablePrimitive v = true ->
      asValue (toSerializableValue v depth) = v)
  /\ (plainData v = true -> ordinaryKeys v = true ->
      (depth + Z.of_nat (nesting v) <= 2)%Z ->
      asValue (toSerializableValue v depth) = restricted v).
Proof.
  split; [apply toSerializableValue_too_deep|]. split.
  - intros Hd Hp. destruct v; simpl in Hp; try discriminate; simpl;
      destruct (depth >? 2)%Z eqn:E; try reflexivity; lia.
  - intros Hp Ho Hd. now apply (toSerializableValue_plain (n := nesting v)).
Qed.

Lemma C4_depth_cap_primitives_plain_data_witness :
  toSerializableValue Samples.nestedPlain 3 = SNull
  /\ asValue (toSerializableValue (VString (js "x") : JsValue Z) 0) = VString (js "x")
  /\ asValue (toSerializableValue Samples.nestedPlain 0)
     = restricted Samples.nestedPlain.
Proof.
  split; [|split].
  - apply (proj1 (C4_depth_cap_primitives_plain_data Samples.nestedPlain 3)). lia.
  - apply (proj1 (proj2 (C4_depth_cap_primitives_plain_data
                           (VString (js "x") : JsValue Z) 0)));
      [lia|reflexivity].
  - apply (proj2 (proj2 (C4_depth_cap_primitives_plain_data Samples.nestedPlain 0)));
      [reflexivity|reflexivity|simpl; lia].
Defined.

(** C4 as stated fails.  [[1, null, 2]] is acyclic and nested one level
    deep, yet its conversion [[1, 2]] is not the input restricted to 5
    items, which still is [[1, null, 2]]. *)
Lemma C4_structural_equality_counterexample :
  (nesting Samples.oneNullTwo <= 2)%nat
  /\ asValue (toSerializableValue Samples.oneNullTwo 0)
     = VArray [VNumber 1%Z; VNumber 2%Z]
  /\ restricted Samples.oneNullTwo = Samples.oneNullTwo
  /\ asValue (toSerializableValue Samples.oneNullTwo 0)
     <> restricted Samples.oneNullTwo.
Proof.
  split; [simpl; lia|]. split; [reflexivity|]. split; [reflexivity|].
  vm_compute. intro H. discriminate H.
Qed.

(** C10.  For an array converted at depth at most 2 the result holds the
    converted values of the first 5 elements except those that are null.  A
    literal [null] element converts to null, just as a function does, and is
    dropped: the result never contains null, and [[1, null, 2]] becomes
    [[1, 2]], shorter than [min 5 3] although every element is a serializable
    primitive. *)
Theorem C10_array_drops_literal_null
  (Num : Type) (items : list (JsValue Num)) (depth : Z) :
  (depth <= 2)%Z ->
  exists out,
    toSerializableValue (VArray items) depth = SArray out
    /\ out = convertedItems (firstn 5 items) depth
    /\ ~ In SNull out
    /\ (length out <= Nat.min 5 (length items))%nat
    /\ toSerializableValue (VNull : JsValue Num) (depth + 1) = SNull
    /\ (forall f, toSerializableValue (VFunction f : JsValue Num) (depth + 1) = SNull)
    /\ (forall a b : Num,
          forallb isSerializablePrimitive [VNumber a; VNull; VNumber b] = true
          /\ toSerializableValue (VArray [VNumber a; VNull; VNumber b]) 0
             = SArray [SNumber a; SNumber b]).
Proof.
  intros Hd. exists (convertedItems (firstn 5 items) depth).
  split.
  { rewrite toSerializableValue_array by assumption.
    now rewrite arrayLoop_closed. }
  split; [reflexivity|].
  split; [apply convertedItems_no_null|].
  split.
  { etransitivity; [apply convertedItems_length|].
    rewrite length_firstn. reflexivity. }
  split.
  { simpl. now destruct (depth + 1 >? 2)%Z. }
  split.
  { intro f. simpl. now destruct (depth + 1 >? 2)%Z. }
  intros a b. split; reflexivity.
Qed.

Lemma C10_array_drops_literal_null_witness :
  (0 <= 2)%Z /\
  exists out,
    toSerializableValue Samples.oneNullTwo 0 = SArray out
    /\ out = [SNumber 1%Z; SNumber 2%Z]
    /\ (length out < Nat.min 5 3)%nat.
Proof.
  split; [lia|].
  destruct (@C10_array_drops_literal_null Z
              [VNumber 1%Z; VNull; VNumber 2%Z] 0%Z ltac:(lia))
    as (out & Hout & Heq & _).
  exists out. split; [exact Hout|].
  split; [rewrite Heq; reflexivity|].
  rewrite Heq. simpl. lia.
Defined.

(** ** DOM summarizer: text snippets *)

Lemma slice_prefix_length (s : jstring) (limit : Z) :
  (0 <= limit < Z.of_nat (length s))%Z ->
  slice s 0 limit = firstn (Z.to_nat limit) s
  /\ Z.of_nat (length (slice s 0 limit)) = limit.
Proof.
  intros Hl. unfold slice.
  replace (0 <? 0)%Z with false by reflexivity.
  destruct (limit <? 0)%Z eqn:E; [lia|].
  rewrite Z.min_l by lia. rewrite Z.min_l by lia.
  rewrite Z.sub_0_r. change (Z.to_nat 0) with 0%nat. rewrite skipn_O.
  split; [reflexivity|].
  rewrite length_firstn. lia.
Qed.

Lemma trimStart_head (s : jstring) (c : code_unit) (r : jstring) :
  trimStart s = c :: r -> isWhiteSpace c = false.
Proof.
  induction s as [|x s IH]; simpl; [discriminate|].
  destruct (isWhiteSpace x) eqn:E; [exact IH|].
  intros Hs. inversion Hs; subst. exact E.
Qed.

Lemma trimStart_suffix (s : jstring) :
  exists p, s = p ++ trimStart s.
Proof.
  induction s as [|x s [p IH]]; simpl; [now exists []|].
  destruct (isWhiteSpace x).
  - exists (x :: p). simpl. now rewrite <- IH.
  - now exists [].
Qed.

Lemma trim_head (s : jstring) (c : code_unit) :
  hd_error (trim s) = Some c -> isWhiteSpace c = false.
Proof.
  unfold trim, trimEnd. set (u := trimStart s).
  destruct (trimStart_suffix (rev u)) as [p Hp].
  apply (f_equal (@rev _)) in Hp. rewrite rev_involutive, rev_app_distr in Hp.
  destruct (rev (trimStart (rev u))) as [|x t]; [discriminate|].
  simpl. intros E. inversion E; subst x.
  destruct u as [|y r] eqn:Eu; [discriminate|].
  simpl in Hp. inversion Hp; subst y.
  eapply trimStart_head. exact Eu.
Qed.

Lemma trim_last (s : jstring) (c : code_unit) :
  hd_error (rev (trim s)) = Some c -> isWhiteSpace c = false.
Proof.
  unfold trim, trimEnd. rewrite rev_involutive.
  destruct (trimStart (rev (trimStart s))) as [|x t] eqn:E; [discriminate|].
  simpl. intros Ec. inversion Ec; subst x.
  eapply trimStart_head. exact E.
Qed.

Lemma replaceWhiteSpaceRuns_spaces (inRun : bool) (s : jstring) (c : code_unit) :
  In c (replaceWhiteSpaceRuns inRun s) -> isWhiteSpace c = true -> c = 32%N.
Proof.
  revert inRun. induction s as [|x s IH]; intro inRun; simpl; [tauto|].
  destruct (isWhiteSpace x) eqn:E.
  - destruct inRun; [apply IH|].
    intros [<-|Hin] Hc; [reflexivity|]. now apply (IH true).
  - intros [<-|Hin] Hc; [congruence|]. now apply (IH false).
Qed.

Lemma replaceWhiteSpaceRuns_after_run (s : jstring) (c : code_unit) :
  hd_error (replaceWhiteSpaceRuns true s) = Some c -> isWhiteSpace c = false.
Proof.
  induction s as [|x s IH]; simpl; [discriminate|].
  destruct (isWhiteSpace x) eqn:E; [exact IH|].
  simpl. intros Ec. inversion Ec; subst. exact E.
Qed.

Lemma replaceWhiteSpaceRuns_single (inRun : bool) (s : jstring) (i : nat)
  (c d : code_unit) :
  nth_error (replaceWhiteSpaceRuns inRun s) i = Some c ->
  nth_error (replaceWhiteSpaceRuns inRun s) (S i) = Some d ->
  isWhiteSpace c = true -> isWhiteSpace d = false.
Proof.
  revert inRun i. induction s as [|x s IH]; intros inRun i; simpl.
  - destruct i; discriminate.
  - destruct (isWhiteSpace x) eqn:E.
    + destruct inRun; [apply IH|].
      destruct i as [|i]; simpl.
      * intros _ Hd _. apply replaceWhiteSpaceRuns_after_run with (s := s).
        destruct (replaceWhiteSpaceRuns true s); [discriminate|exact Hd].
      * apply IH.
    + destruct i as [|i]; simpl.
      * intros Hc _ Hw. inversion Hc; subst. congruence.
      * apply IH.
Qed.

Lemma replaceWhiteSpaceRuns_head (s : jstring) (c : code_unit) :
  (forall x, hd_error s = Some x -> isWhiteSpace x = false) ->
  hd_error (replaceWhiteSpaceRuns false s) = Some c -> isWhiteSpace c = false.
Proof.
  destruct s as [|x s]; simpl; [discriminate|].
  intros Hx. rewrite (Hx x eq_refl). simpl. intros E. inversion E; subst.
  apply Hx. reflexivity.
Qed.

Lemma replaceWhiteSpaceRuns_snoc (inRun : bool) (s : jstring) (c : code_unit) :
  isWhiteSpace c = false ->
  replaceWhiteSpaceRuns inRun (s ++ [c]) = replaceWhiteSpaceRuns inRun s ++ [c].
Proof.
  intros Hc. revert inRun. induction s as [|x s IH]; intro inRun; simpl.
  - now rewrite Hc.
  - destruct (isWhiteSpace x); [destruct inRun|]; simpl; now rewrite IH.
Qed.

Lemma replaceWhiteSpaceRuns_last (s : jstring) (c : code_unit) :
  (forall x, hd_error (rev s) = Some x -> isWhiteSpace x = false) ->
  hd_error (rev (replaceWhiteSpaceRuns false s)) = Some c -> isWhiteSpace c = false.
Proof.
  intros Hx.
  destruct (rev s) as [|x r] eqn:E.
  - apply (f_equal (@rev _)) in E. rewrite rev_involutive in E. subst s.
    discriminate.
  - apply (f_equal (@rev _)) in E. rewrite rev_involutive in E. subst s.
    simpl. rewrite replaceWhiteSpaceRuns_snoc by (apply Hx; reflexivity).
    rewrite rev_app_distr. simpl. intros Ec. inversion Ec; subst.
    apply Hx. reflexivity.
Qed.

(** The trimmed and collapsed text: its only white space is the space
    unit, never at either end and never twice in a row. *)
Lemma normalizeText_shape (text : jstring) :
  let t := normalizeText text in
  (forall c, In c t -> isWhiteSpace c = true -> c = 32%N)
  /\ (forall c, hd_error t = Some c -> isWhiteSpace c = false)
  /\ (forall c, hd_error (rev t) = Some c -> isWhiteSpace c = false)
  /\ (forall i c d, nth_error t i = Some c -> nth_error t (S i) = Some d ->
        isWhiteSpace c = true -> isWhiteSpace d = false).
Proof.
  unfold normalizeText, collapseWhiteSpace. cbv zeta.
  split; [intro c; apply replaceWhiteSpaceRuns_spaces|].
  split; [intro c; apply replaceWhiteSpaceRuns_head; intro x; apply trim_head|].
  split; [intro c; apply replaceWhiteSpaceRuns_last; intro x; apply trim_last|].
  intros i c d. apply replaceWhiteSpaceRuns_single.
Qed.

(** C6 (as amended).  For every text and every limit that is not negative,
    [truncateText] trims the text and collapses its white-space runs, and
    returns the result unchanged when its length is at most the limit;
    otherwise it returns the first [limit] units followed by the single
    ellipsis unit.  The output has length at most [limit + 1], and exactly
    [limit + 1] if and only if the trimmed and collapsed text is longer than
    the limit.  In the trimmed and collapsed text the only white space is
    the space unit, which stands neither first nor last nor twice in a
    row. *)
Theorem C6_truncateText_length (text : jstring) (limit : Z) :
  (0 <= limit)%Z ->
  let trimmed := collapseWhiteSpace (trim text) in
  let out := truncateText text limit in
  (Z.of_nat (length out) <= limit + 1)%Z
  /\ (Z.of_nat (length out) = (limit + 1)%Z <-> (Z.of_nat (length trimmed) > limit)%Z)
  /\ ((Z.of_nat (length trimmed) <= limit)%Z -> out = trimmed)
  /\ ((Z.of_nat (length trimmed) > limit)%Z ->
      out = firstn (Z.to_nat limit) trimmed ++ [8230%N])
  /\ (forall c, In c trimmed -> isWhiteSpace c = true -> c = 32%N)
  /\ (forall c, hd_error trimmed = Some c -> isWhiteSpace c = false)
  /\ (forall c, hd_error (rev trimmed) = Some c -> isWhiteSpace c = false)
  /\ (forall i c d,
        nth_error trimmed i = Some c -> nth_error trimmed (S i) = Some d ->
        isWhiteSpace c = true -> isWhiteSpace d = false).
Proof.
  intros Hl trimmed out.
  assert (Hout : (Z.of_nat (length out) <= limit + 1)%Z
                 /\ (Z.of_nat (length out) = (limit + 1)%Z
                     <-> (Z.of_nat (length trimmed) > limit)%Z)
                 /\ ((Z.of_nat (length trimmed) <= limit)%Z -> out = trimmed)
                 /\ ((Z.of_nat (length trimmed) > limit)%Z ->
                     out = firstn (Z.to_nat limit) trimmed ++ [8230%N])).
  { subst out. unfold truncateText, normalizeText. fold trimmed.
    destruct (Z.of_nat (length trimmed) <=? limit)%Z eqn:E.
    - apply Z.leb_le in E. repeat split; try lia; intros; try reflexivity; lia.
    - apply Z.leb_gt in E.
      destruct (@slice_prefix_length trimmed limit) as [Hs Hlen]; [lia|].
      rewrite length_app, Nat2Z.inj_add, Hlen. simpl (Z.of_nat (length [_])).
      repeat split; try lia; intros; try lia.
      now rewrite Hs. }
  destruct Hout as (H1 & H2 & H3 & H4).
  split; [exact H1|]. split; [exact H2|]. split; [exact H3|]. split; [exact H4|].
  exact (normalizeText_shape text).
Qed.

Lemma C6_truncateText_length_witness :
  (0 <= 5)%Z
  /\ truncateText (js "  hello   world ") 5 = js "hello" ++ [8230%N]
  /\ (Z.of_nat (length (truncateText (js "  hello   world ") 5)) <= 5 + 1)%Z.
Proof.
  split; [lia|]. split; [reflexivity|].
  apply (proj1 (@C6_truncateText_length (js "  hello   world ") 5%Z ltac:(lia))).
Defined.

(** C6 as stated fails for a negative limit: [slice(0, -1)] drops only the
    last unit, so ["hello"] with limit -1 gives ["hell…"], of length 5, which
    exceeds [limit + 1 = 0]. *)
Lemma C6_negative_limit_counterexample :
  truncateText (js "hello") (-1) = js "hell" ++ [8230%N]
  /\ ~ (Z.of_nat (length (truncateText (js "hello") (-1))) <= -1 + 1)%Z.
Proof.
  split; [reflexivity|]. vm_compute. intro H. apply H. reflexivity.
Qed.

(** ** DOM summarizer: preferred selector *)

Lemma jstring_eqb_eq (a b : jstring) : jstring_eqb a b = true <-> a = b.
Proof.
  revert b. induction a as [|x a IH]; intros [|y b]; simpl;
    try (split; congruence).
  rewrite andb_true_iff, N.eqb_eq, IH. split.
  - intros [-> ->]. reflexivity.
  - intros E. inversion E. auto.
Qed.

Section SelectorFacts.
Context {Num : Type} `{Builtins Num}.
Variable doc : Document Num.

(** The loop counts the siblings before [el] that carry its tag name. *)
Lemma nthOfTypeLoop_counts (el : Element) (before after : list Element)
  (index : nat) :
  ~ In el before ->
  nthOfTypeLoop doc el (before ++ el :: after) index
  = (index
     + length (List.filter
                 (fun sibling =>
                    jstring_eqb (tagName (data doc sibling)) (tagName (data doc el)))
                 before))%nat.
Proof.
  revert index. induction before as [|s before IH]; intros index Hnot; simpl.
  - rewrite Nat.eqb_refl. lia.
  - destruct (s =? el)%nat eqn:E.
    + apply Nat.eqb_eq in E. exfalso. apply Hnot. now left.
    + rewrite IH by (intro Hin; apply Hnot; now right).
      destruct (jstring_eqb _ _); simpl; lia.
Qed.

Lemma getDataTestId_spec (el : Element) (t : jstring) :
  getDataTestId doc el = Some t <->
  exists raw,
    (getAttribute doc el (js "data-testid") = Some raw
     \/ (getAttribute doc el (js "data-testid") = None
         /\ getAttribute doc el (js "data-test-id") = Some raw))
    /\ trim raw = t /\ t <> [].
Proof.
  unfold getDataTestId.
  destruct (getAttribute doc el (js "data-testid")) as [v|] eqn:E1.
  - destruct (length (trim v) =? 0)%nat eqn:El.
    + split; [discriminate|]. intros (raw & [Hr|[Hr _]] & Ht & Hne);
        [|discriminate]. inversion Hr; subst raw.
      apply Nat.eqb_eq in El. destruct (trim v); [congruence|discriminate].
    + split.
      * intros E. inversion E; subst t. exists v. repeat split; auto.
        intro Hn. rewrite Hn in El. discriminate.
      * intros (raw & [Hr|[Hr _]] & Ht & Hne); [|discriminate].
        inversion Hr; subst raw. now rewrite Ht.
  - destruct (getAttribute doc el (js "data-test-id")) as [v|] eqn:E2.
    + destruct (length (trim v) =? 0)%nat eqn:El.
      * split; [discriminate|]. intros (raw & [Hr|[_ Hr]] & Ht & Hne);
          [discriminate|]. inversion Hr; subst raw.
        apply Nat.eqb_eq in El. destruct (trim v); [congruence|discriminate].
      * split.
        -- intros E. inversion E; subst t. exists v. repeat split; auto.
           intro Hn. rewrite Hn in El. discriminate.
        -- intros (raw & [Hr|[_ Hr]] & Ht & Hne); [discriminate|].
           inversion Hr; subst raw. now rewrite Ht.
    + split; [discriminate|].
      intros (raw & [Hr|[_ Hr]] & _); discriminate.
Qed.

End SelectorFacts.

(** C7 (as amended).  [buildPreferredSelector] applies its rules in order,
    the first match winning: (1) a non-empty id without a space gives
    [#id]; (2) otherwise a test id gives [[data-testid="..."]], the test id
    being the trimmed value of [data-testid], or of [data-test-id] when
    [data-testid] is absent, provided the trimmed value is not empty;
    (3) otherwise a non-empty class list gives the lower-cased tag chained
    with all classes; (4) otherwise an element with a parent gives
    [tag:nth-of-type(n)], [n] being 1 plus the number of preceding siblings
    with the same tag name; and an element without a parent gives the bare
    tag.  Identifiers pass through [CSS.escape]. *)
Theorem C7_preferred_selector_rules
  (Num : Type) (B : Builtins Num) (doc : Document Num) (el : Element) :
  let d := data doc el in
  let usableId := negb (length (id d) =? 0)%nat && negb (includes (id d) (js " ")) in
  let classes := List.filter (fun cls => (0 <? length cls)%nat) (classList d) in
  let tag := toLowerCase (tagName d) in
  (usableId = true ->
   buildPreferredSelector doc el = js "#" ++ CSS_escape (id d))
  /\ (forall t,
        usableId = false -> getDataTestId doc el = Some t ->
        buildPreferredSelector doc el
        = js "[data-testid=" ++ [34%N] ++ CSS_escape t ++ [34%N] ++ js "]")
  /\ (forall t,
        getDataTestId doc el = Some t <->
        exists raw,
          (getAttribute doc el (js "data-testid") = Some raw
           \/ (getAttribute doc el (js "data-testid") = None
               /\ getAttribute doc el (js "data-test-id") = Some raw))
          /\ trim raw = t /\ t <> [])
  /\ (usableId = false -> getDataTestId doc el = None -> classes <> [] ->
      buildPreferredSelector doc el
      = tag ++ js "." ++ join (js ".") (List.map CSS_escape classes))
  /\ (forall parent before after,
        usableId = false -> getDataTestId doc el = None -> classes = [] ->
        parentElement doc el = Some parent ->
        elementChildren doc parent = before ++ el :: after ->
        ~ In el before ->
        buildPreferredSelector doc el
        = tag ++ js ":nth-of-type("
            ++ nat_toString
                 (1 + length (List.filter
                                (fun sibling =>
                                   jstring_eqb (tagName (data doc sibling)) (tagName d))
                                before))
            ++ js ")")
  /\ (usableId = false -> getDataTestId doc el = None -> classes = [] ->
      parentElement doc el = None ->
      buildPreferredSelector doc el = tag).
Proof.
  intros d usableId classes tag.
  unfold buildPreferredSelector. fold d. fold usableId. fold classes. fold tag.
  split; [intros ->; reflexivity|].
  split; [intros t -> ->; reflexivity|].
  split; [intro t; apply getDataTestId_spec|].
  split.
  { intros -> -> Hc. destruct classes; [congruence|reflexivity]. }
  split.
  { intros parent before after -> -> -> -> -> Hnot. simpl (0 <? length []).
    cbv iota. now rewrite nthOfTypeLoop_counts. }
  intros -> -> -> ->. reflexivity.
Qed.

Lemma C7_preferred_selector_rules_witness :
  buildPreferredSelector Samples.page 4 = js "#save-btn"
  /\ buildPreferredSelector Samples.page 6 = js "[data-testid=" ++ [34%N] ++ js "q" ++ [34%N] ++ js "]"
  /\ buildPreferredSelector Samples.page 5 = js "a.link.primary"
  /\ buildPreferredSelector Samples.page 3 = js "span:nth-of-type(2)"
  /\ buildPreferredSelector Samples.page 7 = js "em:nth-of-type(1)"
  /\ buildPreferredSelector Samples.page 0 = js "div".
Proof.
  pose proof (@C7_preferred_selector_rules Z _ Samples.page 4) as H4.
  pose proof (@C7_preferred_selector_rules Z _ Samples.page 6) as H6.
  pose proof (@C7_preferred_selector_rules Z _ Samples.page 5) as H5.
  pose proof (@C7_preferred_selector_rules Z _ Samples.page 3) as H3.
  pose proof (@C7_preferred_selector_rules Z _ Samples.page 7) as H7.
  pose proof (@C7_preferred_selector_rules Z _ Samples.page 0) as H0.
  cbv zeta in *.
  split; [|split; [|split; [|split; [|split]]]].
  - rewrite (proj1 H4); reflexivity.
  - rewrite (proj1 (proj2 H6) (js "q")); reflexivity.
  - rewrite (proj1 (proj2 (proj2 (proj2 H5)))); try reflexivity. discriminate.
  - rewrite (proj1 (proj2 (proj2 (proj2 (proj2 H3)))) 0%nat [1; 2]%nat [4; 5; 6; 7]%nat);
      try reflexivity.
    simpl. intros [E|[E|[]]]; discriminate.
  - rewrite (proj1 (proj2 (proj2 (proj2 (proj2 H7)))) 0%nat [1; 2; 3; 4; 5; 6]%nat []);
      try reflexivity.
    simpl. intros [E|[E|[E|[E|[E|[E|[]]]]]]]; discriminate.
  - rewrite (proj2 (proj2 (proj2 (proj2 (proj2 H0))))); reflexivity.
Defined.

(** C7 as stated fails.  The [div] of the sample page has no id, no test id,
    no class and no parent: none of the rules (1) to (3) applies, and the
    selector is the bare tag, not [div:nth-of-type(n)] for any [n]. *)
Lemma C7_positional_fallback_counterexample :
  id (data Samples.page 0) = []
  /\ getDataTestId Samples.page 0 = None
  /\ classList (data Samples.page 0) = []
  /\ buildPreferredSelector Samples.page 0 = js "div"
  /\ forall n : nat,
       buildPreferredSelector Samples.page 0
       <> js "div" ++ js ":nth-of-type(" ++ nat_toString n ++ js ")".
Proof.
  repeat (split; [reflexivity|]).
  intros n E. apply (f_equal (@length _)) in E.
  change (buildPreferredSelector Samples.page 0) with (js "div") in E.
  rewrite !length_app in E. simpl in E. lia.
Qed.


(** ** Framework strategy: route pattern guess *)

Section RouteFacts.
Context {Num : Type} `{Builtins Num}.

Lemma nth_error_snoc_old {A : Type} (l : list A) (x : A) (i : nat) (y : A) :
  nth_error l i = Some y -> nth_error (l ++ [x]) i = Some y.
Proof.
  intros E. rewrite nth_error_app1; [exact E|].
  apply nth_error_Some. congruence.
Qed.

Lemma nth_error_snoc_cases {A : Type} (l : list A) (x : A) (i : nat) (y : A) :
  nth_error (l ++ [x]) i = Some y ->
  nth_error l i = Some y \/ (i = length l /\ y = x).
Proof.
  intros E. destruct (Nat.lt_ge_cases i (length l)) as [Hlt|Hge].
  - left. now rewrite nth_error_app1 in E.
  - right. rewrite nth_error_app2 in E by assumption.
    destruct (i - length l)%nat as [|k] eqn:Ek; simpl in E.
    + inversion E. split; [lia|reflexivity].
    + destruct k; discriminate.
Qed.

Lemma nth_error_snoc_new {A : Type} (l : list A) (x : A) :
  nth_error (l ++ [x]) (length l) = Some x.
Proof. rewrite nth_error_app2 by lia. now rewrite Nat.sub_diag. Qed.

Lemma literal_test (seg : jstring) :
  (2 <? length seg)%nat && jstring_eqb seg (toLowerCase seg) = false <->
  ((length seg <= 2)%nat \/ seg <> toLowerCase seg).
Proof.
  rewrite andb_false_iff, Nat.ltb_ge. split.
  - intros [Hl|He]; [now left|right].
    intro E. apply jstring_eqb_eq in E. congruence.
  - intros [Hl|He]; [now left|right].
    destruct (jstring_eqb seg (toLowerCase seg)) eqn:E; [|reflexivity].
    apply jstring_eqb_eq in E. contradiction.
Qed.

Lemma guessSegment_invariant (done : list jstring) (st : RouteGuess) (seg : jstring) :
  routeInvariant done st -> routeInvariant (done ++ [seg]) (guessSegment st seg).
Proof.
  intros (Hidx & Hlen & Hseg & Hpar).
  assert (Hold : forall idx s, nth_error done idx = Some s -> (idx < length done)%nat).
  { intros idx s E. apply nth_error_Some. congruence. }
  unfold guessSegment.
  destruct (isAllDigits seg) eqn:Ed;
    [|destruct ((2 <? length seg)%nat && jstring_eqb seg (toLowerCase seg)) eqn:El];
    (split; [simpl; rewrite ?length_app; simpl; lia|]);
    (split; [simpl; rewrite ?length_app; simpl; lia|]);
    cbn [rg_idx patternSegments rg_routeParamsGuess]; rewrite ?Hidx; split.
  - (* numeric: segments *)
    intros idx s E. apply nth_error_snoc_cases in E. destruct E as [E|[-> ->]].
    + destruct (Hseg idx s E) as (H1 & H2 & H3). repeat split.
      * apply nth_error_snoc_old. now apply H1.
      * apply in_or_app. left. now apply H1.
      * intros. apply nth_error_snoc_old. now apply H2.
      * apply nth_error_snoc_old. now apply H3.
      * apply in_or_app. left. now apply H3.
    + repeat split; try congruence.
      * rewrite <- Hlen. apply nth_error_snoc_new.
      * apply in_or_app. right. now left.
  - (* numeric: params *)
    intros key value Hin. apply in_app_or in Hin. destruct Hin as [Hin|[E|[]]].
    + destruct (Hpar key value Hin) as (idx & Hn & Hc).
      exists idx. split; [now apply nth_error_snoc_old|exact Hc].
    + inversion E; subst. exists (length done).
      split; [apply nth_error_snoc_new|left; auto].
  - (* literal: segments *)
    apply andb_true_iff in El. destruct El as [El1 El2].
    apply Nat.ltb_lt in El1. apply jstring_eqb_eq in El2.
    intros idx s E. apply nth_error_snoc_cases in E. destruct E as [E|[-> ->]].
    + destruct (Hseg idx s E) as (H1 & H2 & H3). repeat split.
      * apply nth_error_snoc_old. now apply H1.
      * now apply H1.
      * intros. apply nth_error_snoc_old. now apply H2.
      * apply nth_error_snoc_old. now apply H3.
      * now apply H3.
    + repeat split; try congruence.
      * intros. rewrite <- Hlen. apply nth_error_snoc_new.
      * exfalso. destruct H1 as [H1|H1]; [lia|contradiction].
      * exfalso. destruct H1 as [H1|H1]; [lia|contradiction].
  - (* literal: params *)
    intros key value Hin.
    destruct (Hpar key value Hin) as (idx & Hn & Hc).
    exists idx. split; [now apply nth_error_snoc_old|exact Hc].
  - (* generic: segments *)
    apply literal_test in El.
    intros idx s E. apply nth_error_snoc_cases in E. destruct E as [E|[-> ->]].
    + destruct (Hseg idx s E) as (H1 & H2 & H3). repeat split.
      * apply nth_error_snoc_old. now apply H1.
      * apply in_or_app. left. now apply H1.
      * intros. apply nth_error_snoc_old. now apply H2.
      * apply nth_error_snoc_old. now apply H3.
      * apply in_or_app. left. now apply H3.
    + repeat split; try congruence.
      * intros _ Hl He. exfalso. destruct El as [El|El]; [lia|contradiction].
      * rewrite <- Hlen. apply nth_error_snoc_new.
      * apply in_or_app. right. now left.
  - (* generic: params *)
    apply literal_test in El.
    intros key value Hin. apply in_app_or in Hin. destruct Hin as [Hin|[E|[]]].
    + destruct (Hpar key value Hin) as (idx & Hn & Hc).
      exists idx. split; [now apply nth_error_snoc_old|exact Hc].
    + inversion E; subst. exists (length done).
      split; [apply nth_error_snoc_new|right; auto].
Qed.

Lemma guessRoute_invariant_from (segs done : list jstring) (st : RouteGuess) :
  routeInvariant done st ->
  routeInvariant (done ++ segs) (List.fold_left guessSegment segs st).
Proof.
  revert done st. induction segs as [|seg segs IH]; intros done st Hinv; simpl.
  - now rewrite app_nil_r.
  - replace (done ++ seg :: segs) with ((done ++ [seg]) ++ segs)
      by (now rewrite <- app_assoc).
    apply IH. now apply guessSegment_invariant.
Qed.

Lemma guessRoute_invariant (pathname : jstring) :
  routeInvariant (pathSegments pathname) (guessRoute pathname).
Proof.
  unfold guessRoute.
  apply guessRoute_invariant_from with (done := @nil jstring).
  repeat split; simpl; try reflexivity.
  - destruct idx; discriminate.
  - destruct idx; discriminate.
  - destruct idx; discriminate.
  - destruct idx; discriminate.
  - destruct idx; discriminate.
  - intros key value [].
Qed.

End RouteFacts.

(** C5 (as amended).  When the framework guess is next-app or next-pages the
    route pattern is ["/"] followed by one pattern per non-empty pathname
    segment, joined by ["/"], where [idx] is the position of the segment
    among the non-empty ones: a purely numeric segment becomes [[id<idx>]]
    and is captured as the param [id<idx>]; a segment longer than 2
    characters that equals its lower-case form is kept literal; every other
    segment (at most 2 characters long, or containing an upper-case letter)
    becomes [[param<idx>]] and is captured as the param [param<idx>].  No
    other param is captured, and the params are null when there is none. *)
Theorem C5_route_pattern_by_segment
  (Num : Type) (B : Builtins Num)
  (input : FrameworkDetectionInput Num) (result : FrameworkDetectionResult Num) :
  nextLikeDetect input = Some result ->
  fr_framework result = NextApp \/ fr_framework result = NextPages ->
  let segments := pathSegments (in_pathname input) in
  exists patterns params,
    fr_routePatternGuess result = Some (js "/" ++ join (js "/") patterns)
    /\ fr_routeParamsGuess result
       = (if (0 <? length params)%nat then Some params else None)
    /\ length patterns = length segments
    /\ (forall idx seg,
          nth_error segments idx = Some seg ->
          (isAllDigits seg = true ->
           nth_error patterns idx = Some (js "[id" ++ nat_toString idx ++ js "]")
           /\ In (js "id" ++ nat_toString idx, seg) params)
          /\ (isAllDigits seg = false -> (2 < length seg)%nat ->
              seg = toLowerCase seg ->
              nth_error patterns idx = Some seg)
          /\ (isAllDigits seg = false ->
              ((length seg <= 2)%nat \/ seg <> toLowerCase seg) ->
              nth_error patterns idx = Some (js "[param" ++ nat_toString idx ++ js "]")
              /\ In (js "param" ++ nat_toString idx, seg) params))
    /\ (forall key value,
          In (key, value) params ->
          exists idx,
            nth_error segments idx = Some value
            /\ ((isAllDigits value = true /\ key = js "id" ++ nat_toString idx)
                \/ (isAllDigits value = false
                    /\ ((length value <= 2)%nat \/ value <> toLowerCase value)
                    /\ key = js "param" ++ nat_toString idx))).
Proof.
  intros Hdetect Hfw segments.
  unfold nextLikeDetect in Hdetect.
  destruct (in_reactSlice input) as [reactSlice|]; [|discriminate].
  match type of Hdetect with
  | (if ?c then _ else _) = _ => destruct c; [discriminate|]
  end.
  inversion Hdetect as [Hres]. clear Hdetect.
  rewrite <- Hres in Hfw. cbn [fr_framework] in Hfw.
  set (framework := scan_framework _) in *. clearbody framework.
  assert (Hnext : isNextLike framework = true).
  { destruct Hfw as [E|E]; rewrite E; reflexivity. }
  subst result.
  rewrite Hnext. cbn [fr_routePatternGuess fr_routeParamsGuess].
  destruct (guessRoute_invariant (in_pathname input)) as (_ & Hlen & Hseg & Hpar).
  exists (patternSegments (guessRoute (in_pathname input))),
         (rg_routeParamsGuess (guessRoute (in_pathname input))).
  split; [reflexivity|]. split; [reflexivity|]. split; [exact Hlen|].
  split; [exact Hseg|exact Hpar].
Qed.

Lemma C5_route_pattern_by_segment_witness :
  exists result,
    nextLikeDetect (Samples.routeInput (js "/shop/42/Cart/ab")) = Some result
    /\ fr_framework result = NextApp
    /\ fr_routePatternGuess result = Some (js "/shop/[id1]/[param2]/[param3]")
    /\ fr_routeParamsGuess result
       = Some [(js "id1", js "42"); (js "param2", js "Cart"); (js "param3", js "ab")].
Proof.
  eexists. split; [reflexivity|].
  destruct (@C5_route_pattern_by_segment Z _
              (Samples.routeInput (js "/shop/42/Cart/ab")) _
              eq_refl (or_introl eq_refl))
    as (patterns & params & Hp & Hq & _).
  split; [reflexivity|]. split; reflexivity.
Defined.

(** C5 as stated fails.  On the pathname ["/ab"] under a next-app guess the
    segment ["ab"] is short and lower-case, yet it is not kept literal: the
    pattern is ["/[param0]"] and ["ab"] is captured as [param0]. *)
Lemma C5_short_segment_counterexample :
  exists result,
    nextLikeDetect (Samples.routeInput (js "/ab")) = Some result
    /\ fr_framework result = NextApp
    /\ ascii_toLowerCase (js "ab") = js "ab"
    /\ fr_routePatternGuess result = Some (js "/[param0]")
    /\ fr_routePatternGuess result <> Some (js "/ab")
    /\ fr_routeParamsGuess result = Some [(js "param0", js "ab")].
Proof.
  eexists. split; [reflexivity|]. split; [reflexivity|]. split; [reflexivity|].
  split; [reflexivity|]. split; [|reflexivity].
  vm_compute. intro E. discriminate E.
Qed.


(** ** Extraction engine *)

Lemma returned_inv {A : Type} (c : M A) :
  returned c = true -> exists a, c = Returned a.
Proof. destruct c; [eauto|discriminate]. Qed.

Section EngineFacts.
Context {Num : Type} `{Builtins Num} {Fiber Renderer : Type}.
Variable bippy : Bippy Num Fiber Renderer.
Variable doc : Document Num.
Hypothesis Hquiet : otherCallsReturn bippy.

Ltac quiet_call c :=
  let a := fresh "a" in
  let E := fresh "E" in
  destruct (@returned_inv _ c) as [a E];
  [ destruct Hquiet as (? & ? & ? & ? & ? & ? & ? & ? & ? & ?); auto
  | rewrite E; cbn [bind ret] ].

Lemma getReactDebugInfoForElement_returns (el : Element) :
  exists info, getReactDebugInfoForElement bippy el = Returned info.
Proof.
  unfold getReactDebugInfoForElement.
  quiet_call (hasRDTHook bippy). destruct a; cbn [negb]; [|eauto].
  quiet_call (isInstrumentationActive bippy). destruct a; cbn [negb]; [|eauto].
  destruct (getFiberFromHostInstance bippy el) as [[f|]|e]; eauto.
Qed.

Lemma mapWithIndexM_buildFrame_returns
  (sources : list (option (SourceLocation Num))) (fibers : list Fiber) (i : nat) :
  exists frames,
    mapWithIndexM (buildFrame bippy sources) fibers i = Returned frames
    /\ length frames = length fibers
    /\ forall k frame,
         nth_error frames k = Some frame ->
         source frame = match nth_error sources (i + k) with
                        | Some (Some src) => Some src
                        | _ => None
                        end.
Proof.
  revert i. induction fibers as [|f fibers IH]; intro i; cbn [mapWithIndexM ret].
  - exists []. split; [reflexivity|]. split; [reflexivity|].
    intros [|k] frame E; discriminate.
  - unfold buildFrame at 1.
    quiet_call (getDisplayName bippy f).
    quiet_call (isHostFiber bippy f).
    quiet_call (isCompositeFiber bippy f).
    destruct (IH (S i)) as (frames & Ef & Hlen & Hsrc). rewrite Ef. cbn [bind ret].
    eexists. split; [reflexivity|]. split; [simpl; now rewrite Hlen|].
    intros [|k] frame Hk; cbn [nth_error] in Hk.
    + inversion Hk; subst frame. cbn [source]. now rewrite Nat.add_0_r.
    + rewrite (Hsrc k frame Hk). now replace (i + S k)%nat with (S i + k)%nat by lia.
Qed.

Lemma slice_zero_prefix {A : Type} (l : list A) (stop : Z) (k : nat) (x : A) :
  nth_error (slice l 0 stop) k = Some x -> nth_error l k = Some x.
Proof.
  unfold slice. replace (0 <? 0)%Z with false by reflexivity.
  rewrite (Z.min_l 0) by lia. change (Z.to_nat 0) with 0%nat. rewrite skipn_O.
  generalize (Z.to_nat
                ((if (stop <? 0)%Z then Z.max (Z.of_nat (length l) + stop) 0
                  else Z.min stop (Z.of_nat (length l))) - 0)).
  intros n. revert l k. induction n as [|n IH]; intros [|y l] [|k]; simpl;
    try discriminate; auto.
Qed.

Lemma findOwnerIndex_returns (fibers : list Fiber) (i : nat) :
  exists r, findOwnerIndex bippy fibers i = Returned r.
Proof.
  revert i. induction fibers as [|f fibers IH]; intro i; cbn [findOwnerIndex ret].
  - eauto.
  - quiet_call (isCompositeFiber bippy f). destruct a; eauto.
Qed.

Lemma snapshotProps_returns (f : Fiber) :
  exists r, snapshotProps bippy f = Returned r.
Proof.
  unfold snapshotProps. quiet_call (traverseProps bippy f).
  destruct (List.fold_left _ _ _). eauto.
Qed.

Lemma snapshotState_returns (f : Fiber) :
  exists r, snapshotState bippy f = Returned r.
Proof.
  unfold snapshotState. quiet_call (traverseState bippy f).
  destruct (List.fold_left _ _ _). eauto.
Qed.

Lemma snapshotContexts_returns (f : Fiber) :
  exists r, snapshotContexts bippy f = Returned r.
Proof.
  unfold snapshotContexts. quiet_call (traverseContexts bippy f).
  destruct (List.fold_left _ _ _). eauto.
Qed.

(** The slice is built without an exception; it is null when the fiber
    lookup throws; and frame [k] has the source resolved for fiber [k] of
    the fiber stack, which is null when that resolution throws. *)
Lemma buildReactTreeSlice_returns (el : Element) (config : GrabrRuntimeConfig Num)
  (info : ReactDebugInfo) :
  exists r,
    buildReactTreeSlice bippy el config info = Returned r
    /\ (returned (getFiberFromHostInstance bippy el) = false -> r = None)
    /\ (forall treeSlice, r = Some treeSlice ->
        exists host latest fibers,
          getFiberFromHostInstance bippy el = Returned (Some host)
          /\ getLatestFiber bippy host = Returned latest
          /\ getFiberStack bippy latest = Returned fibers
          /\ forall k frame,
               nth_error (stack treeSlice) k = Some frame ->
               exists fiber,
                 nth_error fibers k = Some fiber
                 /\ source frame = resolveSource bippy (buildType info) fiber).
Proof.
  unfold buildReactTreeSlice.
  destruct (jstring_eqb (reactInspectorMode config) (js "off"));
    [exists None; repeat split; intros; discriminate|].
  destruct (negb (isStatusOk (inspectorStatus info)));
    [exists None; repeat split; intros; discriminate|].
  destruct (getFiberFromHostInstance bippy el) as [[host|]|e];
    try (exists None; repeat split; intros; discriminate).
  quiet_call (getLatestFiber bippy host).
  quiet_call (getFiberStack bippy a).
  destruct (length a0 =? 0)%nat;
    [exists None; repeat split; intros; discriminate|].
  set (taken := slice a0 0 (maxReactStackFrames config)).
  set (sources := List.map (resolveSource bippy (buildType info)) taken).
  destruct (mapWithIndexM_buildFrame_returns sources taken 0)
    as (frames & Ef & Hlen & Hsrc).
  rewrite Ef. cbn [bind ret].
  destruct (findOwnerIndex_returns taken 0) as [owner Eo]. rewrite Eo. cbn [bind ret].
  assert (Hframes : forall k frame,
            nth_error frames k = Some frame ->
            exists fiber,
              nth_error a0 k = Some fiber
              /\ source frame = resolveSource bippy (buildType info) fiber).
  { intros k frame Hk.
    assert (Hlt : (k < length taken)%nat)
      by (rewrite <- Hlen; apply nth_error_Some; congruence).
    destruct (nth_error taken k) as [fiber|] eqn:En;
      [|apply nth_error_None in En; lia].
    exists fiber. split; [now apply slice_zero_prefix in En|].
    rewrite (Hsrc k frame Hk). cbn [Nat.add].
    unfold sources. rewrite nth_error_map, En. cbn [option_map].
    now destruct (resolveSource bippy (buildType info) fiber). }
  assert (Hdone : forall treeSlice,
            stack treeSlice = frames ->
            exists host0 latest fibers,
              Returned (Some host) = Returned (Some host0)
              /\ getLatestFiber bippy host0 = Returned latest
              /\ getFiberStack bippy latest = Returned fibers
              /\ forall k frame,
                   nth_error (stack treeSlice) k = Some frame ->
                   exists fiber,
                     nth_error fibers k = Some fiber
                     /\ source frame = resolveSource bippy (buildType info) fiber).
  { intros treeSlice Hs. exists host, a, a0. rewrite Hs. auto. }
  destruct owner as [i|].
  - destruct (nth_error taken i) as [ownerFiber|].
    + destruct (snapshotProps_returns ownerFiber) as [p Ep]. rewrite Ep. cbn [bind ret].
      destruct (snapshotState_returns ownerFiber) as [st Es]. rewrite Es. cbn [bind ret].
      destruct (snapshotContexts_returns ownerFiber) as [cx Ec]. rewrite Ec.
      cbn [bind ret].
      eexists. split; [reflexivity|]. split; [discriminate|].
      intros treeSlice Hs. inversion Hs; subst treeSlice. now apply Hdone.
    + eexists. split; [reflexivity|]. split; [discriminate|].
      intros treeSlice Hs. inversion Hs; subst treeSlice. now apply Hdone.
  - eexists. split; [reflexivity|]. split; [discriminate|].
    intros treeSlice Hs. inversion Hs; subst treeSlice. now apply Hdone.
Qed.

Lemma recordHandlersFromFiber_returns (st : HandlerScan Num) (fiber : option Fiber)
  (name : option jstring) (src : option (SourceLocation Num)) :
  exists r, recordHandlersFromFiber bippy st fiber name src = Returned r.
Proof.
  unfold recordHandlersFromFiber. destruct fiber as [f|]; [|eauto].
  quiet_call (traverseProps bippy f). eauto.
Qed.

(** The behavior facet is built without an exception, and it is empty when
    the fiber lookup throws. *)
Lemma buildBehaviorContext_returns (el : Element)
  (reactSlice : option (ReactTreeSlice Num)) :
  exists r,
    buildBehaviorContext bippy el reactSlice = Returned r
    /\ (returned (getFiberFromHostInstance bippy el) = false ->
        r = {| inferenceLevel := InferNone; handlers := [] |}).
Proof.
  unfold buildBehaviorContext.
  destruct (getFiberFromHostInstance bippy el) as [[host|]|e]; cbn [bind ret].
  - quiet_call (getLatestFiber bippy host).
    quiet_call (getFiberStack bippy a).
    match goal with
    | |- context [recordHandlersFromFiber bippy ?st ?f ?n ?s] =>
        destruct (recordHandlersFromFiber_returns st f n s) as [scan1 E1]
    end.
    rewrite E1. cbn [bind ret].
    destruct reactSlice as [slice|]; [destruct (ownerIndex slice) as [i|]|];
      cbn [bind ret]; try (eexists; split; [reflexivity|discriminate]).
    match goal with
    | |- context [recordHandlersFromFiber bippy ?st ?f ?n ?s] =>
        destruct (recordHandlersFromFiber_returns st f n s) as [scan2 E2]
    end.
    rewrite E2. cbn [bind ret]. eexists; split; [reflexivity|discriminate].
  - eexists; split; [reflexivity|discriminate].
  - eexists; split; [reflexivity|]. reflexivity.
Qed.

Lemma getReactDebugInfoForElement_error (el : Element) (info : ReactDebugInfo) :
  getReactDebugInfoForElement bippy el = Returned info ->
  returned (getFiberFromHostInstance bippy el) = false ->
  hasRDTHook bippy = Returned true ->
  isInstrumentationActive bippy = Returned true ->
  inspectorStatus info = StatusError.
Proof.
  unfold getReactDebugInfoForElement. intros Ei Hthrow Hh Ha.
  rewrite Hh, Ha in Ei. cbn [bind ret negb] in Ei.
  destruct (getFiberFromHostInstance bippy el) as [[f|]|e]; try discriminate.
  inversion Ei. reflexivity.
Qed.

Lemma getReactDebugInfoForElement_buildType (el : Element) (info : ReactDebugInfo) :
  getReactDebugInfoForElement bippy el = Returned info ->
  buildType info = detectReactBuildTypeSafe bippy.
Proof.
  unfold getReactDebugInfoForElement. intros Ei.
  destruct (hasRDTHook bippy) as [[|]|]; cbn [bind ret negb] in Ei;
    try discriminate; [|inversion Ei; reflexivity].
  destruct (isInstrumentationActive bippy) as [[|]|]; cbn [bind ret negb] in Ei;
    try discriminate; [|inversion Ei; reflexivity].
  destruct (getFiberFromHostInstance bippy el) as [[f|]|e];
    inversion Ei; reflexivity.
Qed.

Lemma detectReactBuildTypeSafe_unknown :
  (forall r, returned (detectReactBuildType bippy r) = false) ->
  detectReactBuildTypeSafe bippy = BuildUnknown.
Proof.
  intros Hthrow. unfold detectReactBuildTypeSafe.
  destruct (getAnyRenderer bippy) as [r|]; [|reflexivity].
  specialize (Hthrow r). now destruct (detectReactBuildType bippy r).
Qed.

Lemma buildDomNeighborhood_returns (el : Element) :
  hasStringClassName doc el = true ->
  exists d, buildDomNeighborhood doc el = Returned d.
Proof.
  unfold hasStringClassName, buildDomNeighborhood, serializeElementSnippet,
    trimmedClassName.
  destruct (className (data doc el)); [|discriminate]. intros _.
  cbn [bind ret]. eauto.
Qed.


(** The slice as [getElementContext] asks for it. *)
Lemma sliceStep_returns (config : GrabrRuntimeConfig Num) (el : Element)
  (info : ReactDebugInfo) :
  exists r,
    (if jstring_eqb (reactInspectorMode config) (js "off") then ret None
     else buildReactTreeSlice bippy el config info) = Returned r
    /\ (returned (getFiberFromHostInstance bippy el) = false -> r = None)
    /\ (forall treeSlice, r = Some treeSlice ->
        exists host latest fibers,
          getFiberFromHostInstance bippy el = Returned (Some host)
          /\ getLatestFiber bippy host = Returned latest
          /\ getFiberStack bippy latest = Returned fibers
          /\ forall k frame,
               nth_error (stack treeSlice) k = Some frame ->
               exists fiber,
                 nth_error fibers k = Some fiber
                 /\ source frame = resolveSource bippy (buildType info) fiber).
Proof.
  destruct (jstring_eqb (reactInspectorMode config) (js "off")).
  - exists None. repeat split; intros; discriminate.
  - apply buildReactTreeSlice_returns.
Qed.

(** With every other call returning, the capture of an element whose
    [className] is a string returns a context; a throwing fiber lookup leaves
    a null slice, an empty behavior facet and, the hook being installed and
    active, the status [error]; every frame has the source resolved for its
    fiber, which is null when the resolution throws; a throwing build-type
    detection leaves the build type [unknown]. *)
Lemma getElementContext_returns (config : GrabrRuntimeConfig Num) (el : Element) :
  hasStringClassName doc el = true ->
  exists ctx,
    getElementContext bippy doc config el = Returned ctx
    /\ (returned (getFiberFromHostInstance bippy el) = false ->
        react ctx = None
        /\ behavior ctx = {| inferenceLevel := InferNone; handlers := [] |}
        /\ (hasRDTHook bippy = Returned true ->
            isInstrumentationActive bippy = Returned true ->
            inspectorStatus (reactDebug ctx) = StatusError))
    /\ (forall treeSlice, react ctx = Some treeSlice ->
        exists host latest fibers,
          getFiberFromHostInstance bippy el = Returned (Some host)
          /\ getLatestFiber bippy host = Returned latest
          /\ getFiberStack bippy latest = Returned fibers
          /\ forall k frame,
               nth_error (stack treeSlice) k = Some frame ->
               exists fiber,
                 nth_error fibers k = Some fiber
                 /\ source frame
                    = resolveSource bippy (buildType (reactDebug ctx)) fiber
                 /\ (returned (getSource bippy fiber) = false ->
                     source frame = None))
    /\ ((forall r, returned (detectReactBuildType bippy r) = false) ->
        buildType (reactDebug ctx) = BuildUnknown).
Proof.
  intros Hclass. unfold getElementContext.
  destruct (getReactDebugInfoForElement_returns el) as [info Ei].
  rewrite Ei. cbn [bind ret].
  destruct (sliceStep_returns config el info) as (r & Er & Hnull & Hsrc).
  rewrite Er. cbn [bind ret].
  destruct (buildDomNeighborhood_returns el Hclass) as [d Ed].
  rewrite Ed. cbn [bind ret].
  destruct (buildBehaviorContext_returns el r) as (b & Eb & Hempty).
  rewrite Eb. cbn [bind ret].
  eexists. split; [reflexivity|]. cbn [react behavior reactDebug].
  split; [|split].
  - intros Hthrow. split; [now apply Hnull|]. split; [now apply Hempty|].
    intros Hh Ha. now apply (getReactDebugInfoForElement_error el).
  - intros treeSlice Hs.
    destruct (Hsrc treeSlice Hs) as (host & latest & fibers & Eh & El & Ef & Hframes).
    exists host, latest, fibers. repeat (split; [assumption|]).
    intros k frame Hk. destruct (Hframes k frame Hk) as (fiber & Hfiber & Hsource).
    exists fiber. split; [exact Hfiber|]. split; [exact Hsource|].
    intros Hthrow. rewrite Hsource. unfold resolveSource.
    now destruct (getSource bippy fiber).
  - intros Hthrow. rewrite (getReactDebugInfoForElement_buildType el Ei).
    now apply detectReactBuildTypeSafe_unknown.
Qed.


End EngineFacts.

Section EngineRejections.
Context {Num : Type} `{Builtins Num} {Fiber Renderer : Type}.
Variable bippy : Bippy Num Fiber Renderer.
Variable doc : Document Num.



End EngineRejections.






(** C9.  [createInspectorEngine] validates nothing: for every partial
    configuration it returns the engine of the merged configuration, and that
    engine captures contexts (here with every introspection call returning,
    of elements whose [className] is a string) whatever the integer
    [maxReactStackFrames] and the [reactInspectorMode] are.
    [createGrabrClient], in a browser, returns exactly when the merged mode
    is one of the three literals and the merged frame limit lies in
    [1, 64].  So [{maxReactStackFrames: 0}] and an unknown mode give an
    engine, and a capture, but no client. *)
Theorem C9_only_createGrabrClient_validates
  (Num : Type) (B : Builtins Num) (Fiber Renderer : Type)
  (bippy : Bippy Num Fiber Renderer) (doc : Document Num)
  (partialConfig : option (PartialRuntimeConfig Num)) :
  let config := mergeRuntimeConfig partialConfig in
  createInspectorEngine bippy doc partialConfig
  = Returned (DefaultInspectorEngine bippy doc config)
  /\ (otherCallsReturn bippy ->
      forall el,
        hasStringClassName doc el = true ->
        returned (engine_getElementContext (DefaultInspectorEngine bippy doc config) el)
        = true)
  /\ returned (createGrabrClient bippy doc true partialConfig)
     = isInspectorMode (reactInspectorMode config)
       && ((1 <=? maxReactStackFrames config)%Z
           && (maxReactStackFrames config <=? 64)%Z)
  /\ returned (validateRuntimeConfigOrThrow config)
     = returned (createGrabrClient bippy doc true partialConfig).
Proof.
  intros config. split; [reflexivity|]. split.
  { intros Hquiet el Hclass. cbn [engine_getElementContext DefaultInspectorEngine].
    destruct (@getElementContext_returns _ _ _ _ bippy doc Hquiet config el Hclass)
      as (ctx & E & _).
    now rewrite E. }
  assert (Hv : returned (validateRuntimeConfigOrThrow config)
               = isInspectorMode (reactInspectorMode config)
                 && ((1 <=? maxReactStackFrames config)%Z
                     && (maxReactStackFrames config <=? 64)%Z)).
  { unfold validateRuntimeConfigOrThrow, isInspectorMode, isFiniteIntegerInRange.
    destruct (jstring_eqb (reactInspectorMode config) (js "best-effort"));
      destruct (jstring_eqb (reactInspectorMode config) (js "required"));
      destruct (jstring_eqb (reactInspectorMode config) (js "off"));
      cbn [negb andb orb];
      try reflexivity;
      destruct ((1 <=? maxReactStackFrames config)%Z
                && (maxReactStackFrames config <=? 64)%Z); reflexivity. }
  assert (Hc : returned (createGrabrClient bippy doc true partialConfig)
               = returned (validateRuntimeConfigOrThrow config)).
  { unfold createGrabrClient. cbn [negb]. fold config.
    destruct (validateRuntimeConfigOrThrow config); reflexivity. }
  split; [now rewrite Hc|now rewrite Hc].
Qed.

Lemma quietBippy_otherCallsReturn : otherCallsReturn Samples.quietBippy.
Proof. repeat split. Qed.

Lemma C9_only_createGrabrClient_validates_witness :
  otherCallsReturn Samples.quietBippy
  /\ (exists engine,
        createInspectorEngine Samples.quietBippy Samples.page (Some Samples.zeroFrames)
        = Returned engine
        /\ maxReactStackFrames (engine_config engine) = 0%Z
        /\ hasStringClassName Samples.page 4 = true
        /\ returned (engine_getElementContext engine 4) = true)
  /\ createGrabrClient Samples.quietBippy Samples.page true (Some Samples.zeroFrames)
     = Threw (ErrorObject
                (js "Invalid config.maxReactStackFrames: expected integer in range [1, 64], got 0"))
  /\ returned (createInspectorEngine Samples.quietBippy Samples.page
                 (Some Samples.bogusMode)) = true
  /\ returned (createGrabrClient Samples.quietBippy Samples.page true
                 (Some Samples.bogusMode)) = false.
Proof.
  split; [exact quietBippy_otherCallsReturn|].
  destruct (@C9_only_createGrabrClient_validates Z _ nat unit
              Samples.quietBippy Samples.page (Some Samples.zeroFrames))
    as (Hengine & Hcapture & _).
  split.
  { eexists. split; [exact Hengine|]. split; [reflexivity|].
    split; [reflexivity|].
    apply Hcapture; [exact quietBippy_otherCallsReturn|reflexivity]. }
  split; [reflexivity|]. split; reflexivity.
Defined.

(** ** Prompt serializer *)

Lemma hex_digits_are_token_units (d : Hexadecimal.uint) :
  List.forallb isTokenUnit (js (HexadecimalString.NilEmpty.string_of_uint d)) = true.
Proof.
  induction d; [reflexivity|..];
    change (js (HexadecimalString.NilEmpty.string_of_uint ?x)) with
      (List.map N_of_ascii
         (list_ascii_of_string (HexadecimalString.NilEmpty.string_of_uint x))) in *;
    cbn [HexadecimalString.NilEmpty.string_of_uint list_ascii_of_string List.map
         List.forallb];
    rewrite IHd; reflexivity.
Qed.

Lemma N_toString16_token_units (n : N) :
  List.forallb isTokenUnit (N_toString16 n) = true.
Proof.
  unfold N_toString16, HexadecimalString.NilZero.string_of_uint.
  destruct (N.to_hex_uint n) eqn:E; try reflexivity;
    rewrite <- E; apply hex_digits_are_token_units.
Qed.

Lemma promptChecksum_token_units (input : jstring) :
  List.forallb isTokenUnit (promptChecksum input) = true.
Proof. apply N_toString16_token_units. Qed.

Lemma firstLine_whole (x : jstring) :
  List.forallb (fun c => negb (c =? 10)%N) x = true -> firstLine x = x.
Proof.
  induction x as [|c x IH]; intro Hx; simpl; [reflexivity|].
  simpl in Hx. apply andb_true_iff in Hx. destruct Hx as [Hc Hx].
  destruct (c =? 10)%N; [discriminate|]. now rewrite IH.
Qed.

Lemma firstLine_prefix (x rest : jstring) :
  List.forallb (fun c => negb (c =? 10)%N) x = true ->
  firstLine (x ++ 10%N :: rest) = x.
Proof.
  induction x as [|c x IH]; intro Hx; simpl.
  - reflexivity.
  - simpl in Hx. apply andb_true_iff in Hx. destruct Hx as [Hc Hx].
    destruct (c =? 10)%N; [discriminate|]. now rewrite IH.
Qed.

Lemma join_cons (sep x : jstring) (rest : list jstring) :
  rest <> [] -> join sep (x :: rest) = x ++ sep ++ join sep rest.
Proof. destruct rest; [congruence|reflexivity]. Qed.

Lemma join_snoc (sep x : jstring) (l : list jstring) :
  l <> [] -> join sep (l ++ [x]) = join sep l ++ sep ++ x.
Proof.
  induction l as [|y l IH]; [congruence|]. intros _.
  destruct l as [|z l].
  - reflexivity.
  - change ((y :: z :: l) ++ [x]) with (y :: ((z :: l) ++ [x])).
    rewrite join_cons by (destruct l; discriminate).
    rewrite IH by discriminate.
    rewrite (@join_cons sep y (z :: l)) by discriminate.
    now rewrite <- !app_assoc.
Qed.

Lemma firstLine_join (x : jstring) (rest : list jstring) :
  List.forallb (fun c => negb (c =? 10)%N) x = true ->
  firstLine (join [10%N] (x :: rest)) = x.
Proof.
  intro Hx. destruct rest as [|y rest].
  - now apply firstLine_whole.
  - rewrite join_cons by discriminate. now apply firstLine_prefix.
Qed.

Lemma forallb_rev {A : Type} (f : A -> bool) (l : list A) :
  List.forallb f (rev l) = List.forallb f l.
Proof.
  induction l as [|a l IH]; [reflexivity|]. simpl.
  rewrite forallb_app, IH. simpl. rewrite andb_true_r. apply andb_comm.
Qed.

Lemma lastLine_join (x : jstring) (l : list jstring) :
  List.forallb (fun c => negb (c =? 10)%N) x = true ->
  lastLine (join [10%N] (l ++ [x])) = x.
Proof.
  intro Hx. unfold lastLine. destruct l as [|y l].
  - simpl. rewrite firstLine_whole by now rewrite forallb_rev.
    apply rev_involutive.
  - rewrite join_snoc by discriminate.
    rewrite !rev_app_distr. change (rev [10%N]) with [10%N].
    rewrite <- app_assoc. change ([10%N] ++ ?t) with (10%N :: t).
    rewrite firstLine_prefix by now rewrite forallb_rev.
    apply rev_involutive.
Qed.

Section RenderFacts.
Context {Num : Type} `{Builtins Num}.

Lemma onlyPushes_push (line : jstring) : onlyPushes (push line).
Proof. intro lines. now exists [line]. Qed.

Lemma onlyPushes_skip : onlyPushes skip.
Proof. intro lines. exists []. unfold skip. now rewrite app_nil_r. Qed.

Lemma onlyPushes_addLine (key : jstring) (value : SerializableValue Num)
  (dropNull allowEmpty : bool) :
  onlyPushes (addLine key value dropNull allowEmpty).
Proof.
  intro lines. unfold addLine, maybeAddLine.
  destruct (isNull value && dropNull); [exists []; now rewrite app_nil_r|].
  match goal with
  | |- context [if ?c then _ else _] => destruct c
  end; [exists []; now rewrite app_nil_r|eauto].
Qed.

Lemma onlyPushes_andThen (first second : LineWriter) :
  onlyPushes first -> onlyPushes second -> onlyPushes (first ;;; second).
Proof.
  intros H1 H2 lines. unfold andThen.
  destruct (H1 lines) as [e1 E1]. destruct (H2 (first lines)) as [e2 E2].
  exists (e1 ++ e2). now rewrite E2, E1, app_assoc.
Qed.

Lemma onlyPushes_section (name : jstring) (fn : LineWriter) :
  onlyPushes fn -> onlyPushes (section name fn).
Proof.
  intro Hfn. unfold section.
  apply onlyPushes_andThen; [apply onlyPushes_push|].
  apply onlyPushes_andThen; [exact Hfn|apply onlyPushes_push].
Qed.

Lemma pushesLast_push (line : jstring) : pushesLast line (push line).
Proof. intro lines. now exists []. Qed.

Lemma pushesLast_andThen (line : jstring) (first second : LineWriter) :
  onlyPushes first -> pushesLast line second -> pushesLast line (first ;;; second).
Proof.
  intros H1 H2 lines. unfold andThen.
  destruct (H1 lines) as [e1 E1]. destruct (H2 (first lines)) as [e2 E2].
  exists (e1 ++ e2). now rewrite E2, E1, <- !app_assoc.
Qed.

(** The rendered lines open with the opening tag and close with the closing
    tag, both built from the same selection id and checksum. *)
Lemma renderStatements_shape (context : ElementContextV2 Num) :
  exists body,
    renderStatements context []
    = openingTag (deriveSelectionId context) (contextChecksum context)
        :: body
        ++ [closingTag (deriveSelectionId context) (contextChecksum context)].
Proof.
  unfold renderStatements.
  match goal with
  | |- exists body, (push ?o ;;; ?rest) [] = _ =>
      assert (Hrest : pushesLast
                        (closingTag (deriveSelectionId context)
                           (contextChecksum context)) rest)
  end.
  { repeat
      match goal with
      | |- pushesLast _ (push _) => apply pushesLast_push
      | |- pushesLast _ (andThen _ _) => apply pushesLast_andThen
      | |- onlyPushes (section _ _) => apply onlyPushes_section
      | |- onlyPushes (andThen _ _) => apply onlyPushes_andThen
      | |- onlyPushes (addLine _ _ _ _) => apply onlyPushes_addLine
      | |- onlyPushes skip => apply onlyPushes_skip
      | |- onlyPushes (match ?x with _ => _ end) => destruct x
      end. }
  destruct (Hrest ([] ++ [openingTag (deriveSelectionId context)
                            (contextChecksum context)])) as [body E].
  exists body. exact E.
Qed.

End RenderFacts.

Lemma untilQuote_stops (value rest : jstring) :
  List.forallb isTokenUnit value = true ->
  untilQuote (value ++ 34%N :: rest) = value.
Proof.
  induction value as [|c value IH]; intro Hv; simpl; [reflexivity|].
  simpl in Hv. apply andb_true_iff in Hv. destruct Hv as [Hc Hv].
  unfold isTokenUnit in Hc. destruct (c =? 34)%N.
  - now rewrite andb_false_r in Hc.
  - now rewrite IH.
Qed.

Lemma afterFirst_skips_token_units (pattern value rest : jstring) :
  List.forallb isTokenUnit value = true ->
  afterFirst (32%N :: pattern) (value ++ rest) = afterFirst (32%N :: pattern) rest.
Proof.
  induction value as [|c value IH]; intro Hv; [reflexivity|].
  simpl in Hv. apply andb_true_iff in Hv. destruct Hv as [Hc Hv].
  change ((c :: value) ++ rest) with (c :: (value ++ rest)).
  cbn [afterFirst startsWith].
  unfold isTokenUnit in Hc.
  destruct (c =? 32)%N; [now rewrite andb_false_r in Hc|].
  cbn [andb]. now apply IH.
Qed.

Lemma token_units_no_line_feed (value : jstring) :
  List.forallb isTokenUnit value = true ->
  List.forallb (fun c => negb (c =? 10)%N) value = true.
Proof.
  induction value as [|c value IH]; intro Hv; [reflexivity|].
  simpl in *. apply andb_true_iff in Hv. destruct Hv as [Hc Hv].
  rewrite IH by assumption. unfold isTokenUnit in Hc.
  destruct (c =? 10)%N; [discriminate|reflexivity].
Qed.

(** Reading the two attributes back from either tag gives the values the
    tag was built from. *)
Lemma readAttribute_tags (selectionId checksum : jstring) :
  List.forallb isTokenUnit selectionId = true ->
  List.forallb isTokenUnit checksum = true ->
  readAttribute (js "sel_id") (openingTag selectionId checksum) = Some selectionId
  /\ readAttribute (js "checksum") (openingTag selectionId checksum) = Some checksum
  /\ readAttribute (js "sel_id") (closingTag selectionId checksum) = Some selectionId
  /\ readAttribute (js "checksum") (closingTag selectionId checksum) = Some checksum.
Proof.
  intros Hs Hc. unfold readAttribute, openingTag, closingTag.
  repeat split.
  - change (afterFirst ([32%N] ++ js "sel_id" ++ [61%N; 34%N])
              (js "<ai_grab_selection v=" ++ [34%N] ++ js "2" ++ [34%N]
                 ++ js " sel_id=" ++ [34%N] ++ selectionId ++ [34%N]
                 ++ js " checksum=" ++ [34%N] ++ checksum ++ [34%N] ++ js ">"))
      with (Some (selectionId ++ 34%N
                    :: (js " checksum=" ++ [34%N] ++ checksum ++ [34%N] ++ js ">"))).
    cbv beta iota. now rewrite untilQuote_stops.
  - change (afterFirst ([32%N] ++ js "checksum" ++ [61%N; 34%N])
              (js "<ai_grab_selection v=" ++ [34%N] ++ js "2" ++ [34%N]
                 ++ js " sel_id=" ++ [34%N] ++ selectionId ++ [34%N]
                 ++ js " checksum=" ++ [34%N] ++ checksum ++ [34%N] ++ js ">"))
      with (afterFirst (32%N :: js "checksum" ++ [61%N; 34%N])
              (selectionId ++ [34%N] ++ js " checksum=" ++ [34%N] ++ checksum
                 ++ [34%N] ++ js ">")).
    rewrite afterFirst_skips_token_units by assumption.
    change (afterFirst (32%N :: js "checksum" ++ [61%N; 34%N])
              ([34%N] ++ js " checksum=" ++ [34%N] ++ checksum ++ [34%N] ++ js ">"))
      with (Some (checksum ++ 34%N :: js ">")).
    cbv beta iota. now rewrite untilQuote_stops.
  - change (afterFirst ([32%N] ++ js "sel_id" ++ [61%N; 34%N])
              (js "<ai_grab_selection_end sel_id=" ++ [34%N] ++ selectionId ++ [34%N]
                 ++ js " checksum=" ++ [34%N] ++ checksum ++ [34%N] ++ js "/>"))
      with (Some (selectionId ++ 34%N
                    :: (js " checksum=" ++ [34%N] ++ checksum ++ [34%N] ++ js "/>"))).
    cbv beta iota. now rewrite untilQuote_stops.
  - change (afterFirst ([32%N] ++ js "checksum" ++ [61%N; 34%N])
              (js "<ai_grab_selection_end sel_id=" ++ [34%N] ++ selectionId ++ [34%N]
                 ++ js " checksum=" ++ [34%N] ++ checksum ++ [34%N] ++ js "/>"))
      with (afterFirst (32%N :: js "checksum" ++ [61%N; 34%N])
              (selectionId ++ [34%N] ++ js " checksum=" ++ [34%N] ++ checksum
                 ++ [34%N] ++ js "/>")).
    rewrite afterFirst_skips_token_units by assumption.
    change (afterFirst (32%N :: js "checksum" ++ [61%N; 34%N])
              ([34%N] ++ js " checksum=" ++ [34%N] ++ checksum ++ [34%N] ++ js "/>"))
      with (Some (checksum ++ 34%N :: js "/>")).
    cbv beta iota. now rewrite untilQuote_stops.
Qed.

Lemma tags_have_no_line_feed (selectionId checksum : jstring) :
  List.forallb isTokenUnit selectionId = true ->
  List.forallb isTokenUnit checksum = true ->
  List.forallb (fun c => negb (c =? 10)%N) (openingTag selectionId checksum) = true
  /\ List.forallb (fun c => negb (c =? 10)%N) (closingTag selectionId checksum) = true.
Proof.
  intros Hs Hc. apply token_units_no_line_feed in Hs, Hc.
  unfold openingTag, closingTag. rewrite !forallb_app.
  split; repeat (apply andb_true_intro; split); try assumption; reflexivity.
Qed.

(** C8.  [renderElementContextPrompt] is a function of the context alone, so
    two calls on the same context give the same text; and in every rendered
    text the selection id and the checksum read from the opening tag (the
    first line) equal those read from the closing tag (the last line): both
    are the id derived from the context and the checksum of its
    stringification. *)
Theorem C8_render_deterministic_tags_agree
  (Num : Type) (B : Builtins Num) (context : ElementContextV2 Num) :
  let first := renderElementContextPrompt context in
  let second := renderElementContextPrompt context in
  first = second
  /\ exists selectionId checksum,
       selectionId = deriveSelectionId context
       /\ checksum = contextChecksum context
       /\ firstLine first = openingTag selectionId checksum
       /\ lastLine first = closingTag selectionId checksum
       /\ readAttribute (js "sel_id") (firstLine first) = Some selectionId
       /\ readAttribute (js "checksum") (firstLine first) = Some checksum
       /\ readAttribute (js "sel_id") (lastLine first) = Some selectionId
       /\ readAttribute (js "checksum") (lastLine first) = Some checksum.
Proof.
  intros first second. split; [reflexivity|].
  exists (deriveSelectionId context), (contextChecksum context).
  split; [reflexivity|]. split; [reflexivity|].
  assert (Hs : List.forallb isTokenUnit (deriveSelectionId context) = true).
  { unfold deriveSelectionId. rewrite forallb_app, promptChecksum_token_units.
    reflexivity. }
  assert (Hc : List.forallb isTokenUnit (contextChecksum context) = true)
    by apply promptChecksum_token_units.
  destruct (tags_have_no_line_feed _ _ Hs Hc) as [Hopen Hclose].
  destruct (renderStatements_shape context) as [body Hshape].
  assert (Hfirst : firstLine first
                   = openingTag (deriveSelectionId context) (contextChecksum context)).
  { subst first. unfold renderElementContextPrompt. rewrite Hshape.
    now apply firstLine_join. }
  assert (Hlast : lastLine first
                  = closingTag (deriveSelectionId context) (contextChecksum context)).
  { subst first. unfold renderElementContextPrompt. rewrite Hshape.
    rewrite app_comm_cons. now apply lastLine_join. }
  rewrite Hfirst, Hlast.
  destruct (readAttribute_tags _ _ Hs Hc) as (H1 & H2 & H3 & H4).
  repeat split; assumption.
Qed.


(** ** Worker pool *)

Lemma firstn_indexed_In {A : Type} (l : list A) (k m i : nat) (a : A) :
  In (i, a) (firstn m (List.combine (List.seq k (length l)) l))
  <-> (k <= i < k + m)%nat /\ nth_error l (i - k) = Some a.
Proof.
  revert k m. induction l as [|x l IH]; intros k m.
  - simpl. rewrite firstn_nil. split; [intros []|].
    intros [_ E]. destruct (i - k)%nat; discriminate.
  - destruct m as [|m].
    + simpl. split; [intros []|]. intros [Hlt _]. lia.
    + cbn [length List.seq List.combine firstn In]. rewrite IH. split.
      * intros [E|[Hlt E]].
        -- inversion E; subst. split; [lia|]. now rewrite Nat.sub_diag.
        -- split; [lia|]. replace (i - k)%nat with (S (i - S k)) by lia. exact E.
      * intros [Hlt E]. destruct (Nat.eq_dec i k) as [->|Hne].
        -- left. rewrite Nat.sub_diag in E. simpl in E. congruence.
        -- right. split; [lia|].
           replace (i - k)%nat with (S (i - S k)) in E by lia. exact E.
Qed.

Lemma combine_seq_nth_error {A : Type} (l : list A) (k i : nat) (a : A) :
  nth_error l i = Some a ->
  nth_error (List.combine (List.seq k (length l)) l) i = Some ((k + i)%nat, a).
Proof.
  revert k i. induction l as [|x l IH]; intros k i E.
  - destruct i; discriminate.
  - destruct i as [|i]; simpl in *.
    + inversion E. now rewrite Nat.add_0_r.
    + rewrite (IH (S k) i E). f_equal. f_equal. lia.
Qed.

Lemma filter_length_Permutation {A : Type} (f : A -> bool) (l l' : list A) :
  Permutation l l' -> length (List.filter f l) = length (List.filter f l').
Proof.
  induction 1 as [|x l l' _ IH|x y l|l l' l'' _ IH1 _ IH2]; simpl.
  - reflexivity.
  - destruct (f x); simpl; congruence.
  - destruct (f x), (f y); reflexivity.
  - congruence.
Qed.

Section PoolFacts.
Context {TIn TOut State : Type}.
Variable mapper : TIn -> nat -> TOut * (State -> State).
Variable items : list TIn.

Lemma indexed_In (i : nat) (a : TIn) :
  In (i, a) (indexed items) <-> nth_error items i = Some a.
Proof.
  unfold indexed.
  rewrite <- (firstn_all (List.combine (List.seq 0 (length items)) items)).
  rewrite length_combine, length_seq, Nat.min_id.
  rewrite firstn_indexed_In, Nat.sub_0_r. split; [tauto|].
  intro E. split; [|exact E].
  assert (i < length items)%nat by (apply nth_error_Some; congruence). lia.
Qed.

Lemma firstn_indexed (m i : nat) (a : TIn) :
  In (i, a) (firstn m (indexed items))
  <-> (i < m)%nat /\ nth_error items i = Some a.
Proof.
  unfold indexed. rewrite firstn_indexed_In, Nat.sub_0_r.
  split; intros [Hlt E]; (split; [lia|exact E]).
Qed.

Lemma indexed_length : length (indexed items) = length items.
Proof. unfold indexed. now rewrite length_combine, length_seq, Nat.min_id. Qed.

Lemma indexed_nth_error (i : nat) (a : TIn) :
  nth_error items i = Some a -> nth_error (indexed items) i = Some (i, a).
Proof. intro E. unfold indexed. now rewrite (combine_seq_nth_error _ 0 _ E). Qed.

Lemma indexed_NoDup : NoDup (indexed items).
Proof.
  unfold indexed. generalize 0%nat.
  induction items as [|x l IH]; intro k; simpl; constructor.
  - intro Hin. apply in_combine_l in Hin. apply in_seq in Hin. lia.
  - apply IH.
Qed.

Lemma indexed_snd : List.map snd (indexed items) = items.
Proof.
  unfold indexed. generalize 0%nat.
  induction items as [|x l IH]; intro k; simpl; [reflexivity|].
  now rewrite IH.
Qed.

Lemma assign_length (r : list (option TOut)) (i : nat) (v : TOut) :
  length (assign r i v) = length r.
Proof.
  revert i. induction r as [|x r IH]; intros [|i]; simpl; auto.
Qed.

Lemma assign_same (r : list (option TOut)) (i : nat) (v : TOut) :
  (i < length r)%nat -> nth_error (assign r i v) i = Some (Some v).
Proof.
  revert i. induction r as [|x r IH]; intros [|i] Hlt; simpl in *;
    try lia; auto. apply IH. lia.
Qed.

Lemma assign_other (r : list (option TOut)) (i j : nat) (v : TOut) :
  i <> j -> nth_error (assign r i v) j = nth_error r j.
Proof.
  revert i j. induction r as [|x r IH]; intros [|i] [|j] Hne; simpl;
    try congruence; auto.
Qed.

Lemma removeAt_In {A : Type} (l : list A) (k : nat) (x : A) :
  nth_error l k = Some x ->
  (forall y, In y l <-> y = x \/ In y (removeAt l k))
  /\ S (length (removeAt l k)) = length l.
Proof.
  revert k. induction l as [|z l IH]; intros [|k] E; simpl in *; try discriminate.
  - inversion E; subst. split; [intro y; split; intros [->|Hy]; auto|reflexivity].
  - destruct (IH k E) as [Hin Hlen]. split; [|now rewrite Hlen].
    intro y. rewrite Hin. tauto.
Qed.

(** A worker that goes back to the head of its loop keeps the invariant,
    and leaves no worker awaiting only when every index is claimed. *)
Lemma claim_invariant (s0 : State) (settled : list (nat * TIn)) (p : Pool) :
  length (results p) = length items ->
  (nextIndex p <= length items)%nat ->
  (forall entry,
     In entry (firstn (nextIndex p) (indexed items)) <->
     In entry settled \/ In entry (awaiting p)) ->
  length settled + length (awaiting p) = nextIndex p ->
  (forall i item,
     In (i, item) settled ->
     nth_error (results p) i = Some (Some (fst (mapper item i)))) ->
  shared p = List.fold_left (fun s entry => snd (mapper (snd entry) (fst entry)) s)
               settled s0 ->
  poolInvariant mapper items s0 settled (claim items p).
Proof.
  intros H1 H2 H3 H3' H4 H5. unfold claim.
  destruct (nextIndex p <? length items)%nat eqn:E.
  - apply Nat.ltb_lt in E.
    destruct (nth_error items (nextIndex p)) as [item|] eqn:En.
    + repeat split; cbn [results nextIndex awaiting shared]; auto; try lia.
      * intro Hin. destruct entry as [i a].
        apply firstn_indexed in Hin. destruct Hin as [Hlt Ea].
        destruct (Nat.eq_dec i (nextIndex p)) as [->|Hne].
        -- right. apply in_or_app. right. left. congruence.
        -- assert (Hold : In (i, a) (firstn (nextIndex p) (indexed items)))
             by (apply firstn_indexed; split; [lia|exact Ea]).
           apply H3 in Hold. destruct Hold; [now left|right].
           apply in_or_app. now left.
      * intro Hin. destruct entry as [i a]. apply firstn_indexed.
        assert (Hcases : In (i, a) (firstn (nextIndex p) (indexed items))
                         \/ (i, a) = (nextIndex p, item)).
        { destruct Hin as [Hin|Hin].
          - left. apply H3. now left.
          - apply in_app_or in Hin. destruct Hin as [Hin|[Hin|[]]].
            + left. apply H3. now right.
            + right. now symmetry. }
        destruct Hcases as [Hold|Enew].
        -- apply firstn_indexed in Hold. destruct Hold. split; [lia|assumption].
        -- inversion Enew; subst. split; [lia|assumption].
      * rewrite length_app. simpl. lia.
      * intro Hnil. destruct (awaiting p); discriminate.
    + exfalso. apply nth_error_None in En. lia.
  - apply Nat.ltb_ge in E. repeat split; auto; try apply H3; lia.
Qed.

Lemma claim_nextIndex (p : @Pool TIn TOut State) :
  (nextIndex p < length items)%nat ->
  nextIndex (claim items p) = S (nextIndex p).
Proof.
  intro Hlt. unfold claim.
  destruct (nextIndex p <? length items)%nat eqn:E; [|apply Nat.ltb_ge in E; lia].
  destruct (nth_error items (nextIndex p)) eqn:En; [reflexivity|].
  apply nth_error_None in En. lia.
Qed.

Lemma settle_invariant (s0 : State) (settled : list (nat * TIn)) (p : Pool)
  (choice : nat) :
  poolInvariant mapper items s0 settled p ->
  awaiting p <> [] ->
  exists entry,
    poolInvariant mapper items s0 (settled ++ [entry]) (settle mapper items choice p).
Proof.
  intros (H1 & H2 & H3 & H3' & H4 & H5 & _) Hne. unfold settle.
  assert (Hk : (choice mod length (awaiting p) < length (awaiting p))%nat).
  { apply Nat.mod_upper_bound. destruct (awaiting p); [congruence|discriminate]. }
  destruct (nth_error (awaiting p) (choice mod length (awaiting p)))
    as [[currentIndex item]|] eqn:En;
    [|apply nth_error_None in En; lia].
  destruct (removeAt_In _ _ En) as [Hin Hlen].
  assert (Hx : (currentIndex < nextIndex p)%nat
               /\ nth_error items currentIndex = Some item).
  { apply firstn_indexed. apply H3. right. apply Hin. now left. }
  destruct Hx as [Hlt Eitem].
  exists (currentIndex, item).
  destruct (mapper item currentIndex) as [value effect] eqn:Em.
  apply claim_invariant; cbn [results nextIndex awaiting shared].
  - now rewrite assign_length.
  - exact H2.
  - intro entry. rewrite H3, Hin, in_app_iff. simpl. intuition congruence.
  - rewrite length_app. simpl. lia.
  - intros i a Hi. apply in_app_or in Hi. destruct Hi as [Hi|[Hi|[]]].
    + destruct (Nat.eq_dec currentIndex i) as [->|Hneq].
      * assert (Ha : In (i, a) (firstn (nextIndex p) (indexed items)))
          by (apply H3; now left).
        apply firstn_indexed in Ha. destruct Ha as [_ Ea].
        assert (a = item) by congruence. subst a.
        rewrite assign_same by lia. now rewrite Em.
      * rewrite assign_other by assumption. now apply H4.
    + inversion Hi; subst. rewrite assign_same by lia. now rewrite Em.
  - rewrite fold_left_app. simpl. rewrite <- H5, Em. reflexivity.
Qed.

Lemma startPool_invariant (limit : nat) (s0 : State) :
  (1 <= limit)%nat ->
  poolInvariant mapper items s0 [] (startPool items limit s0).
Proof.
  intro Hlimit. unfold startPool.
  set (p0 := {| results := List.repeat (@None TOut) (length items);
                nextIndex := 0; awaiting := []; shared := s0 |}).
  assert (Hiter : forall k, (k <= length items)%nat ->
            length (results (Nat.iter k (claim items) p0)) = length items
            /\ nextIndex (Nat.iter k (claim items) p0) = k
            /\ (forall entry,
                  In entry (firstn k (indexed items)) <->
                  In entry (awaiting (Nat.iter k (claim items) p0)))
            /\ length (awaiting (Nat.iter k (claim items) p0)) = k
            /\ shared (Nat.iter k (claim items) p0) = s0).
  { induction k as [|k IH]; intro Hk.
    - simpl. rewrite repeat_length. repeat split; auto; intros [].
    - destruct IH as (I1 & I2 & I3 & I4 & I5); [lia|].
      cbn [Nat.iter].
      assert (Hinv : poolInvariant mapper items s0 []
                       (claim items (Nat.iter k (claim items) p0))).
      { apply claim_invariant; auto; try lia.
        - intro entry. rewrite I2, I3. simpl. tauto.
        - simpl. lia.
        - intros i item []. }
      destruct Hinv as (J1 & J2 & J3 & J3' & _ & J5 & _).
      assert (Hnext : nextIndex (claim items (Nat.iter k (claim items) p0)) = S k).
      { rewrite claim_nextIndex; lia. }
      repeat split; auto.
      + intro Hin. rewrite <- Hnext in Hin. apply J3 in Hin. now destruct Hin.
      + intro Hin. rewrite <- Hnext. apply J3. now right.
      + rewrite Hnext in J3'. simpl in J3'. exact J3'. }
  destruct (Hiter (Nat.min limit (length items))) as (I1 & I2 & I3 & I4 & I5);
    [lia|].
  repeat split; auto; try lia.
  - intro Hin. right. apply I3. now rewrite <- I2.
  - intros [[]|Hin]. rewrite I2. now apply I3.
  - simpl. lia.
  - intros i item [].
  - intro Hnil. rewrite Hnil in I4. simpl in I4. lia.
Qed.

Lemma runPool_invariant (steps : nat) (schedule : nat -> nat) (step : nat)
  (s0 : State) (settled : list (nat * TIn)) (p : Pool) :
  poolInvariant mapper items s0 settled p ->
  (length items <= steps + length settled)%nat ->
  exists settled',
    poolInvariant mapper items s0 settled' (runPool mapper items steps schedule step p)
    /\ awaiting (runPool mapper items steps schedule step p) = [].
Proof.
  revert step settled p. induction steps as [|steps IH]; intros step settled p Hinv Hlen.
  - exists settled. split; [exact Hinv|].
    destruct Hinv as (_ & H2 & _ & H3' & _). simpl.
    destruct (awaiting p); [reflexivity|simpl in *; lia].
  - simpl. destruct (awaiting p) as [|w ws] eqn:Ea.
    + exists settled. split; [exact Hinv|exact Ea].
    + destruct (@settle_invariant s0 settled p (schedule step) Hinv) as [entry Hinv'].
      { rewrite Ea. discriminate. }
      apply (IH (S step) (settled ++ [entry])); [exact Hinv'|].
      rewrite length_app. simpl. lia.
Qed.

(** Whatever the order in which the promises settle, a pool with a positive
    limit returns the values of the mapper in the order of the items, with no
    hole, and has run the continuation of every item exactly once. *)
Lemma mapWithConcurrencyLimit_complete (limit : nat) (schedule : nat -> nat) (s0 : State) :
  (1 <= limit)%nat ->
  let pool := mapWithConcurrencyLimit mapper items limit schedule s0 in
  results pool
  = List.map (fun entry => Some (fst (mapper (snd entry) (fst entry)))) (indexed items)
  /\ exists settled,
       Permutation settled (indexed items)
       /\ shared pool
          = List.fold_left (fun s entry => snd (mapper (snd entry) (fst entry)) s)
              settled s0.
Proof.
  intros Hlimit pool. subst pool. unfold mapWithConcurrencyLimit.
  destruct (@runPool_invariant (length items) schedule 0 s0 []
              (startPool items limit s0))
    as (settled & Hinv & Hdone).
  { now apply startPool_invariant. }
  { simpl. lia. }
  destruct Hinv as (H1 & H2 & H3 & H3' & H4 & H5 & H6).
  specialize (H6 Hdone). rewrite Hdone in H3, H3'. simpl in H3'.
  rewrite H6 in H3, H3'.
  assert (Hall : forall entry, In entry (indexed items) <-> In entry settled).
  { intro entry. rewrite <- (firstn_all (indexed items)), indexed_length, H3.
    simpl. tauto. }
  split.
  - apply nth_error_ext. intro i. rewrite nth_error_map.
    destruct (nth_error items i) as [a|] eqn:Ea.
    + rewrite (indexed_nth_error _ Ea). cbn [option_map fst snd].
      apply H4. apply Hall. now apply indexed_In.
    + assert (Hi : (length items <= i)%nat) by now apply nth_error_None.
      assert (E1 : nth_error (results (runPool mapper items (length items) schedule 0
                                         (startPool items limit s0))) i = None)
        by (apply nth_error_None; lia).
      assert (E2 : nth_error (indexed items) i = None)
        by (apply nth_error_None; rewrite indexed_length; lia).
      now rewrite E1, E2.
  - exists settled. split; [|exact H5].
    apply Permutation_sym. apply NoDup_Permutation_bis.
    + apply indexed_NoDup.
    + rewrite indexed_length. lia.
    + intros entry Hin. now apply Hall.
Qed.

End PoolFacts.

(** ** Selection controller *)

Section FinalizeFacts.
Context {Num : Type} `{Builtins Num}.
Variable doc : Document Num.
Variable inspector : InspectorEngine Num.
Variable activeProvider : AgentProvider Num.
Variable currentInstruction : option jstring.
Variable browser : Browser.

Lemma dedupeFrom_NoDup (elements seen : list Element) :
  NoDup elements ->
  (forall el, In el elements -> ~ In el seen) ->
  dedupeFrom elements seen = elements.
Proof.
  revert seen. induction elements as [|el rest IH]; intros seen Hnd Hseen;
    [reflexivity|].
  simpl. inversion Hnd as [|? ? Hnot Hrest]; subst.
  destruct (List.existsb (Nat.eqb el) seen) eqn:E.
  - apply existsb_exists in E. destruct E as (x & Hx & Ex).
    apply Nat.eqb_eq in Ex. subst x.
    exfalso. apply (Hseen el); [now left|exact Hx].
  - f_equal. apply IH; [exact Hrest|].
    intros x Hx [->|Hin]; [contradiction|].
    apply (Hseen x); [now right|exact Hin].
Qed.

Lemma filter_all {A : Type} (f : A -> bool) (l : list A) :
  (forall x, In x l -> f x = true) -> List.filter f l = l.
Proof.
  induction l as [|x l IH]; intro Hall; [reflexivity|]. simpl.
  rewrite (Hall x (or_introl eq_refl)). f_equal. apply IH.
  intros y Hy. apply Hall. now right.
Qed.

Lemma captured_plus_failed (elements : list Element) :
  (length (capturedContexts inspector elements)
   + failedCaptures inspector elements)%nat = length elements.
Proof.
  unfold capturedContexts, failedCaptures.
  induction elements as [|el rest IH]; [reflexivity|]. simpl.
  destruct (engine_getElementContext inspector el); simpl; lia.
Qed.

Lemma nonNullContexts_results (total : nat) (entries : list (nat * Element)) :
  nonNullContexts
    (List.map (fun entry => Some (fst (captureMapper inspector total (snd entry)
                                         (fst entry))))
       entries)
  = capturedContexts inspector (List.map snd entries).
Proof.
  unfold capturedContexts.
  induction entries as [|[i el] rest IH]; [reflexivity|].
  simpl. unfold captureMapper at 1.
  destruct (engine_getElementContext inspector el); simpl; now rewrite IH.
Qed.

(** The continuations of the mapper count every element as completed and
    every throwing capture as failed, and touch neither the session, nor
    the hooks, nor the toasts. *)
Lemma captureMapper_effects (total : nat) (settled : list (nat * Element))
  (st : FinalizeState Num) :
  let st' :=
    List.fold_left
      (fun s entry => snd (captureMapper inspector total (snd entry) (fst entry)) s)
      settled st in
  st_completed st' = (st_completed st + length settled)%nat
  /\ st_failed st' = (st_failed st + failedCaptures inspector (List.map snd settled))%nat
  /\ currentSession st' = currentSession st
  /\ hookCalls st' = hookCalls st
  /\ toasts st' = toasts st.
Proof.
  revert st. induction settled as [|[i el] rest IH]; intro st.
  - simpl. unfold failedCaptures. simpl. repeat split; lia.
  - cbn [List.fold_left fst snd]. cbv zeta in IH |- *.
    destruct (IH (snd (captureMapper inspector total el i) st))
      as (I1 & I2 & I3 & I4 & I5).
    rewrite I1, I2, I3, I4, I5. clear IH I1 I2 I3 I4 I5.
    unfold failedCaptures, captureMapper. cbn [List.map snd List.filter length].
    destruct (engine_getElementContext inspector el);
      cbn [snd negb returned length countCompleted countFailed onProgress
           st_completed st_failed currentSession hookCalls toasts];
      repeat split; lia.
Qed.

(** A selection of distinct connected elements of which at least one is
    captured yields a session that holds the captured contexts in input
    order; its summary counts them and the failures. *)
Lemma finalizeSelection_session (schedule : nat -> nat)
  (previous : option (GrabrSession Num)) (elements : list Element) :
  NoDup elements ->
  (forall el, In el elements -> isElementConnectedToDocument doc el = true) ->
  capturedContexts inspector elements <> [] ->
  let final :=
    finalizeSelection doc inspector activeProvider currentInstruction browser
      schedule previous elements in
  exists session,
    currentSession final = Some session
    /\ Schema.elements session = capturedContexts inspector elements
    /\ summary session
       = Some (sessionSummary (length (capturedContexts inspector elements))
                 (failedCaptures inspector elements))
    /\ st_completed final = length elements
    /\ st_failed final = failedCaptures inspector elements.
Proof.
  intros Hnd Hconn Hsome final. subst final. unfold finalizeSelection.
  unfold dedupeElementsPreserveOrder.
  rewrite dedupeFrom_NoDup by (auto; intros el _ []).
  rewrite filter_all by exact Hconn.
  assert (Hne : elements <> []).
  { intro E. subst elements. now apply Hsome. }
  destruct (length elements =? 0)%nat eqn:El.
  { apply Nat.eqb_eq in El. destruct elements; [congruence|discriminate]. }
  match goal with
  | |- context [mapWithConcurrencyLimit ?m elements 2 schedule ?st1] =>
      destruct (@mapWithConcurrencyLimit_complete _ _ _ m elements 2 schedule st1)
        as (Hres & settled & Hperm & Hshared); [lia|];
      set (pool := mapWithConcurrencyLimit m elements 2 schedule st1) in *
  end.
  rewrite Hres, nonNullContexts_results, indexed_snd.
  destruct (captureMapper_effects (length elements) settled
              (onProgress {| phase := BuildingContext; completed := 0;
                             total := length elements; progress_message := None |}
                 (initialState previous)))
    as (Ecompleted & Efailed & _).
  cbv zeta in Ecompleted, Efailed. rewrite <- Hshared in Ecompleted, Efailed.
  assert (Hlen : length settled = length elements).
  { rewrite (Permutation_length Hperm). apply indexed_length. }
  assert (Hfail : failedCaptures inspector (List.map snd settled)
                  = failedCaptures inspector elements).
  { unfold failedCaptures.
    rewrite (@filter_length_Permutation _ _ (List.map snd settled) elements);
      [reflexivity|].
    rewrite <- (indexed_snd elements). now apply Permutation_map. }
  rewrite Hfail in Efailed. rewrite Hlen in Ecompleted.
  cbn [onProgress initialState st_completed st_failed] in Ecompleted, Efailed.
  rewrite Nat.add_0_l in Ecompleted, Efailed.
  destruct (length (capturedContexts inspector elements) =? 0)%nat eqn:Ec.
  { apply Nat.eqb_eq in Ec.
    destruct (capturedContexts inspector elements); [congruence|discriminate]. }
  rewrite Efailed, Ecompleted.
  eexists.
  destruct (sendContext activeProvider _);
    destruct (hasOnSuccess activeProvider), (hasOnError activeProvider),
      (0 <? failedCaptures inspector elements)%nat;
    cbn [showToast onProgress callHook currentSession st_completed st_failed
         Schema.elements summary];
    repeat split; reflexivity.
Qed.

End FinalizeFacts.

(** C1.  Finalizing a selection of three distinct connected elements of
    which the capture of exactly one throws does not abort: whatever the
    order in which the captures settle, and whether or not the provider then
    succeeds, a session is constructed and stored; it holds exactly the two
    captured contexts, in input order; all three elements are counted as
    completed and one as failed; and the summary is
    ["Session with 2 element(s) captured; 1 failed."], which mentions
    ["1 failed"]. *)
Theorem C1_one_failed_capture_of_three
  (Num : Type) (doc : Document Num)
  (inspector : InspectorEngine Num) (activeProvider : AgentProvider Num)
  (currentInstruction : option jstring) (browser : Browser)
  (schedule : nat -> nat) (previous : option (GrabrSession Num))
  (e1 e2 e3 : Element) :
  NoDup [e1; e2; e3] ->
  (forall el, In el [e1; e2; e3] -> isElementConnectedToDocument doc el = true) ->
  failedCaptures inspector [e1; e2; e3] = 1%nat ->
  let final :=
    finalizeSelection doc inspector activeProvider currentInstruction browser
      schedule previous [e1; e2; e3] in
  exists session,
    currentSession final = Some session
    /\ Schema.elements session = capturedContexts inspector [e1; e2; e3]
    /\ length (Schema.elements session) = 2%nat
    /\ summary session = Some (js "Session with 2 element(s) captured; 1 failed.")
    /\ includes (js "Session with 2 element(s) captured; 1 failed.") (js "1 failed")
       = true
    /\ st_completed final = 3%nat
    /\ st_failed final = 1%nat.
Proof.
  intros Hnd Hconn Hfailed final.
  pose proof (captured_plus_failed inspector [e1; e2; e3]) as Hcount.
  rewrite Hfailed in Hcount. simpl (length [e1; e2; e3]) in Hcount.
  assert (Hlen : length (capturedContexts inspector [e1; e2; e3]) = 2%nat) by lia.
  destruct (@finalizeSelection_session Num doc inspector activeProvider
              currentInstruction browser schedule previous [e1; e2; e3] Hnd Hconn)
    as (session & Hsession & Helements & Hsummary & Hcompleted & Hfail).
  { intro E. rewrite E in Hlen. discriminate. }
  exists session. subst final.
  split; [exact Hsession|]. split; [exact Helements|].
  split; [now rewrite Helements|].
  split; [now rewrite Hsummary, Hlen, Hfailed|].
  split; [reflexivity|].
  split; [exact Hcompleted|now rewrite Hfail].
Qed.

Lemma C1_one_failed_capture_of_three_witness :
  NoDup [4; 5; 6]%nat
  /\ failedCaptures Samples.flakyInspector [4; 5; 6]%nat = 1%nat
  /\ exists session,
       currentSession
         (finalizeSelection Samples.page Samples.flakyInspector Samples.quietProvider
            (Some (js "Update the button styles.")) Samples.sampleBrowser
            (fun _ => 1%nat) None [4; 5; 6]%nat)
       = Some session
       /\ length (Schema.elements session) = 2%nat
       /\ summary session = Some (js "Session with 2 element(s) captured; 1 failed.").
Proof.
  assert (Hnd : NoDup [4; 5; 6]%nat).
  { repeat constructor; simpl; intuition discriminate. }
  assert (Hfailed : failedCaptures Samples.flakyInspector [4; 5; 6]%nat = 1%nat)
    by reflexivity.
  split; [exact Hnd|]. split; [exact Hfailed|].
  destruct (@C1_one_failed_capture_of_three Z Samples.page Samples.flakyInspector
              Samples.quietProvider (Some (js "Update the button styles."))
              Samples.sampleBrowser (fun _ => 1%nat) None 4%nat 5%nat 6%nat Hnd)
    as (session & Hs & _ & Hlen & Hsum & _).
  { intros el [<-|[<-|[<-|[]]]]; reflexivity. }
  { exact Hfailed. }
  exists session. split; [exact Hs|]. split; [exact Hlen|exact Hsum].
Defined.

(* ========================================================================= *)
(** * Further properties

    Properties read off the code itself: bounds, invariants, edge cases
    and the way the functions compose. *)
(* ========================================================================= *)

(** * Further properties *)

(** ** Serializable-value converter: size and stability of the result *)

Section ConverterBounds.
Context {Num : Type}.
Implicit Types (v x : JsValue Num) (depth : Z).
Implicit Types (items : list (JsValue Num)).
Implicit Types (entries : list (jstring * JsValue Num)).

Lemma toSerializableValue_array_closed items depth :
  (depth <= 2)%Z ->
  toSerializableValue (VArray items) depth
  = SArray (convertedItems (firstn 5 items) depth).
Proof.
  intros Hd. rewrite toSerializableValue_array by assumption.
  now rewrite arrayLoop_closed.
Qed.

Lemma toSerializableValue_object_closed entries depth :
  (depth <= 2)%Z ->
  toSerializableValue (VObject entries) depth
  = SObject (ownEntries (firstn 8 (convertedEntries entries depth))).
Proof.
  intros Hd. rewrite toSerializableValue_object by assumption.
  now rewrite objectLoop_closed.
Qed.

Lemma ownEntries_In {A : Type} (entries : list (jstring * A)) (kv : jstring * A) :
  In kv (ownEntries entries) <-> In kv entries /\ isProtoKey (fst kv) = false.
Proof. unfold ownEntries. now rewrite filter_In, negb_true_iff. Qed.

Lemma ownEntries_length {A : Type} (entries : list (jstring * A)) :
  (length (ownEntries entries) <= length entries)%nat.
Proof. apply filter_length_le. Qed.

Lemma ownEntries_fixed {A : Type} (entries : list (jstring * A)) :
  ownEntries (ownEntries entries) = ownEntries entries.
Proof.
  apply ownEntries_ordinary. apply forallb_forall. intros kv Hkv.
  apply ownEntries_In in Hkv. destruct Hkv as [_ Hkv]. now rewrite Hkv.
Qed.

Lemma convertedItems_In items depth (c : SerializableValue Num) :
  In c (convertedItems items depth) <->
  isNull c = false /\ exists x, In x items /\ c = toSerializableValue x (depth + 1).
Proof.
  unfold convertedItems. rewrite filter_In, in_map_iff, negb_true_iff.
  split.
  - intros [(x & E & Hx) Hn]. split; [exact Hn|]. exists x. auto.
  - intros [Hn (x & Hx & E)]. split; [|exact Hn]. exists x. auto.
Qed.

Lemma convertedEntries_In entries depth (k : jstring) (c : SerializableValue Num) :
  In (k, c) (convertedEntries entries depth) <->
  isNull c = false
  /\ exists x, In (k, x) entries /\ c = toSerializableValue x (depth + 1).
Proof.
  unfold convertedEntries. rewrite filter_In, in_map_iff, negb_true_iff.
  cbn [snd]. split.
  - intros [([k' x] & E & Hx) Hn]. cbn [fst snd] in E. inversion E; subst.
    split; [exact Hn|]. exists x. auto.
  - intros [Hn (x & Hx & E)]. split; [|exact Hn]. exists (k, x). subst c. auto.
Qed.

Lemma convertedEntries_length entries depth :
  (length (convertedEntries entries depth) <= length entries)%nat.
Proof.
  unfold convertedEntries.
  etransitivity; [apply filter_length_le|]. now rewrite length_map.
Qed.

Lemma convertedItems_at_cap items depth :
  (depth >= 2)%Z -> convertedItems items depth = [].
Proof.
  intros Hd. unfold convertedItems.
  induction items as [|x items IH]; [reflexivity|]. cbn [map filter].
  rewrite toSerializableValue_too_deep by lia. exact IH.
Qed.

Lemma convertedEntries_at_cap entries depth :
  (depth >= 2)%Z -> convertedEntries entries depth = [].
Proof.
  intros Hd. unfold convertedEntries.
  induction entries as [|[k x] entries IH]; [reflexivity|]. cbn [map filter fst snd].
  rewrite toSerializableValue_too_deep by lia. exact IH.
Qed.

Lemma levels_items_le (cs : list (SerializableValue Num)) (m : nat) :
  (forall c, In c cs -> (levels c <= m)%nat) ->
  (List.fold_right (fun c0 k => Nat.max (levels c0) k) 0 cs <= m)%nat.
Proof.
  induction cs as [|c cs IH]; intros Hall; simpl; [lia|].
  pose proof (Hall c (or_introl eq_refl)).
  assert (List.fold_right (fun c0 k => Nat.max (levels c0) k) 0 cs <= m)%nat
    by (apply IH; intros; apply Hall; now right).
  lia.
Qed.

Lemma levels_entries_le (cs : list (jstring * SerializableValue Num)) (m : nat) :
  (forall k c, In (k, c) cs -> (levels c <= m)%nat) ->
  (List.fold_right (fun kv k => Nat.max (levels (snd kv)) k) 0 cs <= m)%nat.
Proof.
  induction cs as [|[k c] cs IH]; intros Hall; simpl; [lia|].
  pose proof (Hall k c (or_introl eq_refl)).
  assert (List.fold_right (fun kv k0 => Nat.max (levels (snd kv)) k0) 0 cs <= m)%nat
    by (apply IH; intros k' c' Hin; apply (Hall k'); now right).
  lia.
Qed.

Lemma leaves_items_le (cs : list (SerializableValue Num)) (m : nat) :
  (forall c, In c cs -> (leaves c <= m)%nat) ->
  (List.fold_right (fun c0 k => (leaves c0 + k)%nat) 0 cs <= length cs * m)%nat.
Proof.
  induction cs as [|c cs IH]; intros Hall; simpl; [lia|].
  pose proof (Hall c (or_introl eq_refl)).
  assert (List.fold_right (fun c0 k => (leaves c0 + k)%nat) 0 cs <= length cs * m)%nat
    by (apply IH; intros; apply Hall; now right).
  lia.
Qed.

Lemma leaves_entries_le (cs : list (jstring * SerializableValue Num)) (m : nat) :
  (forall k c, In (k, c) cs -> (leaves c <= m)%nat) ->
  (List.fold_right (fun kv k => (leaves (snd kv) + k)%nat) 0 cs <= length cs * m)%nat.
Proof.
  induction cs as [|[k c] cs IH]; intros Hall; simpl; [lia|].
  pose proof (Hall k c (or_introl eq_refl)).
  assert (List.fold_right (fun kv k0 => (leaves (snd kv) + k0)%nat) 0 cs
          <= length cs * m)%nat
    by (apply IH; intros k' c' Hin; apply (Hall k'); now right).
  lia.
Qed.

(** The three bounds, by induction on the nesting of the input. *)
Lemma toSerializableValue_bounded (n : nat) :
  forall v depth,
    (nesting v < n)%nat ->
    withinBudget (toSerializableValue v depth) = true
    /\ (levels (toSerializableValue v depth) <= Z.to_nat (3 - depth))%nat
    /\ (leaves (toSerializableValue v depth) <= 8 ^ Z.to_nat (2 - depth))%nat.
Proof.
  induction n as [|n IH]; intros v depth Hn; [lia|].
  assert (Hpow : (1 <= 8 ^ Z.to_nat (2 - depth))%nat).
  { pose proof (Nat.pow_nonzero 8 (Z.to_nat (2 - depth))). lia. }
  destruct (Z.gtb_spec depth 2) as [Hd|Hd].
  { rewrite toSerializableValue_too_deep by lia.
    cbn [withinBudget levels leaves]. repeat split; lia. }
  destruct v;
    try (cbn [toSerializableValue]; destruct (depth >? 2)%Z;
         cbn [withinBudget levels leaves]; repeat split; lia).
  - (* array *)
      rewrite toSerializableValue_array_closed by lia.
      set (cs := convertedItems (firstn 5 items) depth).
      assert (Hlen : (length cs <= 5)%nat).
      { unfold cs. etransitivity; [apply convertedItems_length|].
        rewrite length_firstn. lia. }
      assert (Hall : forall c, In c cs ->
                 isNull c = false
                 /\ withinBudget c = true
                 /\ (levels c <= Z.to_nat (3 - (depth + 1)))%nat
                 /\ (leaves c <= 8 ^ Z.to_nat (2 - (depth + 1)))%nat).
      { intros c Hc. apply convertedItems_In in Hc.
        destruct Hc as [Hnn (x & Hx & ->)]. apply In_firstn in Hx.
        pose proof (nesting_item _ _ Hx) as Hlt.
        split; [exact Hnn|]. apply IH. lia. }
      cbn [withinBudget levels leaves]. split; [|split].
      * apply andb_true_intro. split; [now apply Nat.leb_le|].
        apply forallb_forall. intros c Hc.
        destruct (Hall c Hc) as (Hnn & Hb & _). now rewrite Hnn, Hb.
      * destruct (Z.eq_dec depth 2) as [->|Hne].
        { unfold cs. rewrite convertedItems_at_cap by lia. simpl. lia. }
        assert (List.fold_right (fun c0 k => Nat.max (levels c0) k) 0 cs
                <= Z.to_nat (3 - (depth + 1)))%nat.
        { apply levels_items_le. intros c Hc. now apply Hall. }
        lia.
      * destruct (Z.eq_dec depth 2) as [->|Hne].
        { unfold cs. rewrite convertedItems_at_cap by lia. simpl. lia. }
        assert (Hsum : (List.fold_right (fun c0 k => (leaves c0 + k)%nat) 0 cs
                        <= length cs * 8 ^ Z.to_nat (2 - (depth + 1)))%nat).
        { apply leaves_items_le. intros c Hc. now apply Hall. }
        replace (Z.to_nat (2 - depth)) with (S (Z.to_nat (2 - (depth + 1)))) by lia.
        rewrite Nat.pow_succ_r'. nia.
  - (* object *)
      rewrite toSerializableValue_object_closed by lia.
      set (cs := ownEntries (firstn 8 (convertedEntries entries depth))).
      assert (Hlen : (length cs <= 8)%nat).
      { unfold cs. etransitivity; [apply ownEntries_length|].
        rewrite length_firstn. lia. }
      assert (Hall : forall k c, In (k, c) cs ->
                 isNull c = false
                 /\ withinBudget c = true
                 /\ (levels c <= Z.to_nat (3 - (depth + 1)))%nat
                 /\ (leaves c <= 8 ^ Z.to_nat (2 - (depth + 1)))%nat).
      { intros k c Hc. apply ownEntries_In in Hc. destruct Hc as [Hc _].
        apply In_firstn in Hc. apply convertedEntries_In in Hc.
        destruct Hc as [Hnn (x & Hx & ->)].
        pose proof (nesting_entry _ _ _ Hx) as Hlt.
        split; [exact Hnn|]. apply IH. lia. }
      cbn [withinBudget levels leaves]. split; [|split].
      * apply andb_true_intro. split; [now apply Nat.leb_le|].
        apply forallb_forall. intros [k c] Hc. cbn [snd].
        destruct (Hall k c Hc) as (Hnn & Hb & _). now rewrite Hnn, Hb.
      * destruct (Z.eq_dec depth 2) as [->|Hne].
        { unfold cs. rewrite convertedEntries_at_cap by lia. simpl. lia. }
        assert (List.fold_right (fun kv k => Nat.max (levels (snd kv)) k) 0 cs
                <= Z.to_nat (3 - (depth + 1)))%nat.
        { apply levels_entries_le. intros k c Hc. now apply (Hall k). }
        lia.
      * destruct (Z.eq_dec depth 2) as [->|Hne].
        { unfold cs. rewrite convertedEntries_at_cap by lia. simpl. lia. }
        assert (Hsum : (List.fold_right (fun kv k => (leaves (snd kv) + k)%nat) 0 cs
                        <= length cs * 8 ^ Z.to_nat (2 - (depth + 1)))%nat).
        { apply leaves_entries_le. intros k c Hc. now apply (Hall k). }
        replace (Z.to_nat (2 - depth)) with (S (Z.to_nat (2 - (depth + 1)))) by lia.
        rewrite Nat.pow_succ_r'. nia.
Qed.

End ConverterBounds.

Section ConverterStable.
Context {Num : Type}.

Lemma filter_map_fixed {A B : Type} (f : A -> B) (g : B -> A) (keep : A -> bool)
  (cs : list A) :
  (forall c, In c cs -> keep c = true /\ g (f c) = c) ->
  List.filter keep (List.map g (List.map f cs)) = cs.
Proof.
  induction cs as [|c cs IH]; intros Hall; [reflexivity|].
  cbn [map filter]. destruct (Hall c (or_introl eq_refl)) as [Hk Hg].
  rewrite Hg, Hk. f_equal. apply IH. intros c' Hc'. apply Hall. now right.
Qed.

(** Converting a converted value again, at the same depth, changes nothing. *)
Lemma toSerializableValue_stable (n : nat) :
  forall (v : JsValue Num) (depth : Z),
    (nesting v < n)%nat ->
    toSerializableValue (asValue (toSerializableValue v depth)) depth
    = toSerializableValue v depth.
Proof.
  induction n as [|n IH]; intros v depth Hn; [lia|].
  destruct (Z.gtb_spec depth 2) as [Hd|Hd].
  { rewrite !toSerializableValue_too_deep by lia. reflexivity. }
  destruct v;
    try (cbn [toSerializableValue]; destruct (depth >? 2)%Z eqn:E;
         cbn [asValue toSerializableValue]; rewrite ?E; reflexivity).
  - (* array *)
    rewrite toSerializableValue_array_closed by lia.
    set (cs := convertedItems (firstn 5 items) depth).
    assert (Hlen : (length cs <= 5)%nat).
    { unfold cs. etransitivity; [apply convertedItems_length|].
      rewrite length_firstn. lia. }
    cbn [asValue]. rewrite toSerializableValue_array_closed by lia. f_equal.
    rewrite firstn_all2 by (rewrite length_map; exact Hlen).
    unfold convertedItems at 1.
    apply (filter_map_fixed asValue (fun x => toSerializableValue x (depth + 1))).
    intros c Hc. apply convertedItems_In in Hc.
    destruct Hc as [Hnn (x & Hx & ->)]. apply In_firstn in Hx.
    pose proof (nesting_item _ _ Hx) as Hlt.
    split; [now rewrite Hnn|]. apply IH. lia.
  - (* object *)
    rewrite toSerializableValue_object_closed by lia.
    set (cs := ownEntries (firstn 8 (convertedEntries entries depth))).
    assert (Hlen : (length cs <= 8)%nat).
    { unfold cs. etransitivity; [apply ownEntries_length|].
      rewrite length_firstn. lia. }
    assert (Hown : ownEntries cs = cs) by apply ownEntries_fixed.
    cbn [asValue]. rewrite toSerializableValue_object_closed by lia. f_equal.
    assert (Hfix : convertedEntries
                     (List.map (fun kv => (fst kv, asValue (snd kv))) cs) depth = cs).
    { unfold convertedEntries at 1.
      assert (Hall : forall k c, In (k, c) cs ->
                 isNull c = false
                 /\ toSerializableValue (asValue c) (depth + 1) = c).
      { intros k c Hc. apply ownEntries_In in Hc. destruct Hc as [Hc _].
        apply In_firstn in Hc. apply convertedEntries_In in Hc.
        destruct Hc as [Hnn (x & Hx & ->)].
        pose proof (nesting_entry _ _ _ Hx) as Hlt.
        split; [exact Hnn|]. apply IH. lia. }
      clear Hlen Hown. clearbody cs.
      induction cs as [|[k c] cs IHcs]; [reflexivity|].
      cbn [map filter fst snd].
      destruct (Hall k c (or_introl eq_refl)) as [Hnn Hc].
      rewrite Hc, Hnn. cbn [negb]. f_equal.
      apply IHcs. intros k' c' Hin. apply (Hall k'). now right. }
    rewrite Hfix, firstn_all2 by exact Hlen. exact Hown.
Qed.

End ConverterStable.

(** X1.  Whatever the input and the depth, the converted value is small:
    every array in it holds at most 5 items and every object at most 8
    entries, none of them null; arrays and objects are nested at most
    [3 - depth] levels; and it holds at most [8 ^ (2 - depth)] strings,
    numbers and booleans.  A value converted at depth 0, as every prop, state
    slot and context value is, has at most 3 levels and 64 primitive
    values. *)
Theorem X1_converted_value_is_bounded
  (Num : Type) (v : JsValue Num) (depth : Z) :
  withinBudget (toSerializableValue v depth) = true
  /\ (levels (toSerializableValue v depth) <= Z.to_nat (3 - depth))%nat
  /\ (leaves (toSerializableValue v depth) <= 8 ^ Z.to_nat (2 - depth))%nat
  /\ (levels (toSerializableValue v 0) <= 3)%nat
  /\ (leaves (toSerializableValue v 0) <= 64)%nat.
Proof.
  destruct (@toSerializableValue_bounded Num (S (nesting v)) v depth) as (H1 & H2 & H3);
    [lia|].
  destruct (@toSerializableValue_bounded Num (S (nesting v)) v 0%Z) as (_ & H4 & H5);
    [lia|].
  repeat split; assumption.
Qed.

(** X2.  The depth cap empties the third level: an array or object reached
    at depth 2 converts to an empty array or object, whatever it holds,
    because its elements would be converted at depth 3, where everything is
    null, and nulls are dropped.  So [{a: {b: {c: x}}}] converts to
    [{a: {b: {}}}] for every [x] and all keys [a] and [b] other than
    [__proto__] (a property with that name is left out of the result), and
    [[[[x]]]] to [[[[]]]]. *)
Theorem X2_third_level_is_emptied
  (Num : Type) (items : list (JsValue Num)) (entries : list (jstring * JsValue Num))
  (a b c : jstring) (x : JsValue Num) :
  toSerializableValue (VArray items) 2 = SArray []
  /\ toSerializableValue (VObject entries) 2 = SObject []
  /\ toSerializableValue (VObject [(a, VObject [(b, VObject [(c, x)])])]) 0
     = SObject (ownEntries [(a, SObject (ownEntries [(b, SObject [])]))])
  /\ (isProtoKey a = false -> isProtoKey b = false ->
      toSerializableValue (VObject [(a, VObject [(b, VObject [(c, x)])])]) 0
      = SObject [(a, SObject [(b, SObject [])])])
  /\ toSerializableValue (VArray [VArray [VArray [x]]]) 0
     = SArray [SArray [SArray []]].
Proof.
  assert (Hthird :
    toSerializableValue (VObject [(a, VObject [(b, VObject [(c, x)])])]) 0
    = SObject (ownEntries [(a, SObject (ownEntries [(b, SObject [])]))])).
  { rewrite toSerializableValue_object_closed by lia.
    unfold convertedEntries. cbn [List.map fst snd].
    rewrite toSerializableValue_object_closed by lia.
    unfold convertedEntries. cbn [List.map fst snd].
    rewrite toSerializableValue_object_closed by lia.
    rewrite convertedEntries_at_cap by lia.
    unfold ownEntries. cbn [firstn List.filter isNull negb fst snd].
    destruct (isProtoKey b); cbn [negb isNull List.filter firstn fst snd];
      reflexivity. }
  split.
  { rewrite toSerializableValue_array_closed by lia.
    now rewrite convertedItems_at_cap by lia. }
  split.
  { rewrite toSerializableValue_object_closed by lia.
    now rewrite convertedEntries_at_cap by lia. }
  split; [exact Hthird|]. split.
  - intros Ha Hb. rewrite Hthird. unfold ownEntries.
    cbn [List.filter fst]. now rewrite Ha, Hb.
  - destruct x; reflexivity.
Qed.

(** X3.  Conversion is idempotent: converting the converted value again, at
    the same depth, returns it unchanged. *)
Theorem X3_conversion_is_idempotent
  (Num : Type) (v : JsValue Num) (depth : Z) :
  toSerializableValue (asValue (toSerializableValue v depth)) depth
  = toSerializableValue v depth.
Proof.
  apply (@toSerializableValue_stable Num (S (nesting v))). lia.
Qed.

(** ** DOM summarizer: text snippets are normal forms *)

Lemma trimStart_fixed (s : jstring) :
  (forall c, hd_error s = Some c -> isWhiteSpace c = false) -> trimStart s = s.
Proof.
  destruct s as [|c s]; [reflexivity|]. intros Hc. simpl.
  now rewrite (Hc c eq_refl).
Qed.

Lemma trim_fixed (s : jstring) :
  (forall c, hd_error s = Some c -> isWhiteSpace c = false) ->
  (forall c, hd_error (rev s) = Some c -> isWhiteSpace c = false) ->
  trim s = s.
Proof.
  intros Hh Hl. unfold trim, trimEnd.
  rewrite (@trimStart_fixed s Hh), (@trimStart_fixed (rev s) Hl).
  apply rev_involutive.
Qed.

Lemma replaceWhiteSpaceRuns_fixed (s : jstring) :
  forall inRun,
    (inRun = true -> forall c, hd_error s = Some c -> isWhiteSpace c = false) ->
    (forall c, In c s -> isWhiteSpace c = true -> c = 32%N) ->
    (forall i c d, nth_error s i = Some c -> nth_error s (S i) = Some d ->
       isWhiteSpace c = true -> isWhiteSpace d = false) ->
    replaceWhiteSpaceRuns inRun s = s.
Proof.
  induction s as [|c s IH]; intros inRun Hrun Hsp Hadj; [reflexivity|].
  cbn [replaceWhiteSpaceRuns].
  assert (Hsp' : forall c0, In c0 s -> isWhiteSpace c0 = true -> c0 = 32%N).
  { intros c0 Hin. apply Hsp. now right. }
  assert (Hadj' : forall i c0 d, nth_error s i = Some c0 ->
            nth_error s (S i) = Some d ->
            isWhiteSpace c0 = true -> isWhiteSpace d = false).
  { intros i c0 d H1 H2. apply (Hadj (S i)); assumption. }
  destruct (isWhiteSpace c) eqn:Ec.
  - destruct inRun.
    + rewrite (Hrun eq_refl c eq_refl) in Ec. discriminate.
    + rewrite (Hsp c (or_introl eq_refl) Ec). f_equal.
      apply IH; [|exact Hsp'|exact Hadj'].
      intros _ d Hd. destruct s as [|d' s']; [discriminate|].
      simpl in Hd. inversion Hd; subst d'.
      apply (Hadj 0%nat c d); [reflexivity|reflexivity|exact Ec].
  - f_equal. apply IH; [discriminate|exact Hsp'|exact Hadj'].
Qed.

(** A text that is already trimmed and collapsed is left as it is. *)
Lemma normalizeText_fixed (t : jstring) :
  (forall c, In c t -> isWhiteSpace c = true -> c = 32%N) ->
  (forall c, hd_error t = Some c -> isWhiteSpace c = false) ->
  (forall c, hd_error (rev t) = Some c -> isWhiteSpace c = false) ->
  (forall i c d, nth_error t i = Some c -> nth_error t (S i) = Some d ->
     isWhiteSpace c = true -> isWhiteSpace d = false) ->
  normalizeText t = t.
Proof.
  intros Hsp Hh Hl Hadj. unfold normalizeText, collapseWhiteSpace.
  rewrite (@trim_fixed t Hh Hl).
  apply replaceWhiteSpaceRuns_fixed; [discriminate|exact Hsp|exact Hadj].
Qed.

Lemma normalizeText_idempotent (text : jstring) :
  normalizeText (normalizeText text) = normalizeText text.
Proof.
  destruct (normalizeText_shape text) as (H1 & H2 & H3 & H4).
  now apply normalizeText_fixed.
Qed.

Lemma nth_error_firstn_some {A : Type} (l : list A) (k i : nat) (a : A) :
  nth_error (firstn k l) i = Some a -> nth_error l i = Some a /\ (i < k)%nat.
Proof.
  revert k i. induction l as [|x l IH]; intros [|k] [|i]; simpl; try discriminate.
  - intros E. split; [exact E|lia].
  - intros E. destruct (IH k i E). split; [assumption|lia].
Qed.

(** A cut text followed by the ellipsis is trimmed and collapsed. *)
Lemma cut_text_fixed (t : jstring) (k : nat) :
  (forall c, In c t -> isWhiteSpace c = true -> c = 32%N) ->
  (forall c, hd_error t = Some c -> isWhiteSpace c = false) ->
  (forall i c d, nth_error t i = Some c -> nth_error t (S i) = Some d ->
     isWhiteSpace c = true -> isWhiteSpace d = false) ->
  normalizeText (firstn k t ++ [8230%N]) = firstn k t ++ [8230%N].
Proof.
  intros Hsp Hh Hadj. apply normalizeText_fixed.
  - intros c Hin Hc. apply in_app_or in Hin. destruct Hin as [Hin|[<-|[]]].
    + apply Hsp; [now apply In_firstn in Hin|exact Hc].
    + discriminate.
  - intros c. destruct k as [|k]; [simpl; intros E; inversion E; reflexivity|].
    destruct t as [|x t]; [simpl; intros E; inversion E; reflexivity|].
    simpl. intros E. inversion E; subst. apply Hh. reflexivity.
  - rewrite rev_app_distr. simpl. intros c E. inversion E. reflexivity.
  - intros i c d Hc Hd Hw.
    destruct (Nat.lt_ge_cases (S i) (length (firstn k t))) as [Hlt|Hge].
    + rewrite nth_error_app1 in Hc by lia. rewrite nth_error_app1 in Hd by lia.
      apply nth_error_firstn_some in Hc. apply nth_error_firstn_some in Hd.
      apply (Hadj i c d); tauto.
    + rewrite nth_error_app2 in Hd by lia.
      destruct (S i - length (firstn k t))%nat as [|j]; simpl in Hd.
      * inversion Hd. reflexivity.
      * destruct j; discriminate.
Qed.

(** X4.  For a limit that is not negative, truncating is idempotent: a
    snippet that is truncated again with the same limit comes back
    unchanged.  Trimming and collapsing alone is idempotent too. *)
Theorem X4_truncateText_idempotent (text : jstring) (limit : Z) :
  (0 <= limit)%Z ->
  truncateText (truncateText text limit) limit = truncateText text limit
  /\ normalizeText (normalizeText text) = normalizeText text.
Proof.
  intros Hl. split; [|apply normalizeText_idempotent].
  destruct (normalizeText_shape text) as (Hsp & Hh & Hlast & Hadj).
  cbv zeta in Hsp, Hh, Hlast, Hadj.
  destruct (Z.of_nat (length (normalizeText text)) <=? limit)%Z eqn:E.
  - assert (Hout : truncateText text limit = normalizeText text)
      by (unfold truncateText; now rewrite E).
    rewrite Hout. unfold truncateText. rewrite normalizeText_idempotent.
    now rewrite E.
  - assert (Hout : truncateText text limit
                   = firstn (Z.to_nat limit) (normalizeText text) ++ [8230%N]).
    { unfold truncateText. rewrite E. apply Z.leb_gt in E.
      destruct (@slice_prefix_length (normalizeText text) limit) as [Hs _]; [lia|].
      now rewrite Hs. }
    apply Z.leb_gt in E. rewrite Hout. unfold truncateText.
    rewrite (@cut_text_fixed (normalizeText text) (Z.to_nat limit) Hsp Hh Hadj).
    assert (Hcut : length (firstn (Z.to_nat limit) (normalizeText text))
                   = Z.to_nat limit).
    { rewrite length_firstn. lia. }
    assert (Hlong : (Z.of_nat (length (firstn (Z.to_nat limit) (normalizeText text)
                                         ++ [8230%N])) <=? limit)%Z = false).
    { apply Z.leb_gt. rewrite length_app, Hcut. simpl. lia. }
    rewrite Hlong. f_equal.
    destruct (@slice_prefix_length
                (firstn (Z.to_nat limit) (normalizeText text) ++ [8230%N]) limit)
      as [Hs2 _].
    { rewrite length_app, Hcut. simpl. lia. }
    rewrite Hs2. rewrite firstn_app, Hcut, Nat.sub_diag. simpl.
    rewrite app_nil_r. apply firstn_all2. rewrite Hcut. lia.
Qed.

Lemma X4_truncateText_idempotent_witness :
  (0 <= 5)%Z
  /\ truncateText (js "  hello   world ") 5 = js "hello" ++ [8230%N]
  /\ truncateText (truncateText (js "  hello   world ") 5) 5
     = truncateText (js "  hello   world ") 5.
Proof.
  split; [lia|]. split; [reflexivity|].
  apply (proj1 (@X4_truncateText_idempotent (js "  hello   world ") 5%Z ltac:(lia))).
Defined.

Lemma trimStart_empty (s : jstring) :
  trimStart s = [] <-> List.forallb isWhiteSpace s = true.
Proof.
  induction s as [|c s IH]; simpl; [tauto|].
  destruct (isWhiteSpace c); simpl; [exact IH|].
  split; discriminate.
Qed.

Lemma trim_empty (s : jstring) :
  trim s = [] <-> List.forallb isWhiteSpace s = true.
Proof.
  unfold trim, trimEnd. split.
  - intros E. apply (f_equal (@rev _)) in E. rewrite rev_involutive in E.
    simpl in E. apply trimStart_empty in E. rewrite forallb_rev in E.
    destruct (trimStart s) as [|c r] eqn:Eu; [now apply trimStart_empty|].
    pose proof (trimStart_head s Eu) as Hc. simpl in E. rewrite Hc in E.
    discriminate.
  - intros Hs. apply trimStart_empty in Hs. now rewrite Hs.
Qed.

Lemma normalizeText_empty (text : jstring) :
  normalizeText text = [] <-> List.forallb isWhiteSpace text = true.
Proof.
  unfold normalizeText, collapseWhiteSpace. rewrite <- trim_empty.
  destruct (trim text) as [|c r]; [tauto|]. simpl.
  destruct (isWhiteSpace c); split; discriminate.
Qed.

Lemma truncateText_cases (text : jstring) (limit : Z) :
  (0 <= limit)%Z ->
  ((Z.of_nat (length (normalizeText text)) <= limit)%Z
   /\ truncateText text limit = normalizeText text)
  \/ ((limit < Z.of_nat (length (normalizeText text)))%Z
      /\ truncateText text limit
         = firstn (Z.to_nat limit) (normalizeText text) ++ [8230%N]).
Proof.
  intros Hl. unfold truncateText.
  destruct (Z.of_nat (length (normalizeText text)) <=? limit)%Z eqn:E.
  - left. apply Z.leb_le in E. auto.
  - right. apply Z.leb_gt in E. split; [exact E|].
    destruct (@slice_prefix_length (normalizeText text) limit) as [Hs _]; [lia|].
    now rewrite Hs.
Qed.

Lemma truncateText_empty (text : jstring) (limit : Z) :
  (0 <= limit)%Z ->
  (truncateText text limit = [] <-> normalizeText text = []).
Proof.
  intros Hl.
  destruct (truncateText_cases text Hl) as [[Hlen ->]|[Hlen ->]]; [tauto|].
  split.
  - intros E. destruct (firstn (Z.to_nat limit) (normalizeText text)); discriminate.
  - intros E. rewrite E in Hlen. simpl in Hlen. lia.
Qed.

(** X5.  The text snippet of a node is null exactly when the node has no
    text content or its text is white space only.  Otherwise it is a
    non-empty string of at most 81 units (80 and the ellipsis) that starts
    with a unit that is not white space and whose only white space is the
    space unit.  A snippet is never the empty string. *)
Theorem X5_text_snippet_shape (Num : Type) (doc : Document Num) (node : Element) :
  (summarizeTextContent doc node = None <->
   textContent (data doc node) = None
   \/ exists text, textContent (data doc node) = Some text
                   /\ List.forallb isWhiteSpace text = true)
  /\ (forall t,
        summarizeTextContent doc node = Some t ->
        t <> []
        /\ (length t <= 81)%nat
        /\ (forall c, hd_error t = Some c -> isWhiteSpace c = false)
        /\ (forall c, In c t -> isWhiteSpace c = true -> c = 32%N)).
Proof.
  unfold summarizeTextContent.
  destruct (textContent (data doc node)) as [text|]; [|split; [tauto|discriminate]].
  assert (Hl : (0 <= MAX_TEXT_SNIPPET)%Z) by (unfold MAX_TEXT_SNIPPET; lia).
  pose proof (truncateText_empty text Hl) as Hempty.
  pose proof (normalizeText_empty text) as Hws.
  destruct (normalizeText_shape text) as (Hsp & Hh & _ & _).
  cbv zeta in Hsp, Hh.
  destruct (length (truncateText text MAX_TEXT_SNIPPET) =? 0)%nat eqn:E.
  - apply Nat.eqb_eq in E. apply length_zero_iff_nil in E. split.
    + split; [intros _|reflexivity]. right. exists text.
      split; [reflexivity|]. apply Hws. now apply Hempty.
    + discriminate.
  - apply Nat.eqb_neq in E. split.
    + split; [discriminate|]. intros [Hn|(text' & Ht & Hall)]; [discriminate|].
      inversion Ht; subst text'. exfalso. apply E.
      apply length_zero_iff_nil. apply Hempty. now apply Hws.
    + intros t Ht. inversion Ht as [Et]. clear Ht.
      split; [intro En; apply E; now rewrite En|].
      destruct (truncateText_cases text Hl) as [[Hlen ->]|[Hlen ->]].
      * split; [unfold MAX_TEXT_SNIPPET in Hlen; lia|]. split; [exact Hh|exact Hsp].
      * split.
        { rewrite length_app, length_firstn. unfold MAX_TEXT_SNIPPET.
          change (length [8230%N]) with 1%nat. lia. }
        split.
        -- intros c. unfold MAX_TEXT_SNIPPET.
           destruct (normalizeText text) as [|x r] eqn:Er; [simpl in Hlen; lia|].
           simpl. intros Ec. inversion Ec; subst. apply Hh. reflexivity.
        -- intros c Hin Hc. apply in_app_or in Hin. destruct Hin as [Hin|[<-|[]]].
           ++ apply Hsp; [now apply In_firstn in Hin|exact Hc].
           ++ discriminate.
Qed.

(** ** DOM summarizer: siblings, children and ancestors *)

Section NeighborhoodFacts.
Context {Num : Type} `{Builtins Num}.
Variable doc : Document Num.

Lemma indexOfFrom_found (el : Element) (before after : list Element) (i : Z) :
  ~ In el before ->
  indexOfFrom el (before ++ el :: after) i = (i + Z.of_nat (length before))%Z.
Proof.
  revert i. induction before as [|x before IH]; intros i Hnot; simpl.
  - rewrite Nat.eqb_refl. lia.
  - destruct (x =? el)%nat eqn:E.
    + apply Nat.eqb_eq in E. exfalso. apply Hnot. now left.
    + rewrite IH by (intro Hin; apply Hnot; now right). lia.
Qed.

Lemma nth_error_last_before {A : Type} (before : list A) (x : A) (after : list A) :
  (0 < length before)%nat ->
  nth_error (before ++ x :: after) (length before - 1) = hd_error (rev before).
Proof.
  intros Hlen. rewrite nth_error_app1 by lia.
  destruct (rev before) as [|y r] eqn:E.
  - apply (f_equal (@length _)) in E. rewrite length_rev in E. simpl in E. lia.
  - apply (f_equal (@rev _)) in E. rewrite rev_involutive in E. subst before.
    simpl. rewrite length_app. simpl.
    rewrite nth_error_app2 by (rewrite length_rev; lia).
    replace (length (rev r) + 1 - 1 - length (rev r))%nat with 0%nat by lia.
    reflexivity.
Qed.

Lemma nth_error_first_after {A : Type} (before : list A) (x : A) (after : list A) :
  nth_error (before ++ x :: after) (length before + 1) = hd_error after.
Proof.
  rewrite nth_error_app2 by lia.
  replace (length before + 1 - length before)%nat with 1%nat by lia.
  destruct after; reflexivity.
Qed.

Lemma countUp_sum (tagCounts : list (jstring * nat)) (tag : jstring) :
  List.fold_right (fun kv s => (snd kv + s)%nat) 0%nat (countUp tagCounts tag)
  = S (List.fold_right (fun kv s => (snd kv + s)%nat) 0%nat tagCounts).
Proof.
  induction tagCounts as [|[k n] rest IH]; simpl; [reflexivity|].
  destruct (jstring_eqb k tag); simpl; [lia|]. rewrite IH. lia.
Qed.

Lemma countUp_keys (tagCounts : list (jstring * nat)) (tag : jstring) :
  List.map fst (countUp tagCounts tag)
  = if List.existsb (fun k => jstring_eqb k tag) (List.map fst tagCounts)
    then List.map fst tagCounts
    else List.map fst tagCounts ++ [tag].
Proof.
  induction tagCounts as [|[k n] rest IH]; simpl; [reflexivity|].
  destruct (jstring_eqb k tag); simpl; [reflexivity|].
  rewrite IH. now destruct (List.existsb _ _).
Qed.

Lemma countUp_In (tagCounts : list (jstring * nat)) (tag t : jstring) (n : nat) :
  NoDup (List.map fst tagCounts) ->
  (In (t, n) (countUp tagCounts tag) <->
   (t <> tag /\ In (t, n) tagCounts)
   \/ (t = tag
       /\ ((exists m, In (tag, m) tagCounts /\ n = (m + 1)%nat)
           \/ ((forall m, ~ In (tag, m) tagCounts) /\ n = 1%nat)))).
Proof.
  induction tagCounts as [|[k m] rest IH]; intros Hnd; simpl.
  - split.
    + intros [E|[]]. inversion E; subst. right. split; [reflexivity|].
      right. split; [intros m []|reflexivity].
    + intros [[_ []]|[-> [(m & [] & _)|[_ ->]]]]. now left.
  - inversion Hnd as [|? ? Hk Hrest]; subst.
    destruct (jstring_eqb k tag) eqn:Ekt.
    + apply jstring_eqb_eq in Ekt. subst k. simpl. split.
      * intros [E|Hin].
        -- inversion E; subst. right. split; [reflexivity|].
           left. exists m. split; [now left|reflexivity].
        -- left. split; [|now right].
           intros ->. apply Hk. apply in_map_iff. exists (tag, n). auto.
      * intros [[Hne [E|Hin]]|[-> [(m' & [E|Hin] & ->)|[Hno ->]]]].
        -- inversion E; subst. contradiction.
        -- now right.
        -- inversion E; subst. now left.
        -- exfalso. apply Hk. apply in_map_iff. exists (tag, m'). auto.
        -- exfalso. apply (Hno m). now left.
    + assert (Hne : k <> tag).
      { intro Ek. subst k.
        assert (jstring_eqb tag tag = true) by now apply jstring_eqb_eq.
        congruence. }
      simpl. rewrite (IH Hrest). split.
      * intros [E|[[Ht Hin]|[-> [(m' & Hin & ->)|[Hno ->]]]]].
        -- inversion E; subst. left. split; [exact Hne|now left].
        -- left. split; [exact Ht|now right].
        -- right. split; [reflexivity|]. left. exists m'. split; [now right|reflexivity].
        -- right. split; [reflexivity|]. right. split; [|reflexivity].
           intros m' [E|Hin]; [inversion E; congruence|now apply (Hno m')].
      * intros [[Ht [E|Hin]]|[-> [(m' & [E|Hin] & ->)|[Hno ->]]]].
        -- now left.
        -- right. left. auto.
        -- inversion E; congruence.
        -- right. right. split; [reflexivity|]. left. exists m'. auto.
        -- right. right. split; [reflexivity|]. right. split; [|reflexivity].
           intros m' Hin. apply (Hno m'). now right.
Qed.

Lemma countUp_NoDup (tagCounts : list (jstring * nat)) (tag : jstring) :
  NoDup (List.map fst tagCounts) ->
  NoDup (List.map fst (countUp tagCounts tag)).
Proof.
  intros Hnd. rewrite countUp_keys.
  destruct (List.existsb (fun k => jstring_eqb k tag) (List.map fst tagCounts)) eqn:E;
    [exact Hnd|].
  apply NoDup_app; [exact Hnd|repeat constructor; intros []|].
  intros k Hk [Ek|[]]. subst k.
  assert (Hex : List.existsb (fun k0 => jstring_eqb k0 tag) (List.map fst tagCounts)
                = true).
  { apply existsb_exists. exists tag. split; [exact Hk|now apply jstring_eqb_eq]. }
  congruence.
Qed.

(** The number of [children] whose lower-cased tag name is [tag]. *)
Lemma tagCounts_invariant (children : list Element) :
  forall counts done,
    NoDup (List.map fst counts) ->
    (forall t n, In (t, n) counts <->
       n = length (List.filter
                     (fun c => jstring_eqb (toLowerCase (tagName (data doc c))) t) done)
       /\ (0 < n)%nat) ->
    let final :=
      List.fold_left
        (fun counts child =>
           countUp counts (toLowerCase (tagName (data doc child))))
        children counts in
    NoDup (List.map fst final)
    /\ forall t n, In (t, n) final <->
         n = length (List.filter
                       (fun c => jstring_eqb (toLowerCase (tagName (data doc c))) t)
                       (done ++ children))
         /\ (0 < n)%nat.
Proof.
  induction children as [|child children IH]; intros counts done Hnd Hinv final.
  - subst final. simpl. rewrite app_nil_r. auto.
  - subst final. cbn [List.fold_left].
    replace (done ++ child :: children) with ((done ++ [child]) ++ children)
      by (now rewrite <- app_assoc).
    apply IH; [now apply countUp_NoDup|].
    intros t n.
    rewrite (@countUp_In counts (toLowerCase (tagName (data doc child))) t n Hnd).
    rewrite filter_app, length_app. cbn [List.filter].
    set (tag := toLowerCase (tagName (data doc child))).
    set (count := fun t0 =>
           length (List.filter
                     (fun c => jstring_eqb (toLowerCase (tagName (data doc c))) t0)
                     done)).
    change (length (List.filter _ done)) with (count t).
    assert (Hcount : forall t0 m, In (t0, m) counts <-> m = count t0 /\ (0 < m)%nat)
      by exact Hinv.
    destruct (jstring_eqb tag t) eqn:E.
    + apply jstring_eqb_eq in E. subst t. cbn [length]. split.
      * intros [[Hne _]|[_ [(m & Hin & ->)|[Hno ->]]]].
        -- congruence.
        -- apply Hcount in Hin. lia.
        -- destruct (count tag) as [|k] eqn:Ek; [lia|].
           exfalso. apply (Hno (S k)). apply Hcount. lia.
      * intros [-> _]. right. split; [reflexivity|].
        destruct (count tag) as [|k] eqn:Ek.
        -- right. split; [|reflexivity]. intros m Hin. apply Hcount in Hin. lia.
        -- left. exists (S k). split; [apply Hcount; lia|lia].
    + assert (Hne : t <> tag).
      { intro Et. subst t.
        assert (jstring_eqb tag tag = true) by now apply jstring_eqb_eq.
        congruence. }
      cbn [length]. rewrite Nat.add_0_r. split.
      * intros [[_ Hin]|[Et _]]; [now apply Hcount|contradiction].
      * intros Hn. left. split; [exact Hne|now apply Hcount].
Qed.

Lemma parentSummaries_chain (current : option Element) (remaining : nat) :
  parentSummaries doc current remaining
  = List.map (summarizeDomNode doc) (ancestorChain doc current remaining).
Proof.
  revert current. induction remaining as [|n IH]; intros [cur|]; simpl;
    try reflexivity.
  now rewrite IH.
Qed.

Lemma ancestorSegments_chain (current : option Element) (remaining : nat)
  (segments : list jstring) :
  ancestorSegments doc current remaining segments
  = rev (List.map (buildPreferredSelector doc) (ancestorChain doc current remaining))
      ++ segments.
Proof.
  revert current segments. induction remaining as [|n IH]; intros [cur|] segments;
    simpl; try reflexivity.
  rewrite IH. now rewrite <- app_assoc.
Qed.

Lemma ancestorChain_length (current : option Element) (remaining : nat) :
  (length (ancestorChain doc current remaining) <= remaining)%nat.
Proof.
  revert current. induction remaining as [|n IH]; intros [cur|]; simpl; try lia.
  specialize (IH (parentElement doc cur)). lia.
Qed.

End NeighborhoodFacts.

Section ChildCountFacts.
Context {Num : Type} `{Builtins Num}.
Variable doc : Document Num.

Lemma tagCounts_sum (children : list Element) (counts : list (jstring * nat)) :
  List.fold_right (fun kv s => (snd kv + s)%nat) 0%nat
    (List.fold_left
       (fun counts child =>
          countUp counts (toLowerCase (tagName (data doc child))))
       children counts)
  = (List.fold_right (fun kv s => (snd kv + s)%nat) 0%nat counts + length children)%nat.
Proof.
  revert counts. induction children as [|child children IH]; intro counts; simpl.
  - lia.
  - rewrite IH, countUp_sum. lia.
Qed.

Lemma bumpTagCount_ordinary (counts : list (jstring * nat)) (tag : jstring) :
  isOrdinaryTag tag = true ->
  bumpTagCount (numbered counts) tag = numbered (countUp counts tag).
Proof.
  unfold isOrdinaryTag, bumpTagCount. intros Hord.
  apply andb_true_iff in Hord. destruct Hord as [Hproto Hmember].
  apply negb_true_iff in Hproto. rewrite Hproto.
  destruct (Object_prototype_member tag); [discriminate|].
  induction counts as [|[k n] rest IH]; [reflexivity|].
  cbn [numbered List.map ownTagCount assignTagCount countUp fst snd].
  destruct (jstring_eqb k tag); [reflexivity|].
  cbn [numbered List.map fst snd]. f_equal. exact IH.
Qed.

Lemma tagCounts_ordinary (children : list Element) (counts : list (jstring * nat)) :
  (forall c, In c children ->
     isOrdinaryTag (toLowerCase (tagName (data doc c))) = true) ->
  List.fold_left
    (fun counts child =>
       bumpTagCount counts (toLowerCase (tagName (data doc child))))
    children (numbered counts)
  = numbered
      (List.fold_left
         (fun counts child => countUp counts (toLowerCase (tagName (data doc child))))
         children counts).
Proof.
  revert counts. induction children as [|child children IH]; intros counts Hord;
    [reflexivity|].
  cbn [List.fold_left].
  rewrite bumpTagCount_ordinary by (apply Hord; now left).
  apply IH. intros c Hc. apply Hord. now right.
Qed.

Lemma assignTagCount_keys (counts : list (jstring * TagCount)) (tag : jstring)
  (value : TagCount) (k : jstring) :
  In k (List.map fst (assignTagCount counts tag value)) ->
  In k (List.map fst counts) \/ k = tag.
Proof.
  induction counts as [|[k' old] rest IH]; simpl.
  - intros [<-|[]]. now right.
  - destruct (jstring_eqb k' tag); simpl.
    + intros [<-|Hin]; auto.
    + intros [<-|Hin]; [auto|]. destruct (IH Hin); auto.
Qed.

Lemma tagCounts_no_proto (children : list Element) (counts : list (jstring * TagCount)) :
  (forall k, In k (List.map fst counts) -> isProtoKey k = false) ->
  forall k,
    In k (List.map fst
            (List.fold_left
               (fun counts child =>
                  bumpTagCount counts (toLowerCase (tagName (data doc child))))
               children counts)) ->
    isProtoKey k = false.
Proof.
  revert counts. induction children as [|child children IH]; intros counts Hinv;
    [exact Hinv|].
  cbn [List.fold_left]. apply IH. intros k Hk.
  unfold bumpTagCount in Hk.
  destruct (isProtoKey (toLowerCase (tagName (data doc child)))) eqn:Ep;
    [now apply Hinv|].
  apply assignTagCount_keys in Hk. destruct Hk as [Hk| ->]; [now apply Hinv|exact Ep].
Qed.

Lemma numbered_sum (counts : list (jstring * nat)) :
  List.fold_right (fun kv s => (numericCount (snd kv) + s)%nat) 0%nat (numbered counts)
  = List.fold_right (fun kv s => (snd kv + s)%nat) 0%nat counts.
Proof.
  induction counts as [|[k n] rest IH]; [reflexivity|]. simpl. now rewrite IH.
Qed.

End ChildCountFacts.

(** X6.  The sibling summary of an element without a parent is index 0 of
    1 with no neighbour.  For an element that stands in its parent's
    children after [before] and in front of [after], the index is the number
    of children before it, the total is the number of children, [previous]
    summarizes the child just before it (null for the first child) and
    [next] the child just after it (null for the last child). *)
Theorem X6_sibling_summary
  (Num : Type) (B : Builtins Num) (doc : Document Num) (el : Element) :
  (parentElement doc el = None ->
   summarizeSiblings doc el
   = {| sib_index := 0; sib_total := 1; sib_previous := None; sib_next := None |})
  /\ (forall parent before after,
        parentElement doc el = Some parent ->
        elementChildren doc parent = before ++ el :: after ->
        ~ In el before ->
        summarizeSiblings doc el
        = {| sib_index := Z.of_nat (length before);
             sib_total := length before + 1 + length after;
             sib_previous :=
               option_map (summarizeDomNode doc) (hd_error (rev before));
             sib_next := option_map (summarizeDomNode doc) (hd_error after) |}).
Proof.
  unfold summarizeSiblings. split; [intros ->; reflexivity|].
  intros parent before after -> -> Hnot.
  rewrite (@indexOfFrom_found el before after 0%Z Hnot). rewrite Z.add_0_l.
  rewrite length_app. cbn [length]. f_equal.
  - lia.
  - destruct before as [|b before]; [reflexivity|].
    replace (Z.of_nat (length (b :: before)) >? 0)%Z with true
      by (symmetry; apply Z.gtb_lt; simpl; lia).
    f_equal.
    replace (Z.to_nat (Z.of_nat (length (b :: before)) - 1))
      with (length (b :: before) - 1)%nat by lia.
    apply nth_error_last_before. simpl. lia.
  - replace (Z.of_nat (length before) >=? 0)%Z with true
      by (symmetry; apply Z.geb_le; lia).
    cbn [andb].
    replace (Z.to_nat (Z.of_nat (length before) + 1))
      with (length before + 1)%nat by lia.
    rewrite nth_error_first_after.
    destruct after as [|a after]; cbn [hd_error option_map].
    + match goal with |- (if ?c then _ else _) = _ => destruct c; reflexivity end.
    + match goal with |- (if ?c then _ else _) = _ => destruct c eqn:E end;
        [reflexivity|].
      apply Z.ltb_ge in E. cbn [length] in E. lia.
Qed.

Lemma X6_sibling_summary_witness :
  parentElement Samples.page 3 = Some 0%nat
  /\ elementChildren Samples.page 0 = [1; 2]%nat ++ 3%nat :: [4; 5; 6; 7]%nat
  /\ sib_index (summarizeSiblings Samples.page 3) = 2%Z
  /\ sib_total (summarizeSiblings Samples.page 3) = 7%nat.
Proof.
  split; [reflexivity|]. split; [reflexivity|].
  rewrite (proj2 (@X6_sibling_summary Z _ Samples.page 3%nat)
             0%nat [1; 2]%nat [4; 5; 6; 7]%nat eq_refl eq_refl).
  - split; reflexivity.
  - simpl. intros [E|[E|[]]]; discriminate.
Defined.

(** X7.  The child summary counts every child: [totalChildren] is the
    number of element children and [samples] summarizes the first 5 of them.
    When no child has a lower-cased tag name that names a member of
    [Object.prototype] (such as [constructor]), [tagCounts] has one entry
    per tag name that occurs, whose count is the number of children with
    that tag, and the counts add up to [totalChildren].  Whatever the tags,
    [tagCounts] gets no property named [__proto__]. *)
Theorem X7_child_summary
  (Num : Type) (B : Builtins Num) (doc : Document Num) (el : Element) :
  let children := elementChildren doc el in
  let summary := summarizeChildren doc el in
  totalChildren summary = length children
  /\ samples summary = List.map (summarizeDomNode doc) (firstn 5 children)
  /\ length (samples summary) = Nat.min 5 (length children)
  /\ (forall k, In k (List.map fst (tagCounts summary)) -> isProtoKey k = false)
  /\ ((forall c, In c children ->
         isOrdinaryTag (toLowerCase (tagName (data doc c))) = true) ->
      NoDup (List.map fst (tagCounts summary))
      /\ (forall tag n,
            In (tag, CountNumber n) (tagCounts summary) <->
            n = length (List.filter
                          (fun c => jstring_eqb (toLowerCase (tagName (data doc c))) tag)
                          children)
            /\ (0 < n)%nat)
      /\ (forall tag text, ~ In (tag, CountText text) (tagCounts summary))
      /\ List.fold_right (fun kv s => (numericCount (snd kv) + s)%nat) 0%nat
           (tagCounts summary)
         = length children).
Proof.
  intros children summary. subst summary. unfold summarizeChildren.
  fold children. cbn [totalChildren samples tagCounts].
  split; [reflexivity|]. split; [reflexivity|].
  split; [now rewrite length_map, length_firstn|].
  split; [apply tagCounts_no_proto; intros k []|].
  intros Hord.
  change (@nil (jstring * TagCount)) with (numbered []).
  rewrite (tagCounts_ordinary doc children [] Hord).
  destruct (@tagCounts_invariant Num B doc children [] []) as [Hnd Hin].
  { constructor. }
  { intros t n. simpl. split; [intros []|intros [-> Hn]; lia]. }
  cbv zeta in Hnd, Hin.
  set (counts := List.fold_left _ children []) in *.
  assert (Hkeys : List.map fst (numbered counts) = List.map fst counts).
  { unfold numbered. rewrite map_map. reflexivity. }
  split; [now rewrite Hkeys|]. split; [|split].
  - intros tag n. rewrite <- Hin. unfold numbered. rewrite in_map_iff. split.
    + intros ([k m] & E & Hkm). cbn [fst snd] in E. inversion E; subst. exact Hkm.
    + intros Hkm. exists (tag, n). auto.
  - intros tag text Hin'. unfold numbered in Hin'. apply in_map_iff in Hin'.
    destruct Hin' as ([k m] & E & _). discriminate.
  - rewrite numbered_sum. unfold counts. now rewrite tagCounts_sum.
Qed.

Lemma X7_child_summary_witness :
  (forall c, In c (elementChildren Samples.page 0) ->
     isOrdinaryTag (toLowerCase (tagName (data Samples.page c))) = true)
  /\ NoDup (List.map fst (tagCounts (summarizeChildren Samples.page 0)))
  /\ List.fold_right (fun kv s => (numericCount (snd kv) + s)%nat) 0%nat
       (tagCounts (summarizeChildren Samples.page 0))
     = 7%nat.
Proof.
  assert (Hord : forall c, In c (elementChildren Samples.page 0) ->
            isOrdinaryTag (toLowerCase (tagName (data Samples.page c))) = true).
  { intros c Hc. repeat (destruct Hc as [<-|Hc]; [reflexivity|]). destruct Hc. }
  split; [exact Hord|].
  destruct (proj2 (proj2 (proj2 (proj2 (@X7_child_summary Z _ Samples.page 0%nat))))
              Hord) as (Hnd & _ & _ & Hsum).
  split; [exact Hnd|exact Hsum].
Defined.

(** X8.  [buildDomNeighborhood] returns exactly for an element whose
    [className] is a string; for another element it throws the [TypeError]
    of [serializeElementSnippet].  The neighbourhood it returns lists the
    same ancestors twice: [parents] summarizes the parent, the grandparent
    and so on, at most 4 of them, nearest first, and the selector path joins
    the preferred selectors of these same ancestors, outermost first,
    followed by the element's own preferred selector.  [selectors.all] is the
    preferred selector and that path; for an element without a parent the two
    are equal. *)
Theorem X8_neighborhood_ancestors
  (Num : Type) (B : Builtins Num) (doc : Document Num) (el : Element) :
  let chain := ancestorChain doc (parentElement doc el) 4 in
  match buildDomNeighborhood doc el with
  | Returned d =>
      hasStringClassName doc el = true
      /\ parents d = List.map (summarizeDomNode doc) chain
      /\ (length (parents d) <= 4)%nat
      /\ preferred (selectors d) = buildPreferredSelector doc el
      /\ all (selectors d)
         = [ buildPreferredSelector doc el;
             join (js " > ")
               (rev (List.map (buildPreferredSelector doc) chain)
                  ++ [buildPreferredSelector doc el]) ]
      /\ (parentElement doc el = None ->
          parents d = []
          /\ all (selectors d)
             = [buildPreferredSelector doc el; buildPreferredSelector doc el])
  | Threw e =>
      hasStringClassName doc el = false
      /\ e = ErrorObject trim_is_not_a_function
  end.
Proof.
  intros chain. subst chain.
  unfold buildDomNeighborhood, serializeElementSnippet, trimmedClassName,
    hasStringClassName.
  destruct (className (data doc el)); cbn [bind ret]; [|split; reflexivity].
  cbn [parents selectors preferred all]. unfold MAX_PARENT_DEPTH.
  rewrite parentSummaries_chain.
  split; [reflexivity|].
  split; [reflexivity|].
  split; [rewrite length_map; apply ancestorChain_length|].
  split; [reflexivity|].
  assert (Hpath : buildAncestorSelectorPath doc el (4 + 1)
                  = join (js " > ")
                      (rev (List.map (buildPreferredSelector doc)
                              (ancestorChain doc (parentElement doc el) 4))
                         ++ [buildPreferredSelector doc el])).
  { unfold buildAncestorSelectorPath. rewrite ancestorSegments_chain.
    rewrite app_nil_r. reflexivity. }
  rewrite Hpath. split; [reflexivity|].
  intros ->. split; reflexivity.
Qed.

(** ** Selection controller: de-duplication *)

Lemma dedupeFrom_seen_ext (elements seen1 seen2 : list Element) :
  (forall el, List.existsb (Nat.eqb el) seen1 = List.existsb (Nat.eqb el) seen2) ->
  dedupeFrom elements seen1 = dedupeFrom elements seen2.
Proof.
  revert seen1 seen2. induction elements as [|el rest IH]; intros seen1 seen2 Hext;
    [reflexivity|].
  simpl. rewrite (Hext el). destruct (List.existsb (Nat.eqb el) seen2).
  - now apply IH.
  - f_equal. apply IH. intro x. simpl. now rewrite (Hext x).
Qed.

Lemma dedupeFrom_cons_seen (elements seen : list Element) (x : Element) :
  dedupeFrom elements (x :: seen)
  = dedupeFrom (List.filter (fun y => negb (y =? x)%nat) elements) seen.
Proof.
  revert seen. induction elements as [|el rest IH]; intro seen; [reflexivity|].
  cbn [dedupeFrom List.filter List.existsb].
  destruct (el =? x)%nat eqn:E; cbn [negb orb].
  - apply IH.
  - cbn [dedupeFrom]. destruct (List.existsb (Nat.eqb el) seen); [apply IH|].
    f_equal. rewrite <- IH. apply dedupeFrom_seen_ext.
    intro y. simpl. now destruct (y =? el)%nat, (y =? x)%nat.
Qed.

Lemma dedupeFrom_In (elements seen : list Element) (x : Element) :
  In x (dedupeFrom elements seen) <-> In x elements /\ ~ In x seen.
Proof.
  revert seen. induction elements as [|el rest IH]; intro seen; simpl; [tauto|].
  destruct (List.existsb (Nat.eqb el) seen) eqn:E.
  - apply existsb_exists in E. destruct E as (y & Hy & Ey).
    apply Nat.eqb_eq in Ey. subst y. rewrite IH. split.
    + intros [H1 H2]. auto.
    + intros [[->|H1] H2]; [contradiction|auto].
  - assert (Hel : ~ In el seen).
    { intro Hin. assert (List.existsb (Nat.eqb el) seen = true); [|congruence].
      apply existsb_exists. exists el. split; [exact Hin|apply Nat.eqb_refl]. }
    simpl. rewrite IH. simpl. split.
    + intros [->|[H1 H2]]; [auto|]. split; [now right|]. intro. apply H2. now right.
    + intros [[->|H1] H2]; [now left|].
      destruct (Nat.eq_dec el x) as [->|Hne]; [now left|].
      right. split; [exact H1|]. intros [E'|Hin]; auto.
Qed.

Lemma dedupeFrom_is_NoDup (elements seen : list Element) :
  NoDup (dedupeFrom elements seen).
Proof.
  revert seen. induction elements as [|el rest IH]; intro seen; simpl;
    [constructor|].
  destruct (List.existsb (Nat.eqb el) seen); [apply IH|].
  constructor; [|apply IH].
  rewrite dedupeFrom_In. intros [_ Hnot]. apply Hnot. now left.
Qed.

(** X9.  De-duplication keeps the first occurrence of every element, in
    order: the result has no duplicate and the same members as the input; it
    starts with the first element and goes on with the de-duplication of the
    rest without that element; a list without duplicates is returned as it
    is, so de-duplicating twice changes nothing. *)
Theorem X9_dedupe_keeps_first_occurrences (elements : list Element) :
  NoDup (dedupeElementsPreserveOrder elements)
  /\ (forall el, In el (dedupeElementsPreserveOrder elements) <-> In el elements)
  /\ (forall el rest,
        dedupeElementsPreserveOrder (el :: rest)
        = el :: dedupeElementsPreserveOrder
                  (List.filter (fun y => negb (y =? el)%nat) rest))
  /\ (NoDup elements -> dedupeElementsPreserveOrder elements = elements)
  /\ dedupeElementsPreserveOrder (dedupeElementsPreserveOrder elements)
     = dedupeElementsPreserveOrder elements.
Proof.
  unfold dedupeElementsPreserveOrder.
  split; [apply dedupeFrom_is_NoDup|].
  split; [intro el; rewrite dedupeFrom_In; simpl; tauto|].
  split; [intros el rest; simpl; now rewrite dedupeFrom_cons_seen|].
  split.
  - intros Hnd. apply dedupeFrom_NoDup; [exact Hnd|]. intros el _ [].
  - apply dedupeFrom_NoDup; [apply dedupeFrom_is_NoDup|]. intros el _ [].
Qed.

(** ** Selection controller: the worker pool *)

Section PoolBounds.
Context {TIn TOut State : Type}.
Variable mapper : TIn -> nat -> TOut * (State -> State).
Variable items : list TIn.

Lemma claim_awaiting (p : @Pool TIn TOut State) :
  (length (awaiting (claim items p)) <= S (length (awaiting p)))%nat.
Proof.
  unfold claim. destruct (nextIndex p <? length items)%nat; [|lia].
  destruct (nth_error items (nextIndex p)); [|lia].
  cbn [awaiting]. rewrite length_app. simpl. lia.
Qed.

Lemma removeAt_length {A : Type} (l : list A) (k : nat) :
  (k < length l)%nat -> length (removeAt l k) = (length l - 1)%nat.
Proof.
  revert k. induction l as [|x l IH]; intros [|k] Hk; simpl in *; try lia.
  rewrite IH by lia. lia.
Qed.

Lemma settle_awaiting (choice : nat) (p : @Pool TIn TOut State) :
  (length (awaiting (settle mapper items choice p)) <= length (awaiting p))%nat.
Proof.
  unfold settle.
  destruct (nth_error (awaiting p) (choice mod length (awaiting p))) as [[i item]|]
    eqn:E; [|lia].
  destruct (mapper item i) as [value effect].
  etransitivity; [apply claim_awaiting|]. cbn [awaiting].
  rewrite removeAt_length by (apply nth_error_Some; congruence).
  assert (choice mod length (awaiting p) < length (awaiting p))%nat
    by (apply nth_error_Some; congruence).
  lia.
Qed.

Lemma iter_claim_awaiting (k : nat) (p : @Pool TIn TOut State) :
  (length (awaiting (Nat.iter k (claim items) p)) <= k + length (awaiting p))%nat.
Proof.
  induction k as [|k IH]; simpl; [lia|].
  etransitivity; [apply claim_awaiting|]. lia.
Qed.

Lemma runPool_awaiting (steps : nat) (schedule : nat -> nat) (step bound : nat)
  (p : @Pool TIn TOut State) :
  (length (awaiting p) <= bound)%nat ->
  (length (awaiting (runPool mapper items steps schedule step p)) <= bound)%nat.
Proof.
  revert step p. induction steps as [|steps IH]; intros step p Hp; simpl;
    [exact Hp|].
  destruct (awaiting p) eqn:E; [rewrite E; simpl; lia|].
  apply IH. etransitivity; [apply settle_awaiting|]. now rewrite E in *.
Qed.

End PoolBounds.

(** X10.  With a limit of at least 1, and whatever the order in which the
    mapper's promises settle, [mapWithConcurrencyLimit] returns one result
    per item, at the item's own index, and the mapper has been called exactly
    once for every item with that item's index. *)
Theorem X10_pool_results_in_input_order
  (TIn TOut State : Type) (mapper : TIn -> nat -> TOut * (State -> State))
  (items : list TIn) (limit : nat) (schedule : nat -> nat) (s0 : State) :
  (1 <= limit)%nat ->
  let pool := mapWithConcurrencyLimit mapper items limit schedule s0 in
  length (results pool) = length items
  /\ (forall i item,
        nth_error items i = Some item ->
        nth_error (results pool) i = Some (Some (fst (mapper item i))))
  /\ awaiting pool = []
  /\ exists calls,
       Permutation calls (indexed items)
       /\ shared pool
          = List.fold_left (fun s call => snd (mapper (snd call) (fst call)) s)
              calls s0.
Proof.
  intros Hlimit pool.
  destruct (mapWithConcurrencyLimit_complete mapper items schedule s0 Hlimit)
    as (Hres & calls & Hperm & Hshared).
  fold pool in Hres, Hshared.
  split; [rewrite Hres, length_map; apply indexed_length|].
  split.
  { intros i item Hi. rewrite Hres, nth_error_map.
    now rewrite (indexed_nth_error items i Hi). }
  split; [|exists calls; split; assumption].
  subst pool. unfold mapWithConcurrencyLimit.
  destruct (@runPool_invariant _ _ _ mapper items (length items) schedule 0 s0 []
              (startPool items limit s0))
    as (settled & _ & Hdone).
  { now apply startPool_invariant. }
  { simpl. lia. }
  exact Hdone.
Qed.

Lemma X10_pool_results_in_input_order_witness :
  (1 <= 2)%nat
  /\ results (mapWithConcurrencyLimit Scenarios.doubling [10; 20; 30]%nat 2
                (fun _ => 1%nat) [])
     = [Some 20; Some 40; Some 60]%nat
  /\ shared (mapWithConcurrencyLimit Scenarios.doubling [10; 20; 30]%nat 2
               (fun _ => 1%nat) [])
     = [1; 2; 0]%nat
  /\ nth_error (results (mapWithConcurrencyLimit Scenarios.doubling [10; 20; 30]%nat 2
                           (fun _ => 1%nat) [])) 2
     = Some (Some 60%nat).
Proof.
  split; [lia|]. split; [reflexivity|]. split; [reflexivity|].
  apply (proj1 (proj2 (@X10_pool_results_in_input_order nat nat (list nat)
                         Scenarios.doubling [10; 20; 30]%nat 2 (fun _ => 1%nat) []
                         ltac:(lia))) 2%nat 30%nat eq_refl).
Defined.

(** X11.  The pool never has more than [limit] mapper calls in flight, and
    never more than there are items.  With a limit of 0 no worker starts:
    the mapper is never called and the result is an array of holes. *)
Theorem X11_pool_respects_limit
  (TIn TOut State : Type) (mapper : TIn -> nat -> TOut * (State -> State))
  (items : list TIn) (limit : nat) (schedule : nat -> nat) (s0 : State) :
  (forall settled,
     (length (awaiting (runPool mapper items settled schedule 0
                          (startPool items limit s0)))
      <= Nat.min limit (length items))%nat)
  /\ mapWithConcurrencyLimit mapper items 0 schedule s0
     = {| results := List.repeat None (length items);
          nextIndex := 0;
          awaiting := [];
          shared := s0 |}.
Proof.
  split.
  - intros settled. apply runPool_awaiting. unfold startPool.
    etransitivity; [apply iter_claim_awaiting|]. simpl. lia.
  - unfold mapWithConcurrencyLimit, startPool. simpl.
    destruct (length items); reflexivity.
Qed.

(** ** Selection controller: outcomes of [finalizeSelection] *)

Section OutcomeFacts.
Context {Num : Type}.
Variable doc : Document Num.
Variable inspector : InspectorEngine Num.
Variable activeProvider : AgentProvider Num.
Variable currentInstruction : option jstring.
Variable browser : Browser.

Lemma connectedElements_NoDup (elements : list Element) :
  NoDup (connectedElements doc elements).
Proof.
  unfold connectedElements. apply NoDup_filter.
  unfold dedupeElementsPreserveOrder. apply dedupeFrom_is_NoDup.
Qed.

Lemma connectedElements_In (elements : list Element) (el : Element) :
  In el (connectedElements doc elements) <->
  In el elements /\ isElementConnectedToDocument doc el = true.
Proof.
  unfold connectedElements, dedupeElementsPreserveOrder.
  rewrite filter_In, dedupeFrom_In. simpl. tauto.
Qed.

Lemma connectedElements_fixed (elements : list Element) :
  connectedElements doc (connectedElements doc elements)
  = connectedElements doc elements.
Proof.
  unfold connectedElements at 1. unfold dedupeElementsPreserveOrder.
  rewrite dedupeFrom_NoDup;
    [|apply connectedElements_NoDup|intros el _ []].
  apply filter_all. intros el Hel. now apply connectedElements_In in Hel.
Qed.

(** The capture phase logs one progress call per settled capture, counting
    up, and one warning per capture that throws. *)
Lemma captureMapper_log (total : nat) (settled : list (nat * Element))
  (st : FinalizeState Num) :
  let st' :=
    List.fold_left
      (fun s entry => snd (captureMapper inspector total (snd entry) (fst entry)) s)
      settled st in
  progressEvents st'
  = progressEvents st
      ++ List.map
           (fun k => {| phase := BuildingContext; completed := k; total := total;
                        progress_message := None |})
           (List.seq (S (st_completed st)) (length settled))
  /\ warnings st' = warnings st ++ captureErrors inspector (List.map snd settled).
Proof.
  revert st. induction settled as [|[i el] rest IH]; intro st.
  - simpl. now rewrite !app_nil_r.
  - cbn [List.fold_left fst snd]. cbv zeta in IH |- *.
    destruct (IH (snd (captureMapper inspector total el i) st)) as (I1 & I2).
    rewrite I1, I2. clear IH I1 I2.
    unfold captureMapper, captureErrors.
    cbn [List.map snd List.flat_map length List.seq].
    destruct (engine_getElementContext inspector el);
      cbn [snd countCompleted countFailed onProgress progressEvents warnings
           st_completed];
      rewrite <- !app_assoc; split; reflexivity.
Qed.

Lemma captureErrors_length (elements : list Element) :
  length (captureErrors inspector elements) = failedCaptures inspector elements.
Proof.
  unfold captureErrors, failedCaptures.
  induction elements as [|el rest IH]; [reflexivity|]. simpl.
  destruct (engine_getElementContext inspector el); simpl; lia.
Qed.

Lemma captureErrors_Permutation (l l' : list Element) :
  Permutation l l' ->
  Permutation (captureErrors inspector l) (captureErrors inspector l').
Proof.
  intros Hp. unfold captureErrors.
  induction Hp; simpl.
  - constructor.
  - now apply Permutation_app_head.
  - rewrite !app_assoc. apply Permutation_app_tail. apply Permutation_app_comm.
  - etransitivity; eassumption.
Qed.

(** The state after the capture phase, whatever the order in which the
    captures settle. *)
Lemma capture_phase (schedule : nat -> nat) (connected : list Element)
  (st1 : FinalizeState Num) :
  let pool :=
    mapWithConcurrencyLimit (captureMapper inspector (length connected)) connected 2
      schedule st1 in
  nonNullContexts (results pool) = capturedContexts inspector connected
  /\ st_completed (shared pool) = (st_completed st1 + length connected)%nat
  /\ st_failed (shared pool)
     = (st_failed st1 + failedCaptures inspector connected)%nat
  /\ currentSession (shared pool) = currentSession st1
  /\ hookCalls (shared pool) = hookCalls st1
  /\ toasts (shared pool) = toasts st1
  /\ progressEvents (shared pool)
     = progressEvents st1
         ++ List.map
              (fun k => {| phase := BuildingContext; completed := k;
                           total := length connected; progress_message := None |})
              (List.seq (S (st_completed st1)) (length connected))
  /\ exists errors,
       warnings (shared pool) = warnings st1 ++ errors
       /\ Permutation errors (captureErrors inspector connected).
Proof.
  intros pool.
  destruct (@mapWithConcurrencyLimit_complete _ _ _
              (captureMapper inspector (length connected)) connected 2 schedule st1)
    as (Hres & settled & Hperm & Hshared); [lia|].
  fold pool in Hres, Hshared.
  destruct (captureMapper_effects inspector (length connected) settled st1)
    as (E1 & E2 & E3 & E4 & E5).
  destruct (captureMapper_log (length connected) settled st1) as (E6 & E7).
  cbv zeta in E1, E2, E3, E4, E5, E6, E7.
  rewrite <- Hshared in E1, E2, E3, E4, E5, E6, E7.
  assert (Hlen : length settled = length connected).
  { rewrite (Permutation_length Hperm). apply indexed_length. }
  assert (Hels : Permutation (List.map snd settled) connected).
  { rewrite <- (indexed_snd connected). now apply Permutation_map. }
  split; [now rewrite Hres, nonNullContexts_results, indexed_snd|].
  split; [now rewrite E1, Hlen|].
  split.
  { rewrite E2. f_equal. unfold failedCaptures.
    now apply filter_length_Permutation. }
  split; [exact E3|]. split; [exact E4|]. split; [exact E5|].
  split; [now rewrite E6, Hlen|].
  exists (captureErrors inspector (List.map snd settled)).
  split; [exact E7|]. now apply captureErrors_Permutation.
Qed.

End OutcomeFacts.

Section OutcomeTheorems.
Context {Num : Type}.
Variable doc : Document Num.
Variable inspector : InspectorEngine Num.
Variable activeProvider : AgentProvider Num.
Variable currentInstruction : option jstring.
Variable browser : Browser.

Lemma captureProgress_split (total : nat) :
  captureProgress total
  = {| phase := BuildingContext; completed := 0; total := total;
       progress_message := None |}
    :: List.map
         (fun k => {| phase := BuildingContext; completed := k; total := total;
                      progress_message := None |})
         (List.seq 1 total).
Proof. reflexivity. Qed.

(** [finalizeSelection] on a selection with a connected element, up to the
    point where the captures have settled. *)
Lemma finalizeSelection_after_capture (schedule : nat -> nat)
  (previous : option (GrabrSession Num)) (elements : list Element) :
  connectedElements doc elements <> [] ->
  let connected := connectedElements doc elements in
  let total := length connected in
  let captured := capturedContexts inspector connected in
  let failed := failedCaptures inspector connected in
  let session := sessionOf doc inspector currentInstruction browser elements in
  exists errors,
    Permutation errors (captureErrors inspector connected)
    /\ finalizeSelection doc inspector activeProvider currentInstruction browser
         schedule previous elements
       = if (length captured =? 0)%nat then
           {| st_completed := total; st_failed := failed;
              progressEvents :=
                captureProgress total
                  ++ [{| phase := ErrorPhase; completed := total; total := total;
                         progress_message :=
                           Some (js "Failed to capture context for all selected elements.") |}];
              warnings := errors;
              currentSession := previous; hookCalls := []; toasts := [] |}
         else
           match sendContext activeProvider session with
           | Returned _ =>
               {| st_completed := total; st_failed := failed;
                  progressEvents :=
                    captureProgress total
                      ++ [{| phase := Sending; completed := total; total := total;
                             progress_message := None |};
                          {| phase := Done; completed := total; total := total;
                             progress_message := None |}];
                  warnings := errors;
                  currentSession := Some session;
                  hookCalls :=
                    if hasOnSuccess activeProvider then [OnSuccess session] else [];
                  toasts :=
                    ((if (length captured =? 1)%nat
                      then js "Copied context for 1 element."
                      else js "Copied context for " ++ nat_toString (length captured)
                             ++ js " elements."), false)
                    :: (if (0 <? failed)%nat
                        then [(js "Warning: " ++ nat_toString failed
                                 ++ js " element(s) failed to capture.", true)]
                        else []) |}
           | Threw error =>
               let err :=
                 match error with
                 | ErrorObject _ => error
                 | ThrownValue => ErrorObject (js "Failed to send context.")
                 end in
               let errMessage :=
                 match err with ErrorObject m => m | ThrownValue => [] end in
               {| st_completed := total; st_failed := failed;
                  progressEvents :=
                    captureProgress total
                      ++ [{| phase := Sending; completed := total; total := total;
                             progress_message := None |};
                          {| phase := ErrorPhase; completed := total; total := total;
                             progress_message := Some errMessage |}];
                  warnings := errors;
                  currentSession := Some session;
                  hookCalls :=
                    if hasOnError activeProvider then [OnError session err] else [];
                  toasts := [(errMessage, true)] |}
           end.
Proof.
  intros Hne connected total captured failed session.
  unfold finalizeSelection.
  change (List.filter (isElementConnectedToDocument doc)
            (dedupeElementsPreserveOrder elements)) with connected.
  fold total.
  destruct (total =? 0)%nat eqn:Et.
  { apply Nat.eqb_eq in Et. apply length_zero_iff_nil in Et. contradiction. }
  set (st1 := onProgress {| phase := BuildingContext; completed := 0; total := total;
                            progress_message := None |} (initialState previous)).
  destruct (capture_phase inspector schedule connected st1)
    as (Hctx & Hc & Hf & Hs & Hh & Ht & Hp & errors & Hw & Hperm).
  fold total in Hctx, Hc, Hf, Hs, Hh, Ht, Hp, Hw.
  set (pool := mapWithConcurrencyLimit (captureMapper inspector total) connected 2
                 schedule st1) in *.
  exists errors. split; [exact Hperm|].
  rewrite Hctx. fold captured.
  cbn [st1 onProgress initialState st_completed st_failed currentSession hookCalls
       toasts progressEvents warnings] in Hc, Hf, Hs, Hh, Ht, Hp, Hw.
  rewrite Nat.add_0_l in Hc, Hf. simpl Datatypes.app in Hp, Hw.
  fold failed in Hf.
  destruct (length captured =? 0)%nat.
  - unfold onProgress. rewrite Hc, Hf, Hs, Hh, Ht, Hp, Hw.
    rewrite captureProgress_split. reflexivity.
  - rewrite Hc, Hf, Hh, Ht, Hp, Hw.
    change {| session_id := _; createdAt := _; session_url := _;
              userInstruction := _; summary := _; elements := captured |}
      with session.
    rewrite captureProgress_split.
    destruct (sendContext activeProvider session) as [u|error].
    + destruct (hasOnSuccess activeProvider), (0 <? failed)%nat;
        unfold showToast, onProgress, callHook;
        cbn [st_completed st_failed progressEvents warnings currentSession
             hookCalls toasts Datatypes.app];
        rewrite <- ?app_assoc; reflexivity.
    + destruct (hasOnError activeProvider);
        unfold showToast, onProgress, callHook;
        cbn [st_completed st_failed progressEvents warnings currentSession
             hookCalls toasts Datatypes.app];
        rewrite <- ?app_assoc; reflexivity.
Qed.

End OutcomeTheorems.

(** X12.  When a selection holds no element that is connected to the
    document, or when every capture throws, [finalizeSelection] produces no
    session: the stored session stays what it was, the provider and its
    hooks are not called and no toast is shown.  The only trace is an error
    progress call, ["No valid elements to capture."] with counts 0/0 in the
    first case and ["Failed to capture context for all selected elements."]
    after the capture progress in the second. *)
Theorem X12_no_capture_no_session
  (Num : Type) (doc : Document Num) (inspector : InspectorEngine Num)
  (activeProvider : AgentProvider Num) (currentInstruction : option jstring)
  (browser : Browser) (schedule : nat -> nat) (previous : option (GrabrSession Num))
  (elements : list Element) :
  let final :=
    finalizeSelection doc inspector activeProvider currentInstruction browser
      schedule previous elements in
  let connected := connectedElements doc elements in
  (connected = [] <->
   forall el, In el elements -> isElementConnectedToDocument doc el = false)
  /\ (connected = [] ->
      final
      = {| st_completed := 0; st_failed := 0;
           progressEvents :=
             [{| phase := ErrorPhase; completed := 0; total := 0;
                 progress_message := Some (js "No valid elements to capture.") |}];
           warnings := []; currentSession := previous; hookCalls := [];
           toasts := [] |})
  /\ (connected <> [] -> capturedContexts inspector connected = [] ->
      currentSession final = previous
      /\ hookCalls final = []
      /\ toasts final = []
      /\ st_completed final = length connected
      /\ st_failed final = length connected
      /\ progressEvents final
         = captureProgress (length connected)
             ++ [{| phase := ErrorPhase; completed := length connected;
                    total := length connected;
                    progress_message :=
                      Some (js "Failed to capture context for all selected elements.") |}]).
Proof.
  intros final connected. split; [|split].
  - split.
    + intros E el Hin.
      destruct (isElementConnectedToDocument doc el) eqn:Ec; [|reflexivity].
      assert (Hel : In el connected) by (apply connectedElements_In; auto).
      rewrite E in Hel. destruct Hel.
    + intros Hall. destruct connected as [|el rest] eqn:E; [reflexivity|].
      assert (Hel : In el (connectedElements doc elements))
        by (fold connected; rewrite E; now left).
      apply connectedElements_In in Hel. destruct Hel as [Hin Hc].
      rewrite (Hall el Hin) in Hc. discriminate.
  - intros E. subst final. unfold finalizeSelection.
    change (List.filter (isElementConnectedToDocument doc)
              (dedupeElementsPreserveOrder elements)) with connected.
    rewrite E. reflexivity.
  - intros Hne Hnone.
    destruct (@finalizeSelection_after_capture Num doc inspector activeProvider
                currentInstruction browser schedule previous elements Hne)
      as (errors & _ & Hfinal).
    cbv zeta in Hfinal. fold connected in Hfinal. fold final in Hfinal.
    pose proof (captured_plus_failed inspector connected) as Hcount.
    rewrite Hnone in Hfinal, Hcount. simpl in Hfinal, Hcount.
    rewrite Hfinal. cbn [currentSession hookCalls toasts st_completed st_failed
                         progressEvents].
    repeat split; congruence.
Qed.

Lemma X12_no_capture_no_session_witness :
  connectedElements Scenarios.detachedPage [1; 2]%nat = []
  /\ progressEvents
       (finalizeSelection Scenarios.detachedPage Samples.flakyInspector
          Samples.quietProvider None Samples.sampleBrowser (fun _ => 0%nat) None
          [1; 2]%nat)
     = [{| phase := ErrorPhase; completed := 0; total := 0;
           progress_message := Some (js "No valid elements to capture.") |}]
  /\ connectedElements Samples.page [4; 5; 4]%nat = [4; 5]%nat
  /\ capturedContexts Scenarios.brokenInspector [4; 5]%nat = []
  /\ toasts
       (finalizeSelection Samples.page Scenarios.brokenInspector
          Samples.quietProvider None Samples.sampleBrowser (fun _ => 0%nat) None
          [4; 5; 4]%nat)
     = []
  /\ st_failed
       (finalizeSelection Samples.page Scenarios.brokenInspector
          Samples.quietProvider None Samples.sampleBrowser (fun _ => 0%nat) None
          [4; 5; 4]%nat)
     = 2%nat.
Proof.
  pose proof (@X12_no_capture_no_session Z Scenarios.detachedPage
                Samples.flakyInspector Samples.quietProvider None
                Samples.sampleBrowser (fun _ => 0%nat) None [1; 2]%nat) as H1.
  pose proof (@X12_no_capture_no_session Z Samples.page
                Scenarios.brokenInspector Samples.quietProvider None
                Samples.sampleBrowser (fun _ => 0%nat) None [4; 5; 4]%nat) as H2.
  cbv zeta in H1, H2.
  destruct H1 as (_ & H1 & _). destruct H2 as (_ & _ & H2).
  split; [reflexivity|].
  split; [rewrite (H1 eq_refl); reflexivity|].
  split; [reflexivity|]. split; [reflexivity|].
  destruct H2 as (_ & _ & Ht & _ & Hf & _); [discriminate|reflexivity|].
  split; [exact Ht|exact Hf].
Defined.

(** X13.  When at least one capture succeeds, the stored session holds the
    contexts of the distinct connected elements of the selection whose
    capture succeeded, in selection order, whatever the order in which the
    captures settle and whether or not the provider then accepts it.  Its id
    is [crypto.randomUUID()] when available and the creation time with a
    random suffix otherwise; its instruction is the one of
    [startSelectionSession]; its summary counts the captured and the failed
    elements, which add up to the number of distinct connected elements; and
    one warning is logged for every failed capture. *)
Theorem X13_session_of_a_selection
  (Num : Type) (doc : Document Num) (inspector : InspectorEngine Num)
  (activeProvider : AgentProvider Num) (currentInstruction : option jstring)
  (browser : Browser) (schedule : nat -> nat) (previous : option (GrabrSession Num))
  (elements : list Element) :
  let connected := connectedElements doc elements in
  capturedContexts inspector connected <> [] ->
  let final :=
    finalizeSelection doc inspector activeProvider currentInstruction browser
      schedule previous elements in
  let session := sessionOf doc inspector currentInstruction browser elements in
  currentSession final = Some session
  /\ Schema.elements session = capturedContexts inspector connected
  /\ st_completed final = length connected
  /\ st_failed final = failedCaptures inspector connected
  /\ (length (Schema.elements session) + st_failed final)%nat = length connected
  /\ Permutation (warnings final) (captureErrors inspector connected)
  /\ length (warnings final) = st_failed final.
Proof.
  intros connected Hsome final session.
  assert (Hne : connectedElements doc elements <> []).
  { fold connected. intro E. apply Hsome. now rewrite E. }
  destruct (@finalizeSelection_after_capture Num doc inspector activeProvider
              currentInstruction browser schedule previous elements Hne)
    as (errors & Hperm & Hfinal).
  cbv zeta in Hfinal. fold connected in Hfinal, Hperm. fold final in Hfinal.
  fold session in Hfinal.
  destruct (length (capturedContexts inspector connected) =? 0)%nat eqn:E.
  { apply Nat.eqb_eq in E. apply length_zero_iff_nil in E. contradiction. }
  assert (Hfields : currentSession final = Some session
                    /\ st_completed final = length connected
                    /\ st_failed final = failedCaptures inspector connected
                    /\ warnings final = errors).
  { rewrite Hfinal. destruct (sendContext activeProvider session);
      repeat split; reflexivity. }
  destruct Hfields as (H1 & H2 & H3 & H4).
  split; [exact H1|]. split; [reflexivity|]. split; [exact H2|].
  split; [exact H3|].
  split; [rewrite H3; apply captured_plus_failed|].
  split; [now rewrite H4|].
  rewrite H4, H3, (Permutation_length Hperm). apply captureErrors_length.
Qed.

Lemma X13_session_of_a_selection_witness :
  capturedContexts Samples.flakyInspector
    (connectedElements Samples.page [4; 5; 4; 6]%nat) <> []
  /\ exists session,
       currentSession
         (finalizeSelection Samples.page Samples.flakyInspector
            Scenarios.failingProvider (Some (js "Update the button styles."))
            Samples.sampleBrowser (fun _ => 1%nat) None [4; 5; 4; 6]%nat)
       = Some session
       /\ session_id session = js "session-1"
       /\ length (Schema.elements session) = 2%nat
       /\ summary session = Some (js "Session with 2 element(s) captured; 1 failed.").
Proof.
  assert (Hsome : capturedContexts Samples.flakyInspector
                    (connectedElements Samples.page [4; 5; 4; 6]%nat) <> [])
    by (vm_compute; discriminate).
  split; [exact Hsome|].
  destruct (@X13_session_of_a_selection Z Samples.page Samples.flakyInspector
              Scenarios.failingProvider (Some (js "Update the button styles."))
              Samples.sampleBrowser (fun _ => 1%nat) None [4; 5; 4; 6]%nat Hsome)
    as (Hs & _).
  eexists. split; [exact Hs|]. split; [reflexivity|]. split; reflexivity.
Defined.

(** X14.  Progress is reported in order whatever the order in which the
    captures settle: for a selection with [total] distinct connected
    elements the calls are [building-context] with 0, 1, ..., [total]
    completed, then either the error of a capture phase that caught nothing,
    or [sending] followed by [done] when the provider resolves and by an
    error carrying the message when it rejects.  Every call carries the same
    [total]. *)
Theorem X14_progress_calls_in_order
  (Num : Type) (doc : Document Num) (inspector : InspectorEngine Num)
  (activeProvider : AgentProvider Num) (currentInstruction : option jstring)
  (browser : Browser) (schedule : nat -> nat) (previous : option (GrabrSession Num))
  (elements : list Element) :
  let connected := connectedElements doc elements in
  let total := length connected in
  connected <> [] ->
  let final :=
    finalizeSelection doc inspector activeProvider currentInstruction browser
      schedule previous elements in
  let session := sessionOf doc inspector currentInstruction browser elements in
  let event p m :=
    {| phase := p; completed := total; total := total; progress_message := m |} in
  (forall k,
     (k <= total)%nat ->
     nth_error (progressEvents final) k
     = Some {| phase := BuildingContext; completed := k; total := total;
               progress_message := None |})
  /\ (forall e, In e (progressEvents final) ->
        Controller.total e = total /\ (completed e <= total)%nat)
  /\ exists tail,
       progressEvents final = captureProgress total ++ tail
       /\ (capturedContexts inspector connected = [] ->
           tail = [event ErrorPhase
                     (Some (js "Failed to capture context for all selected elements."))])
       /\ (capturedContexts inspector connected <> [] ->
           (forall u, sendContext activeProvider session = Returned u ->
              tail = [event Sending None; event Done None])
           /\ (forall m, sendContext activeProvider session = Threw (ErrorObject m) ->
                 tail = [event Sending None; event ErrorPhase (Some m)])
           /\ (sendContext activeProvider session = Threw ThrownValue ->
               tail = [event Sending None;
                       event ErrorPhase (Some (js "Failed to send context."))])).
Proof.
  intros connected total Hne final session event.
  destruct (@finalizeSelection_after_capture Num doc inspector activeProvider
              currentInstruction browser schedule previous elements Hne)
    as (errors & _ & Hfinal).
  cbv zeta in Hfinal. fold connected in Hfinal. fold total in Hfinal.
  fold final in Hfinal. fold session in Hfinal.
  assert (Htail : exists tail,
             progressEvents final = captureProgress total ++ tail
             /\ (forall e, In e tail ->
                   Controller.total e = total /\ completed e = total)
             /\ (capturedContexts inspector connected = [] ->
                 tail = [event ErrorPhase
                           (Some (js "Failed to capture context for all selected elements."))])
             /\ (capturedContexts inspector connected <> [] ->
                 (forall u, sendContext activeProvider session = Returned u ->
                    tail = [event Sending None; event Done None])
                 /\ (forall m, sendContext activeProvider session = Threw (ErrorObject m) ->
                       tail = [event Sending None; event ErrorPhase (Some m)])
                 /\ (sendContext activeProvider session = Threw ThrownValue ->
                     tail = [event Sending None;
                             event ErrorPhase (Some (js "Failed to send context."))]))).
  { rewrite Hfinal.
    destruct (length (capturedContexts inspector connected) =? 0)%nat eqn:E.
    - apply Nat.eqb_eq in E. apply length_zero_iff_nil in E.
      eexists. split; [reflexivity|]. split.
      + intros e [<-|[]]. split; reflexivity.
      + split; [reflexivity|]. intros Hc. contradiction.
    - apply Nat.eqb_neq in E.
      assert (Hc : capturedContexts inspector connected <> [])
        by (intro Hc; apply E; now rewrite Hc).
      destruct (sendContext activeProvider session) as [u|[m|]];
        (eexists; split; [reflexivity|]; split;
         [intros e [<-|[<-|[]]]; split; reflexivity|];
         split; [intro; contradiction|]; intros _;
         repeat split; intros; try discriminate;
         try (match goal with
              | Heq : Threw _ = Threw _ |- _ => inversion Heq; subst
              end);
         reflexivity). }
  destruct Htail as (tail & Hev & Htot & Hcases).
  split; [|split; [|exists tail; split; [exact Hev|exact Hcases]]].
  - intros k Hk. rewrite Hev, nth_error_app1
      by (unfold captureProgress; rewrite length_map, length_seq; lia).
    unfold captureProgress. rewrite nth_error_map.
    rewrite nth_error_seq. replace (k <? S total)%nat with true
      by (symmetry; apply Nat.ltb_lt; lia).
    reflexivity.
  - intros e He. rewrite Hev in He. apply in_app_or in He. destruct He as [He|He].
    + unfold captureProgress in He. apply in_map_iff in He.
      destruct He as (k & <- & Hk). apply in_seq in Hk. cbn. split; [reflexivity|lia].
    + destruct (Htot e He) as [H1 H2]. split; [exact H1|lia].
Qed.

Lemma X14_progress_calls_in_order_witness :
  connectedElements Samples.page [4; 5; 6]%nat <> []
  /\ progressEvents
       (finalizeSelection Samples.page Samples.flakyInspector Samples.quietProvider
          None Samples.sampleBrowser (fun _ => 1%nat) None [4; 5; 6]%nat)
     = captureProgress 3
         ++ [{| phase := Sending; completed := 3; total := 3;
                progress_message := None |};
             {| phase := Done; completed := 3; total := 3;
                progress_message := None |}]
  /\ nth_error
       (progressEvents
          (finalizeSelection Samples.page Samples.flakyInspector
             Samples.quietProvider None Samples.sampleBrowser (fun _ => 1%nat) None
             [4; 5; 6]%nat)) 2
     = Some {| phase := BuildingContext; completed := 2; total := 3;
               progress_message := None |}.
Proof.
  assert (Hne : connectedElements Samples.page [4; 5; 6]%nat <> [])
    by (vm_compute; discriminate).
  split; [exact Hne|]. split; [reflexivity|].
  apply (proj1 (@X14_progress_calls_in_order Z Samples.page Samples.flakyInspector
                  Samples.quietProvider None Samples.sampleBrowser (fun _ => 1%nat)
                  None [4; 5; 6]%nat Hne) 2%nat).
  vm_compute. lia.
Defined.

(** X15.  When the provider accepts the session, [onSuccess], if the
    provider defines it, is called once with the stored session and
    [onError] is not called; a success toast counts the captured elements,
    in the singular for exactly one; and a warning toast follows exactly when
    some capture failed. *)
Theorem X15_provider_accepts
  (Num : Type) (doc : Document Num) (inspector : InspectorEngine Num)
  (activeProvider : AgentProvider Num) (currentInstruction : option jstring)
  (browser : Browser) (schedule : nat -> nat) (previous : option (GrabrSession Num))
  (elements : list Element) (u : unit) :
  let connected := connectedElements doc elements in
  let captured := capturedContexts inspector connected in
  let failed := failedCaptures inspector connected in
  let session := sessionOf doc inspector currentInstruction browser elements in
  captured <> [] ->
  sendContext activeProvider session = Returned u ->
  let final :=
    finalizeSelection doc inspector activeProvider currentInstruction browser
      schedule previous elements in
  currentSession final = Some session
  /\ hookCalls final
     = (if hasOnSuccess activeProvider then [OnSuccess session] else [])
  /\ toasts final
     = ((if (length captured =? 1)%nat then js "Copied context for 1 element."
         else js "Copied context for " ++ nat_toString (length captured)
                ++ js " elements."), false)
       :: (if (0 <? failed)%nat
           then [(js "Warning: " ++ nat_toString failed
                    ++ js " element(s) failed to capture.", true)]
           else []).
Proof.
  intros connected captured failed session Hsome Hsend final.
  assert (Hne : connectedElements doc elements <> []).
  { fold connected. intro E. apply Hsome. unfold captured. now rewrite E. }
  destruct (@finalizeSelection_after_capture Num doc inspector activeProvider
              currentInstruction browser schedule previous elements Hne)
    as (errors & _ & Hfinal).
  cbv zeta in Hfinal. fold connected in Hfinal. fold captured in Hfinal.
  fold failed in Hfinal. fold final in Hfinal. fold session in Hfinal.
  destruct (length captured =? 0)%nat eqn:E.
  { apply Nat.eqb_eq in E. apply length_zero_iff_nil in E. contradiction. }
  rewrite Hsend in Hfinal. rewrite Hfinal. repeat split; reflexivity.
Qed.

Lemma X15_provider_accepts_witness :
  capturedContexts Samples.flakyInspector
    (connectedElements Samples.page [4; 5; 6]%nat) <> []
  /\ toasts
       (finalizeSelection Samples.page Samples.flakyInspector Samples.quietProvider
          None Samples.sampleBrowser (fun _ => 0%nat) None [4; 5; 6]%nat)
     = [ (js "Copied context for 2 elements.", false);
         (js "Warning: 1 element(s) failed to capture.", true) ]
  /\ toasts
       (finalizeSelection Samples.page Samples.flakyInspector Samples.quietProvider
          None Samples.sampleBrowser (fun _ => 0%nat) None [4]%nat)
     = [ (js "Copied context for 1 element.", false) ].
Proof.
  assert (Hsome : capturedContexts Samples.flakyInspector
                    (connectedElements Samples.page [4; 5; 6]%nat) <> [])
    by (vm_compute; discriminate).
  assert (Hone : capturedContexts Samples.flakyInspector
                   (connectedElements Samples.page [4]%nat) <> [])
    by (vm_compute; discriminate).
  split; [exact Hsome|].
  destruct (@X15_provider_accepts Z Samples.page Samples.flakyInspector
              Samples.quietProvider None Samples.sampleBrowser (fun _ => 0%nat) None
              [4; 5; 6]%nat tt Hsome eq_refl) as (_ & _ & Ht).
  destruct (@X15_provider_accepts Z Samples.page Samples.flakyInspector
              Samples.quietProvider None Samples.sampleBrowser (fun _ => 0%nat) None
              [4]%nat tt Hone eq_refl) as (_ & _ & Ht1).
  split; [rewrite Ht; reflexivity|rewrite Ht1; reflexivity].
Defined.

(** X16.  When the provider rejects, the session stays stored, [onError],
    if the provider defines it, is called once with the stored session and
    the error, and [onSuccess] is not called; the only toast is the error's
    message, shown as an error, and neither the success toast nor the
    failed-capture warning appears.  A rejection with a value that is not an
    [Error] is reported as ["Failed to send context."]. *)
Theorem X16_provider_rejects
  (Num : Type) (doc : Document Num) (inspector : InspectorEngine Num)
  (activeProvider : AgentProvider Num) (currentInstruction : option jstring)
  (browser : Browser) (schedule : nat -> nat) (previous : option (GrabrSession Num))
  (elements : list Element) (error : Exception) :
  let connected := connectedElements doc elements in
  let session := sessionOf doc inspector currentInstruction browser elements in
  capturedContexts inspector connected <> [] ->
  sendContext activeProvider session = Threw error ->
  let final :=
    finalizeSelection doc inspector activeProvider currentInstruction browser
      schedule previous elements in
  let reported :=
    match error with
    | ErrorObject m => m
    | ThrownValue => js "Failed to send context."
    end in
  currentSession final = Some session
  /\ hookCalls final
     = (if hasOnError activeProvider
        then [OnError session (ErrorObject reported)] else [])
  /\ toasts final = [(reported, true)]
  /\ hd_error (rev (progressEvents final))
     = Some {| phase := ErrorPhase; completed := length connected;
               total := length connected; progress_message := Some reported |}.
Proof.
  intros connected session Hsome Hsend final reported.
  assert (Hne : connectedElements doc elements <> []).
  { fold connected. intro E. apply Hsome. now rewrite E. }
  destruct (@finalizeSelection_after_capture Num doc inspector activeProvider
              currentInstruction browser schedule previous elements Hne)
    as (errors & _ & Hfinal).
  cbv zeta in Hfinal. fold connected in Hfinal. fold final in Hfinal.
  fold session in Hfinal.
  destruct (length (capturedContexts inspector connected) =? 0)%nat eqn:E.
  { apply Nat.eqb_eq in E. apply length_zero_iff_nil in E. contradiction. }
  rewrite Hsend in Hfinal. rewrite Hfinal.
  cbn [currentSession hookCalls toasts progressEvents].
  rewrite rev_app_distr. subst reported.
  destruct error; repeat split; reflexivity.
Qed.

Lemma X16_provider_rejects_witness :
  capturedContexts Samples.flakyInspector
    (connectedElements Samples.page [4; 5; 6]%nat) <> []
  /\ toasts
       (finalizeSelection Samples.page Samples.flakyInspector
          Scenarios.failingProvider None Samples.sampleBrowser (fun _ => 0%nat) None
          [4; 5; 6]%nat)
     = [ (js "Failed to copy session context to clipboard.", true) ].
Proof.
  assert (Hsome : capturedContexts Samples.flakyInspector
                    (connectedElements Samples.page [4; 5; 6]%nat) <> [])
    by (vm_compute; discriminate).
  split; [exact Hsome|].
  destruct (@X16_provider_rejects Z Samples.page Samples.flakyInspector
              Scenarios.failingProvider None Samples.sampleBrowser (fun _ => 0%nat)
              None [4; 5; 6]%nat
              (ErrorObject (js "Failed to copy session context to clipboard."))
              Hsome eq_refl)
    as (_ & _ & Ht & _).
  exact Ht.
Defined.

(** ** Framework and data-source heuristics *)

Section ScanFacts.
Context {Num : Type}.

Lemma scanFrames_closed (frames : list (ReactComponentFrame Num)) (st : FrameScan Num) :
  List.fold_left scanFrame frames st
  = {| scan_framework :=
         if isUnknownFramework (scan_framework st) then
           match List.find
                   (fun src =>
                      negb (isUnknownFramework (inferFrameworkFromPath (fileName src))))
                   (frameSources frames) with
           | Some src => inferFrameworkFromPath (fileName src)
           | None => FrameworkUnknown
           end
         else scan_framework st;
       scan_layoutComponents :=
         scan_layoutComponents st
           ++ List.filter (fun src => isLayoutLikeFromPath (fileName src))
                (frameSources frames);
       scan_pageComponent :=
         match scan_pageComponent st with
         | Some p => Some p
         | None =>
             List.find (fun src => isPageLikeFromPath (fileName src))
               (frameSources frames)
         end |}.
Proof.
  revert st. induction frames as [|frame frames IH]; intro st.
  - destruct st as [fw layouts [p|]]; simpl; rewrite app_nil_r;
      destruct fw; reflexivity.
  - cbn [List.fold_left]. rewrite IH. clear IH.
    unfold scanFrame, frameSources. cbn [List.flat_map].
    destruct (source frame) as [src|]; [|reflexivity].
    change ([src] ++ List.flat_map
                       (fun frame0 : ReactComponentFrame Num =>
                          match source frame0 with
                          | Some src0 => [src0]
                          | None => []
                          end) frames)
      with (src :: frameSources frames).
    cbn [scan_framework scan_layoutComponents scan_pageComponent List.find
         List.filter].
    f_equal.
    + destruct (isUnknownFramework (scan_framework st)) eqn:Eu.
      * destruct (isUnknownFramework (inferFrameworkFromPath (fileName src))) eqn:Ei;
          cbn [negb]; reflexivity.
      * now rewrite Eu.
    + destruct (isLayoutLikeFromPath (fileName src));
        [now rewrite <- app_assoc|reflexivity].
    + destruct (scan_pageComponent st) as [p|]; [reflexivity|].
      destruct (isPageLikeFromPath (fileName src)); reflexivity.
Qed.

End ScanFacts.

(** X17.  The next-like strategy reads the sources of the stack frames in
    stack order: the framework is the one inferred from the first source
    whose path names a framework ([unknown] when there is none), the layout
    components are all the sources with a layout-like path, in order, and
    the page component is the first source with a page-like path.  The
    strategy returns null exactly when there is no slice or all three are
    empty.  A route pattern is guessed exactly when the framework is
    next-app or next-pages, and route params only together with a pattern. *)
Theorem X17_next_like_scan
  (Num : Type) (B : Builtins Num) (input : FrameworkDetectionInput Num) :
  (in_reactSlice input = None -> nextLikeDetect input = None)
  /\ forall reactSlice,
       in_reactSlice input = Some reactSlice ->
       let sources := frameSources (stack reactSlice) in
       let framework :=
         match List.find
                 (fun src =>
                    negb (isUnknownFramework (inferFrameworkFromPath (fileName src))))
                 sources with
         | Some src => inferFrameworkFromPath (fileName src)
         | None => FrameworkUnknown
         end in
       let layouts :=
         List.filter (fun src => isLayoutLikeFromPath (fileName src)) sources in
       let page := List.find (fun src => isPageLikeFromPath (fileName src)) sources in
       (nextLikeDetect input = None <->
        framework = FrameworkUnknown /\ page = None /\ layouts = [])
       /\ forall result,
            nextLikeDetect input = Some result ->
            fr_framework result = framework
            /\ fr_layoutComponents result = layouts
            /\ fr_pageComponent result = page
            /\ (fr_routePatternGuess result <> None <->
                framework = NextApp \/ framework = NextPages)
            /\ (fr_routeParamsGuess result <> None ->
                fr_routePatternGuess result <> None).
Proof.
  split.
  { intros E. unfold nextLikeDetect. now rewrite E. }
  intros reactSlice E sources framework layouts page.
  unfold nextLikeDetect. rewrite E. rewrite scanFrames_closed.
  cbn [scan_framework scan_layoutComponents scan_pageComponent isUnknownFramework].
  rewrite !app_nil_l.
  fold sources. fold framework. fold layouts. fold page.
  clearbody framework layouts page. clear sources.
  split.
  - split.
    + intros Hnone.
      destruct (isUnknownFramework framework) eqn:Ef; [|discriminate].
      destruct page as [p|]; [discriminate|].
      destruct layouts as [|l ls]; [|discriminate].
      destruct framework; try discriminate. auto.
    + intros (-> & -> & ->). reflexivity.
  - intros result Hres.
    destruct (isUnknownFramework framework
              && match page with None => true | Some _ => false end
              && (length layouts =? 0)%nat); [discriminate|].
    inversion Hres as [Hr]. clear Hres Hr.
    cbn [fr_framework fr_layoutComponents fr_pageComponent fr_routePatternGuess
         fr_routeParamsGuess].
    split; [reflexivity|]. split; [reflexivity|]. split; [reflexivity|].
    destruct framework; cbn [isNextLike]; (split; [split|]);
      try (intros _; discriminate); try (intros _; auto; fail);
      try (intros [H1|H1]; discriminate);
      try (intros H1; exfalso; apply H1; reflexivity).
Qed.

Lemma X17_next_like_scan_witness :
  in_reactSlice (Samples.routeInput (js "/shop/42")) = Some Samples.appPageSlice
  /\ exists result,
       nextLikeDetect (Samples.routeInput (js "/shop/42")) = Some result
       /\ fr_framework result = NextApp
       /\ fr_pageComponent result = Some Samples.appPageSource
       /\ fr_layoutComponents result = [].
Proof.
  split; [reflexivity|].
  destruct (proj2 (@X17_next_like_scan Z _ (Samples.routeInput (js "/shop/42")))
              Samples.appPageSlice eq_refl) as [_ Hres].
  eexists. split; [reflexivity|].
  destruct (Hres _ eq_refl) as (Hf & Hl & Hp & _).
  split; [rewrite Hf; reflexivity|]. split; [rewrite Hp; reflexivity|].
  rewrite Hl. reflexivity.
Defined.

Lemma findNonNull_first {A : Type} (before : list (option A)) (r : A)
  (after : list (option A)) :
  (forall x, In x before -> x = None) ->
  findNonNull (before ++ Some r :: after) = Some r.
Proof.
  induction before as [|x before IH]; intros Hall; [reflexivity|].
  simpl. rewrite (Hall x (or_introl eq_refl)). apply IH.
  intros y Hy. apply Hall. now right.
Qed.

Lemma findNonNull_none {A : Type} (results : list (option A)) :
  (forall x, In x results -> x = None) -> findNonNull results = None.
Proof.
  induction results as [|x results IH]; intros Hall; [reflexivity|].
  simpl. rewrite (Hall x (or_introl eq_refl)). apply IH.
  intros y Hy. apply Hall. now right.
Qed.

Lemma collect_hints {S H : Type} (detect : S -> list H) (strategies : list S)
  (collected : list H) :
  List.fold_left (fun acc strategy => acc ++ detect strategy) strategies collected
  = collected ++ List.flat_map detect strategies.
Proof.
  revert collected. induction strategies as [|s rest IH]; intro collected; simpl.
  - now rewrite app_nil_r.
  - rewrite IH. now rewrite <- app_assoc.
Qed.

(** X18.  The app facet takes its framework, route and page fields from
    the first framework strategy, in configuration order, that returns a
    result; later strategies are not consulted for these fields, and when no
    strategy returns a result the framework is [unknown] with no route, no
    page and no layout.  Its data sources are the hints of all data-source
    strategies, in configuration order, and the single hint [unknown] when
    they return none: the list is never empty, whatever the configuration. *)
Theorem X18_app_context_strategies
  (Num : Type) (doc : Document Num) (reactSlice : option (ReactTreeSlice Num))
  (config : GrabrRuntimeConfig Num) :
  let app := buildAppContext doc reactSlice config in
  let input :=
    {| in_reactSlice := reactSlice; in_url := url app; in_pathname := pathname app |} in
  let hints :=
    List.flat_map
      (fun strategy =>
         dsrc_detect strategy
           {| in_ownerProps :=
                match reactSlice with
                | Some slice => ownerProps slice
                | None => None
                end |})
      (dataSourceStrategies (heuristics config)) in
  (forall before strategy after result,
     frameworkStrategies (heuristics config) = before ++ strategy :: after ->
     (forall s, In s before -> fw_detect s input = None) ->
     fw_detect strategy input = Some result ->
     framework app = fr_framework result
     /\ routePatternGuess app = fr_routePatternGuess result
     /\ routeParamsGuess app = fr_routeParamsGuess result
     /\ pageComponent app = fr_pageComponent result
     /\ layoutComponents app = fr_layoutComponents result)
  /\ ((forall s, In s (frameworkStrategies (heuristics config)) ->
         fw_detect s input = None) ->
      framework app = FrameworkUnknown
      /\ routePatternGuess app = None
      /\ routeParamsGuess app = None
      /\ pageComponent app = None
      /\ layoutComponents app = [])
  /\ dataSources app <> []
  /\ (hints <> [] -> dataSources app = hints)
  /\ (hints = [] -> dataSources app = [unknownDataSource]).
Proof.
  intros app input hints. subst app input hints.
  unfold buildAppContext.
  cbn [url pathname framework routePatternGuess routeParamsGuess pageComponent
       layoutComponents dataSources].
  set (input := {| in_reactSlice := reactSlice;
                   in_url := match location doc with Some l => href l | None => [] end;
                   in_pathname :=
                     match location doc with Some l => loc_pathname l | None => [] end |}).
  rewrite collect_hints. rewrite app_nil_l.
  set (hints := List.flat_map _ (dataSourceStrategies (heuristics config))).
  split; [|split; [|split; [|split]]].
  - intros before strategy after result Hs Hbefore Hres.
    rewrite Hs, map_app. cbn [List.map]. rewrite Hres.
    rewrite findNonNull_first; [repeat split; reflexivity|].
    intros x Hx. apply in_map_iff in Hx. destruct Hx as (s & <- & Hin).
    now apply Hbefore.
  - intros Hall. rewrite findNonNull_none; [repeat split; reflexivity|].
    intros x Hx. apply in_map_iff in Hx. destruct Hx as (s & <- & Hin).
    now apply Hall.
  - destruct hints; simpl; discriminate.
  - intros Hne. destruct hints; [contradiction|reflexivity].
  - intros ->. reflexivity.
Qed.

(** X19.  The basic data-source strategy never returns an empty list: it
    returns the hint [unknown] alone when no rule fires and otherwise between
    one and three hints, of distinct kinds, in the order react-query, swr,
    redux, none of which is [unknown].  The react-query rule needs the three
    prop names [data], [error] and [loading] or [isLoading], compared without
    regard to case. *)
Theorem X19_basic_data_source_hints
  (Num : Type) (B : Builtins Num) (input : DataSourceDetectionInput Num) :
  let hints := basicDataSourceDetect input in
  let names :=
    List.map toLowerCase
      match in_ownerProps input with
      | Some ownerProps => List.map (@ph_name Num) (highlighted ownerProps)
      | None => []
      end in
  hints <> []
  /\ (length hints <= 3)%nat
  /\ NoDup (List.map ds_kind hints)
  /\ (In DsUnknown (List.map ds_kind hints) -> hints = [unknownDataSource])
  /\ (forall kind, In kind (List.map ds_kind hints) ->
        kind = DsReactQuery \/ kind = DsSwr \/ kind = DsRedux \/ kind = DsUnknown)
  /\ (In DsReactQuery (List.map ds_kind hints) <->
      arrayIncludes names (js "data") = true
      /\ (arrayIncludes names (js "isloading") = true
          \/ arrayIncludes names (js "loading") = true)
      /\ arrayIncludes names (js "error") = true)
  /\ (In DsSwr (List.map ds_kind hints) <->
      List.existsb (fun p => includes p (js "swr")) names = true)
  /\ (In DsRedux (List.map ds_kind hints) <->
      List.existsb (fun p => includes p (js "selector")) names = true)
  /\ (in_ownerProps input = None -> hints = [unknownDataSource]).
Proof.
  intros hints names. subst hints. unfold basicDataSourceDetect. fold names.
  assert (Hnone : in_ownerProps input = None -> names = []).
  { intros E. subst names. now rewrite E. }
  clearbody names.
  assert (Hrq : arrayIncludes names (js "data")
                && (arrayIncludes names (js "isloading")
                    || arrayIncludes names (js "loading"))
                && arrayIncludes names (js "error") = true
                <-> arrayIncludes names (js "data") = true
                    /\ (arrayIncludes names (js "isloading") = true
                        \/ arrayIncludes names (js "loading") = true)
                    /\ arrayIncludes names (js "error") = true).
  { rewrite !andb_true_iff, orb_true_iff. tauto. }
  rewrite <- Hrq. clear Hrq.
  assert (Hempty : names = [] ->
            arrayIncludes names (js "data")
            && (arrayIncludes names (js "isloading")
                || arrayIncludes names (js "loading"))
            && arrayIncludes names (js "error") = false
            /\ List.existsb (fun p => includes p (js "swr")) names = false
            /\ List.existsb (fun p => includes p (js "selector")) names = false).
  { intros ->. repeat split; reflexivity. }
  destruct (arrayIncludes names (js "data")
            && (arrayIncludes names (js "isloading")
                || arrayIncludes names (js "loading"))
            && arrayIncludes names (js "error"));
    destruct (List.existsb (fun p => includes p (js "swr")) names);
    destruct (List.existsb (fun p => includes p (js "selector")) names);
    cbn [Datatypes.app Datatypes.length Nat.eqb List.map ds_kind unknownDataSource];
    (split; [discriminate|]);
    (split; [lia|]);
    (split; [repeat constructor; simpl; intuition discriminate|]);
    (split; [simpl; intuition discriminate|]);
    (split; [simpl; intuition (subst; auto)|]);
    (split; [simpl; intuition discriminate|]);
    (split; [simpl; intuition discriminate|]);
    (split; [simpl; intuition discriminate|]);
    intros E; destruct (Hempty (Hnone E)) as (H1 & H2 & H3);
    try discriminate; reflexivity.
Qed.

(** ** Runtime configuration *)

(** X20.  Merging fills every absent field with its default, mode
    [best-effort] and 8 stack frames, and keeps every field that is present;
    no argument gives the default configuration, and a complete
    configuration passed as a partial one comes back unchanged.  Hence the
    engine of a client has exactly the client's validated configuration. *)
Theorem X20_merge_runtime_config
  (Num : Type) (B : Builtins Num) (Fiber Renderer : Type)
  (bippy : Bippy Num Fiber Renderer) (doc : Document Num) :
  mergeRuntimeConfig None = defaultRuntimeConfig
  /\ reactInspectorMode (@defaultRuntimeConfig Num B) = js "best-effort"
  /\ maxReactStackFrames (@defaultRuntimeConfig Num B) = 8%Z
  /\ (forall config : GrabrRuntimeConfig Num,
        mergeRuntimeConfig (Some (asPartial config)) = config)
  /\ (forall partial : PartialRuntimeConfig Num,
        let merged := mergeRuntimeConfig (Some partial) in
        reactInspectorMode merged
        = match partial_reactInspectorMode partial with
          | Some mode => mode
          | None => js "best-effort"
          end
        /\ maxReactStackFrames merged
           = match partial_maxReactStackFrames partial with
             | Some frames => frames
             | None => 8%Z
             end
        /\ frameworkStrategies (heuristics merged)
           = match partial_heuristics partial with
             | Some h => frameworkStrategies h
             | None => frameworkStrategies (@defaultHeuristics Num B)
             end
        /\ dataSourceStrategies (heuristics merged)
           = match partial_heuristics partial with
             | Some h => dataSourceStrategies h
             | None => dataSourceStrategies (@defaultHeuristics Num B)
             end)
  /\ (forall partial client,
        createGrabrClient bippy doc true partial = Returned client ->
        client_config client = mergeRuntimeConfig partial
        /\ engine_config (client_inspector client) = client_config client
        /\ returned (validateRuntimeConfigOrThrow (client_config client)) = true)
  /\ returned (createGrabrClient bippy doc true None) = true
  /\ (forall partial, returned (createGrabrClient bippy doc false partial) = false).
Proof.
  assert (Hround : forall config : GrabrRuntimeConfig Num,
            mergeRuntimeConfig (Some (asPartial config)) = config).
  { intros [mode frames [fs ds]]. reflexivity. }
  split; [reflexivity|]. split; [reflexivity|]. split; [reflexivity|].
  split; [exact Hround|].
  split.
  { intros partial merged. subst merged. unfold mergeRuntimeConfig.
    cbn [reactInspectorMode maxReactStackFrames heuristics frameworkStrategies
         dataSourceStrategies].
    repeat split; reflexivity. }
  split.
  { intros partial client. unfold createGrabrClient. cbn [negb].
    destruct (validateRuntimeConfigOrThrow (mergeRuntimeConfig partial)) eqn:Ev;
      cbn [bind]; [|discriminate].
    unfold createInspectorEngine. cbn [bind ret]. rewrite Hround.
    intros E. inversion E. cbn [client_config client_inspector engine_config
                                DefaultInspectorEngine].
    rewrite Ev. repeat split; reflexivity. }
  split; [reflexivity|].
  intros partial. reflexivity.
Qed.

(** ** Extraction engine: sources and snapshots *)

(** X21.  A source is kept only with a file name: [toSourceLocation] returns
    null exactly when there is no source or its file name is missing or
    empty.  A location it returns has that file name, origin [bippy], the
    confidence given by the build type (development high, production low,
    unknown medium), and the line and column of the source when they are
    finite numbers, null otherwise. *)
Theorem X21_source_location
  (Num : Type) (B : Builtins Num) (source : option (SourceLike Num))
  (buildType : ReactBuildType) :
  (toSourceLocation source buildType = None <->
   source = None
   \/ exists s, source = Some s
                /\ (sl_fileName s = None \/ sl_fileName s = Some []))
  /\ forall location,
       toSourceLocation source buildType = Some location ->
       exists s,
         source = Some s
         /\ sl_fileName s = Some (fileName location)
         /\ fileName location <> []
         /\ origin location = OriginBippy
         /\ confidence location
            = match buildType with
              | BuildDevelopment => ConfHigh
              | BuildProduction => ConfLow
              | BuildUnknown => ConfMedium
              end
         /\ (forall n, lineNumber location = Some n <->
               sl_lineNumber s = Some n /\ Number_isFinite n = true)
         /\ (forall n, columnNumber location = Some n <->
               sl_columnNumber s = Some n /\ Number_isFinite n = true).
Proof.
  unfold toSourceLocation.
  destruct source as [s|].
  2:{ split; [tauto|discriminate]. }
  destruct (sl_fileName s) as [name|] eqn:En.
  2:{ split; [split; [intros _; right; exists s; auto|reflexivity]|discriminate]. }
  destruct (length name =? 0)%nat eqn:El.
  - apply Nat.eqb_eq in El. apply length_zero_iff_nil in El. subst name.
    split; [split; [intros _; right; exists s; auto|reflexivity]|discriminate].
  - apply Nat.eqb_neq in El. split.
    + split; [discriminate|].
      intros [E|(s' & E & [E'|E'])]; try discriminate;
        inversion E; subst s'; rewrite En in E'; try discriminate.
      inversion E'. subst name. exfalso. apply El. reflexivity.
    + intros location E. inversion E as [Eloc]. clear E. exists s.
      cbn [fileName origin confidence lineNumber columnNumber].
      split; [reflexivity|]. split; [exact En|].
      split; [intro E; apply El; now rewrite E|].
      split; [reflexivity|]. split; [reflexivity|].
      split; intro n.
      * destruct (sl_lineNumber s) as [m|]; [|split; [discriminate|intros [? _]; discriminate]].
        destruct (Number_isFinite m) eqn:Ef.
        -- split; [intros E; inversion E; subst; auto|intros [E _]; exact E].
        -- split; [discriminate|]. intros [E Hf]. inversion E; subst. congruence.
      * destruct (sl_columnNumber s) as [m|]; [|split; [discriminate|intros [? _]; discriminate]].
        destruct (Number_isFinite m) eqn:Ef.
        -- split; [intros E; inversion E; subst; auto|intros [E _]; exact E].
        -- split; [discriminate|]. intros [E Hf]. inversion E; subst. congruence.
Qed.

Lemma slice_from_zero {A : Type} (l : list A) (k : Z) :
  (0 <= k)%Z -> slice l 0 k = firstn (Z.to_nat k) l.
Proof.
  intros Hk. unfold slice.
  replace (0 <? 0)%Z with false by reflexivity.
  destruct (k <? 0)%Z eqn:E; [apply Z.ltb_lt in E; lia|].
  rewrite (Z.min_l 0) by lia. rewrite Z.sub_0_r.
  change (Z.to_nat 0) with 0%nat. rewrite skipn_O.
  destruct (Z.le_ge_cases k (Z.of_nat (length l))) as [Hle|Hge].
  - now rewrite Z.min_l by lia.
  - rewrite Z.min_r by lia. rewrite Nat2Z.id.
    rewrite firstn_all. symmetry. apply firstn_all2. lia.
Qed.

Lemma first_twelve {A : Type} (l : list A) :
  (if (12 <? length l)%nat then slice l 0 12 else l) = firstn 12 l.
Proof.
  destruct (12 <? length l)%nat eqn:E.
  - now rewrite slice_from_zero by lia.
  - apply Nat.ltb_ge in E. symmetry. now apply firstn_all2.
Qed.

Lemma mapWithIndex_length {A B : Type} (f : A -> nat -> B) (items : list A) (i : nat) :
  length (mapWithIndex f items i) = length items.
Proof.
  revert i. induction items as [|x items IH]; intro i; simpl; [reflexivity|].
  now rewrite IH.
Qed.

Lemma mapWithIndex_nth_error {A B : Type} (f : A -> nat -> B) (items : list A)
  (i k : nat) :
  nth_error (mapWithIndex f items i) k
  = option_map (fun x => f x (i + k)%nat) (nth_error items k).
Proof.
  revert i k. induction items as [|x items IH]; intros i [|k]; simpl;
    try reflexivity.
  - now rewrite Nat.add_0_r.
  - rewrite IH. now replace (S i + k)%nat with (i + S k)%nat by lia.
Qed.

Section SnapshotFacts.
Context {Num : Type}.

Lemma state_fold (slots : list (JsValue Num)) (index : nat)
  (entries : list (StateSnapshotEntry Num)) :
  List.fold_left
    (fun (acc : nat * list (StateSnapshotEntry Num)) next =>
       let '(index, entries) := acc in
       (S index,
        entries ++ [{| hookIndex := index; st_value := toSerializableValue next 0 |}]))
    slots (index, entries)
  = ((index + length slots)%nat,
     entries
       ++ mapWithIndex
            (fun next k => {| hookIndex := k; st_value := toSerializableValue next 0 |})
            slots index).
Proof.
  revert index entries. induction slots as [|v slots IH]; intros index entries.
  - simpl. now rewrite Nat.add_0_r, app_nil_r.
  - cbn [List.fold_left mapWithIndex length]. rewrite IH.
    rewrite <- app_assoc. f_equal. lia.
Qed.

Lemma contexts_fold (values : list (JsValue Num)) (index : nat)
  (entries : list (ContextEntry Num)) :
  List.fold_left
    (fun (acc : nat * list (ContextEntry Num)) next =>
       let '(index, entries) := acc in
       (S index,
        entries ++ [{| ce_index := index; ce_value := toSerializableValue next 0 |}]))
    values (index, entries)
  = ((index + length values)%nat,
     entries
       ++ mapWithIndex
            (fun next k => {| ce_index := k; ce_value := toSerializableValue next 0 |})
            values index).
Proof.
  revert index entries. induction values as [|v values IH]; intros index entries.
  - simpl. now rewrite Nat.add_0_r, app_nil_r.
  - cbn [List.fold_left mapWithIndex length]. rewrite IH.
    rewrite <- app_assoc. f_equal. lia.
Qed.

End SnapshotFacts.

(** X22.  A state snapshot counts every hook slot the library visits and
    keeps the first 12: entry [k] has hook index [k] and the converted value
    of slot [k], and [totalHooks] is the number of slots even when it exceeds
    12.  The context snapshot does the same for the context values.  A
    traversal that throws makes the snapshot throw the same exception. *)
Theorem X22_state_and_context_snapshots
  (Num Fiber Renderer : Type) (bippy : Bippy Num Fiber Renderer) (fiber : Fiber) :
  (forall slots,
     traverseState bippy fiber = Returned slots ->
     exists snapshot,
       snapshotState bippy fiber = Returned snapshot
       /\ totalHooks snapshot = length slots
       /\ length (st_entries snapshot) = Nat.min 12 (length slots)
       /\ forall k entry,
            nth_error (st_entries snapshot) k = Some entry <->
            (k < 12)%nat
            /\ exists next,
                 nth_error slots k = Some next
                 /\ entry = {| hookIndex := k;
                               st_value := toSerializableValue next 0 |})
  /\ (forall values,
        traverseContexts bippy fiber = Returned values ->
        exists snapshot,
          snapshotContexts bippy fiber = Returned snapshot
          /\ totalContexts snapshot = length values
          /\ length (cs_entries snapshot) = Nat.min 12 (length values)
          /\ forall k entry,
               nth_error (cs_entries snapshot) k = Some entry <->
               (k < 12)%nat
               /\ exists next,
                    nth_error values k = Some next
                    /\ entry = {| ce_index := k;
                                  ce_value := toSerializableValue next 0 |})
  /\ (forall e, traverseState bippy fiber = Threw e ->
        snapshotState bippy fiber = Threw e)
  /\ (forall e, traverseContexts bippy fiber = Threw e ->
        snapshotContexts bippy fiber = Threw e).
Proof.
  split; [|split; [|split]].
  - intros slots E. unfold snapshotState. rewrite E. cbn [bind].
    rewrite state_fold. cbn [ret]. rewrite first_twelve.
    eexists. split; [reflexivity|]. cbn [totalHooks st_entries].
    rewrite app_nil_l.
    split; [reflexivity|].
    split; [now rewrite length_firstn, mapWithIndex_length|].
    intros k entry. split.
    + intros Hk. apply nth_error_firstn_some in Hk. destruct Hk as [Hk Hlt].
      split; [exact Hlt|]. rewrite mapWithIndex_nth_error in Hk.
      destruct (nth_error slots k) as [next|]; [|discriminate].
      exists next. split; [reflexivity|]. simpl in Hk. now inversion Hk.
    + intros [Hlt (next & Hn & ->)].
      rewrite nth_error_firstn.
      replace (k <? 12)%nat with true by (symmetry; now apply Nat.ltb_lt).
      rewrite mapWithIndex_nth_error, Hn. reflexivity.
  - intros values E. unfold snapshotContexts. rewrite E. cbn [bind].
    rewrite contexts_fold. cbn [ret]. rewrite first_twelve.
    eexists. split; [reflexivity|]. cbn [totalContexts cs_entries].
    rewrite app_nil_l.
    split; [reflexivity|].
    split; [now rewrite length_firstn, mapWithIndex_length|].
    intros k entry. split.
    + intros Hk. apply nth_error_firstn_some in Hk. destruct Hk as [Hk Hlt].
      split; [exact Hlt|]. rewrite mapWithIndex_nth_error in Hk.
      destruct (nth_error values k) as [next|]; [|discriminate].
      exists next. split; [reflexivity|]. simpl in Hk. now inversion Hk.
    + intros [Hlt (next & Hn & ->)].
      rewrite nth_error_firstn.
      replace (k <? 12)%nat with true by (symmetry; now apply Nat.ltb_lt).
      rewrite mapWithIndex_nth_error, Hn. reflexivity.
  - intros e E. unfold snapshotState. now rewrite E.
  - intros e E. unfold snapshotContexts. now rewrite E.
Qed.

Section PropsFacts.
Context {Num : Type} `{Builtins Num}.

Lemma props_fold (props : list (jstring * JsValue Num)) (total : nat)
  (highlighted : list (PropHighlight Num)) :
  List.fold_left snapshotPropsVisit props (total, highlighted)
  = ((total + length props)%nat,
     highlighted
       ++ List.flat_map
            (fun prop =>
               match classifyPropHighlight (fst prop)
                       (toSerializableValue (snd prop) 0) with
               | Some reason =>
                   [{| ph_name := fst prop;
                       ph_value := toSerializableValue (snd prop) 0;
                       ph_reason := reason |}]
               | None => []
               end)
            props).
Proof.
  revert total highlighted.
  induction props as [|[name next] props IH]; intros total highlighted.
  - simpl. now rewrite Nat.add_0_r, app_nil_r.
  - cbn [List.fold_left List.flat_map length fst snd]. unfold snapshotPropsVisit at 2.
    destruct (classifyPropHighlight name (toSerializableValue next 0)) as [reason|];
      rewrite IH; [rewrite <- app_assoc|]; f_equal; lia.
Qed.

Lemma classifyPropHighlight_other (name : jstring) (value : SerializableValue Num) :
  classifyPropHighlight name value = Some ReasonOther -> isNull value = false.
Proof.
  unfold classifyPropHighlight.
  repeat match goal with
         | |- context [if ?c then _ else _] => destruct c; try discriminate
         end.
  reflexivity.
Qed.

End PropsFacts.

(** X23.  A props snapshot counts every prop the library visits and keeps
    at most 12 highlights, in visiting order: the first 12 props that the
    classifier accepts, each with the prop's own name, its value converted at
    depth 0 and the classifier's reason.  A prop is highlighted for the
    reason [other] only when its converted value is not null, so a function
    or [undefined] prop with an ordinary name is counted but not
    highlighted. *)
Theorem X23_props_snapshot
  (Num : Type) (B : Builtins Num) (Fiber Renderer : Type)
  (bippy : Bippy Num Fiber Renderer) (fiber : Fiber)
  (props : list (jstring * JsValue Num)) :
  traverseProps bippy fiber = Returned props ->
  exists snapshot,
    snapshotProps bippy fiber = Returned snapshot
    /\ totalProps snapshot = length props
    /\ highlighted snapshot
       = firstn 12
           (List.flat_map
              (fun prop =>
                 match classifyPropHighlight (fst prop)
                         (toSerializableValue (snd prop) 0) with
                 | Some reason =>
                     [{| ph_name := fst prop;
                         ph_value := toSerializableValue (snd prop) 0;
                         ph_reason := reason |}]
                 | None => []
                 end)
              props)
    /\ (length (highlighted snapshot) <= Nat.min 12 (totalProps snapshot))%nat
    /\ (forall h, In h (highlighted snapshot) ->
          (exists next,
             In (ph_name h, next) props
             /\ ph_value h = toSerializableValue next 0)
          /\ classifyPropHighlight (ph_name h) (ph_value h) = Some (ph_reason h)
          /\ (ph_reason h = ReasonOther -> isNull (ph_value h) = false))
    /\ (forall name f,
          classifyPropHighlight name (SNull : SerializableValue Num) = None ->
          props = [(name, VFunction f)] ->
          totalProps snapshot = 1%nat /\ highlighted snapshot = []).
Proof.
  intros E. unfold snapshotProps. rewrite E. cbn [bind].
  rewrite props_fold. cbn [ret]. rewrite first_twelve. rewrite app_nil_l.
  eexists. split; [reflexivity|]. cbn [totalProps highlighted].
  set (classified := List.flat_map _ props).
  assert (Hlen : (length classified <= length props)%nat).
  { subst classified. clear E. induction props as [|[name next] props IH];
      [simpl; lia|].
    cbn [List.flat_map length fst snd]. rewrite length_app.
    destruct (classifyPropHighlight name (toSerializableValue next 0)); simpl; lia. }
  split; [reflexivity|]. split; [reflexivity|].
  split; [rewrite length_firstn; lia|].
  split.
  - intros h Hh. apply In_firstn in Hh. subst classified.
    apply in_flat_map in Hh. destruct Hh as ([name next] & Hin & Hh).
    cbn [fst snd] in Hh.
    destruct (classifyPropHighlight name (toSerializableValue next 0)) as [reason|]
      eqn:Ec; [|destruct Hh].
    destruct Hh as [<-|[]]. cbn [ph_name ph_value ph_reason].
    split; [exists next; auto|]. split; [exact Ec|].
    intros ->. now apply classifyPropHighlight_other in Ec.
  - intros name f Hc ->. split; [reflexivity|].
    subst classified. cbn [List.flat_map fst snd].
    replace (toSerializableValue (VFunction f) 0) with (SNull : SerializableValue Num)
      by reflexivity.
    rewrite Hc. reflexivity.
Qed.

Lemma X23_props_snapshot_witness :
  traverseProps Samples.quietBippy 100
  = Returned [ (js "onClick", VFunction (js "handleClick"));
               (js "label", VString (js "Save")) ]
  /\ exists snapshot,
       snapshotProps Samples.quietBippy 100 = Returned snapshot
       /\ totalProps snapshot = 2%nat
       /\ highlighted snapshot
          = [{| ph_name := js "label"; ph_value := SString (js "Save");
                ph_reason := ReasonText |}].
Proof.
  split; [reflexivity|].
  destruct (@X23_props_snapshot Z _ nat unit Samples.quietBippy 100%nat _ eq_refl)
    as (snapshot & Hs & Ht & Hh & _).
  exists snapshot. split; [exact Hs|]. split; [exact Ht|].
  rewrite Hh. reflexivity.
Defined.

(** ** Extraction engine: behavior facet *)

Section HandlerFacts.
Context {Num : Type} `{Builtins Num} {Fiber Renderer : Type}.
Variable bippy : Bippy Num Fiber Renderer.

Lemma arrayIncludes_In (names : list jstring) (x : jstring) :
  arrayIncludes names x = true <-> In x names.
Proof.
  unfold arrayIncludes. rewrite existsb_exists. split.
  - intros (n & Hn & E). apply jstring_eqb_eq in E. now subst.
  - intros Hin. exists x. split; [exact Hin|now apply jstring_eqb_eq].
Qed.

Lemma recordHandler_invariant (name : option jstring)
  (src : option (SourceLocation Num)) (st : HandlerScan Num)
  (prop : jstring * JsValue Num) :
  handlersInvariant st -> handlersInvariant (recordHandler name src st prop).
Proof.
  intros Hinv. pose proof Hinv as (Hseen & Hnd & Hall). destruct prop as [pname next].
  unfold recordHandler.
  destruct (startsWith pname (js "on")) eqn:Eon; cbn [negb]; [|exact Hinv].
  destruct (arrayIncludes (seenNames st) pname) eqn:Ein; [exact Hinv|].
  destruct next; try exact Hinv.
  assert (Hnew : ~ In pname (seenNames st)).
  { intro Hin. apply arrayIncludes_In in Hin. congruence. }
  split; [|split].
  - cbn [seenNames scan_handlers]. rewrite map_app, Hseen. reflexivity.
  - cbn [seenNames]. apply NoDup_app; [exact Hnd|repeat constructor; intros []|].
    intros x Hx [<-|[]]. contradiction.
  - cbn [scan_handlers]. intros h Hh. apply in_app_or in Hh.
    destruct Hh as [Hh|[<-|[]]]; [now apply Hall|].
    cbn [propName inferenceSource inferredKind comment].
    repeat split; [exact Eon|discriminate].
Qed.

Lemma recordHandlers_invariant (name : option jstring)
  (src : option (SourceLocation Num)) (props : list (jstring * JsValue Num))
  (st : HandlerScan Num) :
  handlersInvariant st ->
  handlersInvariant (List.fold_left (recordHandler name src) props st).
Proof.
  revert st. induction props as [|prop props IH]; intros st Hinv; [exact Hinv|].
  simpl. apply IH. now apply recordHandler_invariant.
Qed.

Lemma recordHandlersFromFiber_invariant (st st' : HandlerScan Num)
  (fiber : option Fiber) (name : option jstring) (src : option (SourceLocation Num)) :
  recordHandlersFromFiber bippy st fiber name src = Returned st' ->
  handlersInvariant st -> handlersInvariant st'.
Proof.
  unfold recordHandlersFromFiber. destruct fiber as [f|].
  - destruct (traverseProps bippy f) as [props|e]; cbn [bind ret]; [|discriminate].
    intros E Hinv. inversion E. now apply recordHandlers_invariant.
  - cbn [ret]. intros E Hinv. now inversion E; subst.
Qed.

Lemma buildBehaviorContext_scan (element : Element)
  (reactSlice : option (ReactTreeSlice Num)) (r : BehaviorContext Num) :
  buildBehaviorContext bippy element reactSlice = Returned r ->
  exists scan,
    handlersInvariant scan
    /\ r = {| inferenceLevel :=
                if (length (scan_handlers scan) =? 0)%nat then InferNone
                else InferPropNameOnly;
              handlers := scan_handlers scan |}.
Proof.
  unfold buildBehaviorContext.
  assert (Hstart : handlersInvariant {| scan_handlers := []; seenNames := [] |}).
  { split; [reflexivity|]. split; [constructor|]. intros h []. }
  match goal with
  | |- bind ?c _ = _ -> _ => destruct c as [scan|e] eqn:Escan
  end; cbn [bind ret]; [|discriminate].
  intros E. inversion E. clear E. exists scan. split; [|reflexivity].
  destruct (match getFiberFromHostInstance bippy element with
            | Returned f => f
            | Threw _ => None
            end) as [host|]; [|cbn [ret] in Escan; now inversion Escan; subst].
  destruct (getLatestFiber bippy host) as [latest|]; cbn [bind] in Escan;
    [|discriminate].
  destruct (getFiberStack bippy latest) as [stackFibers|]; cbn [bind] in Escan;
    [|discriminate].
  match type of Escan with
  | bind ?c _ = _ => destruct c as [scan1|] eqn:E1
  end; cbn [bind] in Escan; [|discriminate].
  apply recordHandlersFromFiber_invariant in E1; [|exact Hstart].
  destruct reactSlice as [slice|]; [|cbn [ret] in Escan; now inversion Escan; subst].
  destruct (ownerIndex slice) as [i|]; [|cbn [ret] in Escan; now inversion Escan; subst].
  now apply recordHandlersFromFiber_invariant in Escan.
Qed.

End HandlerFacts.

(** X24.  The handlers of a behavior facet have pairwise distinct prop
    names, so a handler found on the host fiber hides a handler of the same
    name on the owner.  Every handler is a prop whose name starts with
    ["on"], carries the event kind inferred from that name, a comment and the
    inference source [prop-name].  The inference level is [none] exactly
    when there is no handler, and there is none when the element has no
    fiber or the fiber lookup throws. *)
Theorem X24_behavior_handlers
  (Num : Type) (B : Builtins Num) (Fiber Renderer : Type)
  (bippy : Bippy Num Fiber Renderer) (element : Element)
  (reactSlice : option (ReactTreeSlice Num)) (behavior : BehaviorContext Num) :
  buildBehaviorContext bippy element reactSlice = Returned behavior ->
  NoDup (List.map (@propName Num) (handlers behavior))
  /\ (forall h, In h (handlers behavior) ->
        startsWith (propName h) (js "on") = true
        /\ inferenceSource h = FromPropName
        /\ inferredKind h = inferEventKindFromPropName (propName h)
        /\ comment h <> None)
  /\ (inferenceLevel behavior = InferNone <-> handlers behavior = [])
  /\ (inferenceLevel behavior = InferPropNameOnly <-> handlers behavior <> [])
  /\ ((getFiberFromHostInstance bippy element = Returned None
       \/ exists e, getFiberFromHostInstance bippy element = Threw e) ->
      handlers behavior = []).
Proof.
  intros E.
  destruct (buildBehaviorContext_scan bippy element reactSlice E)
    as (scan & (Hseen & Hnd & Hall) & ->).
  cbn [handlers inferenceLevel].
  split; [now rewrite <- Hseen|]. split; [exact Hall|].
  split; [|split].
  - destruct (scan_handlers scan); simpl; split; congruence.
  - destruct (scan_handlers scan); simpl; split; congruence.
  - intros Hno. unfold buildBehaviorContext in E.
    assert (Hhost : match getFiberFromHostInstance bippy element with
                    | Returned f => f
                    | Threw _ => None
                    end = None).
    { destruct Hno as [->|[e ->]]; reflexivity. }
    rewrite Hhost in E. cbn [bind ret] in E. inversion E as [Hr].
    destruct (scan_handlers scan); [reflexivity|discriminate].
Qed.

Lemma X24_behavior_handlers_witness :
  exists behavior,
    buildBehaviorContext Samples.quietBippy 4 (Some Scenarios.ownerSlice)
    = Returned behavior
    /\ List.map (@propName Z) (handlers behavior) = [js "onClick"]
    /\ List.map (@inferredKind Z) (handlers behavior) = [EvClick]
    /\ List.map (@declaredOnComponent Z) (handlers behavior) = [Some (js "App")]
    /\ NoDup (List.map (@propName Z) (handlers behavior)).
Proof.
  eexists. split; [reflexivity|]. split; [reflexivity|]. split; [reflexivity|].
  split; [reflexivity|].
  apply (proj1 (@X24_behavior_handlers Z _ nat unit Samples.quietBippy 4%nat
                  (Some Scenarios.ownerSlice) _ eq_refl)).
Defined.

(** ** Extraction engine: the React tree slice *)

Section SliceFacts.
Context {Num : Type} `{Builtins Num} {Fiber Renderer : Type}.
Variable bippy : Bippy Num Fiber Renderer.

Lemma buildFrames_each (sources : list (option (SourceLocation Num)))
  (fibers : list Fiber) (i : nat) (frames : list (ReactComponentFrame Num)) :
  mapWithIndexM (buildFrame bippy sources) fibers i = Returned frames ->
  length frames = length fibers
  /\ forall k fiber,
       nth_error fibers k = Some fiber ->
       exists frame,
         nth_error frames k = Some frame
         /\ isCompositeFiber bippy fiber = Returned (fl_isComposite (flags frame))
         /\ isHostFiber bippy fiber = Returned (isHost frame)
         /\ fl_isHost (flags frame) = isHost frame
         /\ getDisplayName bippy fiber = Returned (displayName frame)
         /\ isLayoutLike (flags frame) <> None.
Proof.
  revert i frames. induction fibers as [|f fibers IH]; intros i frames;
    cbn [mapWithIndexM ret].
  - intros E. inversion E. split; [reflexivity|]. intros [|k] fiber; discriminate.
  - unfold buildFrame at 1.
    destruct (getDisplayName bippy f) as [name|] eqn:En; cbn [bind]; [|discriminate].
    destruct (isHostFiber bippy f) as [host|] eqn:Eh; cbn [bind]; [|discriminate].
    destruct (isCompositeFiber bippy f) as [composite|] eqn:Ec; cbn [bind ret];
      [|discriminate].
    destruct (mapWithIndexM (buildFrame bippy sources) fibers (S i)) as [rest|] eqn:Er;
      cbn [bind ret]; [|discriminate].
    intros E. inversion E. subst frames. clear E.
    destruct (IH (S i) rest Er) as [Hlen Hrest].
    split; [simpl; now rewrite Hlen|].
    intros [|k] fiber Hk; cbn [nth_error] in Hk |- *.
    + inversion Hk; subst fiber. eexists. split; [reflexivity|].
      cbn [flags fl_isComposite fl_isHost isHost displayName isLayoutLike].
      repeat split; try assumption. discriminate.
    + now apply Hrest.
Qed.

Lemma findOwnerIndex_first (fibers : list Fiber) (i : nat) (owner : option nat) :
  findOwnerIndex bippy fibers i = Returned owner ->
  match owner with
  | Some o =>
      (i <= o)%nat
      /\ (exists fiber, nth_error fibers (o - i) = Some fiber
                        /\ isCompositeFiber bippy fiber = Returned true)
      /\ forall k fiber,
           (k < o - i)%nat -> nth_error fibers k = Some fiber ->
           isCompositeFiber bippy fiber = Returned false
  | None =>
      forall fiber, In fiber fibers -> isCompositeFiber bippy fiber = Returned false
  end.
Proof.
  revert i. induction fibers as [|f fibers IH]; intro i; cbn [findOwnerIndex ret].
  - intros E. inversion E. intros fiber [].
  - destruct (isCompositeFiber bippy f) as [[|]|] eqn:Ec; cbn [bind ret];
      [| |discriminate].
    + intros E. inversion E. subst owner. split; [lia|].
      rewrite Nat.sub_diag. split; [exists f; auto|]. intros k fiber Hk. lia.
    + intros E. specialize (IH (S i) E). destruct owner as [o|].
      * destruct IH as (Hle & (fiber & Hn & Hc) & Hbefore).
        split; [lia|]. split.
        -- exists fiber. split; [|exact Hc].
           replace (o - i)%nat with (S (o - S i)) by lia. exact Hn.
        -- intros k fiber' Hk Hn'. destruct k as [|k].
           ++ simpl in Hn'. inversion Hn'; subst. exact Ec.
           ++ simpl in Hn'. apply (Hbefore k); [lia|exact Hn'].
      * intros fiber [<-|Hin]; [exact Ec|now apply IH].
Qed.

End SliceFacts.

(** X25.  A React tree slice is built only when the mode is not [off]
    and the inspector status is [ok].  Its stack holds one frame per fiber of
    the fiber stack, in order, cut to [maxReactStackFrames] frames (when that
    is not negative) and not empty when [maxReactStackFrames] is at least 1.
    The owner index is the index of the first composite
    frame: that frame is composite, every frame before it is not, and the
    props, state and context snapshots are present; when no frame is
    composite the owner index and the three snapshots are null. *)
Theorem X25_tree_slice_shape
  (Num : Type) (B : Builtins Num) (Fiber Renderer : Type)
  (bippy : Bippy Num Fiber Renderer) (element : Element)
  (config : GrabrRuntimeConfig Num) (debugInfo : ReactDebugInfo)
  (treeSlice : ReactTreeSlice Num) :
  buildReactTreeSlice bippy element config debugInfo = Returned (Some treeSlice) ->
  jstring_eqb (reactInspectorMode config) (js "off") = false
  /\ inspectorStatus debugInfo = StatusOk
  /\ ((0 <= maxReactStackFrames config)%Z ->
      (Z.of_nat (length (stack treeSlice)) <= maxReactStackFrames config)%Z)
  /\ ((1 <= maxReactStackFrames config)%Z -> stack treeSlice <> [])
  /\ (forall frame, In frame (stack treeSlice) ->
        fl_isHost (flags frame) = isHost frame /\ isLayoutLike (flags frame) <> None)
  /\ match ownerIndex treeSlice with
     | Some o =>
         (exists frame,
            nth_error (stack treeSlice) o = Some frame
            /\ fl_isComposite (flags frame) = true)
         /\ (forall k frame,
               (k < o)%nat -> nth_error (stack treeSlice) k = Some frame ->
               fl_isComposite (flags frame) = false)
         /\ ownerProps treeSlice <> None
         /\ ownerState treeSlice <> None
         /\ ownerContexts treeSlice <> None
     | None =>
         (forall frame, In frame (stack treeSlice) ->
            fl_isComposite (flags frame) = false)
         /\ ownerProps treeSlice = None
         /\ ownerState treeSlice = None
         /\ ownerContexts treeSlice = None
     end.
Proof.
  unfold buildReactTreeSlice.
  destruct (jstring_eqb (reactInspectorMode config) (js "off")) eqn:Emode;
    [discriminate|].
  destruct (inspectorStatus debugInfo) eqn:Est; cbn [isStatusOk negb];
    try discriminate.
  destruct (getFiberFromHostInstance bippy element) as [[host|]|]; try discriminate.
  destruct (getLatestFiber bippy host) as [latest|]; cbn [bind]; [|discriminate].
  destruct (getFiberStack bippy latest) as [stackFibers|]; cbn [bind];
    [|discriminate].
  destruct (length stackFibers =? 0)%nat eqn:Eempty; [discriminate|].
  apply Nat.eqb_neq in Eempty.
  set (taken := slice stackFibers 0 (maxReactStackFrames config)).
  set (sources := List.map (resolveSource bippy (buildType debugInfo)) taken).
  destruct (mapWithIndexM (buildFrame bippy sources) taken 0) as [frames|] eqn:Ef;
    cbn [bind]; [|discriminate].
  destruct (findOwnerIndex bippy taken 0) as [owner|] eqn:Eo; cbn [bind];
    [|discriminate].
  destruct (buildFrames_each bippy sources taken 0 Ef) as [Hlen Heach].
  pose proof (findOwnerIndex_first bippy taken 0 Eo) as Hfirst.
  assert (Hcut : (0 <= maxReactStackFrames config)%Z ->
            (Z.of_nat (length frames) <= maxReactStackFrames config)%Z).
  { intros Hmax. rewrite Hlen. unfold taken.
    rewrite slice_from_zero by exact Hmax. rewrite length_firstn. lia. }
  assert (Hsome : (1 <= maxReactStackFrames config)%Z -> frames <> []).
  { intros Hmax Hnil. apply (f_equal (@length _)) in Hnil. rewrite Hlen in Hnil.
    unfold taken in Hnil. rewrite slice_from_zero in Hnil by lia.
    rewrite length_firstn in Hnil. simpl in Hnil. lia. }
  assert (Hhost : forall frame, In frame frames ->
            fl_isHost (flags frame) = isHost frame
            /\ isLayoutLike (flags frame) <> None).
  { intros frame Hin. apply In_nth_error in Hin. destruct Hin as [k Hk].
    assert (Hlt : (k < length taken)%nat)
      by (rewrite <- Hlen; apply nth_error_Some; congruence).
    destruct (nth_error taken k) as [fiber|] eqn:En;
      [|apply nth_error_None in En; lia].
    destruct (Heach k fiber En) as (frame' & Hk' & _ & _ & Hh & _ & Hl).
    rewrite Hk in Hk'. inversion Hk'; subst frame'. auto. }
  assert (Hcomposite : forall k fiber frame b,
            nth_error taken k = Some fiber -> nth_error frames k = Some frame ->
            isCompositeFiber bippy fiber = Returned b ->
            fl_isComposite (flags frame) = b).
  { intros k fiber frame b Hk Hf Hc.
    destruct (Heach k fiber Hk) as (frame' & Hk' & Hc' & _).
    rewrite Hf in Hk'. inversion Hk'; subst frame'.
    rewrite Hc in Hc'. now inversion Hc'. }
  destruct owner as [o|].
  - destruct Hfirst as (_ & (fiber & Hn & Hc) & Hbefore).
    rewrite Nat.sub_0_r in Hn, Hbefore. rewrite Hn.
    destruct (snapshotProps bippy fiber) as [p|]; cbn [bind]; [|discriminate].
    destruct (snapshotState bippy fiber) as [st|]; cbn [bind]; [|discriminate].
    destruct (snapshotContexts bippy fiber) as [cx|]; cbn [bind ret];
      [|discriminate].
    intros E. inversion E. clear E.
    cbn [stack ownerIndex ownerProps ownerState ownerContexts].
    split; [reflexivity|]. split; [reflexivity|]. split; [exact Hcut|].
    split; [exact Hsome|]. split; [exact Hhost|].
    split; [|split; [|repeat split; discriminate]].
    + destruct (Heach o fiber Hn) as (frame & Hk & Hc' & _).
      exists frame. split; [exact Hk|].
      now apply (Hcomposite o fiber frame true Hn Hk).
    + intros k frame Hk Hf.
      assert (Hlt : (k < length taken)%nat)
        by (rewrite <- Hlen; apply nth_error_Some; congruence).
      destruct (nth_error taken k) as [fiber'|] eqn:En;
        [|apply nth_error_None in En; lia].
      apply (Hcomposite k fiber' frame false En Hf).
      now apply (Hbefore k).
  - cbn [ret]. intros E. inversion E. clear E.
    cbn [stack ownerIndex ownerProps ownerState ownerContexts].
    split; [reflexivity|]. split; [reflexivity|]. split; [exact Hcut|].
    split; [exact Hsome|]. split; [exact Hhost|].
    split; [|repeat split; reflexivity].
    intros frame Hin. apply In_nth_error in Hin. destruct Hin as [k Hk].
    assert (Hlt : (k < length taken)%nat)
      by (rewrite <- Hlen; apply nth_error_Some; congruence).
    destruct (nth_error taken k) as [fiber|] eqn:En;
      [|apply nth_error_None in En; lia].
    apply (Hcomposite k fiber frame false En Hk).
    apply Hfirst. now apply nth_error_In in En.
Qed.

Lemma X25_tree_slice_shape_witness :
  exists treeSlice,
    buildReactTreeSlice Samples.quietBippy 4%nat defaultRuntimeConfig Scenarios.okDebug
    = Returned (Some treeSlice)
    /\ ownerIndex treeSlice = Some 1%nat
    /\ length (stack treeSlice) = 2%nat
    /\ (forall frame, In frame (stack treeSlice) ->
          fl_isHost (flags frame) = isHost frame
          /\ isLayoutLike (flags frame) <> None).
Proof.
  eexists. split; [reflexivity|]. split; [reflexivity|]. split; [reflexivity|].
  refine (proj1 (proj2 (proj2 (proj2 (proj2
            (@X25_tree_slice_shape Z _ nat unit Samples.quietBippy 4%nat
               defaultRuntimeConfig Scenarios.okDebug _ _)))))).
  reflexivity.
Defined.

(** ** Extraction engine: the facets of one context *)

Section ContextFacts.
Context {Num : Type} `{Builtins Num} {Fiber Renderer : Type}.
Variable bippy : Bippy Num Fiber Renderer.
Variable doc : Document Num.

Lemma getReactDebugInfoForElement_message (el : Element) (info : ReactDebugInfo) :
  getReactDebugInfoForElement bippy el = Returned info ->
  (inspectorStatus info = StatusOk <-> message info = None)
  /\ (inspectorStatus info = StatusOk ->
      exists fiber, getFiberFromHostInstance bippy el = Returned (Some fiber)).
Proof.
  unfold getReactDebugInfoForElement.
  destruct (hasRDTHook bippy) as [[|]|]; cbn [bind ret negb]; try discriminate.
  - destruct (isInstrumentationActive bippy) as [[|]|]; cbn [bind ret negb];
      try discriminate.
    + destruct (getFiberFromHostInstance bippy el) as [[fiber|]|];
        intros E; inversion E; cbn [inspectorStatus message];
        (split; [split|]; try discriminate; try reflexivity).
      intros _. now exists fiber.
    + intros E; inversion E; cbn [inspectorStatus message].
      split; [split|]; discriminate.
  - intros E; inversion E; cbn [inspectorStatus message].
    split; [split|]; discriminate.
Qed.

Lemma buildReactTreeSlice_some (el : Element) (config : GrabrRuntimeConfig Num)
  (info : ReactDebugInfo) (treeSlice : ReactTreeSlice Num) :
  buildReactTreeSlice bippy el config info = Returned (Some treeSlice) ->
  jstring_eqb (reactInspectorMode config) (js "off") = false
  /\ inspectorStatus info = StatusOk.
Proof.
  unfold buildReactTreeSlice.
  destruct (jstring_eqb (reactInspectorMode config) (js "off")); [discriminate|].
  destruct (inspectorStatus info); cbn [isStatusOk negb]; try discriminate.
  now split.
Qed.

End ContextFacts.

(** X26.  The facets of a captured context agree with each other.  The
    React slice is present only when the mode is not [off] and the inspector
    status is [ok]; the debug message is null exactly when the status is
    [ok]; the component name, nearest source and server-component flag of the
    selection are those of the first stack frame, and null when there is no
    slice or the stack is empty; the [dom] facet is what
    [buildDomNeighborhood] returned, which it does only for an element whose
    [className] is a string; [tests] is always null. *)
Theorem X26_context_facets_agree
  (Num : Type) (B : Builtins Num) (Fiber Renderer : Type)
  (bippy : Bippy Num Fiber Renderer) (doc : Document Num)
  (config : GrabrRuntimeConfig Num) (el : Element) (ctx : ElementContextV2 Num) :
  getElementContext bippy doc config el = Returned ctx ->
  (react ctx <> None ->
     jstring_eqb (reactInspectorMode config) (js "off") = false
     /\ inspectorStatus (reactDebug ctx) = StatusOk)
  /\ (inspectorStatus (reactDebug ctx) = StatusOk <-> message (reactDebug ctx) = None)
  /\ (inspectorStatus (reactDebug ctx) = StatusOk ->
      exists fiber, getFiberFromHostInstance bippy el = Returned (Some fiber))
  /\ match react ctx with
     | Some {| stack := frame :: _ |} =>
         componentDisplayName (selection ctx) = displayName frame
         /\ nearestSource (selection ctx) = source frame
         /\ isLikelyServerComponent (selection ctx) = isServerComponent (flags frame)
     | _ =>
         componentDisplayName (selection ctx) = None
         /\ nearestSource (selection ctx) = None
         /\ isLikelyServerComponent (selection ctx) = None
     end
  /\ buildDomNeighborhood doc el = Returned (dom ctx)
  /\ app ctx = buildAppContext doc (react ctx) config
  /\ tests ctx = None
  /\ hasStringClassName doc el = true.
Proof.
  unfold getElementContext.
  destruct (getReactDebugInfoForElement bippy el) as [info|] eqn:Ei; cbn [bind];
    [|discriminate].
  destruct (getReactDebugInfoForElement_message bippy el Ei) as [Hmsg Hfiber].
  destruct (if jstring_eqb (reactInspectorMode config) (js "off") then ret None
            else buildReactTreeSlice bippy el config info) as [r|] eqn:Er;
    cbn [bind]; [|discriminate].
  destruct (buildDomNeighborhood doc el) as [d|] eqn:Ed; cbn [bind];
    [|discriminate].
  destruct (buildBehaviorContext bippy el r) as [b|]; cbn [bind ret];
    [|discriminate].
  intros E. inversion E. clear E.
  cbn [react reactDebug selection dom app tests].
  split; [|split; [exact Hmsg|split; [exact Hfiber|]]].
  - intros Hr. destruct r as [treeSlice|]; [|congruence].
    destruct (jstring_eqb (reactInspectorMode config) (js "off")) eqn:Emode;
      [discriminate|].
    apply buildReactTreeSlice_some in Er. destruct Er as [_ Hok]. now split.
  - assert (Hclass : hasStringClassName doc el = true).
    { unfold buildDomNeighborhood, serializeElementSnippet, trimmedClassName in Ed.
      unfold hasStringClassName.
      destruct (className (data doc el)); [reflexivity|discriminate]. }
    split; [|repeat split; try reflexivity; exact Hclass].
    unfold buildSelectionInfo.
    cbn [componentDisplayName nearestSource isLikelyServerComponent].
    destruct r as [[[|frame rest] ? ? ? ?]|]; cbn [stack hd_error];
      repeat split; reflexivity.
Qed.

Lemma X26_context_facets_agree_witness :
  exists ctx,
    getElementContext Samples.quietBippy Samples.page defaultRuntimeConfig 4%nat
    = Returned ctx
    /\ componentDisplayName (selection ctx) = None
    /\ (react ctx <> None ->
        jstring_eqb (reactInspectorMode (@defaultRuntimeConfig Z _)) (js "off") = false
        /\ inspectorStatus (reactDebug ctx) = StatusOk).
Proof.
  eexists. split; [reflexivity|]. split; [reflexivity|].
  refine (proj1 (@X26_context_facets_agree Z _ nat unit Samples.quietBippy
                   Samples.page defaultRuntimeConfig 4%nat _ _)).
  reflexivity.
Defined.

(** X27.  The mode [required] is not enforced: two configurations whose
    modes both differ from [off], and which agree on the frame limit and the
    heuristics, give the same result for every element, whether a context or
    a rejection.  In particular [required] behaves like [best-effort], and
    an element without React data is still captured with a null slice. *)
Theorem X27_every_mode_but_off_is_best_effort
  (Num : Type) (B : Builtins Num) (Fiber Renderer : Type)
  (bippy : Bippy Num Fiber Renderer) (doc : Document Num)
  (first second : GrabrRuntimeConfig Num) (el : Element) :
  jstring_eqb (reactInspectorMode first) (js "off") = false ->
  jstring_eqb (reactInspectorMode second) (js "off") = false ->
  maxReactStackFrames first = maxReactStackFrames second ->
  heuristics first = heuristics second ->
  getElementContext bippy doc first el = getElementContext bippy doc second el.
Proof.
  intros Hfirst Hsecond Hmax Hheur.
  unfold getElementContext, buildReactTreeSlice, buildAppContext.
  rewrite Hfirst, Hsecond, Hmax, Hheur. reflexivity.
Qed.

Lemma X27_every_mode_but_off_is_best_effort_witness :
  getElementContext Samples.throwingLookupBippy Samples.page Scenarios.requiredMode 4%nat
  = getElementContext Samples.throwingLookupBippy Samples.page defaultRuntimeConfig 4%nat.
Proof.
  apply (@X27_every_mode_but_off_is_best_effort Z _ nat unit
           Samples.throwingLookupBippy Samples.page Scenarios.requiredMode
           defaultRuntimeConfig 4%nat);
    reflexivity.
Defined.

(** ** Session prompt *)

Lemma decimal_digits_are_digits (d : Decimal.uint) :
  List.forallb isDigit (js (DecimalString.NilEmpty.string_of_uint d)) = true.
Proof.
  induction d; [reflexivity|..];
    change (js (DecimalString.NilEmpty.string_of_uint ?x)) with
      (List.map N_of_ascii
         (list_ascii_of_string (DecimalString.NilEmpty.string_of_uint x))) in *;
    cbn [DecimalString.NilEmpty.string_of_uint list_ascii_of_string List.map
         List.forallb];
    rewrite IHd; reflexivity.
Qed.

Lemma nat_toString_digits (n : nat) :
  List.forallb isDigit (nat_toString n) = true.
Proof.
  unfold nat_toString, Z_toString.
  destruct (Z.of_nat n) as [|p|p] eqn:E; [reflexivity| |lia].
  cbn [Z.to_int DecimalString.NilZero.string_of_int].
  unfold DecimalString.NilZero.string_of_uint.
  destruct (Pos.to_uint p) eqn:Ep; try reflexivity;
    rewrite <- Ep; apply decimal_digits_are_digits.
Qed.

Section SessionFacts.
Context {Num : Type} `{Builtins Num}.

Lemma maybeAddLine_string (lines : list jstring) (key text : jstring) :
  maybeAddLine lines key (jString text) false false
  = lines ++ [key ++ js "=" ++ quoteJSONString text].
Proof. reflexivity. Qed.

Lemma maybeAddLine_count (lines : list jstring) (key : jstring) (n : nat) :
  JSON_number (Number_ofNat n) = nat_toString n ->
  maybeAddLine lines key (jNat n) false false
  = lines ++ [key ++ js "=" ++ nat_toString n].
Proof.
  intros Hn. unfold maybeAddLine, jNat.
  cbn [isNull andb stringifyForPrompt negb]. rewrite Hn.
  assert (Hne : forall other, List.forallb isDigit other = false ->
                 jstring_eqb (nat_toString n) other = false).
  { intros other Hother. destruct (jstring_eqb (nat_toString n) other) eqn:E;
      [|reflexivity].
    apply jstring_eqb_eq in E. rewrite <- E, nat_toString_digits in Hother.
    discriminate. }
  rewrite !Hne by reflexivity. reflexivity.
Qed.

Lemma forEachWithIndex_blocks (contexts : list (ElementContextV2 Num)) (idx : nat)
  (lines : list jstring) :
  SessionPrompt.forEachWithIndex SessionPrompt.renderElement contexts idx lines
  = lines ++ SessionPrompt.elementBlocks contexts idx.
Proof.
  revert idx lines. induction contexts as [|ctx rest IH]; intros idx lines.
  - simpl. unfold skip. now rewrite app_nil_r.
  - cbn [SessionPrompt.forEachWithIndex SessionPrompt.elementBlocks].
    unfold andThen at 1. rewrite IH.
    unfold SessionPrompt.renderElement, SessionPrompt.elementBlock, andThen, push.
    now rewrite <- !app_assoc.
Qed.

Lemma session_tags_have_no_line_feed (id checksum : jstring) :
  List.forallb (fun c => negb (c =? 10)%N) id = true ->
  List.forallb isTokenUnit checksum = true ->
  List.forallb (fun c => negb (c =? 10)%N)
    (SessionPrompt.sessionOpeningTag id checksum) = true
  /\ List.forallb (fun c => negb (c =? 10)%N)
       (SessionPrompt.sessionClosingTag id checksum) = true.
Proof.
  intros Hs Hc. apply token_units_no_line_feed in Hc.
  unfold SessionPrompt.sessionOpeningTag, SessionPrompt.sessionClosingTag.
  rewrite !forallb_app.
  split; repeat (apply andb_true_intro; split); try assumption; reflexivity.
Qed.

End SessionFacts.

(** X28.  The session prompt has a fixed layout.  Where the runtime writes
    the element count in decimal, the lines pushed are the opening tag, a
    [meta] section that always holds the five lines [created_at], [url],
    [instruction], [summary] and [element_count] (a null instruction reads
    ["(none)"], a null summary ["Session with n elements."]), an [elements]
    section that holds for every element, in order, its rendering between
    [[element:i]] and [[end:element:i]], and the closing tag.  When the
    session id has no line feed, the first line of the text is the opening
    tag and the last line the closing tag, both with the same id and
    checksum. *)
Theorem X28_session_prompt_layout
  (Num : Type) (B : Builtins Num) (session : GrabrSession Num) :
  let count := length (elements session) in
  let text := SessionPrompt.renderSessionPrompt session in
  let opening :=
    SessionPrompt.sessionOpeningTag (session_id session)
      (SessionPrompt.sessionChecksum session) in
  let closing :=
    SessionPrompt.sessionClosingTag (session_id session)
      (SessionPrompt.sessionChecksum session) in
  JSON_number (Number_ofNat count) = nat_toString count ->
  text =
    join [10%N]
      ([ opening;
         js "[section:meta]";
         js "created_at=" ++ quoteJSONString (createdAt session);
         js "url=" ++ quoteJSONString (session_url session);
         js "instruction="
           ++ quoteJSONString match userInstruction session with
                              | Some instruction => instruction
                              | None => js "(none)"
                              end;
         js "summary="
           ++ quoteJSONString match summary session with
                              | Some given => given
                              | None =>
                                  js "Session with " ++ nat_toString count
                                    ++ js " elements."
                              end;
         js "element_count=" ++ nat_toString count;
         js "[end:meta]";
         js "[section:elements]" ]
       ++ SessionPrompt.elementBlocks (elements session) 0
       ++ [ js "[end:elements]"; closing ])
  /\ (List.forallb (fun c => negb (c =? 10)%N) (session_id session) = true ->
      firstLine text = opening /\ lastLine text = closing).
Proof.
  intros count text opening closing Hcount.
  assert (Hlines :
    SessionPrompt.renderSessionStatements session [] =
      ([ opening;
         js "[section:meta]";
         js "created_at=" ++ quoteJSONString (createdAt session);
         js "url=" ++ quoteJSONString (session_url session);
         js "instruction="
           ++ quoteJSONString match userInstruction session with
                              | Some instruction => instruction
                              | None => js "(none)"
                              end;
         js "summary="
           ++ quoteJSONString match summary session with
                              | Some given => given
                              | None =>
                                  js "Session with " ++ nat_toString count
                                    ++ js " elements."
                              end;
         js "element_count=" ++ nat_toString count;
         js "[end:meta]";
         js "[section:elements]" ]
       ++ SessionPrompt.elementBlocks (elements session) 0)
      ++ [ js "[end:elements]"; closing ]).
  { unfold SessionPrompt.renderSessionStatements, section, andThen, addLine, push.
    rewrite !maybeAddLine_string, maybeAddLine_count by exact Hcount.
    rewrite forEachWithIndex_blocks.
    cbn [Datatypes.app]. rewrite <- !app_assoc. reflexivity. }
  unfold text, SessionPrompt.renderSessionPrompt. rewrite Hlines.
  split; [now rewrite <- app_assoc|].
  intros Hid.
  destruct (@session_tags_have_no_line_feed (session_id session)
              (SessionPrompt.sessionChecksum session) Hid
              (promptChecksum_token_units _)) as [Hopen Hclose].
  split.
  - cbn [Datatypes.app]. now apply firstLine_join.
  - change [js "[end:elements]"; closing] with ([js "[end:elements]"] ++ [closing]).
    rewrite app_assoc. now apply lastLine_join.
Qed.

Lemma X28_session_prompt_layout_witness :
  JSON_number (Number_ofNat (length (elements Scenarios.bareSession))) = js "0"
  /\ firstLine (SessionPrompt.renderSessionPrompt Scenarios.bareSession)
     = SessionPrompt.sessionOpeningTag (js "session-1")
         (SessionPrompt.sessionChecksum Scenarios.bareSession)
  /\ lastLine (SessionPrompt.renderSessionPrompt Scenarios.bareSession)
     = SessionPrompt.sessionClosingTag (js "session-1")
         (SessionPrompt.sessionChecksum Scenarios.bareSession).
Proof.
  split; [reflexivity|].
  exact (proj2 (@X28_session_prompt_layout Z _ Scenarios.bareSession eq_refl) eq_refl).
Defined.

(** ** Default provider *)

(** X29.  The clipboard provider resolves exactly when the text was
    copied: by [navigator.clipboard.writeText] when it exists and resolves,
    otherwise by the [execCommand] fallback when the document has a body and
    the fallback returns true.  The fallback is tried only after the
    clipboard API was missing or failed, and never without a body; the
    session text is logged to the console last in every case.  A rejection
    always names two reasons, joined by [" | "]: the suffix of the message is
    never empty. *)
Theorem X29_clipboard_provider
  (Num : Type) (B : Builtins Num) (page : Clipboard.Page)
  (session : GrabrSession Num) :
  let text := SessionPrompt.renderSessionPrompt session in
  let result := fst (Clipboard.sendContext page session) in
  let calls := snd (Clipboard.sendContext page session) in
  let written :=
    match Clipboard.writeText page with
    | Some write => returned (write text)
    | None => false
    end in
  let fallback :=
    Clipboard.hasDocumentBody page
    && match Clipboard.execCommandCopy page text with
       | Returned ok => ok
       | Threw _ => false
       end in
  (result = Returned tt <-> written || fallback = true)
  /\ (forall e, result = Threw e ->
        exists first second,
          e = ErrorObject
                (js "Failed to copy session context to clipboard. Reasons: "
                   ++ first ++ js " | " ++ second))
  /\ calls =
       match Clipboard.writeText page with
       | Some _ => [Clipboard.WriteText text]
       | None => []
       end
       ++ (if negb written && Clipboard.hasDocumentBody page
           then [Clipboard.ExecCommandCopy text] else [])
       ++ [Clipboard.ConsoleLog text].
Proof.
  intros text result calls written fallback.
  unfold result, calls, written, fallback, Clipboard.sendContext,
    Clipboard.tryCopyTextToClipboard, Clipboard.execCommandFallback.
  fold text.
  destruct (Clipboard.writeText page) as [write|];
    [destruct (write text) as [[]|e1]|];
    destruct (Clipboard.hasDocumentBody page);
    try (destruct (Clipboard.execCommandCopy page text) as [[|]|e2]);
    cbn [returned Clipboard.copied Clipboard.reasons Clipboard.calls negb andb orb
         fst snd Datatypes.app Datatypes.length Nat.ltb Nat.leb join];
    (split; [split; intros E; try discriminate; reflexivity|]);
    (split; [|reflexivity]);
    intros e He; try discriminate;
    match type of He with
    | Threw (ErrorObject (_ ++ _ ++ ?first ++ _ ++ ?second)) = _ =>
        exists first, second; injection He as <-; reflexivity
    end.
Qed.

(** ** Selection overlay *)

Lemma indexOf_found (selected : list Element) (el : Element) (i : nat) :
  match Overlay.indexOf selected el i with
  | Some k => (i <= k)%nat /\ nth_error selected (k - i) = Some el
  | None => ~ In el selected
  end.
Proof.
  revert i. induction selected as [|x rest IH]; intro i; simpl; [tauto|].
  destruct (x =? el)%nat eqn:E.
  - apply Nat.eqb_eq in E. subst x. rewrite Nat.sub_diag. split; [lia|reflexivity].
  - apply Nat.eqb_neq in E. specialize (IH (S i)).
    destruct (Overlay.indexOf rest el (S i)) as [k|].
    + destruct IH as [Hle Hn]. split; [lia|].
      replace (k - i)%nat with (S (k - S i)) by lia. exact Hn.
    + intros [Hx|Hin]; [congruence|contradiction].
Qed.

Lemma removeAt_NoDup {A : Type} (l : list A) (k : nat) :
  NoDup l -> NoDup (removeAt l k).
Proof.
  revert k. induction l as [|x l IH]; intros k Hnd; [destruct k; constructor|].
  inversion Hnd as [|? ? Hnot Hrest]; subst.
  destruct k as [|k]; simpl; [exact Hrest|].
  constructor; [|now apply IH].
  intro Hin. apply Hnot.
  destruct (nth_error l k) as [y|] eqn:E.
  - destruct (removeAt_In l k E) as [Hiff _]. apply Hiff. now right.
  - clear -E Hin. revert k E Hin.
    induction l as [|z l IHl]; intros [|k] E Hin; simpl in *; try discriminate;
      try contradiction.
    destruct Hin as [->|Hin]; [now left|right; now apply (IHl k)].
Qed.

Lemma removeAt_drops {A : Type} (l : list A) (k : nat) (x : A) :
  NoDup l -> nth_error l k = Some x -> ~ In x (removeAt l k).
Proof.
  revert k. induction l as [|y l IH]; intros [|k] Hnd E; simpl in *;
    try discriminate; inversion Hnd as [|? ? Hnot Hrest]; subst.
  - inversion E; subst. exact Hnot.
  - intros [->|Hin].
    + apply Hnot. now apply nth_error_In in E.
    + now apply (IH k Hrest E).
Qed.

Lemma removelast_NoDup {A : Type} (l : list A) : NoDup l -> NoDup (removelast l).
Proof.
  induction l as [|x l IH]; intro Hnd; [constructor|].
  inversion Hnd as [|? ? Hnot Hrest]; subst.
  destruct l as [|y l]; [constructor|].
  change (removelast (x :: y :: l)) with (x :: removelast (y :: l)).
  constructor; [|now apply IH].
  intro Hin. apply Hnot. clear -Hin.
  revert y Hin. induction l as [|z l IHl]; intros y Hin; simpl in *; [contradiction|].
  destruct Hin as [->|Hin]; [now left|right; now apply IHl].
Qed.

Lemma snoc_NoDup {A : Type} (l : list A) (x : A) :
  NoDup l -> ~ In x l -> NoDup (l ++ [x]).
Proof.
  intros Hnd Hnot. apply NoDup_app; [exact Hnd|repeat constructor; intros []|].
  intros y Hy [<-|[]]. contradiction.
Qed.

Section OverlayFacts.
Context {Num : Type} `{Builtins Num}.

Ltac unfold_invariant :=
  unfold Overlay.selectionInvariant in *;
  cbn [Overlay.selecting Overlay.sending Overlay.helpVisible Overlay.hoveredElement
       Overlay.selectedElements] in *.

Lemma toggleSelection_selected (doc : Document Num) (st : Overlay.OverlayState)
  (el : Element) (multi : bool) :
  NoDup (Overlay.selectedElements st) ->
  NoDup (Overlay.selectedElements (Overlay.toggleSelection doc st el multi)).
Proof.
  intros Hnd. unfold Overlay.toggleSelection, Overlay.setSelected.
  cbn [Overlay.selectedElements]. apply NoDup_filter.
  destruct multi; cbn [negb]; [|repeat constructor; intros []].
  pose proof (indexOf_found (Overlay.selectedElements st) el 0) as Hidx.
  destruct (Overlay.indexOf (Overlay.selectedElements st) el 0) as [k|].
  - now apply removeAt_NoDup.
  - now apply snoc_NoDup.
Qed.

Lemma beginSelection_invariant (st : Overlay.OverlayState) :
  Overlay.selectionInvariant st ->
  Overlay.selectionInvariant (Overlay.beginSelection st).
Proof.
  intros Hinv. unfold Overlay.beginSelection.
  destruct (Overlay.sending st) eqn:Es; [exact Hinv|].
  unfold_invariant. repeat split; try constructor; congruence.
Qed.

Lemma cancelSelection_invariant (st : Overlay.OverlayState) :
  Overlay.selectionInvariant (Overlay.cancelSelection st).
Proof.
  unfold Overlay.cancelSelection. unfold_invariant.
  repeat split; try constructor; congruence.
Qed.

Lemma finalizeSelectionStart_invariant (doc : Document Num)
  (st : Overlay.OverlayState) :
  Overlay.selecting st = true ->
  Overlay.selectionInvariant st ->
  Overlay.selectionInvariant (Overlay.finalizeSelectionStart doc st).
Proof.
  intros Hsel (Hnd & Hsend & Hhelp). unfold Overlay.finalizeSelectionStart.
  destruct (length (Overlay.elementsToFinalize doc st) =? 0)%nat;
    [apply cancelSelection_invariant|].
  unfold_invariant. repeat split; auto.
  unfold Overlay.selectionOrHovered.
  destruct (Overlay.selectedElements st) as [|x rest]; [|exact Hnd].
  destruct (Overlay.hoveredElement st); [|constructor].
  repeat constructor. intros [].
Qed.

Lemma onKeyDown_invariant (doc : Document Num) (rootContains : Element -> bool)
  (st : Overlay.OverlayState) (event : Overlay.KeyboardEvent) :
  Overlay.selectionInvariant st ->
  Overlay.selectionInvariant (Overlay.onKeyDown doc rootContains st event).
Proof.
  intros Hinv. unfold Overlay.onKeyDown.
  destruct (Overlay.selecting st) eqn:Esel; cbn [negb orb]; [|exact Hinv].
  destruct (Overlay.sending st) eqn:Esend; [exact Hinv|].
  destruct (jstring_eqb (Overlay.key event) (js "Escape"));
    [apply cancelSelection_invariant|].
  destruct (jstring_eqb (Overlay.key event) (js "Enter"));
    [now apply finalizeSelectionStart_invariant|].
  destruct Hinv as (Hnd & Hsend & Hhelp).
  destruct (jstring_eqb (Overlay.key event) (js "Backspace")).
  { unfold Overlay.undoSelection.
    destruct (length (Overlay.selectedElements st) =? 0)%nat;
      unfold_invariant; repeat split; auto.
    now apply removelast_NoDup. }
  destruct (jstring_eqb (Overlay.key event) (js "?")
            || jstring_eqb (toLowerCase (Overlay.key event)) (js "h")).
  { unfold Overlay.toggleHelp. unfold_invariant. repeat split; auto. }
  destruct (jstring_eqb (Overlay.key event) (js "ArrowUp")
            || jstring_eqb (toLowerCase (Overlay.key event)) (js "p")).
  { unfold Overlay.selectHoveredParent.
    destruct (Overlay.hoveredElement st) as [hovered|];
      [|unfold_invariant; repeat split; auto].
    destruct (parentElement doc hovered) as [parent|];
      [|unfold_invariant; repeat split; auto].
    destruct (rootContains parent); unfold_invariant; repeat split; auto. }
  destruct (jstring_eqb (toLowerCase (Overlay.key event)) (js "x")).
  { unfold Overlay.clearSelection, Overlay.setSelected. unfold_invariant.
    repeat split; auto. constructor. }
  unfold_invariant. repeat split; auto.
Qed.

Lemma onClick_invariant (doc : Document Num) (rootContains : Element -> bool)
  (st : Overlay.OverlayState) (event : Overlay.MouseEvent) :
  Overlay.selectionInvariant st ->
  Overlay.selectionInvariant (Overlay.onClick doc rootContains st event).
Proof.
  intros Hinv. unfold Overlay.onClick.
  destruct (negb (Overlay.selecting st) || Overlay.sending st); [exact Hinv|].
  destruct (negb (Overlay.button event =? 0)%Z); [exact Hinv|].
  destruct (Overlay.target event) as [el|]; [|exact Hinv].
  destruct (rootContains el); [exact Hinv|].
  destruct Hinv as (Hnd & Hsend & Hhelp).
  split; [now apply toggleSelection_selected|].
  unfold Overlay.toggleSelection, Overlay.setSelected. unfold_invariant. auto.
Qed.

Lemma dispatch_invariant (st : Overlay.OverlayState) (moment : Overlay.Moment) :
  Overlay.selectionInvariant st ->
  Overlay.selectionInvariant (Overlay.dispatch st moment).
Proof.
  intros Hinv. unfold Overlay.dispatch.
  destruct (Overlay.moment_event moment) as [|event|event|event|event|].
  - now apply beginSelection_invariant.
  - unfold Overlay.onGlobalKeyDown.
    destruct (Overlay.altKey event && Overlay.kb_shiftKey event
              && (jstring_eqb (toLowerCase (Overlay.key event)) (js "g")
                  || jstring_eqb (Overlay.code event) (js "KeyG")));
      [|exact Hinv].
    destruct (Overlay.selecting st || Overlay.sending st);
      [apply cancelSelection_invariant|now apply beginSelection_invariant].
  - now apply onKeyDown_invariant.
  - now apply onClick_invariant.
  - unfold Overlay.onMouseMove.
    destruct (negb (Overlay.selecting st) || Overlay.sending st); [exact Hinv|].
    destruct (Overlay.target event) as [el|]; [|exact Hinv].
    destruct (Overlay.moment_rootContains moment el); [exact Hinv|].
    destruct Hinv as (Hnd & Hsend & Hhelp). unfold_invariant. auto.
  - destruct Hinv as (Hnd & Hsend & Hhelp).
    unfold Overlay.finalizeSelectionFinally. unfold_invariant.
    repeat split; auto; discriminate.
Qed.

Lemma run_invariant (moments : list Overlay.Moment) :
  Overlay.selectionInvariant (Overlay.run moments).
Proof.
  unfold Overlay.run.
  assert (Hgen : forall st, Overlay.selectionInvariant st ->
            Overlay.selectionInvariant (List.fold_left Overlay.dispatch moments st)).
  { induction moments as [|moment rest IH]; intros st Hinv; [exact Hinv|].
    simpl. apply IH. now apply dispatch_invariant. }
  apply Hgen. unfold Overlay.initialState. unfold_invariant.
  repeat split; try constructor; discriminate.
Qed.

End OverlayFacts.

(** X30.  Whatever events reach an overlay, in whatever state of the
    page, no element is selected twice, so that removing duplicates at the
    end changes nothing; the overlay is sending, or showing its help, only
    while it is selecting.  A click selects only connected elements: a plain
    click replaces the selection by the clicked element, a click with a
    modifier key removes the element when it was selected and appends it
    otherwise, and in both cases every element that has been disconnected
    since is dropped from the selection. *)
Theorem X30_overlay_selection
  (Num : Type) (B : Builtins Num) (moments : list (@Overlay.Moment Num)) :
  let st := Overlay.run moments in
  NoDup (Overlay.selectedElements st)
  /\ dedupeElementsPreserveOrder (Overlay.selectedElements st)
     = Overlay.selectedElements st
  /\ (Overlay.sending st = true -> Overlay.selecting st = true)
  /\ (Overlay.helpVisible st = true -> Overlay.selecting st = true)
  /\ forall (doc : Document Num) (el : Element),
       let connected := isElementConnectedToDocument doc in
       Overlay.selectedElements (Overlay.toggleSelection doc st el false)
       = (if connected el then [el] else [])
       /\ (forall x, In x (Overlay.selectedElements
                             (Overlay.toggleSelection doc st el true)) <->
                     connected x = true
                     /\ if In_dec Nat.eq_dec el (Overlay.selectedElements st)
                        then In x (Overlay.selectedElements st) /\ x <> el
                        else In x (Overlay.selectedElements st) \/ x = el)
       /\ (~ In el (Overlay.selectedElements st) ->
           Overlay.selectedElements (Overlay.toggleSelection doc st el true)
           = List.filter connected (Overlay.selectedElements st ++ [el])).
Proof.
  intros st. destruct (run_invariant moments) as (Hnd & Hsend & Hhelp).
  fold st in Hnd, Hsend, Hhelp.
  split; [exact Hnd|].
  split; [apply dedupeFrom_NoDup; [exact Hnd|intros el _ []]|].
  split; [exact Hsend|]. split; [exact Hhelp|].
  intros doc el connected. split; [|split].
  - unfold Overlay.toggleSelection, Overlay.setSelected.
    cbn [Overlay.selectedElements negb List.filter]. reflexivity.
  - intros x. unfold Overlay.toggleSelection, Overlay.setSelected.
    cbn [Overlay.selectedElements negb]. rewrite filter_In.
    pose proof (indexOf_found (Overlay.selectedElements st) el 0) as Hidx.
    destruct (Overlay.indexOf (Overlay.selectedElements st) el 0) as [k|].
    + destruct Hidx as [_ Hk]. rewrite Nat.sub_0_r in Hk.
      destruct (removeAt_In _ _ Hk) as [Hiff _].
      pose proof (@removeAt_drops _ _ _ _ Hnd Hk) as Hdrop.
      destruct (In_dec Nat.eq_dec el (Overlay.selectedElements st)) as [Hin|Hnot];
        [|exfalso; apply Hnot; now apply nth_error_In in Hk].
      split.
      * intros [Hx Hc]. split; [exact Hc|]. split; [apply Hiff; now right|].
        intros ->. contradiction.
      * intros [Hc [Hx Hne]]. split; [|exact Hc].
        apply Hiff in Hx. destruct Hx as [->|Hx]; [congruence|exact Hx].
    + destruct (In_dec Nat.eq_dec el (Overlay.selectedElements st)) as [Hin|Hnot];
        [contradiction|].
      rewrite in_app_iff. simpl. split.
      * intros [[Hx|[Hx|[]]] Hc]; auto.
      * intros [Hc [Hx|Hx]]; auto.
  - intros Hnot. unfold Overlay.toggleSelection, Overlay.setSelected.
    cbn [Overlay.selectedElements negb].
    pose proof (indexOf_found (Overlay.selectedElements st) el 0) as Hidx.
    destruct (Overlay.indexOf (Overlay.selectedElements st) el 0) as [k|];
      [|reflexivity].
    destruct Hidx as [_ Hk]. apply nth_error_In in Hk. contradiction.
Qed.
